(** * Documentation-sync scripts of the ai-docs plugin: a shallow embedding

    The development follows the TypeScript sources:
    - [skills/xai/scripts/sync-docs.ts] (llms.txt parser, Map-based),
    - the llms.txt template script (same parser, array-based),
    - [skills/fastmcp/scripts/sync-docs.ts] (repository clone and copy),
    - the templates [sync-github.ts], [sync-direct.ts] and [sync-html.ts],
    - the LangGraph script (a clone and copy like [sync-github.ts]).

    JavaScript strings are modelled as [string]: a sequence of code units,
    here restricted to the code units below 256.  Regular expressions are
    written out as the functions they compute; each one states the
    expression it stands for.

    A script is a computation over a [world]: the scratch directory, the
    output directory with a record of every mutation of it, the requests
    sent and the console.  What a run gets from outside (its arguments,
    git, the network, the clock, SHA-256) is gathered in a record [env] per
    script, so every statement holds for all behaviours of these
    collaborators.  Removing the scratch directory, creating a directory
    and listing one are taken to succeed; a write fails exactly when the
    output directory is missing; paths handed to [join] and [dirname] are
    relative and normalised. *)

From Stdlib Require Import Ascii String List Bool Arith Lia Permutation Sorted.
From stdpp Require Import gmap strings pretty sorting.

Import ListNotations.

#[local] Arguments String.append !_ _ / : simpl nomatch.

(** ** JavaScript string primitives *)

Module Js.

Definition LF : ascii := "010"%char.

(** The string ["\n"]. *)
Definition NL : string := String LF EmptyString.

(** [s.startsWith(p)] *)
Fixpoint startsWith (p s : string) : bool :=
  match p, s with
  | EmptyString, _ => true
  | String _ _, EmptyString => false
  | String a p', String b s' => Ascii.eqb a b && startsWith p' s'
  end.

(** [s.slice(n)] for [0 <= n] *)
Fixpoint slice (n : nat) (s : string) : string :=
  match n, s with
  | O, _ => s
  | S _, EmptyString => EmptyString
  | S n', String _ s' => slice n' s'
  end.

(** The longest prefix of [s] whose code units satisfy [f] (a greedy
    character-class repetition), and what follows it. *)
Fixpoint span (f : ascii -> bool) (s : string) : string * string :=
  match s with
  | EmptyString => (EmptyString, EmptyString)
  | String c s' =>
      if f c then let (a, b) := span f s' in (String c a, b)
      else (EmptyString, s)
  end.

Definition nonEmpty (s : string) : bool :=
  match s with EmptyString => false | String _ _ => true end.

(** White space and line terminators of ECMAScript, among the code units
    below 256: TAB, LF, VT, FF, CR, SP and NBSP. *)
Definition isWhiteSpace (c : ascii) : bool :=
  match c with
  | "009" | "010" | "011" | "012" | "013" | " " | "160" => true
  | _ => false
  end%char.

Fixpoint trimStart (s : string) : string :=
  match s with
  | EmptyString => EmptyString
  | String c s' => if isWhiteSpace c then trimStart s' else s
  end.

Fixpoint trimEnd (s : string) : string :=
  match s with
  | EmptyString => EmptyString
  | String c s' =>
      match trimEnd s' with
      | EmptyString => if isWhiteSpace c then EmptyString else String c EmptyString
      | r => String c r
      end
  end.

(** [s.trim()] *)
Definition trim (s : string) : string := trimEnd (trimStart s).

(** [s.endsWith(p)] *)
Definition endsWith (p s : string) : bool :=
  String.eqb (slice (String.length s - String.length p) s) p
  && (String.length p <=? String.length s).

(** [\w] *)
Definition isWord (c : ascii) : bool :=
  let n := nat_of_ascii c in
  ((65 <=? n) && (n <=? 90)) || ((97 <=? n) && (n <=? 122))
  || ((48 <=? n) && (n <=? 57)) || (n =? 95).

(** [s.replace(/\//g, "-")] *)
Fixpoint replaceSlashes (s : string) : string :=
  match s with
  | EmptyString => EmptyString
  | String c s' =>
      String (if Ascii.eqb c "/" then "-"%char else c) (replaceSlashes s')
  end.

(** [s.replace(/-+/g, "-")]: every maximal run of dashes becomes one dash.
    [prev] tells that the code unit before [s] was a dash of the run
    being replaced. *)
Fixpoint collapseDashesFrom (prev : bool) (s : string) : string :=
  match s with
  | EmptyString => EmptyString
  | String c s' =>
      if Ascii.eqb c "-" then
        if prev then collapseDashesFrom true s'
        else String "-" (collapseDashesFrom true s')
      else String c (collapseDashesFrom false s')
  end.

Definition collapseDashes (s : string) : string := collapseDashesFrom false s.

(** [s.replace(/^docs\//, "")] *)
Definition stripDocsPrefix (s : string) : string :=
  if startsWith "docs/" s then slice 5 s else s.

End Js.

(** ** The llms.txt section parser and the path mapper *)

Module Llms.

Import Js.

(** [content.split(/(?====\/)/)].  The expression is a zero-width
    look-ahead, so the separator removes nothing; a match at the start of
    the remaining input is skipped by the split algorithm, hence a cut is
    made before every position [q > 0] at which ["===/"] begins, wherever on
    its line.  The empty string splits into one empty section. *)
Fixpoint splitSections (content : string) : list string :=
  match content with
  | EmptyString => [EmptyString]
  | String c rest =>
      if startsWith "===/" rest then String c EmptyString :: splitSections rest
      else
        match splitSections rest with
        | section :: sections => String c section :: sections
        | [] => [String c EmptyString]
        end
  end.

Definition notEq (c : ascii) : bool := negb (Ascii.eqb c "=").

(** [section.match(/^===\/([^=]+)===/)], giving the capture group.
    [[^=]+] is greedy and what follows it must be an equals sign, so only
    the longest run of other code units can be the path. *)
Definition matchHeader (section : string) : option string :=
  if startsWith "===/" section then
    let (path, after) := span notEq (slice 4 section) in
    if nonEmpty path && startsWith "===" after then Some path else None
  else None.

(** [section.replace(/^===[^=]+===\n?/, "")] *)
Definition stripHeader (section : string) : string :=
  if startsWith "===" section then
    let (run, after) := span notEq (slice 3 section) in
    if nonEmpty run && startsWith "===" after then
      let body := slice 3 after in
      match body with
      | String c body' => if Ascii.eqb c LF then body' else body
      | EmptyString => body
      end
    else section
  else section.

(** One iteration of the loop of [parseLlmsTxt]: the document the section
    contributes, if any. *)
Definition parseSection (section : string) : option (string * string) :=
  match matchHeader section with
  | Some path =>
      let body := trim (stripHeader section) in
      if nonEmpty body then Some (path, body) else None
  | None => None
  end.

(** [pathToFilename], the same in the xAI script and in the templates. *)
Definition pathToFilename (docPath : string) : string :=
  collapseDashes (replaceSlashes (stripDocsPrefix docPath)) +:+ ".md".

End Llms.

(** A JavaScript [Map<string, string>]: iteration follows the order in which
  keys were first inserted, and [set] on a present key replaces its value
  in place. *)
Module JsMap.

Definition t := list (string * string).

Definition empty : t := [].

Fixpoint set (k v : string) (m : t) : t :=
  match m with
  | [] => [(k, v)]
  | (k', v') :: m' =>
      if String.eqb k k' then (k, v) :: m' else (k', v') :: set k v m'
  end.

Fixpoint get (k : string) (m : t) : option string :=
  match m with
  | [] => None
  | (k', v') :: m' => if String.eqb k k' then Some v' else get k m'
  end.

Definition keys (m : t) : list string := map fst m.

End JsMap.


(** ** The code-block rule of the HTML template ([sync-html.ts]) *)

Module SyncHtml.

Import Js.

(** The part of the DOM the rule reads: text nodes and elements with their
    upper-case [nodeName], attributes and children. *)
#[warnings="-register-all"]
Inductive node : Type :=
| Text (data : string)
| Element (nodeName : string) (attributes : list (string * string))
          (childNodes : list node).

Definition nodeNameOf (n : node) : string :=
  match n with
  | Text _ => "#text"
  | Element name _ _ => name
  end.

(** [node.textContent] *)
Fixpoint textContent (n : node) : string :=
  match n with
  | Text data => data
  | Element _ _ children =>
      (fix all (l : list node) : string :=
         match l with
         | [] => ""
         | child :: l' => textContent child +:+ all l'
         end) children
  end.

(** [el.getAttribute(name)]: [None] stands for [null]. *)
Fixpoint lookupAttribute (name : string) (attrs : list (string * string))
  : option string :=
  match attrs with
  | [] => None
  | (k, v) :: attrs' => if String.eqb k name then Some v else lookupAttribute name attrs'
  end.

Definition getAttribute (name : string) (n : node) : option string :=
  match n with
  | Text _ => None
  | Element _ attrs _ => lookupAttribute name attrs
  end.

(** [el.className]: the [class] attribute, or the empty string. *)
Definition className (n : node) : string :=
  match getAttribute "class" n with
  | Some v => v
  | None => ""
  end.

Definition isCodeElement (n : node) : bool :=
  match n with
  | Text _ => false
  | Element name _ _ => String.eqb name "CODE"
  end.

(** [node.querySelector("code")]: the first [code] element among the
    descendants of [node], in document order. *)
Fixpoint querySelectorCode (n : node) : option node :=
  match n with
  | Text _ => None
  | Element _ _ children =>
      (fix first (l : list node) : option node :=
         match l with
         | [] => None
         | child :: l' =>
             if isCodeElement child then Some child
             else match querySelectorCode child with
                  | Some found => Some found
                  | None => first l'
                  end
         end) children
  end.

(** [cls.match(/language-(\w+)/)?.[1]]: the word after the leftmost
    ["language-"] that is followed by a word character; [None] stands for
    [undefined]. *)
Fixpoint matchLanguage (cls : string) : option string :=
  match cls with
  | EmptyString => None
  | String _ cls' =>
      if startsWith "language-" cls then
        let (word, _) := span isWord (slice 9 cls) in
        if nonEmpty word then Some word else matchLanguage cls'
      else matchLanguage cls'
  end.

(** [a || b] on values that are a string, [null] or [undefined]: the empty
    string is falsy like the two others. *)
Definition orElse (a b : option string) : option string :=
  match a with
  | Some (String _ _) => a
  | _ => b
  end.

Definition optChain {A B : Type} (a : option A) (f : A -> option B) : option B :=
  match a with
  | Some x => f x
  | None => None
  end.

Definition stringOf (a : option string) : string :=
  match a with
  | Some s => s
  | None => ""
  end.

(** The [filter] of the rule; [parentName] is [node.parentNode?.nodeName]. *)
Definition codeBlocksFilter (parentName : option string) (n : node) : bool :=
  String.eqb (nodeNameOf n) "PRE"
  || (String.eqb (nodeNameOf n) "CODE"
      && negb (match parentName with
               | Some p => String.eqb p "PRE"
               | None => false
               end)).

(** The [replacement] of the rule. *)
Definition codeBlocksReplacement (content : string) (n : node) : string :=
  if String.eqb (nodeNameOf n) "PRE" then
    let code := querySelectorCode n in
    let lang :=
      stringOf
        (orElse (orElse (optChain code (fun c => matchLanguage (className c)))
                        (optChain code (getAttribute "data-lang")))
                (Some "")) in
    let text :=
      stringOf
        (orElse (orElse (optChain code (fun c => Some (textContent c)))
                        (Some (textContent n)))
                (Some "")) in
    NL +:+ "```" +:+ lang +:+ NL +:+ trim text +:+ NL +:+ "```" +:+ NL
  else "`" +:+ content +:+ "`".

End SyncHtml.

(** ** The world the scripts run in *)

Module World.

Import Js.

(** A thrown [Error]. *)
Inductive exn : Type := Error (message : string).

#[warnings="-register-all"]
Inductive json : Type :=
| JString (s : string)
| JNumber (n : nat)
| JArray (items : list json)
| JObject (fields : list (string * json)).

(** What a written file holds: text as given, or
    [JSON.stringify(value, null, 2)]. *)
Inductive fileData : Type :=
| PlainText (text : string)
| JsonText (value : json).

(** An entry of a directory of the cloned repository, as [readdir] with
    [withFileTypes] reports it: a regular file, a directory, or something
    else (a symbolic link for instance) with what reading it as a file
    gives. *)
#[warnings="-register-all"]
Inductive entry : Type :=
| File (name content : string)
| Dir (name : string) (entries : list entry)
| Other (name : string) (read : exn + string).

Definition entryName (e : entry) : string :=
  match e with
  | File name _ => name
  | Dir name _ => name
  | Other name _ => name
  end.

(** A mutation of the output directory [RESOURCES_DIR]; paths are relative
    to it and the empty path is the directory itself. *)
Inductive outOp : Type :=
| MkdirOut (rel : string)
| WriteOut (rel : string) (data : fileData).

Inductive consoleLine : Type :=
| Log (line : string)
| LogError (label : string) (e : exn).

Record world : Type := {
  scratch : option (list entry); (* TEMP_DIR: its entries, [None] when absent *)
  outDir : bool;                 (* existsSync(RESOURCES_DIR) *)
  outFiles : gmap string fileData; (* the files under RESOURCES_DIR *)
  outOps : list outOp;           (* every mutation of RESOURCES_DIR, in order *)
  requests : list string;        (* every URL fetched, in order *)
  console : list consoleLine     (* console.log and console.error, in order *)
}.

(** How a computation ends: with a value, with a thrown error, or by
    [process.exit(code)], which no handler sees. *)
Inductive completion (A : Type) : Type :=
| Normal (a : A)
| Throw (e : exn)
| Exit (code : nat).

Arguments Normal {A} a.
Arguments Throw {A} e.
Arguments Exit {A} code.

Definition M (A : Type) : Type := world -> completion A * world.

Definition ret {A : Type} (a : A) : M A := fun w => (Normal a, w).

Definition bind {A B : Type} (m : M A) (k : A -> M B) : M B :=
  fun w =>
    match m w with
    | (Normal a, w') => k a w'
    | (Throw e, w') => (Throw e, w')
    | (Exit code, w') => (Exit code, w')
    end.

Definition throw {A : Type} (e : exn) : M A := fun w => (Throw e, w).

Definition exit {A : Type} (code : nat) : M A := fun w => (Exit code, w).

(** [try { body } catch (error) { handler }] *)
Definition tryCatch {A : Type} (body : M A) (handler : exn -> M A) : M A :=
  fun w =>
    match body w with
    | (Throw e, w') => handler e w'
    | other => other
    end.

(** [try { body } finally { final }]: [final] runs however [body] ends,
    except on [process.exit]; when [final] itself does not end normally its
    completion replaces that of [body]. *)
Definition tryFinally {A : Type} (body : M A) (final : M unit) : M A :=
  fun w =>
    match body w with
    | (Exit code, w') => (Exit code, w')
    | (result, w') =>
        match final w' with
        | (Normal _, w'') => (result, w'')
        | (Throw e, w'') => (Throw e, w'')
        | (Exit code, w'') => (Exit code, w'')
        end
    end.

(** The exit status of the process when the top-level promise completes
    with [c]: 0 when it is fulfilled, the given code on [process.exit], and
    1 when it is rejected and nobody handles the rejection. *)
Definition exitStatus {A : Type} (c : completion A) : nat :=
  match c with
  | Normal _ => 0
  | Throw _ => 1
  | Exit code => code
  end.

Definition log (line : string) : M unit :=
  fun w =>
    (Normal tt,
     {| scratch := scratch w; outDir := outDir w; outFiles := outFiles w;
        outOps := outOps w; requests := requests w;
        console := console w ++ [Log line] |}).

Definition logError (label : string) (e : exn) : M unit :=
  fun w =>
    (Normal tt,
     {| scratch := scratch w; outDir := outDir w; outFiles := outFiles w;
        outOps := outOps w; requests := requests w;
        console := console w ++ [LogError label e] |}).

(** [existsSync(TEMP_DIR)] *)
Definition existsScratch : M bool :=
  fun w => (Normal (match scratch w with Some _ => true | None => false end), w).

(** [rmSync(TEMP_DIR, { recursive: true })] *)
Definition removeScratch : M unit :=
  fun w =>
    (Normal tt,
     {| scratch := None; outDir := outDir w; outFiles := outFiles w;
        outOps := outOps w; requests := requests w; console := console w |}).

Definition setScratch (s : option (list entry)) : M unit :=
  fun w =>
    (Normal tt,
     {| scratch := s; outDir := outDir w; outFiles := outFiles w;
        outOps := outOps w; requests := requests w; console := console w |}).

Definition getScratch : M (option (list entry)) :=
  fun w => (Normal (scratch w), w).

(** [existsSync(RESOURCES_DIR)] *)
Definition existsOut : M bool := fun w => (Normal (outDir w), w).

(** [mkdir(join(RESOURCES_DIR, rel), { recursive: true })]: the output
    directory exists afterwards, being [rel] itself or one of its
    ancestors. *)
Definition mkdirOut (rel : string) : M unit :=
  fun w =>
    (Normal tt,
     {| scratch := scratch w; outDir := true; outFiles := outFiles w;
        outOps := outOps w ++ [MkdirOut rel]; requests := requests w;
        console := console w |}).

(** [writeFile(join(RESOURCES_DIR, rel), data)]: fails when the output
    directory does not exist. *)
Definition writeOut (rel : string) (data : fileData) : M unit :=
  fun w =>
    if outDir w then
      (Normal tt,
       {| scratch := scratch w; outDir := true;
          outFiles := <[rel := data]> (outFiles w);
          outOps := outOps w ++ [WriteOut rel data]; requests := requests w;
          console := console w |})
    else (Throw (Error "ENOENT: no such file or directory"), w).

Definition recordRequest (url : string) : M unit :=
  fun w =>
    (Normal tt,
     {| scratch := scratch w; outDir := outDir w; outFiles := outFiles w;
        outOps := outOps w; requests := requests w ++ [url];
        console := console w |}).

(** A [for ... of] loop threading the local state [s] of its body. *)
Fixpoint forEach {A S : Type} (body : S -> A -> M S) (l : list A) (s : S) : M S :=
  match l with
  | [] => ret s
  | x :: l' => bind (body s x) (forEach body l')
  end.

(** [if (cond) { m }] *)
Definition when (cond : bool) (m : M unit) : M unit :=
  if cond then m else ret tt.

Module Notations.
Notation "x <- m ;; k" := (bind m (fun x => k))
  (at level 100, m at next level, right associativity).
Notation "m ;; k" := (bind m (fun _ => k))
  (at level 100, right associativity).
End Notations.

(** An HTTP response. *)
Record response : Type := { status : nat; statusText : string; text : string }.

(** [response.ok] *)
Definition ok (r : response) : bool := (200 <=? status r) && (status r <=? 299).

(** The order of [Array.prototype.sort()] without a comparator on strings:
    by code units. *)
Definition codeUnitLe (a b : string) : Prop := String.leb a b = true.

#[export] Instance codeUnitLe_dec (a b : string) : Decision (codeUnitLe a b).
Proof. unfold codeUnitLe. apply _. Defined.

(** [paths.sort()] *)
Definition jsSort (paths : list string) : list string := merge_sort codeUnitLe paths.

(** ["=".repeat(n)] *)
Fixpoint repeatString (s : string) (n : nat) : string :=
  match n with
  | O => ""
  | S n' => s +:+ repeatString s n'
  end.

(** The decimal digits of a number in a template literal. *)
Definition digits (n : nat) : string := pretty n.

(** [s.slice(0, s.length - n)] *)
Definition dropEnd (n : nat) (s : string) : string :=
  String.substring 0 (String.length s - n) s.

(** [s.replace(/\.mdx$/, ".md")] *)
Definition mdxToMd (s : string) : string :=
  if endsWith ".mdx" s then dropEnd 4 s +:+ ".md" else s.

(** An element of a directory by name. *)
Fixpoint findEntry (name : string) (entries : list entry) : option entry :=
  match entries with
  | [] => None
  | e :: entries' =>
      if String.eqb (entryName e) name then Some e else findEntry name entries'
  end.

(** [join(relPath, name)] for a relative path and the name of a directory
    entry. *)
Definition joinPath (relPath name : string) : string :=
  if nonEmpty relPath then relPath +:+ "/" +:+ name else name.

End World.

(** ** [skills/xai/scripts/sync-docs.ts] *)

Module Xai.

Import Js Llms World World.Notations.

Definition LLMS_TXT_URL : string := "https://docs.x.ai/llms.txt".

Inductive syncStatus : Type := created | updated | unchanged | skipped.

Record SyncResult : Type := { path : string; title : string; status : syncStatus }.

Definition isSkipped (r : SyncResult) : bool :=
  match status r with skipped => true | _ => false end.

Definition isCreated (r : SyncResult) : bool :=
  match status r with created => true | _ => false end.

(** What the script is run with: its arguments, whether the dev-browser
    skill is installed, what the fetch helper process printed and how it
    exited, the clock, and the regular-expression engine on the one
    expression whose matches the statements below do not depend on. *)
Record env : Type := {
  argv : list string;
  devBrowser : bool;               (* existsSync(DEV_BROWSER_DIR) *)
  procStdout : string;
  procExitCode : nat;
  procStderr : string;
  now : string;                    (* new Date().toISOString() *)
  headingOf : string -> option string (* s.match(/^#\s+(.+)$/m)?.[1] *)
}.

Definition fetchLlmsTxt (e : env) : M string :=
  if negb (devBrowser e) then
    throw (Error ("dev-browser skill not found. Please install it first." +:+ NL
                  +:+ "The xAI docs require browser automation to bypass Cloudflare."))
  else if negb (procExitCode e =? 0) then
    throw (Error ("Failed to fetch llms.txt: " +:+ procStderr e))
  else ret (procStdout e).

(** [parseLlmsTxt]: the documents are collected in a [Map]. *)
Definition parseLlmsTxt (content : string) : JsMap.t :=
  fold_left
    (fun docs section =>
       match parseSection section with
       | Some (path, body) => JsMap.set path body docs
       | None => docs
       end)
    (splitSections content) JsMap.empty.

Definition pathToFilename : string -> string := Llms.pathToFilename.

(** [path.split("/").pop()] *)
Fixpoint lastSegment (p : string) : string :=
  match p with
  | EmptyString => EmptyString
  | String c p' =>
      if Ascii.eqb c "/" then lastSegment p'
      else if existsb (Ascii.eqb "/") (list_ascii_of_string p') then lastSegment p'
      else p
  end.

(** [titleMatch ? titleMatch[1] : path.split("/").pop() || path] *)
Definition titleOf (e : env) (body docPath : string) : string :=
  match headingOf e body with
  | Some heading => heading
  | None => if nonEmpty (lastSegment docPath) then lastSegment docPath else docPath
  end.

(** The body of the loop of [syncDocs]. *)
Definition syncDoc (e : env) (dryRun : bool) (results : list SyncResult)
           (doc : string * string) : M (list SyncResult) :=
  let (docPath, body) := doc in
  let filename := pathToFilename docPath in
  let title := titleOf e body docPath in
  if dryRun then
    log ("[DRY RUN] Would write: " +:+ filename +:+ " (" +:+ title +:+ ")") ;;
    ret (results ++ [{| path := filename; title := title; status := skipped |}])
  else
    writeOut filename
      (PlainText ("---" +:+ NL +:+ "source: https://docs.x.ai/" +:+ docPath +:+ NL
                  +:+ "---" +:+ NL +:+ NL +:+ body)) ;;
    log ("Wrote: " +:+ filename) ;;
    ret (results ++ [{| path := filename; title := title; status := created |}]).

Definition syncDocs (e : env) (dryRun : bool) : M (list SyncResult) :=
  log "Fetching llms.txt from docs.x.ai..." ;;
  content <- fetchLlmsTxt e ;;
  log "Parsing documentation sections..." ;;
  let docs := parseLlmsTxt content in
  log ("Found " +:+ digits (length docs) +:+ " documentation sections") ;;
  when (negb dryRun)
       (present <- existsOut ;; when (negb present) (mkdirOut "")) ;;
  forEach (syncDoc e dryRun) docs [].

Definition manifestOf (e : env) (results : list SyncResult) : json :=
  JObject
    [("source", JString LLMS_TXT_URL);
     ("syncedAt", JString (now e));
     ("fileCount", JNumber (length (List.filter (fun r => negb (isSkipped r)) results)));
     ("files", JArray (map JString (jsSort (map path results))))].

Definition writeManifest (e : env) (results : list SyncResult) : M unit :=
  writeOut "manifest.json" (JsonText (manifestOf e results)).

(** [main]; the value is the [results] array, kept for the statements. *)
Definition main (e : env) : M (list SyncResult) :=
  let dryRun := existsb (String.eqb "--dry-run") (argv e) in
  log (repeatString "=" 50) ;;
  log "xAI Documentation Sync" ;;
  log (repeatString "=" 50) ;;
  when dryRun (log ("DRY RUN MODE - No files will be written" +:+ NL)) ;;
  tryCatch
    (results <- syncDocs e dryRun ;;
     when (negb dryRun) (writeManifest e results) ;;
     log (NL +:+ repeatString "=" 50) ;;
     log "Sync complete!" ;;
     log ("Total documents: " +:+ digits (length results)) ;;
     let nCreated := length (List.filter isCreated results) in
     let nSkipped := length (List.filter isSkipped results) in
     when (0 <? nCreated) (log ("  Created: " +:+ digits nCreated)) ;;
     when (0 <? nSkipped) (log ("  Skipped (dry run): " +:+ digits nSkipped)) ;;
     ret results)
    (fun error => logError "Sync failed:" error ;; exit 1).

End Xai.

(** ** The llms.txt template script *)

Module LlmsTemplate.

Import Js Llms World World.Notations.

Definition LLMS_TXT_URL : string := "https://docs.example.com/llms.txt".
Definition BASE_DOC_URL : string := "https://docs.example.com".

Record ParsedDoc : Type := { path : string; content : string }.

Inductive syncStatus : Type := created | skipped.

Record SyncResult : Type := { path_ : string; title : string; status : syncStatus }.

Definition isSkipped (r : SyncResult) : bool :=
  match status r with skipped => true | created => false end.

Record env : Type := {
  argv : list string;
  fetched : exn + response;        (* await fetch(LLMS_TXT_URL) *)
  now : string;
  headingOf : string -> option string (* s.match(/^#\s+(.+)$/m)?.[1] *)
}.

Definition fetchLlmsTxt (e : env) : M string :=
  log ("Fetching " +:+ LLMS_TXT_URL +:+ "...") ;;
  recordRequest LLMS_TXT_URL ;;
  match fetched e with
  | inl error => throw error
  | inr r =>
      if negb (ok r) then
        throw (Error ("Failed to fetch llms.txt: " +:+ digits (World.status r) +:+ " "
                      +:+ statusText r +:+ NL
                      +:+ "If this is a 403 error, the site may have bot protection." +:+ NL
                      +:+ "Consider using browser automation (dev-browser skill) to fetch."))
      else ret (text r)
  end.

(** [parseLlmsTxt]: the documents are pushed on an array. *)
Definition parseLlmsTxt (content : string) : list ParsedDoc :=
  fold_left
    (fun docs section =>
       match parseSection section with
       | Some (p, body) => docs ++ [{| path := p; content := body |}]
       | None => docs
       end)
    (splitSections content) [].

Definition pathToFilename : string -> string := Llms.pathToFilename.

Definition extractTitle (e : env) (body docPath : string) : string :=
  match headingOf e body with
  | Some heading => heading
  | None =>
      if nonEmpty (Xai.lastSegment docPath) then Xai.lastSegment docPath else docPath
  end.

Definition syncDoc (e : env) (dryRun : bool) (results : list SyncResult)
           (doc : ParsedDoc) : M (list SyncResult) :=
  let filename := pathToFilename (path doc) in
  let title := extractTitle e (content doc) (path doc) in
  if dryRun then
    log ("[DRY RUN] Would write: " +:+ filename +:+ " (" +:+ title +:+ ")") ;;
    ret (results ++ [{| path_ := filename; title := title; status := skipped |}])
  else
    writeOut filename
      (PlainText ("---" +:+ NL +:+ "source: " +:+ BASE_DOC_URL +:+ "/" +:+ path doc +:+ NL
                  +:+ "---" +:+ NL +:+ NL +:+ content doc)) ;;
    log ("Wrote: " +:+ filename) ;;
    ret (results ++ [{| path_ := filename; title := title; status := created |}]).

Definition syncDocs (e : env) (dryRun : bool) : M (list SyncResult) :=
  content <- fetchLlmsTxt e ;;
  log "Parsing llms.txt..." ;;
  let docs := parseLlmsTxt content in
  log ("Found " +:+ digits (length docs) +:+ " documentation sections" +:+ NL) ;;
  when (negb dryRun)
       (present <- existsOut ;; when (negb present) (mkdirOut "")) ;;
  forEach (syncDoc e dryRun) docs [].

Definition manifestOf (e : env) (results : list SyncResult) : json :=
  JObject
    [("source", JString LLMS_TXT_URL);
     ("syncedAt", JString (now e));
     ("fileCount", JNumber (length (List.filter (fun r => negb (isSkipped r)) results)));
     ("files", JArray (map JString (jsSort (map path_ results))))].

Definition writeManifest (e : env) (results : list SyncResult) : M unit :=
  writeOut "manifest.json" (JsonText (manifestOf e results)).

Definition isCreated (r : SyncResult) : bool :=
  match status r with created => true | skipped => false end.

(** [main]; the value is the [results] array, kept for the statements. *)
Definition main (e : env) : M (list SyncResult) :=
  let dryRun := existsb (String.eqb "--dry-run") (argv e) in
  log (repeatString "=" 50) ;;
  log "llms.txt Documentation Sync" ;;
  log (repeatString "=" 50) ;;
  when dryRun (log ("DRY RUN MODE - No files will be written" +:+ NL)) ;;
  tryCatch
    (results <- syncDocs e dryRun ;;
     when (negb dryRun) (writeManifest e results) ;;
     log (NL +:+ repeatString "=" 50) ;;
     log "Sync complete!" ;;
     log ("Total documents: " +:+ digits (length results)) ;;
     let nCreated := length (List.filter isCreated results) in
     let nSkipped := length (List.filter isSkipped results) in
     when (0 <? nCreated) (log ("  Created: " +:+ digits nCreated)) ;;
     when (0 <? nSkipped) (log ("  Skipped (dry run): " +:+ digits nSkipped)) ;;
     ret results)
    (fun error => logError (NL +:+ "Sync failed:") error ;; exit 1).

End LlmsTemplate.

(** ** [skills/fastmcp/scripts/sync-docs.ts] *)

Module FastMCP.

Import Js World World.Notations.

Definition REPO_URL : string := "https://github.com/jlowin/fastmcp.git".
Definition SOURCE_PATH : string := "docs".
Definition TEMP_DIR : string := "/tmp/fastmcp-docs-sync".

Inductive syncStatus : Type := created | updated | unchanged | skipped.

Record SyncResult : Type := { path : string; title : string; status : syncStatus }.

Definition isSkipped (r : SyncResult) : bool :=
  match status r with skipped => true | _ => false end.

Definition isCreated (r : SyncResult) : bool :=
  match status r with created => true | _ => false end.

Definition SKIP_DIRS : list string :=
  [".cursor"; "assets"; "css"; "public"; "snippets"; "node_modules"].

Definition SKIP_FILES : list string := [".ccignore"].

(** [set.has(x)] *)
Definition has (set : list string) (x : string) : bool :=
  existsb (String.eqb x) set.

(** How [git clone --depth 1 REPO_URL TEMP_DIR] ends: with the repository in
    [TEMP_DIR], or with an error and whatever it left there. *)
Inductive cloneResult : Type :=
| Cloned (root : list entry)
| CloneFailed (error : exn) (leftover : option (list entry)).

Record env : Type := {
  argv : list string;
  cloned : cloneResult;
  revParse : exn + string;         (* git rev-parse HEAD, in TEMP_DIR *)
  now : string;                    (* new Date().toISOString() *)
  headingOf : string -> option string (* s.match(/^#\s+(.+)$/m)?.[1] *)
}.

Definition gitClone (e : env) : M unit :=
  match cloned e with
  | Cloned root => setScratch (Some root)
  | CloneFailed error leftover => setScratch leftover ;; throw error
  end.

Definition cloneRepo (e : env) : M unit :=
  present <- existsScratch ;;
  when present removeScratch ;;
  log ("Cloning " +:+ REPO_URL +:+ "...") ;;
  gitClone e.

Definition getCommitHash (e : env) : M string :=
  match revParse e with
  | inl error => throw error
  | inr out => ret (trim out)
  end.

(** [name.replace(/\.(md|mdx)$/, "")] *)
Definition stripMdExtension (name : string) : string :=
  if endsWith ".md" name then dropEnd 3 name
  else if endsWith ".mdx" name then dropEnd 4 name
  else name.

(** The flat file name of an entry [name] found under [relPath]. *)
Definition outputNameOf (relPath name : string) : string :=
  if nonEmpty relPath then mdxToMd (replaceSlashes relPath +:+ "-" +:+ name)
  else mdxToMd name.

Definition processFile (e : env) (dryRun : bool) (relPath name content : string)
           (results : list SyncResult) : M (list SyncResult) :=
  if has SKIP_FILES name then ret results
  else if negb (endsWith ".md" name) && negb (endsWith ".mdx" name) then ret results
  else
    let outputName := outputNameOf relPath name in
    let title :=
      match headingOf e content with
      | Some heading => heading
      | None => stripMdExtension name
      end in
    if dryRun then
      log ("[DRY RUN] Would copy: " +:+ outputName +:+ " (" +:+ title +:+ ")") ;;
      ret (results ++ [{| path := outputName; title := title; status := skipped |}])
    else
      writeOut outputName (PlainText content) ;;
      log ("Copied: " +:+ outputName) ;;
      ret (results ++ [{| path := outputName; title := title; status := created |}]).

(** One iteration of the loop of [processDir(dir, relPath)], on the entry
    [ent] of [dir]; a directory is walked by the same loop. *)
Fixpoint processEntry (e : env) (dryRun : bool) (relPath : string) (ent : entry)
         (results : list SyncResult) {struct ent} : M (list SyncResult) :=
  match ent with
  | Dir name entries =>
      if has SKIP_DIRS name then ret results
      else
        (fix processDir (l : list entry) (results : list SyncResult)
           : M (list SyncResult) :=
           match l with
           | [] => ret results
           | ent' :: l' =>
               bind (processEntry e dryRun (joinPath relPath name) ent' results)
                    (processDir l')
           end) entries results
  | File name content => processFile e dryRun relPath name content results
  | Other _ _ => ret results
  end.

Definition processDir (e : env) (dryRun : bool) (relPath : string)
           (entries : list entry) (results : list SyncResult)
  : M (list SyncResult) :=
  forEach (fun results ent => processEntry e dryRun relPath ent results)
          entries results.

Definition copyDocs (e : env) (dryRun : bool) : M (list SyncResult) :=
  root <- getScratch ;;
  match root with
  | None =>
      throw (Error ("Source directory not found: " +:+ TEMP_DIR +:+ "/" +:+ SOURCE_PATH))
  | Some entries =>
      match findEntry SOURCE_PATH entries with
      | None =>
          throw (Error ("Source directory not found: " +:+ TEMP_DIR +:+ "/" +:+ SOURCE_PATH))
      | Some (Dir _ children) => processDir e dryRun "" children []
      | Some _ => throw (Error "ENOTDIR: not a directory, scandir")
      end
  end.

Definition manifestOf (e : env) (commit : string) (results : list SyncResult) : json :=
  JObject
    [("source", JString REPO_URL);
     ("commit", JString commit);
     ("syncedAt", JString (now e));
     ("fileCount", JNumber (length (List.filter (fun r => negb (isSkipped r)) results)));
     ("files", JArray (map JString (jsSort (map path results))))].

Definition writeManifest (e : env) (commit : string) (results : list SyncResult)
  : M unit :=
  writeOut "manifest.json" (JsonText (manifestOf e commit results)).

Definition cleanup : M unit :=
  present <- existsScratch ;;
  when present removeScratch.

(** The [try] block of [main]. *)
Definition tryBlock (e : env) (dryRun : bool) : M (list SyncResult) :=
  cloneRepo e ;;
  commit <- getCommitHash e ;;
  log ("Commit: " +:+ commit +:+ NL) ;;
  when (negb dryRun)
       (present <- existsOut ;; when (negb present) (mkdirOut "")) ;;
  results <- copyDocs e dryRun ;;
  when (negb dryRun) (writeManifest e commit results) ;;
  log (NL +:+ repeatString "=" 50) ;;
  log "Sync complete!" ;;
  log ("Commit: " +:+ commit) ;;
  log ("Total documents: " +:+ digits (length results)) ;;
  let nCreated := length (List.filter isCreated results) in
  let nSkipped := length (List.filter isSkipped results) in
  when (0 <? nCreated) (log ("  Created: " +:+ digits nCreated)) ;;
  when (0 <? nSkipped) (log ("  Skipped (dry run): " +:+ digits nSkipped)) ;;
  ret results.

(** [main]; the value is the [results] array, kept for the statements. *)
Definition main (e : env) : M (list SyncResult) :=
  let dryRun := existsb (String.eqb "--dry-run") (argv e) in
  log (repeatString "=" 50) ;;
  log "FastMCP Documentation Sync" ;;
  log (repeatString "=" 50) ;;
  when dryRun (log ("DRY RUN MODE - No files will be written" +:+ NL)) ;;
  tryFinally (tryBlock e dryRun) cleanup.

(** The last statement of the script:
    [main().catch((error) => { console.error(...); cleanup(); process.exit(1) })]. *)
Definition script (e : env) : M (list SyncResult) :=
  tryCatch (main e)
           (fun error => logError "Sync failed:" error ;; cleanup ;; exit 1).

End FastMCP.

(** ** The template [sync-github.ts] *)

Module SyncGithub.

Import Js World World.Notations.

Definition REPO_URL : string := "https://github.com/org/repo.git".
Definition SOURCE_PATH : string := "docs".

Record SyncResult : Type := { path : string; size : nat }.

Record env : Type := {
  parsedArgs : exn + bool;         (* parseArgs(...).values["dry-run"] *)
  cloned : FastMCP.cloneResult;
  revParse : exn + string;
  now : string
}.

Definition cloneRepo (e : env) : M unit :=
  log ("Cloning " +:+ REPO_URL +:+ "...") ;;
  present <- existsScratch ;;
  when present removeScratch ;;
  match cloned e with
  | FastMCP.Cloned root => setScratch (Some root)
  | FastMCP.CloneFailed error leftover => setScratch leftover ;; throw error
  end.

Definition getCommitHash (e : env) : M string :=
  match revParse e with
  | inl error => throw error
  | inr out => ret (trim out)
  end.

(** The branch of the loop of [processDir] for an entry that is not a
    directory; [read] is what [readFile] gives for it. *)
Definition processFile (dryRun : bool) (relPath name : string) (read : exn + string)
           (results : list SyncResult) : M (list SyncResult) :=
  if endsWith ".mdx" name || endsWith ".md" name then
    let outputName := mdxToMd name in
    let outputRelPath := joinPath relPath outputName in
    content <- match read with
               | inl error => throw error
               | inr content => ret content
               end ;;
    (if dryRun then
       log ("Would write: " +:+ outputRelPath +:+ " ("
            +:+ digits (String.length content) +:+ " bytes)")
     else
       mkdirOut relPath ;;
       writeOut outputRelPath (PlainText content) ;;
       log ("Wrote: " +:+ outputRelPath)) ;;
    ret (results ++ [{| path := outputRelPath; size := String.length content |}])
  else ret results.

Fixpoint processEntry (dryRun : bool) (relPath : string) (ent : entry)
         (results : list SyncResult) {struct ent} : M (list SyncResult) :=
  match ent with
  | Dir name entries =>
      (fix processDir (l : list entry) (results : list SyncResult)
         : M (list SyncResult) :=
         match l with
         | [] => ret results
         | ent' :: l' =>
             bind (processEntry dryRun (joinPath relPath name) ent' results)
                  (processDir l')
         end) entries results
  | File name content => processFile dryRun relPath name (inr content) results
  | Other name read => processFile dryRun relPath name read results
  end.

Definition processDir (dryRun : bool) (relPath : string) (entries : list entry)
           (results : list SyncResult) : M (list SyncResult) :=
  forEach (fun results ent => processEntry dryRun relPath ent results)
          entries results.

Definition copyDocs (dryRun : bool) : M (list SyncResult) :=
  root <- getScratch ;;
  match root with
  | None => throw (Error ("Source path not found: " +:+ SOURCE_PATH))
  | Some entries =>
      match findEntry SOURCE_PATH entries with
      | None => throw (Error ("Source path not found: " +:+ SOURCE_PATH))
      | Some (Dir _ children) => processDir dryRun "" children []
      | Some _ => throw (Error "ENOTDIR: not a directory, scandir")
      end
  end.

(** [REPO_URL.replace(".git", "")] is ["https://github.com/org/repo"]. *)
Definition manifestOf (e : env) (results : list SyncResult) (commitHash : string)
  : json :=
  JObject
    [("source", JString "https://github.com/org/repo");
     ("sourcePath", JString SOURCE_PATH);
     ("commit", JString commitHash);
     ("syncedAt", JString (now e));
     ("fileCount", JNumber (length results));
     ("files", JArray (map JString (jsSort (map path results))))].

Definition writeManifest (e : env) (results : list SyncResult)
           (commitHash : string) (dryRun : bool) : M unit :=
  if dryRun then
    log (NL +:+ "Would write manifest with " +:+ digits (length results) +:+ " files")
  else
    writeOut "manifest.json" (JsonText (manifestOf e results commitHash)) ;;
    log (NL +:+ "Wrote manifest: manifest.json").

Definition cleanup : M unit :=
  present <- existsScratch ;;
  when present removeScratch.

(** The [try] block of [main]. *)
Definition tryBlock (e : env) (dryRun : bool) : M (list SyncResult) :=
  cloneRepo e ;;
  commitHash <- getCommitHash e ;;
  log ("Source commit: " +:+ commitHash +:+ NL) ;;
  when (negb dryRun) (mkdirOut "") ;;
  results <- copyDocs dryRun ;;
  writeManifest e results commitHash dryRun ;;
  log (NL +:+ "Done. Synced " +:+ digits (length results) +:+ " files.") ;;
  ret results.

Definition main (e : env) : M (list SyncResult) :=
  dryRun <- match parsedArgs e with
            | inl error => throw error
            | inr flag => ret flag
            end ;;
  log (NL +:+ "Syncing docs" +:+ (if dryRun then " (dry run)" else "") +:+ "..." +:+ NL) ;;
  tryFinally (tryBlock e dryRun) cleanup.

(** The last statement of the script: [main().catch(console.error)]. *)
Definition script (e : env) : M unit :=
  tryCatch (main e ;; ret tt) (fun error => logError "" error).

End SyncGithub.

(** ** The template [sync-direct.ts] *)

Module SyncDirect.

Import Js World World.Notations.

Record SyncResult : Type := { path : string; hash : string; size : nat }.

(** The two constants to customise, the parsed arguments and the
    collaborators: the network, SHA-256 and the clock. *)
Record env : Type := {
  BASE_URL : string;
  DOC_PATHS : list string;
  parsedArgs : exn + bool;         (* parseArgs(...).values["dry-run"] *)
  fetch : string -> exn + response;
  sha256hex : string -> string;
  now : string
}.

Definition fetchDoc (e : env) (path : string) : M string :=
  let url := BASE_URL e +:+ "/" +:+ path in
  log ("Fetching: " +:+ url) ;;
  recordRequest url ;;
  match fetch e url with
  | inl error => throw error
  | inr r =>
      if negb (ok r) then
        throw (Error ("Failed to fetch " +:+ url +:+ ": " +:+ digits (World.status r)))
      else ret (text r)
  end.

(** [createHash("sha256").update(content).digest("hex").slice(0, 12)] *)
Definition hashContent (e : env) (content : string) : string :=
  String.substring 0 12 (sha256hex e content).

(** [dirname] of a path relative to the output directory. *)
Fixpoint dirnameRel (p : string) : string :=
  match p with
  | EmptyString => EmptyString
  | String c p' =>
      if existsb (Ascii.eqb "/") (list_ascii_of_string p') then String c (dirnameRel p')
      else EmptyString
  end.

(** The local variables of [main] that the loop updates. *)
Record tally : Type := { results : list SyncResult; synced : nat; failed : nat }.

(** The body of the loop over [DOC_PATHS], with its [try] and [catch]. *)
Definition syncPath (e : env) (dryRun : bool) (t : tally) (path : string) : M tally :=
  tryCatch
    (content <- fetchDoc e path ;;
     let hash := hashContent e content in
     (if dryRun then
        log ("Would write: " +:+ path +:+ " (" +:+ digits (String.length content)
             +:+ " bytes, " +:+ hash +:+ ")")
      else
        mkdirOut (dirnameRel path) ;;
        writeOut path (PlainText content) ;;
        log ("Wrote: " +:+ path)) ;;
     ret {| results := results t
                       ++ [{| path := path; hash := hash; size := String.length content |}];
            synced := S (synced t); failed := failed t |})
    (fun error =>
       logError ("Failed to sync " +:+ path +:+ ":") error ;;
       ret {| results := results t; synced := synced t; failed := S (failed t) |}).

Definition manifestOf (e : env) (rs : list SyncResult) : json :=
  JObject
    [("source", JString (BASE_URL e));
     ("syncedAt", JString (now e));
     ("fileCount", JNumber (length rs));
     ("files",
      JArray (map (fun r => JObject [("path", JString (path r));
                                      ("hash", JString (hash r))]) rs))].

(** [main]; the value is the final state of its local variables, kept for
    the statements. *)
Definition main (e : env) : M tally :=
  dryRun <- match parsedArgs e with
            | inl error => throw error
            | inr flag => ret flag
            end ;;
  log (NL +:+ "Syncing docs from " +:+ BASE_URL e
       +:+ (if dryRun then " (dry run)" else "") +:+ "..." +:+ NL) ;;
  t <- forEach (syncPath e dryRun) (DOC_PATHS e)
               {| results := []; synced := 0; failed := 0 |} ;;
  when (negb dryRun && (0 <? length (results t)))
       (writeOut "manifest.json" (JsonText (manifestOf e (results t))) ;;
        log (NL +:+ "Wrote manifest: manifest.json")) ;;
  log (NL +:+ "Done. Synced: " +:+ digits (synced t) +:+ ", Failed: "
       +:+ digits (failed t)) ;;
  ret t.

(** The last statement of the script: [main().catch(console.error)]. *)
Definition script (e : env) : M unit :=
  tryCatch (main e ;; ret tt) (fun error => logError "" error).

End SyncDirect.
(** ** The regular expression of the titles *)

Module Regex.

Import Js.

(** The constructs of ECMAScript regular expressions that the title
    pattern [/^#\s+(.+)$/m] is made of. *)
Inductive atom : Type :=
| LineStart                      (* ^ under the m flag *)
| LineEnd                        (* $ under the m flag *)
| Lit (c : ascii)                (* a literal code unit *)
| Plus (cls : ascii -> bool)     (* cls+, greedy *)
| Group (cls : ascii -> bool).   (* (cls+), greedy and capturing *)

(** The line terminators among the code units below 256: LF and CR. *)
Definition isLineTerminator (c : ascii) : bool :=
  match c with
  | "010" | "013" => true
  | _ => false
  end%char.

(** [.] without the s flag *)
Definition dot (c : ascii) : bool := negb (isLineTerminator c).

(** One or more code units of [cls] at the start of [s]: the longest run is
    tried first and then, as long as what follows does not match, the
    shorter ones.  [k] is what follows; it gets the text taken, its last
    code unit and the rest of the input. *)
Fixpoint plus {R : Type} (cls : ascii -> bool) (s : string)
         (k : string -> ascii -> string -> option R) : option R :=
  match s with
  | EmptyString => None
  | String c s' =>
      if cls c then
        match plus cls s' (fun text last rest => k (String c text) last rest) with
        | Some r => Some r
        | None => k (String c EmptyString) c s'
        end
      else None
  end.

(** The match of the pattern [p] at one position: [prev] is the code unit
    before it, [s] the input from it and [group] the text captured so
    far.  The value is the captured text. *)
Fixpoint matchAt (p : list atom) (prev : option ascii) (s : string)
         (group : option string) : option (option string) :=
  match p with
  | [] => Some group
  | LineStart :: p' =>
      if match prev with None => true | Some c => isLineTerminator c end
      then matchAt p' prev s group else None
  | LineEnd :: p' =>
      if match s with EmptyString => true | String c _ => isLineTerminator c end
      then matchAt p' prev s group else None
  | Lit c :: p' =>
      match s with
      | String d s' => if Ascii.eqb c d then matchAt p' (Some d) s' group else None
      | EmptyString => None
      end
  | Plus cls :: p' =>
      plus cls s (fun _ last rest => matchAt p' (Some last) rest group)
  | Group cls :: p' =>
      plus cls s (fun text last rest => matchAt p' (Some last) rest (Some text))
  end.

(** [s.match(p)] for a pattern without the g flag: the match at the
    leftmost position that has one, the end of the input included. *)
Fixpoint search (p : list atom) (prev : option ascii) (s : string)
  : option (option string) :=
  match matchAt p prev s None with
  | Some group => Some group
  | None =>
      match s with
      | EmptyString => None
      | String c s' => search p (Some c) s'
      end
  end.

End Regex.

(** ** The titles of the documents *)

Module Title.

Import Js Regex.

(** [/^#\s+(.+)$/m] *)
Definition headingPattern : list atom :=
  [LineStart; Lit "#"; Plus isWhiteSpace; Group dot; LineEnd].

(** [content.match(/^#\s+(.+)$/m)?.[1]] *)
Definition matchHeading (content : string) : option string :=
  match search headingPattern None content with
  | Some group => group
  | None => None
  end.

(** [extractTitle] of the llms.txt templates, which is also how [syncDocs]
    of the xAI script computes a title. *)
Definition extractTitle (content path : string) : string :=
  match matchHeading content with
  | Some heading => heading
  | None => if nonEmpty (Xai.lastSegment path) then Xai.lastSegment path else path
  end.

(** The title [copyDocs] of the FastMCP script gives the file [name]:
    [titleMatch ? titleMatch[1] : entry.name.replace(/\.(md|mdx)$/, "")]. *)
Definition fileTitle (content name : string) : string :=
  match matchHeading content with
  | Some heading => heading
  | None => FastMCP.stripMdExtension name
  end.

End Title.
(** ** The pages of the HTML templates ([sync-html.ts] and the Gemini image
    script) *)

Module HtmlPage.

Import Js World World.Notations SyncHtml.

(** The selectors the scripts use: a tag name (["nav"]), a class
    ([".sidebar"]) or the value of an attribute (['[role="main"]']). *)
Inductive selector : Type :=
| Tag (name : string)
| Class (name : string)
| AttrIs (attr value : string).

(** ASCII case folding, as tag names are compared in an HTML document. *)
Definition upperUnit (c : ascii) : ascii :=
  let n := nat_of_ascii c in
  if (97 <=? n) && (n <=? 122) then ascii_of_nat (n - 32) else c.

Fixpoint upper (s : string) : string :=
  match s with
  | EmptyString => EmptyString
  | String c s' => String (upperUnit c) (upper s')
  end.

(** The white space that separates the tokens of a [class] attribute: TAB,
    LF, FF, CR and SP. *)
Definition isClassSpace (c : ascii) : bool :=
  match c with
  | "009" | "010" | "012" | "013" | " " => true
  | _ => false
  end%char.

(** [el.classList]: the tokens of the [class] attribute.  [token] is the
    token being read. *)
Fixpoint tokensFrom (token : string) (s : string) : list string :=
  match s with
  | EmptyString => if nonEmpty token then [token] else []
  | String c s' =>
      if isClassSpace c then
        (if nonEmpty token then [token] else []) ++ tokensFrom "" s'
      else tokensFrom (token +:+ String c "") s'
  end.

Definition classList (n : node) : list string := tokensFrom "" (className n).

(** [el.matches(selector)] *)
Definition matches (sel : selector) (n : node) : bool :=
  match n with
  | Text _ => false
  | Element nodeName _ _ =>
      match sel with
      | Tag name => String.eqb (upper name) (upper nodeName)
      | Class name => existsb (String.eqb name) (classList n)
      | AttrIs attr value =>
          match getAttribute attr n with
          | Some v => String.eqb v value
          | None => false
          end
      end
  end.

(** The descendants of a node in document order. *)
Fixpoint descendants (n : node) : list node :=
  match n with
  | Text _ => []
  | Element _ _ children =>
      (fix all (l : list node) : list node :=
         match l with
         | [] => []
         | child :: l' => child :: descendants child ++ all l'
         end) children
  end.

(** [node.querySelectorAll(selector)] *)
Definition querySelectorAll (sel : selector) (n : node) : list node :=
  List.filter (matches sel) (descendants n).

(** What [parseHTML] gives: the nodes of the document from its root
    element down, and [document.body], [None] standing for [null]. *)
Record document : Type := { roots : list node; body : option node }.

(** [document.querySelector(selector)]: the first match in document
    order. *)
Definition querySelector (sel : selector) (doc : document) : option node :=
  head (List.filter (matches sel)
                    (flat_map (fun root => root :: descendants root) (roots doc))).

(** The main content area: the first selector of the list that matches
    anything decides, and the body is the last resort. *)
Fixpoint firstMatch (selectors : list selector) (doc : document) : option node :=
  match selectors with
  | [] => None
  | sel :: selectors' =>
      match querySelector sel doc with
      | Some article => Some article
      | None => firstMatch selectors' doc
      end
  end.

Definition findArticle (selectors : list selector) (doc : document) : option node :=
  match firstMatch selectors doc with
  | Some article => Some article
  | None => body doc
  end.

(** [for (const el of node.querySelectorAll(sel)) el.remove()]: every
    match below [node] is detached from its parent, so what is left of
    [node] is the tree without the matches and what they hold. *)
Fixpoint removeAll (sel : selector) (n : node) : node :=
  match n with
  | Text _ => n
  | Element nodeName attrs children =>
      Element nodeName attrs
        ((fix rest (l : list node) : list node :=
            match l with
            | [] => []
            | child :: l' =>
                if matches sel child then rest l'
                else removeAll sel child :: rest l'
            end) children)
  end.

(** The loop over the selectors to remove. *)
Definition clean (selectors : list selector) (article : node) : node :=
  fold_left (fun a sel => removeAll sel a) selectors article.

(** The children a node's [innerHTML] is made of. *)
Definition childNodesOf (n : node) : list node :=
  match n with
  | Text _ => []
  | Element _ _ children => children
  end.

Definition CONTENT_SELECTORS : list selector :=
  [Tag "article"; AttrIs "role" "main"; Tag "main"; Class "content";
   Class "documentation"].

Definition REMOVE_SELECTORS : list selector :=
  [Tag "nav"; Tag "header"; Tag "footer"; Tag "script"; Tag "style";
   Class "sidebar"; Class "navigation"; AttrIs "role" "navigation"].

(** The same two lists in the Gemini image script. *)
Definition GEMINI_CONTENT_SELECTORS : list selector :=
  [Tag "article"; AttrIs "role" "main"; Tag "main"; Class "devsite-article-body"].

Definition GEMINI_REMOVE_SELECTORS : list selector :=
  [Tag "nav"; Tag "header"; Tag "footer"; Tag "script"; Tag "style";
   Class "devsite-nav"; Class "devsite-header"; Class "devsite-footer";
   Class "devsite-banner"; Class "nocontent"; AttrIs "role" "navigation";
   Class "devsite-article-meta"; Class "devsite-content-footer";
   Class "devsite-page-rating"].

Record DocPage : Type := { url : string; outputPath : string; title : string }.

(** What [sync-html.ts] is run with: the pages to customise, the parsed
    arguments, the network, the two libraries and the clock, which is read
    once for every page converted; [now i] is what it shows while the page
    of index [i] is handled. *)
Record env : Type := {
  DOC_PAGES : list DocPage;
  parsedArgs : exn + bool;         (* parseArgs(...).values["dry-run"] *)
  fetch : string -> exn + response;
  parseHTML : string -> document;  (* linkedom *)
  turndown : list node -> string;  (* turndown.turndown(article.innerHTML) *)
  now : nat -> string              (* new Date().toISOString() *)
}.

(** The double quote. *)
Definition QUOTE : string := String "034" EmptyString.

(** The output of [fetchAndConvert]: the front matter and the markdown. *)
Definition withFrontMatter (page : DocPage) (synced markdown : string) : string :=
  "---" +:+ NL
  +:+ "title: " +:+ QUOTE +:+ title page +:+ QUOTE +:+ NL
  +:+ "source: " +:+ QUOTE +:+ url page +:+ QUOTE +:+ NL
  +:+ "synced: " +:+ QUOTE +:+ synced +:+ QUOTE +:+ NL
  +:+ "---" +:+ NL +:+ NL +:+ markdown +:+ NL.

(** [fetchAndConvert(page)]; [tick] is the index of the page.  Without a
    content area and without a body, [article.querySelectorAll] is called
    on [null]. *)
Definition fetchAndConvert (e : env) (tick : nat) (page : DocPage) : M string :=
  log ("Fetching: " +:+ url page) ;;
  recordRequest (url page) ;;
  match fetch e (url page) with
  | inl error => throw error
  | inr r =>
      if negb (ok r) then
        throw (Error ("Failed to fetch " +:+ url page +:+ ": "
                      +:+ digits (World.status r)))
      else
        match findArticle CONTENT_SELECTORS (parseHTML e (text r)) with
        | None =>
            throw (Error "TypeError: null is not an object (evaluating 'article.querySelectorAll')")
        | Some article =>
            let markdown := turndown e (childNodesOf (clean REMOVE_SELECTORS article)) in
            ret (withFrontMatter page (now e tick) markdown)
        end
  end.

(** The local variables of [main] that the loop updates. *)
Record tally : Type := { synced : nat; failed : nat }.

(** The body of the loop over [DOC_PAGES], with its [try] and [catch]. *)
Definition syncPage (e : env) (dryRun : bool) (t : tally) (page : DocPage) : M tally :=
  tryCatch
    (markdown <- fetchAndConvert e (synced t + failed t) page ;;
     (if dryRun then
        log ("Would write: " +:+ outputPath page +:+ " ("
             +:+ digits (String.length markdown) +:+ " bytes)")
      else
        mkdirOut (SyncDirect.dirnameRel (outputPath page)) ;;
        writeOut (outputPath page) (PlainText markdown) ;;
        log ("Wrote: " +:+ outputPath page)) ;;
     ret {| synced := S (synced t); failed := failed t |})
    (fun error =>
       logError ("Failed to sync " +:+ url page +:+ ":") error ;;
       ret {| synced := synced t; failed := S (failed t) |}).

(** [main]; the value is the final state of its counters, kept for the
    statements. *)
Definition main (e : env) : M tally :=
  dryRun <- match parsedArgs e with
            | inl error => throw error
            | inr flag => ret flag
            end ;;
  log (NL +:+ "Syncing docs" +:+ (if dryRun then " (dry run)" else "") +:+ "..." +:+ NL) ;;
  t <- forEach (syncPage e dryRun) (DOC_PAGES e) {| synced := 0; failed := 0 |} ;;
  log (NL +:+ "Done. Synced: " +:+ digits (synced t) +:+ ", Failed: "
       +:+ digits (failed t)) ;;
  ret t.

(** The last statement of the script: [main().catch(console.error)]. *)
Definition script (e : env) : M unit :=
  tryCatch (main e ;; ret tt) (fun error => logError "" error).

End HtmlPage.
(** ** The LangGraph script *)

Module LangGraph.

Import Js World World.Notations.

Definition REPO_URL : string := "https://github.com/langchain-ai/docs.git".
Definition SOURCE_PATH : list string := ["src"; "oss"; "langgraph"].
Definition TEMP_DIR : string := "/tmp/langgraph-docs-sync".

(** What the script is run with, as for the GitHub template. *)
Definition env : Type := SyncGithub.env.

Definition cloneRepo (e : env) : M unit :=
  log "Cloning langchain-ai/docs repository..." ;;
  present <- existsScratch ;;
  when present removeScratch ;;
  match SyncGithub.cloned e with
  | FastMCP.Cloned root => setScratch (Some root)
  | FastMCP.CloneFailed error leftover => setScratch leftover ;; throw error
  end.

Definition getCommitHash (e : env) : M string :=
  match SyncGithub.revParse e with
  | inl error => throw error
  | inr out => ret (trim out)
  end.

(** [readdir(join(TEMP_DIR, SOURCE_PATH))]: the entries of the directory
    the segments of the path lead to. *)
Fixpoint readdirAt (segments : list string) (entries : list entry)
  : exn + list entry :=
  match segments with
  | [] => inr entries
  | segment :: segments' =>
      match findEntry segment entries with
      | Some (Dir _ children) => readdirAt segments' children
      | Some _ => inl (Error "ENOTDIR: not a directory, scandir")
      | None => inl (Error "ENOENT: no such file or directory, scandir")
      end
  end.

(** [copyDocs]: the loop of [processDir] is that of the GitHub template,
    but nothing checks that the source directory exists before it is
    listed. *)
Definition copyDocs (dryRun : bool) : M (list SyncGithub.SyncResult) :=
  root <- getScratch ;;
  match root with
  | None => throw (Error "ENOENT: no such file or directory, scandir")
  | Some entries =>
      match readdirAt SOURCE_PATH entries with
      | inl error => throw error
      | inr children => SyncGithub.processDir dryRun "" children []
      end
  end.

Definition manifestOf (e : env) (results : list SyncGithub.SyncResult)
           (commitHash : string) : json :=
  JObject
    [("source", JString "https://github.com/langchain-ai/docs");
     ("sourcePath", JString "src/oss/langgraph");
     ("commit", JString commitHash);
     ("syncedAt", JString (SyncGithub.now e));
     ("fileCount", JNumber (length results));
     ("files", JArray (map JString (jsSort (map SyncGithub.path results))))].

Definition writeManifest (e : env) (results : list SyncGithub.SyncResult)
           (commitHash : string) (dryRun : bool) : M unit :=
  if dryRun then
    log (NL +:+ "Would write manifest with " +:+ digits (length results) +:+ " files")
  else
    writeOut "manifest.json" (JsonText (manifestOf e results commitHash)) ;;
    log (NL +:+ "Wrote manifest: manifest.json").

Definition cleanup : M unit :=
  present <- existsScratch ;;
  when present removeScratch.

(** The [try] block of [main]. *)
Definition tryBlock (e : env) (dryRun : bool) : M (list SyncGithub.SyncResult) :=
  cloneRepo e ;;
  commitHash <- getCommitHash e ;;
  log ("Source commit: " +:+ commitHash +:+ NL) ;;
  when (negb dryRun) (mkdirOut "") ;;
  results <- copyDocs dryRun ;;
  writeManifest e results commitHash dryRun ;;
  log (NL +:+ "Done. Synced " +:+ digits (length results) +:+ " files.") ;;
  ret results.

Definition main (e : env) : M (list SyncGithub.SyncResult) :=
  dryRun <- match SyncGithub.parsedArgs e with
            | inl error => throw error
            | inr flag => ret flag
            end ;;
  log (NL +:+ "Syncing LangGraph docs" +:+ (if dryRun then " (dry run)" else "")
       +:+ "..." +:+ NL) ;;
  tryFinally (tryBlock e dryRun) cleanup.

(** The last statement of the script: [main().catch(console.error)]. *)
Definition script (e : env) : M unit :=
  tryCatch (main e ;; ret tt) (fun error => logError "" error).

End LangGraph.
(** ** Vocabulary of the statements about the parser *)

Module ParserSpec.

Import Js Llms.

(** All sections put back together. *)
Definition joined (sections : list string) : string :=
  fold_right String.append "" sections.

(** [occursIn d s]: [d] begins at some position of [s]. *)
Fixpoint occursIn (d s : string) : bool :=
  startsWith d s
  || match s with
     | EmptyString => false
     | String _ s' => occursIn d s'
     end.

(** The number of positions [q > 0] of [s] at which the delimiter begins. *)
Fixpoint cuts (s : string) : nat :=
  match s with
  | EmptyString => 0
  | String _ rest => (if startsWith "===/" rest then 1 else 0) + cuts rest
  end.

(** What is left of [s] from the first position at which the delimiter
    begins; nothing when it begins nowhere. *)
Fixpoint fromFirstDelim (s : string) : string :=
  if startsWith "===/" s then s
  else match s with
       | EmptyString => EmptyString
       | String _ s' => fromFirstDelim s'
       end.

(** The documents of a blob in the order of their sections: what the loop
    of [parseLlmsTxt] hands to [docs.set] or [docs.push]. *)
Fixpoint emitted (sections : list string) : list (string * string) :=
  match sections with
  | [] => []
  | section :: sections' =>
      match parseSection section with
      | Some doc => doc :: emitted sections'
      | None => emitted sections'
      end
  end.

Definition sectionDocs (content : string) : list (string * string) :=
  emitted (splitSections content).

(** The body of the last document headed by [p], if there is one. *)
Definition lastBody (p : string) (docs : list (string * string)) : option string :=
  fold_left (fun acc d => if String.eqb p (fst d) then Some (snd d) else acc)
            docs None.

Definition setDoc (docs : JsMap.t) (doc : string * string) : JsMap.t :=
  JsMap.set (fst doc) (snd doc) docs.

Definition mkDoc (doc : string * string) : LlmsTemplate.ParsedDoc :=
  {| LlmsTemplate.path := fst doc; LlmsTemplate.content := snd doc |}.

End ParserSpec.

(** ** Vocabulary of the statements about the code-block rule *)

Module HtmlSpec.

Import Js SyncHtml.

(** A fenced block with language tag [lang] and body [body]. *)
Definition fence (lang body : string) : string :=
  NL +:+ "```" +:+ lang +:+ NL +:+ body +:+ NL +:+ "```" +:+ NL.

(** The language tag by priority: the [language-] word of the class of the
    [code] element, else its [data-lang] attribute, else nothing. *)
Definition languageTag (code : option node) : string :=
  match code with
  | None => ""
  | Some c =>
      match matchLanguage (className c) with
      | Some word => word
      | None =>
          match getAttribute "data-lang" c with
          | Some value => value
          | None => ""
          end
      end
  end.

(** The text the block is made of: that of the [code] element unless it is
    missing or empty, in which case that of the [pre] element. *)
Definition blockText (pre : node) (code : option node) : string :=
  match code with
  | Some c => if nonEmpty (textContent c) then textContent c else textContent pre
  | None => textContent pre
  end.

End HtmlSpec.

(** ** Vocabulary of the statements about the scripts *)

Module ScriptSpec.

Import Js World.

(** A computation started in a world satisfying [P] ends with a value and
    a world satisfying [Q], with an error and a world satisfying [E], or by
    [process.exit] with a code and a world satisfying [X]. *)
Definition triple {A : Type} (P : world -> Prop) (m : M A)
           (Q : A -> world -> Prop) (E : exn -> world -> Prop)
           (X : nat -> world -> Prop) : Prop :=
  forall w, P w ->
    match m w with
    | (Normal a, w') => Q a w'
    | (Throw e, w') => E e w'
    | (Exit code, w') => X code w'
    end.

(** A computation keeps an invariant of the world however it returns or
    throws. *)
Definition keeps {A : Type} (Inv : world -> Prop) (X : nat -> world -> Prop)
           (m : M A) : Prop :=
  triple Inv m (fun _ => Inv) (fun _ => Inv) X.

Definition never : nat -> world -> Prop := fun _ _ => False.

(** The output directory is in [w'] as it is in [w], and nothing was done
    to it in between. *)
Definition sameOut (w w' : world) : Prop :=
  outDir w' = outDir w /\ outFiles w' = outFiles w /\ outOps w' = outOps w.

(** The value of a computation that ended normally. *)
Definition valueOf {A : Type} (c : completion A) : option A :=
  match c with
  | Normal a => Some a
  | _ => None
  end.

(** The results a computation gives, none when it throws or exits. *)
Definition produced {A : Type} (c : completion (list A)) : list A :=
  match c with
  | Normal rs => rs
  | _ => []
  end.

(** The field [name] of a JSON object. *)
Definition field (name : string) (v : json) : option json :=
  match v with
  | JObject fields =>
      (fix find (l : list (string * json)) : option json :=
         match l with
         | [] => None
         | (k, x) :: l' => if String.eqb k name then Some x else find l'
         end) fields
  | _ => None
  end.

(** The files a walk of the FastMCP script reaches under an entry, with the
    relative path of their directory: every regular file outside the
    directories of [SKIP_DIRS]. *)
Fixpoint walk (relPath : string) (ent : entry) : list (string * string * string) :=
  match ent with
  | File name content => [(relPath, name, content)]
  | Dir name entries =>
      if FastMCP.has FastMCP.SKIP_DIRS name then []
      else
        (fix walkAll (l : list entry) : list (string * string * string) :=
           match l with
           | [] => []
           | ent' :: l' => walk (joinPath relPath name) ent' ++ walkAll l'
           end) entries
  | Other _ _ => []
  end.

Definition walkAll (relPath : string) (entries : list entry)
  : list (string * string * string) :=
  flat_map (walk relPath) entries.

(** The same for the walk of [sync-github.ts]: everything that is not a
    directory, with what reading it gives. *)
Fixpoint walkGithub (relPath : string) (ent : entry)
  : list (string * string * (exn + string)) :=
  match ent with
  | File name content => [(relPath, name, inr content)]
  | Dir name entries =>
      (fix walkAll (l : list entry) : list (string * string * (exn + string)) :=
         match l with
         | [] => []
         | ent' :: l' => walkGithub (joinPath relPath name) ent' ++ walkAll l'
         end) entries
  | Other name read => [(relPath, name, read)]
  end.

Definition walkAllGithub (relPath : string) (entries : list entry)
  : list (string * string * (exn + string)) :=
  flat_map (walkGithub relPath) entries.

(** The body of the loop the FastMCP walk amounts to. *)
Definition fastmcpFile (e : FastMCP.env) (dryRun : bool)
           (results : list FastMCP.SyncResult) (f : string * string * string)
  : M (list FastMCP.SyncResult) :=
  FastMCP.processFile e dryRun (fst (fst f)) (snd (fst f)) (snd f) results.

(** The same for [sync-github.ts]. *)
Definition githubFile (dryRun : bool) (results : list SyncGithub.SyncResult)
           (f : string * string * (exn + string)) : M (list SyncGithub.SyncResult) :=
  SyncGithub.processFile dryRun (fst (fst f)) (snd (fst f)) (snd f) results.

(** A computation gives a value satisfying [Q], an error satisfying [E] or
    an exit code satisfying [X], whatever the world. *)
Definition yields {A : Type} (Q : A -> Prop) (E : exn -> Prop) (X : nat -> Prop)
           (m : M A) : Prop :=
  triple (fun _ => True) m (fun a _ => Q a) (fun e _ => E e) (fun c _ => X c).

Definition anything {A : Type} : A -> Prop := fun _ => True.

Definition nothing {A : Type} : A -> Prop := fun _ => False.

(** The URL [sync-direct.ts] fetches for a path, and whether the fetch
    gives a 2xx response. *)
Definition urlOf (e : SyncDirect.env) (path : string) : string :=
  SyncDirect.BASE_URL e +:+ "/" +:+ path.

Definition fetchSucceeds (e : SyncDirect.env) (path : string) : bool :=
  match SyncDirect.fetch e (urlOf e path) with
  | inr r => ok r
  | inl _ => false
  end.

(** The body of a path whose fetch succeeds. *)
Definition fetchedText (e : SyncDirect.env) (path : string) : string :=
  match SyncDirect.fetch e (urlOf e path) with
  | inr r => text r
  | inl _ => ""
  end.

Definition directResult (e : SyncDirect.env) (path : string) : SyncDirect.SyncResult :=
  {| SyncDirect.path := path;
     SyncDirect.hash := SyncDirect.hashContent e (fetchedText e path);
     SyncDirect.size := String.length (fetchedText e path) |}.

(** The entry the xAI script reports for a document in a dry run. *)
Definition xaiSkipped (e : Xai.env) (doc : string * string) : Xai.SyncResult :=
  {| Xai.path := Xai.pathToFilename (fst doc);
     Xai.title := Xai.titleOf e (snd doc) (fst doc);
     Xai.status := Xai.skipped |}.

(** The status a run gives every result: [skipped] in a dry run and
    [created] otherwise. *)
Definition xaiStatusOk (dryRun : bool) (r : Xai.SyncResult) : Prop :=
  Xai.status r = if dryRun then Xai.skipped else Xai.created.

Definition templateStatusOk (dryRun : bool) (r : LlmsTemplate.SyncResult) : Prop :=
  LlmsTemplate.status r = if dryRun then LlmsTemplate.skipped else LlmsTemplate.created.

Definition fastmcpStatusOk (dryRun : bool) (r : FastMCP.SyncResult) : Prop :=
  FastMCP.status r = if dryRun then FastMCP.skipped else FastMCP.created.

(** An invariant that only looks at the output directory. *)
Definition outOnly (Inv : world -> Prop) : Prop :=
  forall w w', Inv w -> sameOut w w' -> Inv w'.

(** No scratch directory is left. *)
Definition cleared : world -> Prop := fun w => scratch w = None.

(** The commit a run records: the trimmed output of [git rev-parse HEAD]. *)
Definition commitOf (e : FastMCP.env) : string :=
  match FastMCP.revParse e with
  | inr out => trim out
  | inl _ => ""
  end.

(** The manifest of the given results is on disk. *)
Definition manifestWritten (e : FastMCP.env) (rs : list FastMCP.SyncResult)
           (w : world) : Prop :=
  outFiles w !! "manifest.json"
  = Some (JsonText (FastMCP.manifestOf e (commitOf e) rs)).

(** The files the loop of [processDir] keeps: not in [SKIP_FILES] and named
    [*.md] or [*.mdx]. *)
Definition kept (f : string * string * string) : bool :=
  negb (FastMCP.has FastMCP.SKIP_FILES (snd (fst f)))
  && (endsWith ".md" (snd (fst f)) || endsWith ".mdx" (snd (fst f))).

(** The entry the FastMCP script reports for a kept file in a dry run. *)
Definition fastmcpSkipped (e : FastMCP.env) (f : string * string * string)
  : FastMCP.SyncResult :=
  {| FastMCP.path := FastMCP.outputNameOf (fst (fst f)) (snd (fst f));
     FastMCP.title := match FastMCP.headingOf e (snd f) with
                      | Some heading => heading
                      | None => FastMCP.stripMdExtension (snd (fst f))
                      end;
     FastMCP.status := FastMCP.skipped |}.

(** The output directory exists. *)
Definition outReady : world -> Prop := fun w => outDir w = true.

(** The scratch directory holds the repository [root]. *)
Definition clonedAs (root : list entry) : world -> Prop :=
  fun w => scratch w = Some root.

(** What a dry run of the FastMCP script reports for the directory
    [children]: one entry per kept file of the walk. *)
Definition dryResults (e : FastMCP.env) (children : list entry)
  : list FastMCP.SyncResult :=
  map (fastmcpSkipped e) (List.filter kept (walkAll "" children)).

End ScriptSpec.

(** ** Concrete runs used by the statements *)

Module Examples.

Import Js World.

(** Nothing on disk, nothing printed. *)
Definition emptyWorld : world :=
  {| scratch := None; outDir := false; outFiles := ∅; outOps := [];
     requests := []; console := [] |}.

Definition okResponse (body : string) : response :=
  {| status := 200; statusText := "OK"; text := body |}.

Definition notFound : response :=
  {| status := 404; statusText := "Not Found"; text := "" |}.

(** A direct-fetch run over the given paths in which exactly
    ["missing.md"] is answered with a 404. *)
Definition directEnv (paths : list string) : SyncDirect.env :=
  {| SyncDirect.BASE_URL := "https://docs.example.com";
     SyncDirect.DOC_PATHS := paths;
     SyncDirect.parsedArgs := inr false;
     SyncDirect.fetch :=
       fun url =>
         if String.eqb url "https://docs.example.com/missing.md" then inr notFound
         else inr (okResponse ("# " +:+ url));
     SyncDirect.sha256hex := fun content => "00112233445566778899aabbccddeeff";
     SyncDirect.now := "2025-01-01T00:00:00.000Z" |}.

Definition threePaths : SyncDirect.env := directEnv ["a.md"; "missing.md"; "c.md"].

(** A run of the xAI script with the given arguments on the given blob. *)
Definition xaiEnv (args : list string) (blob : string) : Xai.env :=
  {| Xai.argv := args; Xai.devBrowser := true; Xai.procStdout := blob;
     Xai.procExitCode := 0; Xai.procStderr := "";
     Xai.now := "2025-01-01T00:00:00.000Z"; Xai.headingOf := fun _ => None |}.

Definition twoSections : string :=
  "===/docs/a===" +:+ NL +:+ "hello" +:+ NL +:+ "===/b/c===" +:+ NL +:+ "world".

(** A run of the FastMCP script with the given arguments and clone. *)
Definition fastmcpEnv (args : list string) (clone : FastMCP.cloneResult) : FastMCP.env :=
  {| FastMCP.argv := args; FastMCP.cloned := clone;
     FastMCP.revParse := inr ("0a1b2c3" +:+ NL);
     FastMCP.now := "2025-01-01T00:00:00.000Z"; FastMCP.headingOf := fun _ => None |}.

Definition smallRepository : list entry :=
  [Dir "docs" [File "z.md" "Z";
               Dir "sub" [File "b.mdx" "B"; File "logo.png" ""];
               Dir "assets" [File "skipped.md" ""];
               File "a.md" "A"];
   File "README.md" "readme"].

(** A run of the GitHub template with the given flag and clone. *)
Definition githubEnv (flag : bool) (clone : FastMCP.cloneResult) : SyncGithub.env :=
  {| SyncGithub.parsedArgs := inr flag; SyncGithub.cloned := clone;
     SyncGithub.revParse := inr ("0a1b2c3" +:+ NL);
     SyncGithub.now := "2025-01-01T00:00:00.000Z" |}.

Definition cloneFails : FastMCP.cloneResult :=
  FastMCP.CloneFailed (Error "Command failed: git clone --depth 1") None.

End Examples.
(** ** Vocabulary of the statements about the titles *)

Module TitleSpec.

Import Js Regex.

(** Every code unit of [s] satisfies [f]. *)
Fixpoint every (f : ascii -> bool) (s : string) : bool :=
  match s with
  | EmptyString => true
  | String c s' => f c && every f s'
  end.

(** The last code unit of [s]. *)
Fixpoint lastUnit (s : string) : option ascii :=
  match s with
  | EmptyString => None
  | String c EmptyString => Some c
  | String _ s' => lastUnit s'
  end.

(** A line begins after [before]: it is empty or ends with a line
    terminator. *)
Definition lineBeginsAfter (before : string) : bool :=
  match lastUnit before with
  | None => true
  | Some c => isLineTerminator c
  end.

(** A line ends before [after]: it is empty or begins with a line
    terminator. *)
Definition lineEndsBefore (after : string) : bool :=
  match after with
  | EmptyString => true
  | String c _ => isLineTerminator c
  end.

(** [s] begins with a code unit that is not white space. *)
Definition beginsWithInk (s : string) : bool :=
  match s with
  | EmptyString => false
  | String c _ => negb (isWhiteSpace c)
  end.

Definition notHash (c : ascii) : bool := negb (Ascii.eqb c "#").

Definition notSlash (c : ascii) : bool := negb (Ascii.eqb c "/").

End TitleSpec.
(** ** Vocabulary of the statements about whole runs *)

Module RunSpec.

Import Js World.

(** The elements of [l] that are not in [seen], each once, in the order of
    their first occurrence. *)
Fixpoint distinctFrom (seen l : list string) : list string :=
  match l with
  | [] => []
  | x :: l' =>
      if existsb (String.eqb x) seen then distinctFrom seen l'
      else x :: distinctFrom (seen ++ [x]) l'
  end.

Definition firstOccurrences (l : list string) : list string := distinctFrom [] l.

(** The files [old] with the given ones written over them, in order. *)
Definition overlay (files : list (string * fileData)) (old : gmap string fileData)
  : gmap string fileData :=
  fold_left (fun m f => <[fst f := snd f]> m) files old.

(** What the last of the given writes to the file [k] put there. *)
Definition lastWrite (k : string) (files : list (string * fileData)) : option fileData :=
  fold_left (fun acc f => if String.eqb k (fst f) then Some (snd f) else acc) files None.

(** The file the xAI script writes for a document: its body under a
    front matter that names its source. *)
Definition xaiFile (doc : string * string) : string * fileData :=
  (Xai.pathToFilename (fst doc),
   PlainText ("---" +:+ NL +:+ "source: https://docs.x.ai/" +:+ fst doc +:+ NL
              +:+ "---" +:+ NL +:+ NL +:+ snd doc)).

(** The entry the xAI script reports for a document it wrote. *)
Definition xaiCreated (e : Xai.env) (doc : string * string) : Xai.SyncResult :=
  {| Xai.path := Xai.pathToFilename (fst doc);
     Xai.title := Xai.titleOf e (snd doc) (fst doc);
     Xai.status := Xai.created |}.

(** The file the FastMCP script writes for a file of the repository: a
    copy under the flat name. *)
Definition fastmcpCopy (f : string * string * string) : string * fileData :=
  (FastMCP.outputNameOf (fst (fst f)) (snd (fst f)), PlainText (snd f)).

(** The entry the FastMCP script reports for a file it copied. *)
Definition fastmcpCreated (e : FastMCP.env) (f : string * string * string)
  : FastMCP.SyncResult :=
  {| FastMCP.path := FastMCP.outputNameOf (fst (fst f)) (snd (fst f));
     FastMCP.title := match FastMCP.headingOf e (snd f) with
                      | Some heading => heading
                      | None => FastMCP.stripMdExtension (snd (fst f))
                      end;
     FastMCP.status := FastMCP.created |}.

(** The error with which [fetchLlmsTxt] of the xAI script fails, if it
    does: the dev-browser skill is missing, or the helper process ended
    with a status other than 0. *)
Definition xaiFetchError (e : Xai.env) : option exn :=
  if negb (Xai.devBrowser e) then
    Some (Error ("dev-browser skill not found. Please install it first." +:+ NL
                 +:+ "The xAI docs require browser automation to bypass Cloudflare."))
  else if negb (Xai.procExitCode e =? 0) then
    Some (Error ("Failed to fetch llms.txt: " +:+ Xai.procStderr e))
  else None.

(** The error that stops a run of the FastMCP script, if one does: the
    clone fails, [git rev-parse] fails, or the repository has no directory
    [docs]. *)
Definition fastmcpError (e : FastMCP.env) : option exn :=
  match FastMCP.cloned e with
  | FastMCP.CloneFailed error _ => Some error
  | FastMCP.Cloned root =>
      match FastMCP.revParse e with
      | inl error => Some error
      | inr _ =>
          match findEntry FastMCP.SOURCE_PATH root with
          | Some (Dir _ _) => None
          | Some _ => Some (Error "ENOTDIR: not a directory, scandir")
          | None =>
              Some (Error ("Source directory not found: " +:+ FastMCP.TEMP_DIR
                           +:+ "/" +:+ FastMCP.SOURCE_PATH))
          end
      end
  end.

(** Whether a run of the FastMCP script gets as far as making the output
    directory: it is not a dry run, and the clone and [git rev-parse]
    succeed. *)
Definition fastmcpReachesMkdir (e : FastMCP.env) : bool :=
  negb (existsb (String.eqb "--dry-run") (FastMCP.argv e))
  && match FastMCP.cloned e, FastMCP.revParse e with
     | FastMCP.Cloned _, inr _ => true
     | _, _ => false
     end.

(** The files the walk of [sync-github.ts] keeps: those named [*.mdx] or
    [*.md]. *)
Definition githubKept (f : string * string * (exn + string)) : bool :=
  endsWith ".mdx" (snd (fst f)) || endsWith ".md" (snd (fst f)).

(** Where a kept file goes: the same directory, [.mdx] turned into [.md]. *)
Definition githubOutput (f : string * string * (exn + string)) : string :=
  joinPath (fst (fst f)) (mdxToMd (snd (fst f))).

(** The error of the first kept file that cannot be read, if there is
    one. *)
Fixpoint githubFirstError (files : list (string * string * (exn + string)))
  : option exn :=
  match files with
  | [] => None
  | f :: files' =>
      if githubKept f then
        match snd f with
        | inl error => Some error
        | inr _ => githubFirstError files'
        end
      else githubFirstError files'
  end.

(** The copies [sync-github.ts] writes: one per kept file, up to the first
    one that cannot be read. *)
Fixpoint githubCopies (files : list (string * string * (exn + string)))
  : list (string * fileData) :=
  match files with
  | [] => []
  | f :: files' =>
      if githubKept f then
        match snd f with
        | inl _ => []
        | inr content => (githubOutput f, PlainText content) :: githubCopies files'
        end
      else githubCopies files'
  end.

(** The entries it reports for them. *)
Fixpoint githubResults (files : list (string * string * (exn + string)))
  : list SyncGithub.SyncResult :=
  match files with
  | [] => []
  | f :: files' =>
      if githubKept f then
        match snd f with
        | inl _ => []
        | inr content =>
            {| SyncGithub.path := githubOutput f;
               SyncGithub.size := String.length content |} :: githubResults files'
        end
      else githubResults files'
  end.

(** The file [sync-direct.ts] writes for a path it fetched: the body of
    the response, as it is. *)
Definition directCopy (e : SyncDirect.env) (path : string) : string * fileData :=
  (path, PlainText (ScriptSpec.fetchedText e path)).

(** The same for the llms.txt template: the file of a document, the entry
    reported for it, and the error with which [fetchLlmsTxt] fails when the
    request is rejected or answered with a status outside 200..299. *)
Definition templateFile (doc : LlmsTemplate.ParsedDoc) : string * fileData :=
  (LlmsTemplate.pathToFilename (LlmsTemplate.path doc),
   PlainText ("---" +:+ NL +:+ "source: " +:+ LlmsTemplate.BASE_DOC_URL +:+ "/"
              +:+ LlmsTemplate.path doc +:+ NL
              +:+ "---" +:+ NL +:+ NL +:+ LlmsTemplate.content doc)).

Definition templateCreated (e : LlmsTemplate.env) (doc : LlmsTemplate.ParsedDoc)
  : LlmsTemplate.SyncResult :=
  {| LlmsTemplate.path_ := LlmsTemplate.pathToFilename (LlmsTemplate.path doc);
     LlmsTemplate.title :=
       LlmsTemplate.extractTitle e (LlmsTemplate.content doc) (LlmsTemplate.path doc);
     LlmsTemplate.status := LlmsTemplate.created |}.

Definition templateSkipped (e : LlmsTemplate.env) (doc : LlmsTemplate.ParsedDoc)
  : LlmsTemplate.SyncResult :=
  {| LlmsTemplate.path_ := LlmsTemplate.pathToFilename (LlmsTemplate.path doc);
     LlmsTemplate.title :=
       LlmsTemplate.extractTitle e (LlmsTemplate.content doc) (LlmsTemplate.path doc);
     LlmsTemplate.status := LlmsTemplate.skipped |}.

Definition templateFetchError (e : LlmsTemplate.env) : option exn :=
  match LlmsTemplate.fetched e with
  | inl error => Some error
  | inr r =>
      if negb (ok r) then
        Some (Error ("Failed to fetch llms.txt: " +:+ digits (World.status r) +:+ " "
                     +:+ statusText r +:+ NL
                     +:+ "If this is a 403 error, the site may have bot protection." +:+ NL
                     +:+ "Consider using browser automation (dev-browser skill) to fetch."))
      else None
  end.

(** The blob the template fetched. *)
Definition templateBlob (e : LlmsTemplate.env) : string :=
  match LlmsTemplate.fetched e with
  | inl _ => ""
  | inr r => text r
  end.

(** The last line printed. *)
Definition lastLine (w : world) : option consoleLine := last (console w).

End RunSpec.
(** ** Vocabulary of the statements about the pages *)

Module PageSpec.

Import Js World SyncHtml HtmlPage.

(** A tree without the descendants that are unwanted, and without what
    those hold. *)
Fixpoint prune (unwanted : node -> bool) (n : node) : node :=
  match n with
  | Text _ => n
  | Element nodeName attrs children =>
      Element nodeName attrs
        ((fix rest (l : list node) : list node :=
            match l with
            | [] => []
            | child :: l' =>
                if unwanted child then rest l'
                else prune unwanted child :: rest l'
            end) children)
  end.

(** A node matches one of the selectors. *)
Definition matchesAny (selectors : list selector) (n : node) : bool :=
  existsb (fun sel => matches sel n) selectors.

(** The attributes of a node. *)
Definition attributesOf (n : node) : list (string * string) :=
  match n with
  | Text _ => []
  | Element _ attrs _ => attrs
  end.

(** Every element of the document, in document order. *)
Definition elements (doc : document) : list node :=
  flat_map (fun root => root :: descendants root) (roots doc).

(** The page is converted: the response has a 2xx status and the document
    has a content area or a body. *)
Definition converts (e : env) (page : DocPage) : bool :=
  match fetch e (url page) with
  | inl _ => false
  | inr r =>
      ok r && match findArticle CONTENT_SELECTORS (parseHTML e (text r)) with
              | Some _ => true
              | None => false
              end
  end.

(** The file a converted page of index [tick] is written to. *)
Definition pageFile (e : env) (tick : nat) (page : DocPage) : option (string * fileData) :=
  match fetch e (url page) with
  | inl _ => None
  | inr r =>
      if ok r then
        match findArticle CONTENT_SELECTORS (parseHTML e (text r)) with
        | Some article =>
            Some (outputPath page,
                  PlainText
                    (withFrontMatter page (now e tick)
                       (turndown e (childNodesOf (clean REMOVE_SELECTORS article)))))
        | None => None
        end
      else None
  end.

(** The files of the pages that are converted, [tick] being the index of
    the first page. *)
Fixpoint pageFiles (e : env) (tick : nat) (pages : list DocPage)
  : list (string * fileData) :=
  match pages with
  | [] => []
  | page :: pages' =>
      match pageFile e tick page with
      | Some file => file :: pageFiles e (S tick) pages'
      | None => pageFiles e (S tick) pages'
      end
  end.

End PageSpec.
(** ** Vocabulary of the statements about writing and reading llms.txt *)

Module LlmsSpec.

Import Js Llms TitleSpec ParserSpec.

(** A document as a section of an llms.txt blob: its header line and its
    body, each ended by a line feed. *)
Definition renderDoc (doc : string * string) : string :=
  "===/" +:+ fst doc +:+ "===" +:+ NL +:+ snd doc +:+ NL.

Definition render (docs : list (string * string)) : string :=
  fold_right (fun doc blob => renderDoc doc +:+ blob) "" docs.

(** A document a section can hold and give back: a path that is not empty
    and has no equals sign, and a body that is not empty, is trimmed and
    does not contain the delimiter. *)
Definition writable (doc : string * string) : bool :=
  nonEmpty (fst doc) && every notEq (fst doc)
  && nonEmpty (snd doc) && String.eqb (trim (snd doc)) (snd doc)
  && negb (occursIn "===/" (snd doc)).

(** No cut is made inside [a] when [b] follows it: the delimiter begins at
    none of the positions of [a]. *)
Fixpoint uncut (a b : string) : bool :=
  match a with
  | EmptyString => true
  | String _ t => negb (startsWith "===/" (a +:+ b)) && uncut t b
  end.

End LlmsSpec.
(** ** More concrete runs *)

Module MoreExamples.

Import Js World SyncHtml HtmlPage Examples.

(** A run of the xAI script in which titles are found as the script finds
    them. *)
Definition xaiRealEnv (args : list string) (blob : string) : Xai.env :=
  {| Xai.argv := args; Xai.devBrowser := true; Xai.procStdout := blob;
     Xai.procExitCode := 0; Xai.procStderr := "";
     Xai.now := "2025-01-01T00:00:00.000Z"; Xai.headingOf := Title.matchHeading |}.

(** A run of the xAI script whose helper process fails. *)
Definition xaiHelperFails : Xai.env :=
  {| Xai.argv := []; Xai.devBrowser := true; Xai.procStdout := "";
     Xai.procExitCode := 1; Xai.procStderr := "net::ERR_CONNECTION_REFUSED";
     Xai.now := "2025-01-01T00:00:00.000Z"; Xai.headingOf := Title.matchHeading |}.

(** A run of the llms.txt template with the given arguments and answer. *)
Definition templateEnv (args : list string) (answer : response) : LlmsTemplate.env :=
  {| LlmsTemplate.argv := args; LlmsTemplate.fetched := inr answer;
     LlmsTemplate.now := "2025-01-01T00:00:00.000Z";
     LlmsTemplate.headingOf := Title.matchHeading |}.

Definition forbidden : response :=
  {| status := 403; statusText := "Forbidden"; text := "" |}.

(** A repository without a [docs] directory. *)
Definition noDocs : list entry := [File "README.md" "readme"].

(** A repository in which one markdown file cannot be read. *)
Definition brokenLink : list entry :=
  [Dir "docs" [File "a.md" "A";
               Other "b.md" (inl (Error "ENOENT: no such file or directory, open"));
               File "c.md" "C"]].

(** A page with navigation around and inside its content. *)
Definition samplePage : node :=
  Element "BODY" []
    [Element "NAV" [] [Text "menu"];
     Element "MAIN" [("class", "page content")]
       [Element "H1" [] [Text "Title"];
        Element "DIV" [("class", "sidebar left")] [Element "P" [] [Text "side"]];
        Element "P" [] [Text "text"; Element "SCRIPT" [] [Text "js"]]]].

Definition sampleDocument : document :=
  {| roots := [Element "HTML" [] [samplePage]]; body := Some samplePage |}.

(** A run of the HTML template over two pages of which the second is
    answered with a 404; the markdown is the text of the nodes. *)
Definition htmlEnv (flag : bool) : HtmlPage.env :=
  {| DOC_PAGES :=
       [{| url := "https://docs.example.com/getting-started";
           outputPath := "getting-started.md"; title := "Getting Started" |};
        {| url := "https://docs.example.com/missing";
           outputPath := "missing.md"; title := "Missing" |}];
     parsedArgs := inr flag;
     fetch := fun address =>
                if String.eqb address "https://docs.example.com/missing"
                then inr notFound else inr (okResponse "<html>");
     parseHTML := fun _ => sampleDocument;
     turndown := fun nodes => textContent (Element "DIV" [] nodes);
     now := fun _ => "2025-01-01T00:00:00.000Z" |}.

(** A clone of the documentation repository of LangChain, cut down. *)
Definition langgraphRepository : list entry :=
  [Dir "src" [Dir "oss" [Dir "langgraph" [File "overview.mdx" "# Overview";
                                          Dir "how-tos" [File "memory.md" "M"];
                                          File "logo.png" ""];
                         Dir "langchain" [File "agents.mdx" "A"]]];
   File "README.md" "readme"].

(** The circumstances of a run of the FastMCP script, or of the xAI
    script, an hour later. *)
Definition laterFastmcp (e : FastMCP.env) : FastMCP.env :=
  {| FastMCP.argv := FastMCP.argv e; FastMCP.cloned := FastMCP.cloned e;
     FastMCP.revParse := FastMCP.revParse e;
     FastMCP.now := "2025-01-01T01:00:00.000Z";
     FastMCP.headingOf := FastMCP.headingOf e |}.

Definition laterXai (e : Xai.env) : Xai.env :=
  {| Xai.argv := Xai.argv e; Xai.devBrowser := Xai.devBrowser e;
     Xai.procStdout := Xai.procStdout e; Xai.procExitCode := Xai.procExitCode e;
     Xai.procStderr := Xai.procStderr e;
     Xai.now := "2025-01-01T01:00:00.000Z"; Xai.headingOf := Xai.headingOf e |}.

End MoreExamples.
(** ** Vocabulary of the statements about reports, names and languages *)

Module ReportSpec.

Import Js World ScriptSpec.

Definition isErrorLine (l : consoleLine) : bool :=
  match l with
  | LogError _ _ => true
  | Log _ => false
  end.

(** The lines of the console printed with [console.error], in order. *)
Definition errorLines (c : list consoleLine) : list consoleLine :=
  List.filter isErrorLine c.

(** The error with which the fetch of a path of [sync-direct.ts] fails, if
    it does: the one of the network, or the one [fetchDoc] makes of a
    status outside 200..299. *)
Definition fetchFailure (e : SyncDirect.env) (path : string) : option exn :=
  match SyncDirect.fetch e (urlOf e path) with
  | inl error => Some error
  | inr r =>
      if ok r then None
      else Some (Error ("Failed to fetch " +:+ urlOf e path +:+ ": "
                        +:+ digits (World.status r)))
  end.

(** What is printed with [console.error] for a path: nothing when its
    fetch succeeds, and one line naming the path with the error
    otherwise. *)
Definition failureReport (e : SyncDirect.env) (path : string) : list consoleLine :=
  match fetchFailure e path with
  | Some error => [LogError ("Failed to sync " +:+ path +:+ ":") error]
  | None => []
  end.

End ReportSpec.

Module NameSpec.

Import Js ParserSpec TitleSpec.

(** The segments of a path put together with a separator between them. *)
Fixpoint joinWith (sep : string) (segments : list string) : string :=
  match segments with
  | [] => ""
  | [segment] => segment
  | segment :: rest => segment +:+ sep +:+ joinWith sep rest
  end.

Definition endsWithDash (s : string) : bool :=
  match lastUnit s with
  | Some c => Ascii.eqb c "-"
  | None => false
  end.

(** A segment as the paths of an llms.txt blob have them: not empty,
    without slash, and with dashes only one at a time and inside. *)
Definition plainSegment (s : string) : bool :=
  nonEmpty s && every notSlash s && negb (occursIn "--" s)
  && negb (startsWith "-" s) && negb (endsWithDash s).

(** The segments without a leading [docs] that others follow. *)
Definition withoutDocs (segments : list string) : list string :=
  match segments with
  | first :: (_ :: _) as rest => if String.eqb first "docs" then rest else segments
  | _ => segments
  end.

Definition isSeparator (c : ascii) : bool := Ascii.eqb c "/" || Ascii.eqb c "-".

(** [s] with every maximal run of slashes and dashes replaced by one dash,
    in one pass; [inRun] tells that the code unit before [s] belongs to the
    run being replaced. *)
Fixpoint squeezeFrom (inRun : bool) (s : string) : string :=
  match s with
  | EmptyString => EmptyString
  | String c s' =>
      if isSeparator c then
        if inRun then squeezeFrom true s' else String "-" (squeezeFrom true s')
      else String c (squeezeFrom false s')
  end.

Definition oneDashPerRun (s : string) : string := squeezeFrom false s.

End NameSpec.

Module LanguageSpec.

Import Js.

(** [/language-\w/] matches at the very beginning of [s]. *)
Definition languageAt (s : string) : bool :=
  startsWith "language-" s
  && match slice 9 s with
     | String c _ => isWord c
     | EmptyString => false
     end.

(** [s] begins with a word character. *)
Definition beginsWithWord (s : string) : bool :=
  match s with
  | String c _ => isWord c
  | EmptyString => false
  end.

End LanguageSpec.

Module RerunSpec.

Import World ScriptSpec.

(** What a second run leaves, stated once for the two scripts: [one] and
    [two] are the files after the first and after the second run, [alone]
    those after the second run without the first. *)
Definition secondRunLeaves (sameClock : Prop) (one two alone : gmap string fileData)
  : Prop :=
  two = alone
  /\ (forall name, name <> "manifest.json" -> two !! name = one !! name)
  /\ (forall m1, one !! "manifest.json" = Some (JsonText m1) ->
      exists m2, two !! "manifest.json" = Some (JsonText m2)
                 /\ forall key, key <> "syncedAt" -> field key m2 = field key m1)
  /\ (sameClock -> two = one).

End RerunSpec.
(** ** Facts about the string primitives *)

Section StringFacts.

Import Js.

Lemma append_nil_r (s : string) : s +:+ "" = s.
Proof. induction s as [|c s IH]; simpl; [reflexivity | now f_equal]. Qed.

Lemma append_assoc (a b c : string) : (a +:+ b) +:+ c = a +:+ (b +:+ c).
Proof. induction a as [|x a IH]; simpl; [reflexivity | now f_equal]. Qed.

Lemma length_append (a b : string) :
  String.length (a +:+ b) = String.length a + String.length b.
Proof. induction a as [|x a IH]; simpl; [reflexivity | now f_equal]. Qed.

Lemma slice_append (a b : string) : slice (String.length a) (a +:+ b) = b.
Proof. induction a as [|x a IH]; simpl; [now destruct b | exact IH]. Qed.

Lemma startsWith_append (p s : string) : startsWith p (p +:+ s) = true.
Proof.
  induction p as [|x p IH]; simpl; [reflexivity |].
  now rewrite Ascii.eqb_refl.
Qed.

Lemma startsWith_inv (p s : string) :
  startsWith p s = true -> s = p +:+ slice (String.length p) s.
Proof.
  revert s. induction p as [|x p IH]; intros s H; simpl in *.
  - now destruct s.
  - destruct s as [|y s]; [discriminate |].
    apply andb_true_iff in H as [E H]. apply Ascii.eqb_eq in E as ->.
    simpl. f_equal. now apply IH.
Qed.

Lemma endsWith_append (pre e : string) : endsWith e (pre +:+ e) = true.
Proof.
  unfold endsWith. rewrite length_append.
  replace (String.length pre + String.length e - String.length e)
    with (String.length pre) by lia.
  rewrite slice_append, String.eqb_refl. simpl. apply Nat.leb_le. lia.
Qed.

Lemma slice_length_split (n : nat) (s : string) :
  n <= String.length s ->
  exists pre, s = pre +:+ slice n s /\ String.length pre = n.
Proof.
  revert s. induction n as [|n IH]; intros s H.
  - exists ""%string. destruct s; simpl; auto.
  - destruct s as [|c s]; simpl in H; [lia |].
    destruct (IH s) as [pre [E L]]; [lia |].
    exists (String c pre). simpl. split; [now f_equal | now f_equal].
Qed.

Lemma endsWith_inv (e s : string) :
  endsWith e s = true -> exists pre, s = pre +:+ e.
Proof.
  unfold endsWith. intros H. apply andb_true_iff in H as [E L].
  apply String.eqb_eq in E. apply Nat.leb_le in L.
  destruct (slice_length_split (String.length s - String.length e) s)
    as [pre [Hs _]]; [lia |].
  exists pre. now rewrite E in Hs.
Qed.

Lemma replaceSlashes_append (a b : string) :
  replaceSlashes (a +:+ b) = replaceSlashes a +:+ replaceSlashes b.
Proof. induction a as [|x a IH]; simpl; [reflexivity | now f_equal]. Qed.

(** A run that starts with a code unit other than a dash is copied as it
    is reached, whatever came before it. *)
Lemma collapseDashesFrom_append (prev : bool) (a : string) (c : ascii) (b : string) :
  Ascii.eqb c "-" = false ->
  collapseDashesFrom prev (a +:+ String c b)
  = collapseDashesFrom prev a +:+ String c (collapseDashesFrom false b).
Proof.
  intros Hc. revert prev. induction a as [|x a IH]; intros prev; simpl.
  - now rewrite Hc.
  - destruct (Ascii.eqb x "-"); [destruct prev|]; simpl; now rewrite IH.
Qed.

Inductive NoChar (c : ascii) : string -> Prop :=
| NoChar_nil : NoChar c ""
| NoChar_cons (x : ascii) (s : string) :
    x <> c -> NoChar c s -> NoChar c (String x s).

Lemma NoChar_append (c : ascii) (a b : string) :
  NoChar c a -> NoChar c b -> NoChar c (a +:+ b).
Proof. induction 1; simpl; [auto | constructor; auto]. Qed.

Lemma replaceSlashes_NoChar (s : string) : NoChar "/" (replaceSlashes s).
Proof.
  induction s as [|x s IH]; simpl; constructor; [|exact IH].
  destruct (Ascii.eqb_spec x "/"); [discriminate | assumption].
Qed.

Lemma collapseDashesFrom_NoChar (c : ascii) (prev : bool) (s : string) :
  NoChar c s -> NoChar c (collapseDashesFrom prev s).
Proof.
  intros H. revert prev. induction H as [|x s Hx _ IH]; intros prev; simpl.
  - constructor.
  - destruct (Ascii.eqb_spec x "-") as [->|_].
    + destruct prev; [apply IH | constructor; [exact Hx | apply IH]].
    + constructor; [exact Hx | apply IH].
Qed.

Lemma trimStart_idem (s : string) : trimStart (trimStart s) = trimStart s.
Proof.
  induction s as [|c s IH]; simpl; [reflexivity |].
  destruct (isWhiteSpace c) eqn:E; [exact IH | simpl; now rewrite E].
Qed.

End StringFacts.


(** ** Facts about the section parser *)

Section SplitFacts.

Import Js Llms ParserSpec.

Lemma splitSections_step (c : ascii) (rest : string) :
  splitSections (String c rest)
  = if startsWith "===/" rest then String c "" :: splitSections rest
    else match splitSections rest with
         | section :: sections => String c section :: sections
         | [] => [String c ""]
         end.
Proof. reflexivity. Qed.

Lemma splitSections_cons (content : string) :
  exists section sections, splitSections content = section :: sections.
Proof.
  induction content as [|c rest [s [ss IH]]]; [simpl; eauto |].
  rewrite splitSections_step, IH.
  destruct (startsWith "===/" rest); eauto.
Qed.

Lemma joined_splitSections (content : string) :
  joined (splitSections content) = content.
Proof.
  induction content as [|c rest IH]; [reflexivity |].
  rewrite splitSections_step.
  destruct (startsWith "===/" rest); [simpl; now rewrite IH |].
  destruct (splitSections rest) as [|s ss]; simpl in *; now rewrite <- IH.
Qed.

Lemma length_splitSections (content : string) :
  length (splitSections content) = 1 + cuts content.
Proof.
  induction content as [|c rest IH]; [reflexivity |].
  rewrite splitSections_step. cbn [cuts].
  destruct (startsWith "===/" rest); [simpl; now rewrite IH |].
  destruct (splitSections rest) as [|s ss]; simpl in *; lia.
Qed.

Lemma startsWith_app_r (p a b : string) :
  startsWith p a = true -> startsWith p (a +:+ b) = true.
Proof.
  revert a. induction p as [|x p IH]; intros a H; [reflexivity |].
  destruct a as [|y a]; [discriminate |]. simpl in *.
  apply andb_true_iff in H as [E H]. rewrite E. simpl. now apply IH.
Qed.

(** The first section reaches at least to the end of a delimiter that
    begins the blob: no cut falls inside the delimiter. *)
Lemma head_splitSections (content section : string) (sections : list string) :
  splitSections content = section :: sections ->
  startsWith "===/" section = startsWith "===/" content.
Proof.
  intros Hs. destruct (startsWith "===/" content) eqn:E.
  - pose proof (startsWith_inv _ _ E) as E'.
    remember (slice (String.length "===/") content) as r eqn:Hr. clear Hr E.
    subst content. revert Hs.
    change ("===/" +:+ r) with (String "=" (String "=" (String "=" (String "/" r)))).
    do 3 (rewrite splitSections_step;
          match goal with |- context [startsWith ?d ?s] =>
            change (startsWith d s) with false end; cbv iota).
    rewrite splitSections_step.
    destruct (startsWith "===/" r).
    + cbv iota. intros [= <- _]. reflexivity.
    + destruct (splitSections r); cbv iota; intros [= <- _]; reflexivity.
  - destruct (startsWith "===/" section) eqn:F; [|reflexivity].
    pose proof (joined_splitSections content) as J. rewrite Hs in J.
    simpl in J. rewrite <- J in E.
    now rewrite (startsWith_app_r _ _ _ F) in E.
Qed.

Lemma tail_splitSections (content : string) :
  Forall (fun s => startsWith "===/" s = true) (tl (splitSections content)).
Proof.
  induction content as [|c rest IH]; [constructor |].
  rewrite splitSections_step.
  destruct (startsWith "===/" rest) eqn:E; cbn [tl].
  - destruct (splitSections_cons rest) as [s [ss Hs]].
    rewrite Hs in *. cbn [tl] in IH. constructor; [|exact IH].
    now rewrite (head_splitSections _ _ _ Hs).
  - destruct (splitSections rest) as [|s ss]; cbn [tl] in *; [constructor | exact IH].
Qed.

Lemma cuts_splitSections (content : string) :
  Forall (fun s => cuts s = 0) (splitSections content).
Proof.
  induction content as [|c rest IH]; [repeat constructor |].
  rewrite splitSections_step.
  destruct (startsWith "===/" rest) eqn:E.
  - constructor; [|exact IH]. cbn [cuts]. reflexivity.
  - destruct (splitSections rest) as [|s ss] eqn:Hs; [repeat constructor |].
    inversion IH as [|? ? H0 Hrest]; subst.
    constructor; [|exact Hrest].
    cbn [cuts]. now rewrite (head_splitSections _ _ _ Hs), E, H0.
Qed.

Lemma parseSection_no_delim (section : string) :
  startsWith "===/" section = false -> parseSection section = None.
Proof. intros H. unfold parseSection, matchHeader. now rewrite H. Qed.

Lemma sectionDocs_fromFirstDelim (content : string) :
  sectionDocs content = sectionDocs (fromFirstDelim content).
Proof.
  unfold sectionDocs.
  induction content as [|c rest IH]; [reflexivity |].
  cbn [fromFirstDelim].
  destruct (startsWith "===/" (String c rest)) eqn:E; [reflexivity |].
  rewrite <- IH, splitSections_step.
  destruct (startsWith "===/" rest) eqn:F.
  - cbn [emitted]. rewrite parseSection_no_delim; [reflexivity |].
    change (startsWith "===/" (String c "")) with (Ascii.eqb "=" c && false).
    apply andb_false_r.
  - destruct (splitSections_cons rest) as [s [ss Hs]]. rewrite Hs in *.
    cbn [emitted]. rewrite !parseSection_no_delim; [reflexivity | |].
    + now rewrite (head_splitSections _ _ _ Hs).
    + pose proof (head_splitSections (String c rest) (String c s) ss) as H.
      rewrite splitSections_step, F, Hs in H. rewrite H; auto.
Qed.

Lemma fromFirstDelim_none (content : string) :
  occursIn "===/" content = false -> fromFirstDelim content = "".
Proof.
  induction content as [|c rest IH]; [reflexivity |].
  cbn [occursIn fromFirstDelim]. intros H.
  apply orb_false_iff in H as [H1 H2]. rewrite H1. now apply IH.
Qed.

End SplitFacts.

(** ** Facts about the [Map] of documents *)

Section MapFacts.

Import Js Llms ParserSpec.

Lemma get_set (k k' v : string) (m : JsMap.t) :
  JsMap.get k' (JsMap.set k v m)
  = if String.eqb k' k then Some v else JsMap.get k' m.
Proof.
  induction m as [|[k0 v0] m IH]; simpl.
  - reflexivity.
  - destruct (String.eqb_spec k k0) as [->|Hk]; simpl.
    + destruct (String.eqb k' k0); reflexivity.
    + rewrite IH. destruct (String.eqb_spec k' k0) as [->|]; [|reflexivity].
      destruct (String.eqb_spec k0 k); [congruence | reflexivity].
Qed.

Lemma keys_set (k v : string) (m : JsMap.t) :
  JsMap.keys (JsMap.set k v m)
  = if existsb (String.eqb k) (JsMap.keys m) then JsMap.keys m
    else JsMap.keys m ++ [k].
Proof.
  induction m as [|[k0 v0] m IH]; simpl; [reflexivity |].
  destruct (String.eqb_spec k k0) as [->|Hk]; simpl; [reflexivity |].
  rewrite IH. destruct (existsb (String.eqb k) (JsMap.keys m)); reflexivity.
Qed.

Lemma NoDup_keys_set (k v : string) (m : JsMap.t) :
  NoDup (JsMap.keys m) -> NoDup (JsMap.keys (JsMap.set k v m)).
Proof.
  intros H. rewrite keys_set.
  destruct (existsb (String.eqb k) (JsMap.keys m)) eqn:E; [exact H |].
  apply NoDup_app; split; [exact H | split; [|repeat constructor; apply not_elem_of_nil]].
  intros x Hx Hk. apply list_elem_of_singleton in Hk as ->.
  assert (existsb (String.eqb k) (JsMap.keys m) = true); [|congruence].
  apply existsb_exists. exists k. split; [now apply list_elem_of_In | apply String.eqb_refl].
Qed.

Lemma xai_parse_fold (content : string) :
  Xai.parseLlmsTxt content = fold_left setDoc (sectionDocs content) JsMap.empty.
Proof.
  unfold Xai.parseLlmsTxt, sectionDocs. generalize JsMap.empty.
  induction (splitSections content) as [|s ss IH]; intros acc; [reflexivity |].
  cbn [fold_left emitted]. rewrite IH.
  destruct (parseSection s) as [[p b]|]; reflexivity.
Qed.

Lemma template_fold (sections : list string) (acc : list LlmsTemplate.ParsedDoc) :
  fold_left
    (fun docs section =>
       match parseSection section with
       | Some (p, body) =>
           docs ++ [{| LlmsTemplate.path := p; LlmsTemplate.content := body |}]
       | None => docs
       end) sections acc
  = acc ++ map mkDoc (emitted sections).
Proof.
  revert acc. induction sections as [|s ss IH]; intros acc.
  - simpl. now rewrite app_nil_r.
  - cbn [fold_left emitted]. rewrite IH.
    destruct (parseSection s) as [[p b]|]; [|reflexivity].
    cbn [map]. now rewrite <- app_assoc.
Qed.

Lemma template_parse_map (content : string) :
  LlmsTemplate.parseLlmsTxt content = map mkDoc (sectionDocs content).
Proof. apply (template_fold (splitSections content) []). Qed.

Lemma get_fold_setDoc (p : string) (docs : list (string * string)) (m : JsMap.t) :
  JsMap.get p (fold_left setDoc docs m)
  = fold_left (fun acc d => if String.eqb p (fst d) then Some (snd d) else acc)
              docs (JsMap.get p m).
Proof.
  revert m. induction docs as [|d docs IH]; intros m; [reflexivity |].
  cbn [fold_left]. rewrite IH. unfold setDoc. now rewrite get_set.
Qed.

Lemma NoDup_keys_fold (docs : list (string * string)) (m : JsMap.t) :
  NoDup (JsMap.keys m) -> NoDup (JsMap.keys (fold_left setDoc docs m)).
Proof.
  revert m. induction docs as [|d docs IH]; intros m H; [exact H |].
  cbn [fold_left]. apply IH. now apply NoDup_keys_set.
Qed.

Lemma emitted_spec (doc : string * string) (sections : list string) :
  In doc (emitted sections) <->
  exists section, In section sections
    /\ matchHeader section = Some (fst doc)
    /\ trim (stripHeader section) = snd doc
    /\ snd doc <> "".
Proof.
  induction sections as [|s ss IH]; cbn [emitted].
  - split; [intros [] | intros [? [[] _]]].
  - assert (parseSection s = Some doc <->
            matchHeader s = Some (fst doc) /\ trim (stripHeader s) = snd doc
            /\ snd doc <> "") as Hs.
    { unfold parseSection. destruct doc as [p b]. cbn [fst snd].
      destruct (matchHeader s) as [q|]; [|split; [discriminate | intros [? _]; discriminate]].
      destruct (trim (stripHeader s)) as [|c t] eqn:T; cbn [nonEmpty].
      - split; [discriminate | intros [_ [<- H]]; now elim H].
      - split; [intros [= -> <-]; repeat split; discriminate
               | intros [[= ->] [<- _]]; reflexivity]. }
    destruct (parseSection s) as [d|] eqn:P.
    + split.
      * intros [<-|H]; [exists s; split; [now left | now apply Hs] |].
        apply IH in H as [x [Hx Hrest]]. exists x. split; [now right | exact Hrest].
      * intros [x [[<-|Hx] Hrest]].
        -- left. apply Hs in Hrest. congruence.
        -- right. apply IH. eauto.
    + rewrite IH. split.
      * intros [x [Hx Hrest]]. exists x. split; [now right | exact Hrest].
      * intros [x [[<-|Hx] Hrest]]; [apply Hs in Hrest; discriminate | eauto].
Qed.

End MapFacts.

(** ** Reasoning about the computations *)

Section Triples.

Import Js World ScriptSpec.

Context {A B : Type}.

Lemma triple_weaken (P P' : world -> Prop) (m : M A)
      (Q Q' : A -> world -> Prop) (E E' : exn -> world -> Prop)
      (X X' : nat -> world -> Prop) :
  triple P' m Q' E' X' ->
  (forall w, P w -> P' w) ->
  (forall a w, Q' a w -> Q a w) ->
  (forall e w, E' e w -> E e w) ->
  (forall c w, X' c w -> X c w) ->
  triple P m Q E X.
Proof.
  intros H HP HQ HE HX w Hw. specialize (H w (HP w Hw)).
  destruct (m w) as [[a|e|c] w']; auto.
Qed.

Lemma triple_ret (a : A) (Q : A -> world -> Prop) E X :
  triple (Q a) (ret a) Q E X.
Proof. intros w Hw. exact Hw. Qed.

Lemma triple_throw (e : exn) (Q : A -> world -> Prop) E X :
  triple (E e) (throw e) Q E X.
Proof. intros w Hw. exact Hw. Qed.

Lemma triple_exit (code : nat) (Q : A -> world -> Prop) E X :
  triple (X code) (exit code) Q E X.
Proof. intros w Hw. exact Hw. Qed.

Lemma triple_bind (P : world -> Prop) (m : M A) (k : A -> M B)
      (R : A -> world -> Prop) (Q : B -> world -> Prop) E X :
  triple P m R E X ->
  (forall a, triple (R a) (k a) Q E X) ->
  triple P (bind m k) Q E X.
Proof.
  intros Hm Hk w Hw. specialize (Hm w Hw). unfold bind.
  destruct (m w) as [[a|e|c] w']; [apply (Hk a w' Hm) | exact Hm | exact Hm].
Qed.

Lemma triple_tryCatch (P : world -> Prop) (body : M A)
      (handler : exn -> M A) (R : exn -> world -> Prop)
      (Q : A -> world -> Prop) E X :
  triple P body Q R X ->
  (forall e, triple (R e) (handler e) Q E X) ->
  triple P (tryCatch body handler) Q E X.
Proof.
  intros Hb Hh w Hw. specialize (Hb w Hw). unfold tryCatch.
  destruct (body w) as [[a|e|c] w']; [exact Hb | apply (Hh e w' Hb) | exact Hb].
Qed.

Lemma triple_tryFinally (P : world -> Prop) (body : M A)
      (final : M unit) (Rn : A -> world -> Prop) (Rt : exn -> world -> Prop)
      (Q : A -> world -> Prop) E X :
  triple P body Rn Rt X ->
  (forall a, triple (Rn a) final (fun _ => Q a) E X) ->
  (forall e, triple (Rt e) final (fun _ => E e) E X) ->
  triple P (tryFinally body final) Q E X.
Proof.
  intros Hb Hn Ht w Hw. specialize (Hb w Hw). unfold tryFinally.
  destruct (body w) as [[a|e|c] w']; [| |exact Hb].
  - specialize (Hn a w' Hb). destruct (final w') as [[u|e'|c'] w'']; exact Hn.
  - specialize (Ht e w' Hb). destruct (final w') as [[u|e'|c'] w'']; exact Ht.
Qed.

Lemma bind_ret_r (m : M A) (w : world) : bind m ret w = m w.
Proof. unfold bind, ret. now destruct (m w) as [[a|e|c] w']. Qed.

End Triples.

Section Loops.

Import Js World ScriptSpec.

Context {A S : Type}.

(** A loop, with an invariant that knows the elements already handled. *)
Lemma triple_forEach (body : S -> A -> M S)
      (I : list A -> S -> world -> Prop) E X (l seen : list A) (s : S) :
  (forall seen x s, triple (I seen s) (body s x) (I (seen ++ [x])) E X) ->
  triple (I seen s) (forEach body l s) (I (seen ++ l)) E X.
Proof.
  intros Hbody. revert seen s. induction l as [|x l IH]; intros seen s.
  - rewrite app_nil_r. apply triple_ret.
  - cbn [forEach]. eapply triple_bind; [apply Hbody |].
    intros s'. replace (seen ++ x :: l) with ((seen ++ [x]) ++ l)
      by now rewrite <- app_assoc.
    apply IH.
Qed.

Lemma forEach_app (body : S -> A -> M S) (l1 l2 : list A) (s : S) (w : world) :
  forEach body (l1 ++ l2) s w = bind (forEach body l1 s) (forEach body l2) w.
Proof.
  revert s w. induction l1 as [|x l1 IH]; intros s w; [reflexivity |].
  cbn [forEach app]. unfold bind.
  destruct (body s x w) as [[s'|e|c] w']; [|reflexivity|reflexivity].
  rewrite IH. reflexivity.
Qed.

End Loops.

Section Keeps.

Import Js World ScriptSpec.

Context (Inv : world -> Prop) (X : nat -> world -> Prop).

Lemma keeps_ret {A : Type} (a : A) : keeps Inv X (ret a).
Proof. apply (triple_ret a (fun _ => Inv)). Qed.

Lemma keeps_throw {A : Type} (e : exn) : keeps Inv X (@throw A e).
Proof. apply (triple_throw e (fun _ => Inv) (fun _ => Inv)). Qed.

Lemma keeps_bind {A B : Type} (m : M A) (k : A -> M B) :
  keeps Inv X m -> (forall a, keeps Inv X (k a)) -> keeps Inv X (bind m k).
Proof. intros Hm Hk. eapply triple_bind; [exact Hm | exact Hk]. Qed.

Lemma keeps_tryCatch {A : Type} (body : M A) (handler : exn -> M A) :
  keeps Inv X body -> (forall e, keeps Inv X (handler e)) ->
  keeps Inv X (tryCatch body handler).
Proof. intros Hb Hh. eapply triple_tryCatch; [exact Hb | exact Hh]. Qed.

Lemma keeps_tryFinally {A : Type} (body : M A) (final : M unit) :
  keeps Inv X body -> keeps Inv X final -> keeps Inv X (tryFinally body final).
Proof.
  intros Hb Hf. eapply triple_tryFinally; [exact Hb | |]; intros ?; exact Hf.
Qed.

Lemma keeps_forEach {A S : Type} (body : S -> A -> M S) (l : list A) (s : S) :
  (forall s x, keeps Inv X (body s x)) -> keeps Inv X (forEach body l s).
Proof.
  intros Hb.
  apply (triple_forEach body (fun _ _ => Inv) (fun _ => Inv) X l [] s).
  intros ? x s'. apply Hb.
Qed.

Lemma keeps_when (cond : bool) (m : M unit) :
  (cond = true -> keeps Inv X m) -> keeps Inv X (when cond m).
Proof. intros H. destruct cond; [now apply H | apply keeps_ret]. Qed.

(** A primitive that never exits and whose effect on the world respects the
    invariant. *)
Lemma keeps_prim {A : Type} (m : M A) :
  (forall w, Inv w -> Inv (snd (m w))) ->
  (forall w c, fst (m w) <> Exit c) ->
  keeps Inv X m.
Proof.
  intros Hw Hc w H. specialize (Hw w H). specialize (Hc w).
  destruct (m w) as [[a|e|c] w']; cbn in *; [exact Hw | exact Hw |].
  now elim (Hc c).
Qed.

End Keeps.

(** ** The walks of the cloned repository *)

Section Walks.

Import Js World ScriptSpec.

Lemma entry_nested_ind (P : entry -> Prop) :
  (forall name content, P (File name content)) ->
  (forall name entries, Forall P entries -> P (Dir name entries)) ->
  (forall name read, P (Other name read)) ->
  forall ent, P ent.
Proof.
  intros HF HD HO.
  fix self 1. intros [name content|name entries|name read].
  - apply HF.
  - apply HD. induction entries as [|ent entries IH]; constructor.
    + apply self.
    + exact IH.
  - apply HO.
Qed.

Lemma fastmcp_processEntry_walk (e : FastMCP.env) (dryRun : bool) (ent : entry) :
  forall relPath results w,
    FastMCP.processEntry e dryRun relPath ent results w
    = forEach (fastmcpFile e dryRun) (walk relPath ent) results w.
Proof.
  induction ent as [name content|name entries IH|name read] using entry_nested_ind;
    intros relPath results w.
  - cbn [FastMCP.processEntry walk forEach]. now rewrite bind_ret_r.
  - cbn [FastMCP.processEntry walk].
    destruct (FastMCP.has FastMCP.SKIP_DIRS name); [reflexivity |].
    revert results w. induction IH as [|ent entries Hent _ IHl]; intros results w.
    + reflexivity.
    + rewrite forEach_app. unfold bind. rewrite Hent.
      destruct (forEach (fastmcpFile e dryRun) (walk (joinPath relPath name) ent) results w)
        as [[rs|err|c] w']; [apply IHl | reflexivity | reflexivity].
  - reflexivity.
Qed.

Lemma fastmcp_processDir_walk (e : FastMCP.env) (dryRun : bool) (relPath : string)
      (entries : list entry) (results : list FastMCP.SyncResult) (w : world) :
  FastMCP.processDir e dryRun relPath entries results w
  = forEach (fastmcpFile e dryRun) (walkAll relPath entries) results w.
Proof.
  unfold FastMCP.processDir, walkAll. revert results w.
  induction entries as [|ent entries IH]; intros results w; [reflexivity |].
  cbn [forEach flat_map]. rewrite forEach_app. unfold bind.
  rewrite fastmcp_processEntry_walk.
  destruct (forEach (fastmcpFile e dryRun) (walk relPath ent) results w)
    as [[rs|err|c] w']; [apply IH | reflexivity | reflexivity].
Qed.

Lemma github_processEntry_walk (dryRun : bool) (ent : entry) :
  forall relPath results w,
    SyncGithub.processEntry dryRun relPath ent results w
    = forEach (githubFile dryRun) (walkGithub relPath ent) results w.
Proof.
  induction ent as [name content|name entries IH|name read] using entry_nested_ind;
    intros relPath results w.
  - cbn [SyncGithub.processEntry walkGithub forEach]. now rewrite bind_ret_r.
  - cbn [SyncGithub.processEntry walkGithub].
    revert results w. induction IH as [|ent entries Hent _ IHl]; intros results w.
    + reflexivity.
    + rewrite forEach_app. unfold bind. rewrite Hent.
      destruct (forEach (githubFile dryRun) (walkGithub (joinPath relPath name) ent) results w)
        as [[rs|err|c] w']; [apply IHl | reflexivity | reflexivity].
  - cbn [SyncGithub.processEntry walkGithub forEach]. now rewrite bind_ret_r.
Qed.

Lemma github_processDir_walk (dryRun : bool) (relPath : string)
      (entries : list entry) (results : list SyncGithub.SyncResult) (w : world) :
  SyncGithub.processDir dryRun relPath entries results w
  = forEach (githubFile dryRun) (walkAllGithub relPath entries) results w.
Proof.
  unfold SyncGithub.processDir, walkAllGithub. revert results w.
  induction entries as [|ent entries IH]; intros results w; [reflexivity |].
  cbn [forEach flat_map]. rewrite forEach_app. unfold bind.
  rewrite github_processEntry_walk.
  destruct (forEach (githubFile dryRun) (walkGithub relPath ent) results w)
    as [[rs|err|c] w']; [apply IH | reflexivity | reflexivity].
Qed.

End Walks.

(** ** Values of computations, whatever the world *)

Section Yields.

Import Js World ScriptSpec.

Context (E : exn -> Prop) (X : nat -> Prop).

Lemma yields_ret {A : Type} (Q : A -> Prop) (a : A) : Q a -> yields Q E X (ret a).
Proof. intros H w _. exact H. Qed.

Lemma yields_throw {A : Type} (Q : A -> Prop) (e : exn) :
  E e -> yields Q E X (throw e).
Proof. intros H w _. exact H. Qed.

Lemma yields_exit {A : Type} (Q : A -> Prop) (code : nat) :
  X code -> yields Q E X (exit code).
Proof. intros H w _. exact H. Qed.

Lemma yields_bind {A B : Type} (R : A -> Prop) (Q : B -> Prop)
      (m : M A) (k : A -> M B) :
  yields R E X m -> (forall a, R a -> yields Q E X (k a)) ->
  yields Q E X (bind m k).
Proof.
  intros Hm Hk w _. specialize (Hm w I). unfold bind.
  destruct (m w) as [[a|e|c] w']; [apply (Hk a Hm w' I) | exact Hm | exact Hm].
Qed.

Lemma yields_weaken {A : Type} (Q Q' : A -> Prop) (m : M A) :
  yields Q' E X m -> (forall a, Q' a -> Q a) -> yields Q E X m.
Proof.
  intros H HQ w _. specialize (H w I).
  destruct (m w) as [[a|e|c] w']; auto.
Qed.

Lemma yields_tryFinally {A : Type} (Q : A -> Prop) (body : M A) (final : M unit) :
  yields Q E X body -> yields anything E X final ->
  yields Q E X (tryFinally body final).
Proof.
  intros Hb Hf w _. specialize (Hb w I). unfold tryFinally.
  destruct (body w) as [[a|e|c] w']; [| |exact Hb];
    specialize (Hf w' I); destruct (final w') as [[u|e'|c'] w'']; assumption.
Qed.

Lemma yields_forEach {A S : Type} (Inv : list A -> S -> Prop)
      (body : S -> A -> M S) (l seen : list A) (s : S) :
  (forall seen s x, Inv seen s -> yields (Inv (seen ++ [x])) E X (body s x)) ->
  Inv seen s -> yields (Inv (seen ++ l)) E X (forEach body l s).
Proof.
  intros Hbody. revert seen s. induction l as [|x l IH]; intros seen s Hs.
  - rewrite app_nil_r. now apply yields_ret.
  - cbn [forEach]. eapply yields_bind; [eapply Hbody; eassumption |].
    intros s' Hs'. replace (seen ++ x :: l) with ((seen ++ [x]) ++ l)
      by now rewrite <- app_assoc.
    now apply IH.
Qed.

Lemma yields_when (Q : unit -> Prop) (cond : bool) (m : M unit) :
  Q tt -> (cond = true -> yields Q E X m) -> yields Q E X (when cond m).
Proof. intros Hq H. destruct cond; [now apply H | now apply yields_ret]. Qed.

(** A computation that always ends with a value. *)
Lemma yields_total {A : Type} (Q : A -> Prop) (m : M A) :
  (forall w, exists a, fst (m w) = Normal a /\ Q a) -> yields Q E X m.
Proof.
  intros H w _. destruct (H w) as [a [Ha Hq]].
  destruct (m w) as [c w']. cbn in Ha. now subst c.
Qed.

Lemma yields_ext {A : Type} (Q : A -> Prop) (m m' : M A) :
  (forall w, m w = m' w) -> yields Q E X m' -> yields Q E X m.
Proof. intros H Hm w _. rewrite H. now apply Hm. Qed.

End Yields.

Lemma yields_tryCatch {A : Type} (Q : A -> Prop) (R E : World.exn -> Prop)
      (X : nat -> Prop) (body : World.M A) (handler : World.exn -> World.M A) :
  ScriptSpec.yields Q R X body ->
  (forall e, R e -> ScriptSpec.yields Q E X (handler e)) ->
  ScriptSpec.yields Q E X (World.tryCatch body handler).
Proof.
  intros Hb Hh w _. specialize (Hb w I). unfold World.tryCatch.
  destruct (body w) as [[a|e|c] w']; [exact Hb | apply (Hh e Hb w' I) | exact Hb].
Qed.

Lemma yields_loosen {A : Type} (Q : A -> Prop) (E E' : World.exn -> Prop)
      (X X' : nat -> Prop) (m : World.M A) :
  ScriptSpec.yields Q E' X' m ->
  (forall e, E' e -> E e) -> (forall c, X' c -> X c) ->
  ScriptSpec.yields Q E X m.
Proof.
  intros H HE HX w _. specialize (H w I).
  destruct (m w) as [[a|e|c] w']; auto.
Qed.

Lemma yields_produced {A : Type} (P : A -> Prop) (E : World.exn -> Prop)
      (X : nat -> Prop) (m : World.M (list A)) (w : World.world) :
  ScriptSpec.yields (Forall P) E X m -> Forall P (ScriptSpec.produced (fst (m w))).
Proof.
  intros H. specialize (H w I).
  destruct (m w) as [[rs|e|c] w']; cbn; [exact H | constructor | constructor].
Qed.

Section KeepsExt.

Import Js World ScriptSpec.

Lemma keeps_ext {A : Type} (Inv : world -> Prop) (X : nat -> world -> Prop)
      (m m' : M A) :
  (forall w, m w = m' w) -> keeps Inv X m' -> keeps Inv X m.
Proof. intros H Hm w Hw. rewrite H. now apply Hm. Qed.

Lemma keeps_exit {A : Type} (Inv : world -> Prop) (X : nat -> world -> Prop)
      (code : nat) :
  (forall w, Inv w -> X code w) -> keeps Inv X (@exit A code).
Proof. intros H w Hw. now apply H. Qed.

End KeepsExt.


(** ** The status of the results *)

Lemma yields_trivial {A : Type} (m : World.M A) :
  ScriptSpec.yields ScriptSpec.anything ScriptSpec.anything ScriptSpec.anything m.
Proof. intros w _. destruct (m w) as [[a|e|c] w']; exact I. Qed.

Ltac skip_step :=
  match goal with
  | |- ScriptSpec.yields _ _ _ (World.bind _ _) =>
      eapply (yields_bind ScriptSpec.anything ScriptSpec.anything ScriptSpec.anything);
      [apply yields_trivial | intros ? _]
  end.

Section Status.

Import Js World ScriptSpec.

Lemma Forall_snoc {A : Type} (P : A -> Prop) (l : list A) (x : A) :
  Forall P l -> P x -> Forall P (l ++ [x]).
Proof. intros Hl Hx. apply Forall_app. split; [exact Hl | now constructor]. Qed.

Lemma xai_syncDoc_status (e : Xai.env) (dryRun : bool)
      (results : list Xai.SyncResult) (doc : string * string) :
  Forall (xaiStatusOk dryRun) results ->
  yields (Forall (xaiStatusOk dryRun)) anything anything
         (Xai.syncDoc e dryRun results doc).
Proof.
  intros H. unfold Xai.syncDoc. destruct doc as [docPath body].
  destruct dryRun; repeat skip_step;
    apply yields_ret; apply Forall_snoc; [exact H | reflexivity | exact H | reflexivity].
Qed.

Lemma xai_syncDocs_status (e : Xai.env) (dryRun : bool) :
  yields (Forall (xaiStatusOk dryRun)) anything anything (Xai.syncDocs e dryRun).
Proof.
  unfold Xai.syncDocs. do 5 skip_step.
  apply (yields_forEach anything anything (fun _ => Forall (xaiStatusOk dryRun))
           (Xai.syncDoc e dryRun) _ [] []); [|constructor].
  intros _ results doc. apply xai_syncDoc_status.
Qed.

Lemma xai_main_status (e : Xai.env) :
  yields (Forall (xaiStatusOk (existsb (String.eqb "--dry-run") (Xai.argv e))))
         anything anything (Xai.main e).
Proof.
  unfold Xai.main. cbv zeta. repeat skip_step.
  eapply yields_tryCatch.
  - eapply yields_bind; [apply xai_syncDocs_status |].
    intros results H. repeat skip_step. now apply yields_ret.
  - intros error _. skip_step. now apply yields_exit.
Qed.

Lemma template_syncDocs_status (e : LlmsTemplate.env) (dryRun : bool) :
  yields (Forall (templateStatusOk dryRun)) anything anything
         (LlmsTemplate.syncDocs e dryRun).
Proof.
  unfold LlmsTemplate.syncDocs. do 4 skip_step.
  apply (yields_forEach anything anything (fun _ => Forall (templateStatusOk dryRun))
           (LlmsTemplate.syncDoc e dryRun) _ [] []); [|constructor].
  intros _ results doc H. unfold LlmsTemplate.syncDoc.
  destruct dryRun; repeat skip_step;
    apply yields_ret; apply Forall_snoc; [exact H | reflexivity | exact H | reflexivity].
Qed.

Lemma fastmcp_processFile_status (e : FastMCP.env) (dryRun : bool)
      (relPath name content : string) (results : list FastMCP.SyncResult) :
  Forall (fastmcpStatusOk dryRun) results ->
  yields (Forall (fastmcpStatusOk dryRun)) anything anything
         (FastMCP.processFile e dryRun relPath name content results).
Proof.
  intros H. unfold FastMCP.processFile.
  destruct (FastMCP.has FastMCP.SKIP_FILES name); [now apply yields_ret |].
  destruct (negb (endsWith ".md" name) && negb (endsWith ".mdx" name));
    [now apply yields_ret |].
  destruct dryRun; repeat skip_step;
    apply yields_ret; apply Forall_snoc; [exact H | reflexivity | exact H | reflexivity].
Qed.

Lemma fastmcp_copyDocs_status (e : FastMCP.env) (dryRun : bool) :
  yields (Forall (fastmcpStatusOk dryRun)) anything anything
         (FastMCP.copyDocs e dryRun).
Proof.
  unfold FastMCP.copyDocs. skip_step.
  destruct a as [entries|]; [|now apply yields_throw].
  destruct (findEntry FastMCP.SOURCE_PATH entries) as [[| name children|]|];
    try now apply yields_throw.
  eapply yields_ext; [apply fastmcp_processDir_walk |].
  apply (yields_forEach anything anything (fun _ => Forall (fastmcpStatusOk dryRun))
           (fastmcpFile e dryRun) _ [] []); [|constructor].
  intros _ results f. apply fastmcp_processFile_status.
Qed.

Lemma fastmcp_script_status (e : FastMCP.env) :
  yields (Forall (fastmcpStatusOk (existsb (String.eqb "--dry-run") (FastMCP.argv e))))
         anything anything (FastMCP.script e).
Proof.
  unfold FastMCP.script. eapply yields_tryCatch.
  - unfold FastMCP.main. cbv zeta. repeat skip_step.
    apply yields_tryFinally; [|apply yields_trivial].
    unfold FastMCP.tryBlock. do 4 skip_step.
    eapply yields_bind; [apply fastmcp_copyDocs_status |].
    intros results H. repeat skip_step. now apply yields_ret.
  - intros error _. repeat skip_step. now apply yields_exit.
Qed.

End Status.


Section Frames.

Import Js World ScriptSpec.

Lemma sameOut_refl (w : world) : sameOut w w.
Proof. repeat split. Qed.

Lemma sameOut_trans (w1 w2 w3 : world) :
  sameOut w1 w2 -> sameOut w2 w3 -> sameOut w1 w3.
Proof. intros [A1 [B1 C1]] [A2 [B2 C2]]. repeat split; congruence. Qed.

Lemma outOnly_sameOut (w0 : world) : outOnly (sameOut w0).
Proof. intros w w' H H'. now apply (sameOut_trans w0 w w'). Qed.

Lemma outOnly_True : outOnly (fun _ => True).
Proof. intros w w' _ _. exact I. Qed.

(** A step that leaves the output directory alone and does not exit. *)
Lemma keeps_framed {A : Type} (Inv : world -> Prop) (X : nat -> world -> Prop)
      (m : M A) :
  outOnly Inv ->
  (forall w, sameOut w (snd (m w))) ->
  (forall w c, fst (m w) <> Exit c) ->
  keeps Inv X m.
Proof.
  intros HI Hw Hc. apply keeps_prim; [|exact Hc].
  intros w H. apply (HI w _ H), Hw.
Qed.

End Frames.

Ltac framed :=
  apply keeps_framed;
  [ first [assumption | apply outOnly_sameOut]
  | intros ?; repeat split
  | intros ? ?; discriminate ].

Ltac keeps_go :=
  repeat
    match goal with
    | |- ScriptSpec.keeps _ _ (World.ret _) => apply keeps_ret
    | |- ScriptSpec.keeps _ _ (World.throw _) => apply keeps_throw
    | |- ScriptSpec.keeps _ _ (World.bind _ _) => apply keeps_bind; [|intros ?]
    | |- ScriptSpec.keeps _ _ (World.tryCatch _ _) => apply keeps_tryCatch; [|intros ?]
    | |- ScriptSpec.keeps _ _ (World.tryFinally _ _) => apply keeps_tryFinally
    | |- ScriptSpec.keeps _ _ (World.when _ _) =>
        apply keeps_when; intros ?; try discriminate
    | |- ScriptSpec.keeps _ _ (match ?x with _ => _ end) => destruct x
    | |- ScriptSpec.keeps _ _ (World.log _) => framed
    | |- ScriptSpec.keeps _ _ (World.logError _ _) => framed
    | |- ScriptSpec.keeps _ _ World.existsScratch => framed
    | |- ScriptSpec.keeps _ _ World.removeScratch => framed
    | |- ScriptSpec.keeps _ _ (World.setScratch _) => framed
    | |- ScriptSpec.keeps _ _ World.getScratch => framed
    | |- ScriptSpec.keeps _ _ World.existsOut => framed
    | |- ScriptSpec.keeps _ _ (World.recordRequest _) => framed
    end.

Section DryRun.

Import Js World ScriptSpec.

Context (Inv : world -> Prop) (X : nat -> world -> Prop) (HInv : outOnly Inv).

Lemma keeps_cleanup : keeps Inv X FastMCP.cleanup.
Proof. unfold FastMCP.cleanup. keeps_go. Qed.

Lemma keeps_cloneRepo (e : FastMCP.env) : keeps Inv X (FastMCP.cloneRepo e).
Proof. unfold FastMCP.cloneRepo, FastMCP.gitClone. keeps_go. Qed.

Lemma keeps_getCommitHash (e : FastMCP.env) : keeps Inv X (FastMCP.getCommitHash e).
Proof. unfold FastMCP.getCommitHash. keeps_go. Qed.

Lemma keeps_processFile_dry (e : FastMCP.env) (relPath name content : string)
      (results : list FastMCP.SyncResult) :
  keeps Inv X (FastMCP.processFile e true relPath name content results).
Proof.
  unfold FastMCP.processFile.
  destruct (FastMCP.has FastMCP.SKIP_FILES name); [apply keeps_ret |].
  destruct (negb (endsWith ".md" name) && negb (endsWith ".mdx" name));
    [apply keeps_ret |].
  keeps_go.
Qed.

Lemma keeps_copyDocs_dry (e : FastMCP.env) : keeps Inv X (FastMCP.copyDocs e true).
Proof.
  unfold FastMCP.copyDocs. apply keeps_bind; [framed |]. intros root.
  destruct root as [entries|]; [|apply keeps_throw].
  destruct (findEntry FastMCP.SOURCE_PATH entries) as [[| name children|]|];
    try solve [apply keeps_throw].
  refine (keeps_ext _ _ _ _ (fastmcp_processDir_walk e true "" children []) _).
  apply keeps_forEach. intros results f. apply keeps_processFile_dry.
Qed.

Lemma keeps_fastmcp_main_dry (e : FastMCP.env) :
  existsb (String.eqb "--dry-run") (FastMCP.argv e) = true ->
  keeps Inv X (FastMCP.main e).
Proof.
  intros Hdry. unfold FastMCP.main. rewrite Hdry. cbv zeta.
  do 4 (apply keeps_bind; [keeps_go | intros ?]).
  apply keeps_tryFinally; [|apply keeps_cleanup].
  unfold FastMCP.tryBlock.
  apply keeps_bind; [apply keeps_cloneRepo | intros ?].
  apply keeps_bind; [apply keeps_getCommitHash | intros commit].
  apply keeps_bind; [keeps_go | intros ?].
  apply keeps_bind; [keeps_go | intros ?].
  apply keeps_bind; [apply keeps_copyDocs_dry | intros results].
  keeps_go.
Qed.

Lemma keeps_xai_syncDocs_dry (e : Xai.env) : keeps Inv X (Xai.syncDocs e true).
Proof.
  unfold Xai.syncDocs, Xai.fetchLlmsTxt.
  apply keeps_bind; [keeps_go | intros ?].
  apply keeps_bind.
  { destruct (negb (Xai.devBrowser e)); [apply keeps_throw |].
    destruct (negb (Xai.procExitCode e =? 0)); [apply keeps_throw | apply keeps_ret]. }
  intros content. cbv zeta.
  do 3 (apply keeps_bind; [keeps_go | intros ?]).
  apply keeps_forEach. intros results [docPath body]. unfold Xai.syncDoc. keeps_go.
Qed.

End DryRun.

Section DryRunTop.

Import Js World ScriptSpec.

Lemma fastmcp_script_dry (e : FastMCP.env) (w : world) :
  existsb (String.eqb "--dry-run") (FastMCP.argv e) = true ->
  sameOut w (snd (FastMCP.script e w)).
Proof.
  intros Hdry.
  assert (keeps (sameOut w) (fun _ => sameOut w) (FastMCP.script e)) as H.
  { unfold FastMCP.script. apply keeps_tryCatch.
    - apply keeps_fastmcp_main_dry; [apply outOnly_sameOut | exact Hdry].
    - intros error. apply keeps_bind; [framed | intros ?].
      apply keeps_bind; [apply keeps_cleanup, outOnly_sameOut | intros ?].
      apply keeps_exit. auto. }
  specialize (H w (sameOut_refl w)).
  destruct (FastMCP.script e w) as [[rs|err|c] w']; exact H.
Qed.

Lemma xai_main_dry (e : Xai.env) (w : world) :
  existsb (String.eqb "--dry-run") (Xai.argv e) = true ->
  sameOut w (snd (Xai.main e w)).
Proof.
  intros Hdry.
  assert (keeps (sameOut w) (fun _ => sameOut w) (Xai.main e)) as H.
  { pose proof (outOnly_sameOut w) as HI.
    unfold Xai.main. rewrite Hdry. cbv zeta.
    do 4 (apply keeps_bind; [keeps_go | intros ?]).
    apply keeps_tryCatch.
    - apply keeps_bind; [now apply keeps_xai_syncDocs_dry | intros results].
      keeps_go.
    - intros error. apply keeps_bind; [framed | intros ?].
      apply keeps_exit. auto. }
  specialize (H w (sameOut_refl w)).
  destruct (Xai.main e w) as [[rs|err|c] w']; exact H.
Qed.

End DryRunTop.


Ltac total_step :=
  apply yields_total; intros ?; eexists; split; [reflexivity | exact I].

Ltac noexit :=
  repeat
    match goal with
    | |- ScriptSpec.yields _ _ _ (World.ret _) => apply yields_ret; exact I
    | |- ScriptSpec.yields _ _ _ (World.throw _) => apply yields_throw; exact I
    | |- ScriptSpec.yields _ _ _ (World.bind _ _) =>
        eapply (yields_bind _ _ ScriptSpec.anything); [|intros ? _]
    | |- ScriptSpec.yields _ _ _ (World.when _ _) =>
        apply yields_when; [exact I | intros ?; try discriminate]
    | |- ScriptSpec.yields _ _ _ (match ?x with _ => _ end) => destruct x
    | |- ScriptSpec.yields _ _ _ (World.log _) => total_step
    | |- ScriptSpec.yields _ _ _ (World.logError _ _) => total_step
    | |- ScriptSpec.yields _ _ _ World.existsScratch => total_step
    | |- ScriptSpec.yields _ _ _ World.removeScratch => total_step
    | |- ScriptSpec.yields _ _ _ (World.setScratch _) => total_step
    | |- ScriptSpec.yields _ _ _ World.getScratch => total_step
    | |- ScriptSpec.yields _ _ _ World.existsOut => total_step
    | |- ScriptSpec.yields _ _ _ (World.mkdirOut _) => total_step
    | |- ScriptSpec.yields _ _ _ (World.recordRequest _) => total_step
    end.

Section NoExit.

Import Js World ScriptSpec.

Lemma writeOut_noexit (rel : string) (data : fileData) :
  yields anything anything nothing (writeOut rel data).
Proof. intros w _. unfold writeOut. destruct (outDir w); exact I. Qed.

Lemma cleanup_noexit : yields anything anything nothing FastMCP.cleanup.
Proof. unfold FastMCP.cleanup. noexit. Qed.

Lemma fastmcp_copyDocs_noexit (e : FastMCP.env) (dryRun : bool) :
  yields anything anything nothing (FastMCP.copyDocs e dryRun).
Proof.
  unfold FastMCP.copyDocs. eapply (yields_bind _ _ anything); [noexit |].
  intros root _. destruct root as [entries|]; [|now apply yields_throw].
  destruct (findEntry FastMCP.SOURCE_PATH entries) as [[| name children|]|];
    try now apply yields_throw.
  eapply yields_ext; [apply fastmcp_processDir_walk |].
  apply (yields_forEach anything nothing (fun _ => anything)
           (fastmcpFile e dryRun) _ [] []); [|exact I].
  intros _ results f _. unfold fastmcpFile, FastMCP.processFile.
  destruct (FastMCP.has FastMCP.SKIP_FILES _); [now apply yields_ret |].
  destruct (_ && _); [now apply yields_ret |].
  destruct dryRun.
  - noexit.
  - eapply (yields_bind _ _ anything); [apply writeOut_noexit | intros ? _]. noexit.
Qed.

Lemma fastmcp_tryBlock_noexit (e : FastMCP.env) (dryRun : bool) :
  yields anything anything nothing (FastMCP.tryBlock e dryRun).
Proof.
  unfold FastMCP.tryBlock.
  eapply (yields_bind _ _ anything);
    [unfold FastMCP.cloneRepo, FastMCP.gitClone; noexit | intros ? _].
  eapply (yields_bind _ _ anything);
    [unfold FastMCP.getCommitHash; noexit | intros commit _].
  do 2 (eapply (yields_bind _ _ anything); [noexit | intros ? _]).
  eapply (yields_bind _ _ anything); [apply fastmcp_copyDocs_noexit | intros results _].
  eapply (yields_bind _ _ anything).
  { apply yields_when; [exact I | intros _]. apply writeOut_noexit. }
  intros ? _. noexit.
Qed.

End NoExit.


Section ScratchDir.

Import Js World ScriptSpec.

Lemma github_cleanup_noexit : yields anything anything nothing SyncGithub.cleanup.
Proof. unfold SyncGithub.cleanup. noexit. Qed.

Lemma github_copyDocs_noexit (dryRun : bool) :
  yields anything anything nothing (SyncGithub.copyDocs dryRun).
Proof.
  unfold SyncGithub.copyDocs. eapply (yields_bind _ _ anything); [noexit |].
  intros root _. destruct root as [entries|]; [|now apply yields_throw].
  destruct (findEntry SyncGithub.SOURCE_PATH entries) as [[| name children|]|];
    try now apply yields_throw.
  eapply yields_ext; [apply github_processDir_walk |].
  apply (yields_forEach anything nothing (fun _ => anything)
           (githubFile dryRun) _ [] []); [|exact I].
  intros _ results f _. unfold githubFile, SyncGithub.processFile.
  destruct (_ || _); [|now apply yields_ret].
  eapply (yields_bind _ _ anything); [noexit | intros content _].
  eapply (yields_bind _ _ anything); [|intros ? _; noexit].
  destruct dryRun; [noexit |].
  eapply (yields_bind _ _ anything); [noexit | intros ? _].
  eapply (yields_bind _ _ anything); [apply writeOut_noexit | intros ? _]. noexit.
Qed.

Lemma github_tryBlock_noexit (e : SyncGithub.env) (dryRun : bool) :
  yields anything anything nothing (SyncGithub.tryBlock e dryRun).
Proof.
  unfold SyncGithub.tryBlock.
  eapply (yields_bind _ _ anything);
    [unfold SyncGithub.cloneRepo; noexit | intros ? _].
  eapply (yields_bind _ _ anything);
    [unfold SyncGithub.getCommitHash; noexit | intros commit _].
  do 2 (eapply (yields_bind _ _ anything); [noexit | intros ? _]).
  eapply (yields_bind _ _ anything); [apply github_copyDocs_noexit | intros results _].
  eapply (yields_bind _ _ anything).
  { unfold SyncGithub.writeManifest. destruct dryRun; [noexit |].
    eapply (yields_bind _ _ anything); [apply writeOut_noexit | intros ? _]. noexit. }
  intros ? _. noexit.
Qed.

Lemma github_main_noexit (e : SyncGithub.env) :
  yields anything anything nothing (SyncGithub.main e).
Proof.
  unfold SyncGithub.main.
  eapply (yields_bind _ _ anything); [noexit | intros dryRun _].
  eapply (yields_bind _ _ anything); [noexit | intros ? _].
  apply yields_tryFinally; [apply github_tryBlock_noexit | apply github_cleanup_noexit].
Qed.

Lemma direct_main_noexit (e : SyncDirect.env) :
  yields anything anything nothing (SyncDirect.main e).
Proof.
  unfold SyncDirect.main.
  eapply (yields_bind _ _ anything); [noexit | intros dryRun _].
  eapply (yields_bind _ _ anything); [noexit | intros ? _].
  eapply (yields_bind _ _ anything).
  { apply (yields_forEach anything nothing (fun _ => anything)
             (SyncDirect.syncPath e dryRun) _ [] _); [|exact I].
    intros _ t path _. unfold SyncDirect.syncPath.
    eapply yields_tryCatch with (R := anything); [|intros error _; noexit].
    eapply (yields_bind _ _ anything); [unfold SyncDirect.fetchDoc; noexit | intros content _].
    cbv zeta. eapply (yields_bind _ _ anything); [|intros ? _; noexit].
    destruct dryRun; [noexit |].
    eapply (yields_bind _ _ anything); [noexit | intros ? _].
    eapply (yields_bind _ _ anything); [apply writeOut_noexit | intros ? _]. noexit. }
  intros t _.
  eapply (yields_bind _ _ anything).
  { apply yields_when; [exact I | intros _].
    eapply (yields_bind _ _ anything); [apply writeOut_noexit | intros ? _]. noexit. }
  intros ? _. noexit.
Qed.

(** A script ending in [main().catch(console.error)] ends normally. *)
Lemma catch_console_error_normal {A : Type} (m : M A) (w : world) :
  yields anything anything nothing m ->
  fst (tryCatch (bind m (fun _ => ret tt)) (fun error => logError "" error) w)
  = Normal tt.
Proof.
  intros H. specialize (H w I). unfold tryCatch, bind, ret, logError.
  destruct (m w) as [[a|e|c] w']; [reflexivity | reflexivity | elim H].
Qed.

(** [cleanup] always ends normally, leaves no scratch directory and
    changes nothing else. *)
Lemma cleanup_spec (w : world) :
  exists w', FastMCP.cleanup w = (Normal tt, w')
             /\ scratch w' = None /\ console w' = console w.
Proof.
  unfold FastMCP.cleanup, bind, existsScratch, when, removeScratch, ret.
  destruct (scratch w) eqn:E; eexists; repeat split; exact E.
Qed.

Lemma github_cleanup_spec (w : world) :
  exists w', SyncGithub.cleanup w = (Normal tt, w')
             /\ scratch w' = None /\ console w' = console w.
Proof.
  unfold SyncGithub.cleanup, bind, existsScratch, when, removeScratch, ret.
  destruct (scratch w) eqn:E; eexists; repeat split; exact E.
Qed.

Lemma triple_of_yields {A : Type} (Q' : A -> Prop) (E' : exn -> Prop)
      (X' : nat -> Prop) (m : M A) (P : world -> Prop)
      (Q : A -> world -> Prop) (E : exn -> world -> Prop)
      (X : nat -> world -> Prop) :
  yields Q' E' X' m ->
  (forall a w, Q' a -> Q a w) ->
  (forall e w, E' e -> E e w) ->
  (forall c w, X' c -> X c w) ->
  triple P m Q E X.
Proof.
  intros H HQ HE HX w _. specialize (H w I).
  destruct (m w) as [[a|e|c] w']; auto.
Qed.

Lemma triple_cleanup (P : world -> Prop) (E : exn -> world -> Prop)
      (X : nat -> world -> Prop) :
  triple P FastMCP.cleanup (fun _ => cleared) E X.
Proof. intros w _. destruct (cleanup_spec w) as [w' [-> [H _]]]. exact H. Qed.

Lemma triple_github_cleanup (P : world -> Prop) (E : exn -> world -> Prop)
      (X : nat -> world -> Prop) :
  triple P SyncGithub.cleanup (fun _ => cleared) E X.
Proof. intros w _. destruct (github_cleanup_spec w) as [w' [-> [H _]]]. exact H. Qed.

End ScratchDir.

(** A step that always ends with a value, of which nothing is needed. *)
Ltac pass_step :=
  eapply triple_bind with (R := fun _ _ => True);
  [ apply (triple_of_yields ScriptSpec.anything ScriptSpec.nothing ScriptSpec.nothing);
    [ noexit | auto | intros ? ? [] | intros ? ? [] ]
  | intros ? ].

Section ScratchRuns.

Import Js World ScriptSpec.

Lemma fastmcp_main_clears (e : FastMCP.env) :
  triple (fun _ => True) (FastMCP.main e) (fun _ => cleared) (fun _ => cleared) never.
Proof.
  unfold FastMCP.main. cbv zeta. do 4 pass_step.
  eapply triple_tryFinally with (Rn := fun _ _ => True) (Rt := fun _ _ => True).
  - apply (triple_of_yields anything anything nothing);
      [apply fastmcp_tryBlock_noexit | auto | auto | intros ? ? []].
  - intros rs. apply triple_cleanup.
  - intros error. apply triple_cleanup.
Qed.

Lemma fastmcp_script_clears (e : FastMCP.env) :
  triple (fun _ => True) (FastMCP.script e)
         (fun _ => cleared) (fun _ => cleared) (fun _ => cleared).
Proof.
  unfold FastMCP.script.
  eapply triple_tryCatch with (R := fun _ _ => True).
  - eapply triple_weaken; [apply fastmcp_main_clears | auto | auto | auto | intros ? ? []].
  - intros error. pass_step.
    eapply triple_bind; [apply triple_cleanup | intros ?]. intros w Hw. exact Hw.
Qed.

Lemma github_main_clears (e : SyncGithub.env) (flag : bool) :
  SyncGithub.parsedArgs e = inr flag ->
  triple (fun _ => True) (SyncGithub.main e) (fun _ => cleared) (fun _ => cleared) never.
Proof.
  intros Hargs. unfold SyncGithub.main. rewrite Hargs. do 2 pass_step.
  eapply triple_tryFinally with (Rn := fun _ _ => True) (Rt := fun _ _ => True).
  - apply (triple_of_yields anything anything nothing);
      [apply github_tryBlock_noexit | auto | auto | intros ? ? []].
  - intros rs. apply triple_github_cleanup.
  - intros error. apply triple_github_cleanup.
Qed.

Lemma github_script_clears (e : SyncGithub.env) (flag : bool) :
  SyncGithub.parsedArgs e = inr flag ->
  triple (fun _ => True) (SyncGithub.script e)
         (fun _ => cleared) (fun _ => cleared) never.
Proof.
  intros Hargs. unfold SyncGithub.script.
  eapply triple_tryCatch with (R := fun _ => cleared).
  - eapply triple_bind; [apply (github_main_clears e flag Hargs) | intros rs].
    apply (triple_ret tt (fun _ => cleared)).
  - intros error w Hw. exact Hw.
Qed.

End ScratchRuns.

(** ** Results of a dry run of the xAI script *)

Section XaiDryResults.

Import Js World ScriptSpec.

Lemma xai_syncDocs_dry_results (e : Xai.env) :
  Xai.devBrowser e = true ->
  Xai.procExitCode e = 0 ->
  yields (fun rs => rs = map (xaiSkipped e) (Xai.parseLlmsTxt (Xai.procStdout e)))
         nothing nothing (Xai.syncDocs e true).
Proof.
  intros Hdev Hexit. unfold Xai.syncDocs, Xai.fetchLlmsTxt.
  rewrite Hdev, Hexit. cbn [negb Nat.eqb].
  eapply (yields_bind _ _ anything); [noexit | intros ? _].
  eapply (yields_bind _ _ (fun c => c = Xai.procStdout e));
    [now apply yields_ret | intros content ->].
  do 3 (eapply (yields_bind _ _ anything); [noexit | intros ? _]).
  apply (yields_forEach nothing nothing
           (fun seen rs => rs = map (xaiSkipped e) seen)
           (Xai.syncDoc e true) _ [] []); [|reflexivity].
  intros seen rs [docPath body] ->. unfold Xai.syncDoc.
  eapply (yields_bind _ _ anything); [noexit | intros ? _].
  apply yields_ret. now rewrite map_app.
Qed.

(** A computation that neither throws nor exits gives its value. *)
Lemma yields_normal {A : Type} (Q : A -> Prop) (m : M A) (w : world) :
  yields Q nothing nothing m -> exists a, fst (m w) = Normal a /\ Q a.
Proof.
  intros H. specialize (H w I).
  destruct (m w) as [[a|e|c] w']; [eauto | elim H | elim H].
Qed.

End XaiDryResults.

(** ** Exit status *)

Section ExitStatus.

Import Js World ScriptSpec.

Lemma github_script_normal (e : SyncGithub.env) (w : world) :
  fst (SyncGithub.script e w) = Normal tt.
Proof. apply catch_console_error_normal, github_main_noexit. Qed.

Lemma direct_script_normal (e : SyncDirect.env) (w : world) :
  fst (SyncDirect.script e w) = Normal tt.
Proof. apply catch_console_error_normal, direct_main_noexit. Qed.

Lemma github_script_prints (e : SyncGithub.env) (w : world) :
  match SyncGithub.main e w with
  | (Throw error, w') =>
      console (snd (SyncGithub.script e w)) = console w' ++ [LogError "" error]
  | _ => True
  end.
Proof.
  unfold SyncGithub.script, tryCatch, bind.
  destruct (SyncGithub.main e w) as [[rs|error|c] w']; [exact I | reflexivity | exact I].
Qed.

Lemma fastmcp_script_outcome (e : FastMCP.env) (w : world) :
  match FastMCP.main e w with
  | (Normal rs, w') => FastMCP.script e w = (Normal rs, w')
  | (Throw error, w') =>
      fst (FastMCP.script e w) = Exit 1
      /\ console (snd (FastMCP.script e w))
         = console w' ++ [LogError "Sync failed:" error]
  | (Exit _, _) => False
  end.
Proof.
  pose proof (fastmcp_main_clears e w I) as H.
  unfold FastMCP.script, tryCatch.
  destruct (FastMCP.main e w) as [[rs|error|c] w']; [reflexivity | | exact H].
  unfold bind, logError.
  match goal with |- context [FastMCP.cleanup ?w1] =>
    destruct (cleanup_spec w1) as [w2 [-> [_ Hc]]] end.
  cbn [fst snd exit]. split; [reflexivity | exact Hc].
Qed.

End ExitStatus.

(** ** The order of the manifest *)

Section Sorting.

Import Js World ScriptSpec.

Lemma compare_not_Gt_trans (a b c : string) :
  String.compare a b <> Gt -> String.compare b c <> Gt -> String.compare a c <> Gt.
Proof.
  revert b c. induction a as [|x a IH]; intros b c Hab Hbc.
  - destruct c; cbn; discriminate.
  - destruct b as [|y b]; [now elim Hab |].
    destruct c as [|z c]; [now elim Hbc |].
    cbn [String.compare] in *. unfold Ascii.compare in *.
    destruct (N.compare_spec (N_of_ascii x) (N_of_ascii y)) as [Exy|Lxy|Gxy];
      [| |now elim Hab];
      destruct (N.compare_spec (N_of_ascii y) (N_of_ascii z)) as [Eyz|Lyz|Gyz];
      try (now elim Hbc);
      destruct (N.compare_spec (N_of_ascii x) (N_of_ascii z)) as [Exz|Lxz|Gxz];
      try discriminate; try lia.
    now apply (IH b c).
Qed.

#[local] Instance codeUnitLe_total : Total codeUnitLe.
Proof. intros a b. apply String.leb_total. Qed.

#[local] Instance codeUnitLe_trans : Transitive codeUnitLe.
Proof.
  intros a b c. unfold codeUnitLe, String.leb. intros Hab Hbc.
  pose proof (compare_not_Gt_trans a b c) as H.
  destruct (String.compare a b); try discriminate;
    destruct (String.compare b c); try discriminate;
    destruct (String.compare a c); try reflexivity;
    exfalso; apply H; first [discriminate | reflexivity].
Qed.

#[local] Instance codeUnitLe_antisym : AntiSymm eq codeUnitLe.
Proof. intros a b. apply String.leb_antisym. Qed.

Lemma jsSort_sorted (paths : list string) : Sorted codeUnitLe (jsSort paths).
Proof. apply (Sorted_merge_sort codeUnitLe). Qed.

Lemma jsSort_perm (paths : list string) : Permutation (jsSort paths) paths.
Proof. apply (merge_sort_Permutation codeUnitLe). Qed.

Lemma jsSort_order_free (paths1 paths2 : list string) :
  Permutation paths1 paths2 -> jsSort paths1 = jsSort paths2.
Proof.
  intros H. apply (Sorted_unique codeUnitLe); try apply jsSort_sorted.
  now rewrite !jsSort_perm.
Qed.

End Sorting.

(** ** The direct-fetch template *)

Section DirectFetch.

Import Js World ScriptSpec.

Context (e : SyncDirect.env) (dryRun : bool).

Lemma syncPath_spec (t : SyncDirect.tally) (p : string) (w : world) :
  exists t' w',
    SyncDirect.syncPath e dryRun t p w = (Normal t', w')
    /\ requests w' = requests w ++ [urlOf e p]
    /\ (outDir w = true -> outDir w' = true)
    /\ (dryRun = true -> sameOut w w')
    /\ if fetchSucceeds e p then
         SyncDirect.results t' = SyncDirect.results t ++ [directResult e p]
         /\ SyncDirect.synced t' = S (SyncDirect.synced t)
         /\ SyncDirect.failed t' = SyncDirect.failed t
         /\ (dryRun = false -> outDir w' = true)
       else
         SyncDirect.results t' = SyncDirect.results t
         /\ SyncDirect.synced t' = SyncDirect.synced t
         /\ SyncDirect.failed t' = S (SyncDirect.failed t).
Proof.
  unfold SyncDirect.syncPath, SyncDirect.fetchDoc, fetchSucceeds, directResult,
    fetchedText, urlOf, tryCatch, bind, log, recordRequest, logError, throw, ret,
    mkdirOut, writeOut.
  cbn [fst snd requests outDir].
  destruct (SyncDirect.fetch e (SyncDirect.BASE_URL e +:+ "/" +:+ p)) as [error|r].
  - do 2 eexists. split; [reflexivity |]. cbn. repeat split; auto.
  - destruct (ok r); cbn [negb].
    + destruct dryRun; cbn; do 2 eexists; (split; [reflexivity |]);
        cbn; repeat split; auto; discriminate.
    + do 2 eexists. split; [reflexivity |]. cbn. repeat split; auto.
Qed.

Lemma syncLoop_spec (paths : list string) (t : SyncDirect.tally) (w : world) :
  exists t' w',
    forEach (SyncDirect.syncPath e dryRun) paths t w = (Normal t', w')
    /\ requests w' = requests w ++ map (urlOf e) paths
    /\ SyncDirect.results t'
       = SyncDirect.results t ++ map (directResult e) (List.filter (fetchSucceeds e) paths)
    /\ SyncDirect.synced t'
       = SyncDirect.synced t + length (List.filter (fetchSucceeds e) paths)
    /\ SyncDirect.failed t'
       = SyncDirect.failed t
         + length (List.filter (fun p => negb (fetchSucceeds e p)) paths)
    /\ (outDir w = true -> outDir w' = true)
    /\ (dryRun = false -> List.filter (fetchSucceeds e) paths <> [] -> outDir w' = true)
    /\ (dryRun = true -> sameOut w w').
Proof.
  revert t w. induction paths as [|p paths IH]; intros t w.
  - exists t, w. cbn. rewrite !app_nil_r, !Nat.add_0_r.
    repeat split; auto; try (intros _ H; now elim H).
  - cbn [forEach]. unfold bind.
    destruct (syncPath_spec t p w) as [t1 [w1 [-> [Hreq [Hdir [Hdry Hp]]]]]].
    destruct (IH t1 w1) as [t2 [w2 [-> [Hreq2 [Hres [Hsyn [Hfail [Hdir2 [Hnd Hdry2]]]]]]]]].
    exists t2, w2. split; [reflexivity |].
    cbn [map List.filter]. rewrite Hreq2, Hreq, <- app_assoc.
    split; [reflexivity |].
    destruct (fetchSucceeds e p); cbn [negb map length].
    + destruct Hp as [Hr [Hs [Hf Hd]]]. rewrite Hres, Hsyn, Hfail, Hr, Hs, Hf.
      rewrite <- app_assoc.
      split; [reflexivity |]. split; [lia |]. split; [lia |].
      split; [auto |]. split; [auto |].
      intros Hd2. apply (sameOut_trans w w1 w2); auto.
    + destruct Hp as [Hr [Hs Hf]]. rewrite Hres, Hsyn, Hfail, Hr, Hs, Hf.
      split; [reflexivity |]. split; [lia |]. split; [lia |].
      split; [auto |]. split; [auto |].
      intros Hd2. apply (sameOut_trans w w1 w2); auto.
Qed.

Lemma direct_main_spec (w : world) :
  SyncDirect.parsedArgs e = inr dryRun ->
  exists t w',
    SyncDirect.main e w = (Normal t, w')
    /\ requests w' = requests w ++ map (urlOf e) (SyncDirect.DOC_PATHS e)
    /\ SyncDirect.results t
       = map (directResult e) (List.filter (fetchSucceeds e) (SyncDirect.DOC_PATHS e))
    /\ SyncDirect.synced t = length (List.filter (fetchSucceeds e) (SyncDirect.DOC_PATHS e))
    /\ SyncDirect.failed t
       = length (List.filter (fun p => negb (fetchSucceeds e p)) (SyncDirect.DOC_PATHS e))
    /\ (dryRun = false -> List.filter (fetchSucceeds e) (SyncDirect.DOC_PATHS e) <> [] ->
        outFiles w' !! "manifest.json"
        = Some (JsonText (SyncDirect.manifestOf e (SyncDirect.results t))))
    /\ (dryRun = true -> sameOut w w').
Proof.
  intros Hargs. unfold SyncDirect.main. rewrite Hargs.
  unfold bind at 1. unfold ret at 1. unfold bind at 1. unfold log at 1.
  unfold bind at 1.
  match goal with |- context [forEach ?b ?l ?t0 ?w0] =>
    destruct (syncLoop_spec l t0 w0)
      as [t [w1 [-> [Hreq [Hres [Hsyn [Hfail [_ [Hnd Hdry]]]]]]]]] end.
  cbn [requests SyncDirect.results SyncDirect.synced SyncDirect.failed app Nat.add] in *.
  destruct dryRun.
  - exists t. eexists. split; [reflexivity |]. cbn.
    destruct (Hdry eq_refl) as [H1 [H2 H3]].
    repeat split; auto; discriminate.
  - destruct (List.filter (fetchSucceeds e) (SyncDirect.DOC_PATHS e)) as [|p ps] eqn:F.
    + exists t. eexists. split.
      { unfold when, bind, log, ret. cbv beta. rewrite Hres. cbn. reflexivity. }
      cbn. repeat split; auto; try discriminate. intros _ H. now elim H.
    + assert (outDir w1 = true) as Hout by (apply Hnd; [reflexivity | discriminate]).
      exists t. eexists. split.
      { unfold when, bind. cbv beta.
        replace (negb false && (0 <? length (SyncDirect.results t))) with true
          by (rewrite Hres; reflexivity).
        unfold writeOut, bind, log, ret. cbv beta. rewrite Hout. reflexivity. }
      cbn. repeat split; auto; try discriminate.
      intros _ _. apply lookup_insert_eq.
Qed.

End DirectFetch.


Section MoreDryRuns.

Import Js World ScriptSpec.

Context (Inv : world -> Prop) (X : nat -> world -> Prop) (HInv : outOnly Inv).

Lemma keeps_template_syncDocs_dry (e : LlmsTemplate.env) :
  keeps Inv X (LlmsTemplate.syncDocs e true).
Proof.
  unfold LlmsTemplate.syncDocs, LlmsTemplate.fetchLlmsTxt.
  apply keeps_bind.
  { apply keeps_bind; [keeps_go | intros ?].
    apply keeps_bind; [keeps_go | intros ?].
    destruct (LlmsTemplate.fetched e) as [error|r]; [apply keeps_throw |].
    destruct (negb (ok r)); [apply keeps_throw | apply keeps_ret]. }
  intros content. cbv zeta.
  do 3 (apply keeps_bind; [keeps_go | intros ?]).
  apply keeps_forEach. intros results doc. unfold LlmsTemplate.syncDoc. keeps_go.
Qed.

Lemma keeps_github_tryBlock_dry (e : SyncGithub.env) :
  keeps Inv X (SyncGithub.tryBlock e true).
Proof.
  unfold SyncGithub.tryBlock.
  apply keeps_bind; [unfold SyncGithub.cloneRepo; keeps_go | intros ?].
  apply keeps_bind; [unfold SyncGithub.getCommitHash; keeps_go | intros commit].
  do 2 (apply keeps_bind; [keeps_go | intros ?]).
  apply keeps_bind.
  { unfold SyncGithub.copyDocs. apply keeps_bind; [framed |]. intros root.
    destruct root as [entries|]; [|apply keeps_throw].
    destruct (findEntry SyncGithub.SOURCE_PATH entries) as [[| name children|]|];
      try solve [apply keeps_throw].
    refine (keeps_ext _ _ _ _ (github_processDir_walk true "" children []) _).
    apply keeps_forEach. intros results f. unfold githubFile, SyncGithub.processFile.
    destruct (_ || _); [|apply keeps_ret]. keeps_go. }
  intros results.
  apply keeps_bind; [unfold SyncGithub.writeManifest; keeps_go | intros ?].
  keeps_go.
Qed.

Lemma keeps_github_cleanup : keeps Inv X SyncGithub.cleanup.
Proof. unfold SyncGithub.cleanup. keeps_go. Qed.

End MoreDryRuns.

Section MoreDryRunsTop.

Import Js World ScriptSpec.

Lemma template_main_dry (e : LlmsTemplate.env) (w : world) :
  existsb (String.eqb "--dry-run") (LlmsTemplate.argv e) = true ->
  sameOut w (snd (LlmsTemplate.main e w)).
Proof.
  intros Hdry.
  assert (keeps (sameOut w) (fun _ => sameOut w) (LlmsTemplate.main e)) as H.
  { pose proof (outOnly_sameOut w) as HI.
    unfold LlmsTemplate.main. rewrite Hdry. cbv zeta.
    do 4 (apply keeps_bind; [keeps_go | intros ?]).
    apply keeps_tryCatch.
    - apply keeps_bind; [now apply keeps_template_syncDocs_dry | intros results].
      keeps_go.
    - intros error. apply keeps_bind; [framed | intros ?].
      apply keeps_exit. auto. }
  specialize (H w (sameOut_refl w)).
  destruct (LlmsTemplate.main e w) as [[rs|err|c] w']; exact H.
Qed.

Lemma github_script_dry (e : SyncGithub.env) (w : world) :
  SyncGithub.parsedArgs e = inr true ->
  sameOut w (snd (SyncGithub.script e w)).
Proof.
  intros Hargs.
  assert (keeps (sameOut w) (fun _ => sameOut w) (SyncGithub.script e)) as H.
  { pose proof (outOnly_sameOut w) as HI.
    unfold SyncGithub.script. apply keeps_tryCatch; [|intros error; framed].
    apply keeps_bind; [|intros ?; apply keeps_ret].
    unfold SyncGithub.main. rewrite Hargs.
    refine (keeps_ext _ _ _
              (bind (log (NL +:+ "Syncing docs" +:+ " (dry run)" +:+ "..." +:+ NL))
                    (fun _ => tryFinally (SyncGithub.tryBlock e true) SyncGithub.cleanup))
              (fun w0 => eq_refl) _).
    apply keeps_bind; [keeps_go | intros ?].
    apply keeps_tryFinally;
      [now apply keeps_github_tryBlock_dry | now apply keeps_github_cleanup]. }
  specialize (H w (sameOut_refl w)).
  destruct (SyncGithub.script e w) as [[rs|err|c] w']; exact H.
Qed.

End MoreDryRunsTop.


Section FastmcpRuns.

Import Js World ScriptSpec.

Lemma outOnly_outReady : outOnly outReady.
Proof. intros w w' H [H1 _]. unfold outReady in *. congruence. Qed.

Lemma outOnly_manifestWritten (e : FastMCP.env) (rs : list FastMCP.SyncResult) :
  outOnly (manifestWritten e rs).
Proof. intros w w' H [_ [H2 _]]. unfold manifestWritten in *. congruence. Qed.

Lemma keeps_writeOut_ready (X : nat -> world -> Prop) (rel : string) (data : fileData) :
  keeps outReady X (writeOut rel data).
Proof.
  apply keeps_prim.
  - intros w H. unfold writeOut, outReady in *. now rewrite H.
  - intros w c. unfold writeOut. destruct (outDir w); discriminate.
Qed.

Lemma keeps_copyDocs_ready (X : nat -> world -> Prop) (e : FastMCP.env) (dryRun : bool) :
  keeps outReady X (FastMCP.copyDocs e dryRun).
Proof.
  pose proof outOnly_outReady as HI.
  unfold FastMCP.copyDocs. apply keeps_bind; [framed |]. intros root.
  destruct root as [entries|]; [|apply keeps_throw].
  destruct (findEntry FastMCP.SOURCE_PATH entries) as [[| name children|]|];
    try solve [apply keeps_throw].
  refine (keeps_ext _ _ _ _ (fastmcp_processDir_walk e dryRun "" children []) _).
  apply keeps_forEach. intros results f. unfold fastmcpFile, FastMCP.processFile.
  destruct (FastMCP.has FastMCP.SKIP_FILES _); [apply keeps_ret |].
  destruct (_ && _); [apply keeps_ret |].
  destruct dryRun; [keeps_go |].
  apply keeps_bind; [apply keeps_writeOut_ready | intros ?]. keeps_go.
Qed.

(** A step that keeps the invariant in force, before the rest. *)
Lemma triple_after {A B : Type} (Inv : world -> Prop) (m : M A) (k : A -> M B)
      (Q : B -> world -> Prop) (E : exn -> world -> Prop)
      (X : nat -> world -> Prop) :
  keeps Inv X m ->
  (forall e w, Inv w -> E e w) ->
  (forall a, triple Inv (k a) Q E X) ->
  triple Inv (bind m k) Q E X.
Proof.
  intros Hm HE Hk. eapply triple_bind with (R := fun _ => Inv); [|exact Hk].
  eapply triple_weaken; [exact Hm | auto | auto | auto | auto].
Qed.

Lemma outOnly_lookup (name : string) (data : fileData) :
  outOnly (fun w => outFiles w !! name = Some data).
Proof. intros w w' H [_ [H2 _]]. congruence. Qed.

Lemma fastmcp_tryBlock_manifest (e : FastMCP.env) :
  triple (fun _ => True) (FastMCP.tryBlock e false)
         (fun rs w => manifestWritten e rs w) (fun _ _ => True) never.
Proof.
  unfold FastMCP.tryBlock.
  eapply triple_bind with (R := fun _ _ => True).
  { apply (triple_of_yields anything anything nothing);
      [unfold FastMCP.cloneRepo, FastMCP.gitClone; noexit | auto | auto | intros ? ? []]. }
  intros _. unfold FastMCP.getCommitHash, manifestWritten, commitOf.
  destruct (FastMCP.revParse e) as [error|out]; [intros w _; exact I |].
  eapply triple_bind with (R := fun c _ => c = trim out);
    [intros w _; reflexivity | intros commit].
  eapply triple_bind with (R := fun _ _ => commit = trim out);
    [intros w H; exact H | intros _].
  eapply triple_bind with (R := fun _ w => commit = trim out /\ outReady w).
  { intros w H. unfold when, bind, existsOut, mkdirOut, ret, outReady. cbn.
    destruct (outDir w) eqn:D; cbn; auto. }
  intros _.
  eapply triple_bind with (R := fun _ w => commit = trim out /\ outReady w).
  { intros w [Hc Hw]. pose proof (keeps_copyDocs_ready never e false w Hw) as H.
    destruct (FastMCP.copyDocs e false w) as [[rs|err|c] w']; auto. }
  intros results.
  eapply triple_bind
    with (R := fun _ w => outFiles w !! "manifest.json"
                          = Some (JsonText (FastMCP.manifestOf e (trim out) results))).
  { intros w [-> Hw]. unfold when, FastMCP.writeManifest, writeOut. cbn [negb].
    unfold outReady in Hw. rewrite Hw. cbn [outFiles]. apply lookup_insert_eq. }
  intros _.
  pose proof (outOnly_lookup "manifest.json"
                (JsonText (FastMCP.manifestOf e (trim out) results))) as HI.
  cbv zeta.
  repeat (apply triple_after; [keeps_go | auto | intros ?]).
  intros w H. exact H.
Qed.

Lemma fastmcp_main_manifest (e : FastMCP.env) :
  existsb (String.eqb "--dry-run") (FastMCP.argv e) = false ->
  triple (fun _ => True) (FastMCP.main e)
         (fun rs w => manifestWritten e rs w) (fun _ _ => True) never.
Proof.
  intros Hdry. unfold FastMCP.main. rewrite Hdry. cbv zeta. do 4 pass_step.
  eapply triple_tryFinally; [apply fastmcp_tryBlock_manifest | |].
  - intros rs.
    pose proof (keeps_cleanup (manifestWritten e rs) never
                              (outOnly_manifestWritten e rs)) as H.
    eapply triple_weaken; [exact H | auto | auto | auto | auto].
  - intros error.
    apply (triple_of_yields anything anything nothing);
      [apply cleanup_noexit | auto | auto | intros ? ? []].
Qed.

(** A run of the FastMCP script that is not a dry run and ends normally
    leaves the manifest of its results on disk. *)
Lemma fastmcp_script_manifest (e : FastMCP.env) (w w' : world)
      (rs : list FastMCP.SyncResult) :
  existsb (String.eqb "--dry-run") (FastMCP.argv e) = false ->
  FastMCP.script e w = (Normal rs, w') ->
  manifestWritten e rs w'.
Proof.
  intros Hdry Hrun. pose proof (fastmcp_main_manifest e Hdry w I) as H.
  unfold FastMCP.script, tryCatch in Hrun.
  destruct (FastMCP.main e w) as [[rs0|error|c] w0]; [| |elim H].
  - injection Hrun as <- <-. exact H.
  - exfalso. revert Hrun. unfold bind, logError.
    match goal with |- context [FastMCP.cleanup ?w1] =>
      destruct (cleanup_spec w1) as [w2 [-> _]] end.
    discriminate.
Qed.

End FastmcpRuns.


Section FastmcpDryResults.

Import Js World ScriptSpec.

Context (e : FastMCP.env) (root children : list entry) (name out : string).
Context (Hdry : existsb (String.eqb "--dry-run") (FastMCP.argv e) = true).
Context (Hclone : FastMCP.cloned e = FastMCP.Cloned root).
Context (Hfind : findEntry FastMCP.SOURCE_PATH root = Some (Dir name children)).
Context (Hrev : FastMCP.revParse e = inr out).

Lemma fastmcp_walk_dry_results :
  yields (fun rs => rs = (dryResults e children)) nothing nothing
         (forEach (fastmcpFile e true) (walkAll "" children) []).
Proof.
  apply (yields_forEach nothing nothing
           (fun seen rs => rs = map (fastmcpSkipped e) (List.filter kept seen))
           (fastmcpFile e true) _ [] []); [|reflexivity].
  intros seen rs [[relPath fname] content] ->.
  unfold fastmcpFile, FastMCP.processFile. cbn [fst snd].
  rewrite List.filter_app, map_app. cbn [List.filter]. unfold kept at 2. cbn [fst snd].
  destruct (FastMCP.has FastMCP.SKIP_FILES fname); cbn [negb andb].
  { apply yields_ret. cbn. now rewrite app_nil_r. }
  destruct (endsWith ".md" fname), (endsWith ".mdx" fname); cbn [negb andb orb].
  4: { apply yields_ret. cbn. now rewrite app_nil_r. }
  all: eapply (yields_bind _ _ anything); [noexit | intros ? _];
    apply yields_ret; reflexivity.
Qed.

Lemma triple_assuming {A : Type} (H : Prop) (m : M A) (Q : A -> world -> Prop)
      (E : exn -> world -> Prop) (X : nat -> world -> Prop) :
  (H -> triple (fun _ => True) m Q E X) -> triple (fun _ => H) m Q E X.
Proof. intros Ht w Hw. exact (Ht Hw w I). Qed.

Lemma fastmcp_tryBlock_dry_results :
  triple (fun _ => True) (FastMCP.tryBlock e true)
         (fun rs _ => rs = (dryResults e children)) (fun _ _ => False) never.
Proof.
  unfold FastMCP.tryBlock.
  eapply triple_bind with (R := fun _ => clonedAs root).
  { intros w _. unfold FastMCP.cloneRepo, FastMCP.gitClone, bind, existsScratch,
      when, removeScratch, log, setScratch, ret. rewrite Hclone.
    destruct (scratch w); reflexivity. }
  intros _. unfold FastMCP.getCommitHash. rewrite Hrev.
  eapply triple_bind with (R := fun _ => clonedAs root); [intros w H; exact H | intros commit].
  eapply triple_bind with (R := fun _ => clonedAs root); [intros w H; exact H | intros _].
  eapply triple_bind with (R := fun _ => clonedAs root); [intros w H; exact H | intros _].
  eapply triple_bind with (R := fun rs _ => rs = (dryResults e children)).
  { intros w Hw. unfold FastMCP.copyDocs, bind, getScratch. cbn [fst snd].
    unfold clonedAs in Hw. rewrite Hw, Hfind, fastmcp_processDir_walk.
    apply (fastmcp_walk_dry_results w I). }
  intros results. cbv beta. apply triple_assuming. intros ->.
  apply (triple_of_yields (fun rs => rs = (dryResults e children)) nothing nothing);
    [|auto | intros ? ? [] | intros ? ? []].
  cbv zeta. change (negb true) with false.
  repeat (eapply (yields_bind _ _ anything); [noexit | intros ? _]).
  now apply yields_ret.
Qed.

Lemma fastmcp_main_dry_results :
  triple (fun _ => True) (FastMCP.main e)
         (fun rs _ => rs = (dryResults e children)) (fun _ _ => False) never.
Proof.
  unfold FastMCP.main. rewrite Hdry. cbv zeta. do 4 pass_step.
  eapply triple_tryFinally; [apply fastmcp_tryBlock_dry_results | |].
  - intros rs. cbv beta. apply triple_assuming. intros ->.
    apply (triple_of_yields anything nothing nothing);
      [unfold FastMCP.cleanup; noexit | auto | intros ? ? [] | intros ? ? []].
  - intros error w [].
Qed.

(** A dry run of the FastMCP script on a repository that has a [docs]
    directory reports one [skipped] entry per kept file of the walk. *)
Lemma fastmcp_script_dry_results (w : world) :
  fst (FastMCP.script e w) = Normal (dryResults e children).
Proof.
  pose proof (fastmcp_main_dry_results w I) as H.
  unfold FastMCP.script, tryCatch.
  destruct (FastMCP.main e w) as [[rs|error|c] w']; [|elim H|elim H].
  cbn. now rewrite H.
Qed.

End FastmcpDryResults.
(** ** Facts about the title pattern *)

Section Headings.

Import Js Regex Title TitleSpec.

Lemma every_append (f : ascii -> bool) (a b : string) :
  every f (a +:+ b) = every f a && every f b.
Proof. induction a as [|c a IH]; cbn; [reflexivity |]. now rewrite IH, andb_assoc. Qed.

Lemma lastUnit_cons (c : ascii) (s : string) :
  lastUnit (String c s) = match lastUnit s with Some d => Some d | None => Some c end.
Proof.
  destruct s as [|a s]; [reflexivity |].
  change (lastUnit (String c (String a s))) with (lastUnit (String a s)).
  destruct (lastUnit (String a s)) eqn:E; [reflexivity |].
  exfalso. revert a E. induction s as [|b s IH]; intros a E; [discriminate |].
  exact (IH b E).
Qed.

Lemma lastUnit_append_unit (a : string) (c : ascii) :
  lastUnit (a +:+ String c "") = Some c.
Proof.
  induction a as [|d a IH]; [reflexivity |].
  cbn [String.append]. rewrite lastUnit_cons, IH. reflexivity.
Qed.

(** What a successful run of [plus] took. *)
Lemma plus_sound {R : Type} (cls : ascii -> bool) (s : string)
      (k : string -> ascii -> string -> option R) (r : R) :
  plus cls s k = Some r ->
  exists text last rest,
    s = text +:+ rest /\ nonEmpty text = true /\ every cls text = true
    /\ lastUnit text = Some last /\ k text last rest = Some r.
Proof.
  revert k. induction s as [|c s IH]; intros k H; [discriminate |].
  cbn [plus] in H. destruct (cls c) eqn:Hc; [|discriminate].
  destruct (plus cls s _) as [r'|] eqn:Hp.
  - injection H as ->. apply IH in Hp as (text & last & rest & -> & Hn & He & Hl & Hk).
    exists (String c text), last, rest. repeat split; auto.
    + cbn. now rewrite Hc, He.
    + rewrite lastUnit_cons, Hl. reflexivity.
  - exists (String c ""), c, s. repeat split; auto. cbn. now rewrite Hc.
Qed.

(** The longest run is taken when what follows accepts it. *)
Lemma plus_greedy {R : Type} (cls : ascii -> bool) (text rest : string) (last : ascii)
      (k : string -> ascii -> string -> option R) (r : R) :
  nonEmpty text = true -> every cls text = true -> lastUnit text = Some last ->
  match rest with EmptyString => true | String c _ => negb (cls c) end = true ->
  k text last rest = Some r ->
  plus cls (text +:+ rest) k = Some r.
Proof.
  revert k. induction text as [|c text IH]; intros k Hn He Hl Hrest Hk; [discriminate |].
  cbn in He. apply andb_prop in He as [Hc He].
  cbn [String.append plus]. rewrite Hc.
  destruct text as [|d text].
  - cbn in Hl. injection Hl as <-. cbn [String.append].
    replace (plus cls rest _) with (@None R); [exact Hk |].
    destruct rest as [|x rest]; [reflexivity |]. cbn [plus].
    apply negb_true_iff in Hrest. now rewrite Hrest.
  - rewrite (IH (fun text0 last0 rest0 => k (String c text0) last0 rest0)); auto.
Qed.

Lemma lineBeginsAfter_prev (before : string) :
  lineBeginsAfter before
  = match lastUnit before with None => true | Some c => isLineTerminator c end.
Proof. reflexivity. Qed.

(** The match at one position, read off the pattern. *)
Lemma matchAt_heading_sound (prev : option ascii) (s : string) (g : option string) :
  matchAt headingPattern prev s None = Some g ->
  match prev with None => true | Some c => isLineTerminator c end = true
  /\ exists space heading after,
      g = Some heading
      /\ s = "#" +:+ space +:+ heading +:+ after
      /\ nonEmpty space = true /\ every isWhiteSpace space = true
      /\ nonEmpty heading = true /\ every dot heading = true
      /\ lineEndsBefore after = true.
Proof.
  unfold headingPattern. cbn [matchAt]. intros H.
  destruct (match prev with None => true | Some c => isLineTerminator c end);
    [split; [reflexivity |] | discriminate].
  destruct s as [|c s]; [discriminate |].
  destruct (Ascii.eqb "#" c) eqn:Hc; [|discriminate].
  apply Ascii.eqb_eq in Hc as <-.
  apply plus_sound in H as (space & last & rest & -> & Hsn & Hse & _ & H).
  apply plus_sound in H as (heading & last' & after & -> & Hhn & Hhe & _ & H).
  destruct (match after with EmptyString => true | String c _ => isLineTerminator c end)
    eqn:Ha; [|discriminate].
  injection H as <-. exists space, heading, after. repeat split; auto.
Qed.

Lemma search_heading_sound (before s : string) (g : option string) :
  search headingPattern (lastUnit before) s = Some g ->
  exists mid space heading after,
    g = Some heading
    /\ s = mid +:+ "#" +:+ space +:+ heading +:+ after
    /\ lineBeginsAfter (before +:+ mid) = true
    /\ nonEmpty space = true /\ every isWhiteSpace space = true
    /\ nonEmpty heading = true /\ every dot heading = true
    /\ lineEndsBefore after = true.
Proof.
  revert before. induction s as [|c s IH]; intros before H.
  - cbn [search] in H.
    destruct (matchAt headingPattern (lastUnit before) "" None) eqn:Hm; [|discriminate].
    injection H as ->. apply matchAt_heading_sound in Hm as (_ & ? & ? & ? & _ & ? & _).
    discriminate.
  - cbn [search] in H.
    destruct (matchAt headingPattern (lastUnit before) (String c s) None) as [g'|] eqn:Hm.
    + injection H as ->.
      apply matchAt_heading_sound in Hm
        as (Hp & space & heading & after & -> & Hs & Hsn & Hse & Hhn & Hhe & Ha).
      exists "", space, heading, after. rewrite append_nil_r.
      repeat split; auto.
    + rewrite <- (lastUnit_append_unit before c) in H.
      apply IH in H
        as (mid & space & heading & after & -> & -> & Hb & Hsn & Hse & Hhn & Hhe & Ha).
      exists (String c mid), space, heading, after.
      rewrite append_assoc in Hb. repeat split; auto.
Qed.

Lemma matchHeading_sound (content heading : string) :
  matchHeading content = Some heading ->
  nonEmpty heading = true
  /\ every dot heading = true
  /\ exists before space after,
      content = before +:+ "#" +:+ space +:+ heading +:+ after
      /\ lineBeginsAfter before = true
      /\ nonEmpty space = true /\ every isWhiteSpace space = true
      /\ lineEndsBefore after = true.
Proof.
  unfold matchHeading. intros H.
  destruct (search headingPattern None content) as [g|] eqn:Hs; [|discriminate].
  subst g. apply (search_heading_sound "") in Hs
    as (mid & space & h & after & Hg & -> & Hb & Hsn & Hse & Hhn & Hhe & Ha).
  injection Hg as <-. split; [exact Hhn |]. split; [exact Hhe |].
  exists mid, space, after. repeat split; auto.
Qed.

Lemma matchAt_heading_complete (prev : option ascii) (space heading after : string) :
  match prev with None => true | Some c => isLineTerminator c end = true ->
  nonEmpty space = true -> every isWhiteSpace space = true ->
  beginsWithInk heading = true -> every dot heading = true ->
  lineEndsBefore after = true ->
  matchAt headingPattern prev ("#" +:+ space +:+ heading +:+ after) None
  = Some (Some heading).
Proof.
  intros Hp Hsn Hse Hi Hhe Ha. unfold headingPattern. cbn [matchAt]. rewrite Hp.
  cbn [String.append]. cbn [Ascii.eqb Bool.eqb andb].
  assert (exists l, lastUnit space = Some l) as [l Hl].
  { destruct space as [|c sp]; [discriminate |]. rewrite lastUnit_cons.
    destruct (lastUnit sp); eauto. }
  assert (exists l, lastUnit heading = Some l) as [l' Hl'].
  { destruct heading as [|c h]; [discriminate |]. rewrite lastUnit_cons.
    destruct (lastUnit h); eauto. }
  apply plus_greedy with (last := l); auto.
  { destruct heading as [|c h]; [discriminate |]. exact Hi. }
  apply plus_greedy with (last := l'); auto.
  - destruct heading; [discriminate | reflexivity].
  - destruct after as [|c a]; [reflexivity |]. cbn in Ha. unfold dot.
    now rewrite Ha.
  - unfold lineEndsBefore in Ha. now rewrite Ha.
Qed.

Lemma matchAt_heading_hash (prev : option ascii) (c : ascii) (s : string) :
  notHash c = true -> matchAt headingPattern prev (String c s) None = None.
Proof.
  intros H. unfold headingPattern. cbn [matchAt].
  destruct (match prev with None => true | Some c0 => isLineTerminator c0 end);
    [|reflexivity].
  unfold notHash in H. apply negb_true_iff in H.
  rewrite Ascii.eqb_sym, H. reflexivity.
Qed.

Lemma search_step (p : list atom) (prev : option ascii) (s : string) :
  search p prev s
  = match matchAt p prev s None with
    | Some group => Some group
    | None =>
        match s with
        | EmptyString => None
        | String c s' => search p (Some c) s'
        end
    end.
Proof. destruct s; reflexivity. Qed.

Lemma search_heading_complete (pre before space heading after : string) :
  every notHash before = true ->
  lineBeginsAfter (pre +:+ before) = true ->
  nonEmpty space = true -> every isWhiteSpace space = true ->
  beginsWithInk heading = true -> every dot heading = true ->
  lineEndsBefore after = true ->
  search headingPattern (lastUnit pre)
         (before +:+ "#" +:+ space +:+ heading +:+ after)
  = Some (Some heading).
Proof.
  revert pre. induction before as [|c before IH]; intros pre Hb Hl Hsn Hse Hi Hhe Ha.
  - rewrite append_nil_r in Hl. rewrite search_step.
    change ("" +:+ "#" +:+ space +:+ heading +:+ after)
      with ("#" +:+ space +:+ heading +:+ after).
    rewrite matchAt_heading_complete; auto.
  - cbn in Hb. apply andb_prop in Hb as [Hc Hb].
    rewrite search_step. cbn [String.append].
    rewrite matchAt_heading_hash by exact Hc.
    rewrite <- (lastUnit_append_unit pre c). apply IH; auto.
    now rewrite append_assoc.
Qed.

Lemma matchHeading_complete (before space heading after : string) :
  every notHash before = true ->
  lineBeginsAfter before = true ->
  nonEmpty space = true -> every isWhiteSpace space = true ->
  beginsWithInk heading = true -> every dot heading = true ->
  lineEndsBefore after = true ->
  matchHeading (before +:+ "#" +:+ space +:+ heading +:+ after) = Some heading.
Proof.
  intros Hb Hl Hsn Hse Hi Hhe Ha. unfold matchHeading.
  pose proof (search_heading_complete "" before space heading after
                Hb Hl Hsn Hse Hi Hhe Ha) as E.
  cbn [lastUnit] in E. now rewrite E.
Qed.

Lemma matchHeading_no_hash (content : string) :
  every notHash content = true -> matchHeading content = None.
Proof.
  intros H. destruct (matchHeading content) as [h|] eqn:E; [|reflexivity].
  apply matchHeading_sound in E as (_ & _ & before & space & after & -> & _).
  rewrite every_append in H. apply andb_prop in H as [_ H]. discriminate.
Qed.

End Headings.
(** ** Facts about file names, titles and parsed documents *)

Section TitleFallback.

Import Js Regex Title TitleSpec.

Lemma hasSlash_every (s : string) :
  existsb (Ascii.eqb "/") (list_ascii_of_string s) = negb (every notSlash s).
Proof.
  induction s as [|c s IH]; [reflexivity |].
  cbn [list_ascii_of_string existsb every]. rewrite IH. unfold notSlash.
  rewrite (Ascii.eqb_sym "/" c). now destruct (Ascii.eqb c "/"), (every _ s).
Qed.

Lemma lastSegment_step (c : ascii) (p : string) :
  Xai.lastSegment (String c p)
  = if Ascii.eqb c "/" then Xai.lastSegment p
    else if every notSlash p then String c p else Xai.lastSegment p.
Proof.
  cbn [Xai.lastSegment]. rewrite hasSlash_every.
  destruct (Ascii.eqb c "/"); [reflexivity |]. now destruct (every notSlash p).
Qed.

(** The last segment is what follows the last slash. *)
Lemma lastSegment_spec (p : string) :
  exists dir,
    p = dir +:+ Xai.lastSegment p
    /\ every notSlash (Xai.lastSegment p) = true
    /\ (dir = "" \/ lastUnit dir = Some "/"%char).
Proof.
  induction p as [|c p IH].
  - exists "". auto.
  - destruct IH as (dir & Hp & Hs & Hd). rewrite lastSegment_step. destruct (Ascii.eqb_spec c "/") as [->|Hc].
    + exists (String "/" dir). split; [cbn; now f_equal |]. split; [exact Hs |].
      right. rewrite lastUnit_cons. destruct Hd as [-> | Hd]; [reflexivity | rewrite Hd; reflexivity].
    + destruct (every notSlash p) eqn:E.
      * exists "". split; [reflexivity |]. split; [|now left].
        cbn. rewrite E. unfold notSlash.
        destruct (Ascii.eqb_spec c "/"); [contradiction | reflexivity].
      * exists (String c dir). split; [cbn; now f_equal |]. split; [exact Hs |].
        right. destruct Hd as [->|Hd].
        -- cbn in Hp. rewrite <- Hp in Hs. congruence.
        -- rewrite lastUnit_cons, Hd. reflexivity.
Qed.

Lemma lastSegment_of_segment (name : string) :
  every notSlash name = true -> Xai.lastSegment name = name.
Proof.
  destruct name as [|c name]; [reflexivity |]. intros H.
  cbn in H. apply andb_prop in H as [Hc H]. rewrite lastSegment_step, H.
  unfold notSlash in Hc. apply negb_true_iff in Hc. now rewrite Hc.
Qed.

Lemma lastSegment_append (dir name : string) :
  every notSlash name = true ->
  dir = "" \/ lastUnit dir = Some "/"%char ->
  Xai.lastSegment (dir +:+ name) = name.
Proof.
  intros Hn. induction dir as [|c dir IH]; intros Hd.
  - now apply lastSegment_of_segment.
  - destruct Hd as [Hd|Hd]; [discriminate |].
    cbn [String.append]. rewrite lastSegment_step.
    rewrite lastUnit_cons in Hd.
    destruct (lastUnit dir) as [d|] eqn:El.
    + injection Hd as ->.
      assert (every notSlash (dir +:+ name) = false) as ->.
      { rewrite every_append. replace (every notSlash dir) with false; [reflexivity |].
        clear -El. revert El. induction dir as [|x dir IH]; [discriminate |].
        rewrite lastUnit_cons. cbn [every]. destruct (lastUnit dir) as [y|] eqn:E.
        - intros [= ->]. rewrite <- IH by reflexivity. now rewrite andb_false_r.
        - intros [= ->]. reflexivity. }
      destruct (Ascii.eqb c "/"); apply IH; now right.
    + injection Hd as ->. destruct dir; [|exfalso; revert El; rewrite lastUnit_cons;
                                           destruct (lastUnit dir); discriminate].
      cbn. now apply lastSegment_of_segment.
Qed.

Lemma extractTitle_nonEmpty (content path : string) :
  nonEmpty path = true -> nonEmpty (extractTitle content path) = true.
Proof.
  intros H. unfold extractTitle.
  destruct (matchHeading content) as [h|] eqn:E.
  - now apply matchHeading_sound in E as [E _].
  - destruct (nonEmpty (Xai.lastSegment path)) eqn:N; [exact N | exact H].
Qed.

Lemma extractTitle_template (e : LlmsTemplate.env) (body docPath : string) :
  (forall s, LlmsTemplate.headingOf e s = matchHeading s) ->
  LlmsTemplate.extractTitle e body docPath = extractTitle body docPath.
Proof. intros H. unfold LlmsTemplate.extractTitle, extractTitle. now rewrite H. Qed.

Lemma extractTitle_xai (e : Xai.env) (body docPath : string) :
  (forall s, Xai.headingOf e s = matchHeading s) ->
  Xai.titleOf e body docPath = extractTitle body docPath.
Proof. intros H. unfold Xai.titleOf, extractTitle. now rewrite H. Qed.

End TitleFallback.

Section Names.

Import Js World TitleSpec.

Lemma NoChar_every (c : ascii) (s : string) :
  NoChar c s <-> every (fun x => negb (Ascii.eqb x c)) s = true.
Proof.
  split.
  - induction 1 as [|x s Hx _ IH]; [reflexivity |]. cbn. rewrite IH.
    destruct (Ascii.eqb_spec x c); [contradiction | reflexivity].
  - induction s as [|x s IH]; [constructor |]. cbn. intros H.
    apply andb_prop in H as [Hx H]. constructor; [|auto].
    intros ->. now rewrite Ascii.eqb_refl in Hx.
Qed.

Lemma substring_append (a b : string) :
  String.substring 0 (String.length a) (a +:+ b) = a.
Proof. induction a as [|x a IH]; cbn; [now destruct b | now f_equal]. Qed.

Lemma dropEnd_append (a b : string) : dropEnd (String.length b) (a +:+ b) = a.
Proof.
  unfold dropEnd. rewrite length_append.
  replace (String.length a + String.length b - String.length b)
    with (String.length a) by lia.
  apply substring_append.
Qed.

(** [mdxToMd] on the two kinds of names the walks keep. *)
Lemma mdxToMd_mdx (stem : string) : mdxToMd (stem +:+ ".mdx") = stem +:+ ".md".
Proof.
  unfold mdxToMd. rewrite endsWith_append.
  pose proof (dropEnd_append stem ".mdx") as E. cbn [String.length] in E.
  now rewrite E.
Qed.

Lemma endsWith_last (e s : string) (c d : ascii) :
  lastUnit e = Some c -> lastUnit s = Some d -> c <> d -> endsWith e s = false.
Proof.
  intros He Hs Hcd. destruct (endsWith e s) eqn:E; [|reflexivity].
  apply endsWith_inv in E as [pre ->]. exfalso. apply Hcd.
  assert (lastUnit (pre +:+ e) = Some c) as H.
  { clear Hs. induction pre as [|x pre IH]; [exact He |].
    cbn [String.append]. rewrite lastUnit_cons, IH. reflexivity. }
  congruence.
Qed.

Lemma lastUnit_append (a b : string) (c : ascii) :
  lastUnit b = Some c -> lastUnit (a +:+ b) = Some c.
Proof.
  intros H. induction a as [|x a IH]; [exact H |].
  cbn [String.append]. rewrite lastUnit_cons, IH. reflexivity.
Qed.

Lemma mdxToMd_md (stem : string) : mdxToMd (stem +:+ ".md") = stem +:+ ".md".
Proof.
  unfold mdxToMd.
  assert (endsWith ".mdx" (stem +:+ ".md") = false) as ->; [|reflexivity].
  apply (endsWith_last _ _ "x" "d")%char;
    [reflexivity | now apply lastUnit_append | discriminate].
Qed.

Lemma mdxToMd_kept (name : string) :
  endsWith ".md" name || endsWith ".mdx" name = true ->
  exists stem, mdxToMd name = stem +:+ ".md"
               /\ (name = stem +:+ ".md" \/ name = stem +:+ ".mdx").
Proof.
  intros H. apply orb_prop in H as [H|H]; apply endsWith_inv in H as [stem ->];
    exists stem; [rewrite mdxToMd_md | rewrite mdxToMd_mdx]; auto.
Qed.

Lemma mdxToMd_append (a stem : string) :
  endsWith ".md" stem || endsWith ".mdx" stem = true ->
  mdxToMd (a +:+ stem) = a +:+ mdxToMd stem.
Proof.
  intros H. apply orb_prop in H as [H|H]; apply endsWith_inv in H as [s ->];
    rewrite <- append_assoc; [rewrite !mdxToMd_md | rewrite !mdxToMd_mdx];
    now rewrite append_assoc.
Qed.

Lemma every_replaceSlashes (s : string) : every notSlash (replaceSlashes s) = true.
Proof.
  induction s as [|c s IH]; [reflexivity |]. cbn. rewrite IH. unfold notSlash.
  now destruct (Ascii.eqb_spec c "/") as [->|H]; [|destruct (Ascii.eqb_spec c "/")].
Qed.

Lemma replaceSlashes_id (s : string) :
  every notSlash s = true -> replaceSlashes s = s.
Proof.
  induction s as [|c s IH]; [reflexivity |]. cbn. intros H.
  apply andb_prop in H as [Hc H]. rewrite IH by exact H.
  unfold notSlash in Hc. apply negb_true_iff in Hc. now rewrite Hc.
Qed.

(** The flat name of a kept file. *)
Lemma outputNameOf_kept (relPath name : string) :
  endsWith ".md" name || endsWith ".mdx" name = true ->
  exists stem,
    (name = stem +:+ ".md" \/ name = stem +:+ ".mdx")
    /\ FastMCP.outputNameOf relPath name
       = (if nonEmpty relPath then replaceSlashes relPath +:+ "-" else "")
         +:+ stem +:+ ".md".
Proof.
  intros H. destruct (mdxToMd_kept name H) as (stem & Hm & Hn).
  exists stem. split; [exact Hn |]. unfold FastMCP.outputNameOf.
  destruct (nonEmpty relPath); [|exact Hm].
  rewrite <- !append_assoc, mdxToMd_append by exact H.
  now rewrite Hm, !append_assoc.
Qed.

Lemma outputNameOf_flat (relPath dir name : string) :
  every notSlash dir = true -> nonEmpty dir = true ->
  FastMCP.outputNameOf (joinPath relPath dir) name
  = FastMCP.outputNameOf relPath (dir +:+ "-" +:+ name).
Proof.
  intros Hd Hn. unfold FastMCP.outputNameOf, joinPath.
  destruct (nonEmpty relPath) eqn:E.
  - assert (nonEmpty (relPath +:+ "/" +:+ dir) = true) as ->
        by (destruct relPath; [discriminate | reflexivity]).
    rewrite !replaceSlashes_append, (replaceSlashes_id dir Hd).
    cbn [replaceSlashes]. cbn [Ascii.eqb Bool.eqb andb].
    now rewrite !append_assoc.
  - rewrite Hn, (replaceSlashes_id dir Hd). reflexivity.
Qed.

End Names.

Section PathNames.

Import Js Llms ParserSpec TitleSpec.

Lemma startsWith_dashes_dot (a b : string) :
  startsWith "--" (a +:+ String "." b) = startsWith "--" a.
Proof.
  destruct a as [|x [|y a]]; cbn; try reflexivity.
  all: try now rewrite andb_false_r.
Qed.

Lemma occursIn_dashes_dot (a b : string) :
  occursIn "--" b = false ->
  occursIn "--" (a +:+ String "." b) = occursIn "--" a.
Proof.
  intros Hb. induction a as [|x a IH].
  - cbn [String.append]. cbn. cbn in Hb. destruct b; [reflexivity |].
    cbn in Hb. exact Hb.
  - cbn [String.append]. cbn [occursIn].
    change (String x (a +:+ String "." b)) with (String x a +:+ String "." b).
    now rewrite startsWith_dashes_dot, IH.
Qed.

Lemma collapseDashesFrom_no_run (prev : bool) (s : string) :
  occursIn "--" (collapseDashesFrom prev s) = false
  /\ (prev = true -> startsWith "-" (collapseDashesFrom prev s) = false).
Proof.
  revert prev. induction s as [|c s IH]; intros prev; [split; reflexivity |].
  cbn [collapseDashesFrom]. destruct (Ascii.eqb_spec c "-") as [->|Hc].
  - destruct prev; [apply IH |]. split; [|discriminate].
    destruct (IH true) as [H1 H2]. cbn [occursIn]. rewrite H1, orb_false_r.
    specialize (H2 eq_refl).
    destruct (collapseDashesFrom true s) as [|x t]; [reflexivity |].
    cbn [startsWith] in H2 |- *. rewrite andb_true_r in H2.
    rewrite Ascii.eqb_refl, H2. reflexivity.
  - destruct (IH false) as [H1 _]. assert (Ascii.eqb "-" c = false) as E
      by (destruct (Ascii.eqb_spec "-" c); congruence).
    split; [|intros _; cbn [startsWith]; now rewrite E].
    cbn [occursIn]. rewrite H1, orb_false_r. cbn [startsWith]. now rewrite E.
Qed.

Lemma pathToFilename_no_run (docPath : string) :
  occursIn "--" (pathToFilename docPath) = false.
Proof.
  unfold pathToFilename, collapseDashes.
  change ".md" with (String "." "md").
  rewrite occursIn_dashes_dot by reflexivity.
  apply collapseDashesFrom_no_run.
Qed.

Lemma stripDocsPrefix_docs (p : string) : stripDocsPrefix ("docs/" +:+ p) = p.
Proof. reflexivity. Qed.

(** Slashes and dashes come out alike. *)
Lemma replaceSlashes_slash_dash (a b : string) :
  replaceSlashes (a +:+ "/" +:+ b) = replaceSlashes (a +:+ "-" +:+ b).
Proof. now rewrite !replaceSlashes_append. Qed.

Lemma collapseDashesFrom_dashes (prev : bool) (a b : string) :
  collapseDashesFrom prev (a +:+ "--" +:+ b) = collapseDashesFrom prev (a +:+ "-" +:+ b).
Proof.
  revert prev. induction a as [|x a IH]; intros prev.
  - cbn. now destruct prev.
  - cbn [String.append collapseDashesFrom].
    destruct (Ascii.eqb x "-"); [destruct prev|]; now rewrite IH.
Qed.

End PathNames.

Section Language.

Import Js SyncHtml TitleSpec.

Lemma span_spec (f : ascii -> bool) (s a b : string) :
  span f s = (a, b) ->
  s = a +:+ b /\ every f a = true
  /\ match b with EmptyString => true | String c _ => negb (f c) end = true.
Proof.
  revert a b. induction s as [|c s IH]; intros a b H; cbn [span] in H.
  - now injection H as <- <-.
  - destruct (f c) eqn:Hc.
    + destruct (span f s) as [a' b'] eqn:E. injection H as <- <-.
      destruct (IH a' b' eq_refl) as (-> & Ha & Hb).
      repeat split; auto. cbn. now rewrite Hc, Ha.
    + injection H as <- <-. repeat split. cbn. now rewrite Hc.
Qed.

Lemma matchLanguage_sound (cls word : string) :
  matchLanguage cls = Some word ->
  nonEmpty word = true /\ every isWord word = true
  /\ exists before after,
      cls = before +:+ "language-" +:+ word +:+ after
      /\ match after with EmptyString => true | String c _ => negb (isWord c) end = true.
Proof.
  induction cls as [|c cls IH]; [discriminate |]. intros H.
  assert (matchLanguage cls = Some word ->
          nonEmpty word = true /\ every isWord word = true
          /\ exists before after,
              String c cls = before +:+ "language-" +:+ word +:+ after
              /\ match after with EmptyString => true | String c _ => negb (isWord c) end
                 = true) as Hrest.
  { intros H'. destruct (IH H') as (Hn & He & before & after & -> & Ha).
    repeat split; auto. exists (String c before), after. split; [reflexivity | exact Ha]. }
  cbn [matchLanguage] in H.
  destruct (startsWith "language-" (String c cls)) eqn:S; [|auto].
  destruct (span isWord (slice 9 (String c cls))) as [w rest] eqn:E.
  destruct (nonEmpty w) eqn:N; [|auto].
  injection H as ->. apply span_spec in E as (E & He & Ha).
  repeat split; auto. exists "", rest. split; [|exact Ha].
  apply startsWith_inv in S. cbn [String.length] in S. rewrite S at 1.
  cbn [String.append]. rewrite E. reflexivity.
Qed.

End Language.

Section ParsedDocs.

Import Js Llms ParserSpec TitleSpec.

Lemma trimStart_head (s : string) :
  trimStart s = "" \/ beginsWithInk (trimStart s) = true.
Proof.
  induction s as [|c s IH]; [now left |]. cbn [trimStart].
  destruct (isWhiteSpace c) eqn:E; [exact IH |]. right. cbn. now rewrite E.
Qed.

Lemma trimEnd_head (s : string) :
  beginsWithInk s = true -> beginsWithInk (trimEnd s) = true.
Proof.
  destruct s as [|c s]; [discriminate |]. cbn [beginsWithInk trimEnd]. intros H.
  destruct (trimEnd s); [|exact H].
  apply negb_true_iff in H. rewrite H. cbn. now rewrite H.
Qed.

Lemma trimEnd_last (s : string) :
  match lastUnit (trimEnd s) with
  | Some c => isWhiteSpace c = false
  | None => trimEnd s = ""
  end.
Proof.
  induction s as [|c s IH]; [reflexivity |]. cbn [trimEnd].
  destruct (trimEnd s) as [|d r] eqn:E.
  - destruct (isWhiteSpace c) eqn:W; [reflexivity | exact W].
  - rewrite lastUnit_cons. destruct (lastUnit (String d r)); [exact IH | discriminate].
Qed.

(** A trimmed text that is not empty begins and ends with ink. *)
Lemma trim_ends (s : string) :
  nonEmpty (trim s) = true ->
  beginsWithInk (trim s) = true
  /\ exists c, lastUnit (trim s) = Some c /\ isWhiteSpace c = false.
Proof.
  unfold trim. intros H. split.
  - apply trimEnd_head. destruct (trimStart_head s) as [E|E]; [|exact E].
    rewrite E in H. discriminate.
  - pose proof (trimEnd_last (trimStart s)) as L.
    destruct (lastUnit (trimEnd (trimStart s))) as [c|]; [eauto |].
    rewrite L in H. discriminate.
Qed.

Lemma matchHeader_path (section path : string) :
  matchHeader section = Some path ->
  nonEmpty path = true /\ every notEq path = true
  /\ exists rest, section = "===/" +:+ path +:+ "===" +:+ rest.
Proof.
  unfold matchHeader. destruct (startsWith "===/" section) eqn:S; [|discriminate].
  destruct (span notEq (slice 4 section)) as [p after] eqn:E.
  destruct (nonEmpty p) eqn:N; [|discriminate]. cbn [andb].
  destruct (startsWith "===" after) eqn:A; [|discriminate].
  intros [= <-]. apply span_spec in E as (E & He & _).
  repeat split; auto. exists (slice 3 after).
  apply startsWith_inv in S. cbn [String.length] in S. rewrite S at 1.
  rewrite E. apply startsWith_inv in A. cbn [String.length] in A.
  rewrite A at 1. reflexivity.
Qed.

Lemma sectionDocs_wellformed (blob : string) (doc : string * string) :
  In doc (sectionDocs blob) ->
  nonEmpty (fst doc) = true /\ every notEq (fst doc) = true
  /\ beginsWithInk (snd doc) = true
  /\ exists c, lastUnit (snd doc) = Some c /\ isWhiteSpace c = false.
Proof.
  intros H. apply emitted_spec in H as (section & _ & Hh & Hb & Hn).
  apply matchHeader_path in Hh as (Hp & He & _).
  rewrite <- Hb in *. repeat split; auto; apply trim_ends;
    destruct (trim (stripHeader section)); [now elim Hn | reflexivity
                                           | now elim Hn | reflexivity].
Qed.

(** What is in the [Map] was put there by a section. *)
Lemma In_fold_setDoc (docs : list (string * string)) (m : JsMap.t) (doc : string * string) :
  In doc (fold_left setDoc docs m) -> In doc m \/ In doc docs.
Proof.
  revert m. induction docs as [|d docs IH]; intros m H; [now left |].
  cbn [fold_left] in H. apply IH in H as [H|H]; [|right; now right].
  assert (In doc m \/ doc = d) as [? | ->]; [|now left | right; now left].
  clear -H. unfold setDoc in H. destruct d as [k v]. cbn [fst snd] in H.
  induction m as [|[k' v'] m IHm]; cbn in H.
  - destruct H as [<-|[]]. now right.
  - destruct (String.eqb k k').
    + destruct H as [<-|H]; [now right | left; now right].
    + destruct H as [<-|H]; [left; now left |].
      destruct (IHm H) as [?|?]; [left; now right | now right].
Qed.

Lemma xai_docs_emitted (blob : string) (doc : string * string) :
  In doc (Xai.parseLlmsTxt blob) -> In doc (sectionDocs blob).
Proof.
  rewrite xai_parse_fold. intros H. now apply In_fold_setDoc in H as [[]|H].
Qed.

End ParsedDocs.
(** ** Running a script step by step *)

Section Steps.

Import Js World ScriptSpec RunSpec.

Context {B : Type}.

Lemma bind_ret (A : Type) (a : A) (k : A -> M B) (w : world) :
  bind (ret a) k w = k a w.
Proof. reflexivity. Qed.

Lemma bind_throw (A : Type) (e : exn) (k : A -> M B) (w : world) :
  bind (throw e) k w = (Throw e, w).
Proof. reflexivity. Qed.

Lemma bind_bind (A A' : Type) (m : M A) (f : A -> M A') (g : A' -> M B) (w : world) :
  bind (bind m f) g w = bind m (fun a => bind (f a) g) w.
Proof. unfold bind. now destruct (m w) as [[a|e|c] w']. Qed.

Lemma bind_log (line : string) (k : unit -> M B) (w : world) :
  bind (log line) k w = k tt (snd (log line w)).
Proof. reflexivity. Qed.

Lemma bind_logError (label : string) (e : exn) (k : unit -> M B) (w : world) :
  bind (logError label e) k w = k tt (snd (logError label e w)).
Proof. reflexivity. Qed.

Lemma bind_existsOut (k : bool -> M B) (w : world) :
  bind existsOut k w = k (outDir w) w.
Proof. reflexivity. Qed.

Lemma bind_mkdirOut (rel : string) (k : unit -> M B) (w : world) :
  bind (mkdirOut rel) k w = k tt (snd (mkdirOut rel w)).
Proof. reflexivity. Qed.

Lemma bind_writeOut (rel : string) (data : fileData) (k : unit -> M B) (w : world) :
  outDir w = true ->
  bind (writeOut rel data) k w = k tt (snd (writeOut rel data w)).
Proof. intros H. unfold bind, writeOut. now rewrite H. Qed.

Lemma bind_recordRequest (url : string) (k : unit -> M B) (w : world) :
  bind (recordRequest url) k w = k tt (snd (recordRequest url w)).
Proof. reflexivity. Qed.

Lemma bind_existsScratch (k : bool -> M B) (w : world) :
  bind existsScratch k w
  = k (match scratch w with Some _ => true | None => false end) w.
Proof. reflexivity. Qed.

Lemma bind_getScratch (k : option (list entry) -> M B) (w : world) :
  bind getScratch k w = k (scratch w) w.
Proof. reflexivity. Qed.

Lemma bind_setScratch (s : option (list entry)) (k : unit -> M B) (w : world) :
  bind (setScratch s) k w = k tt (snd (setScratch s w)).
Proof. reflexivity. Qed.

Lemma bind_removeScratch (k : unit -> M B) (w : world) :
  bind removeScratch k w = k tt (snd (removeScratch w)).
Proof. reflexivity. Qed.

Lemma bind_when_false (m : M unit) (k : unit -> M B) (w : world) :
  bind (when false m) k w = k tt w.
Proof. reflexivity. Qed.

Lemma bind_when_true (m : M unit) (k : unit -> M B) (w : world) :
  bind (when true m) k w = bind m k w.
Proof. reflexivity. Qed.

Lemma bind_when_log (cond : bool) (line : string) (k : unit -> M B) (w : world) :
  bind (when cond (log line)) k w = k tt (if cond then snd (log line w) else w).
Proof. now destruct cond. Qed.

Lemma bind_value (A : Type) (m : M A) (k : A -> M B) (w w' : world) (a : A) :
  m w = (Normal a, w') -> bind m k w = k a w'.
Proof. intros H. unfold bind. now rewrite H. Qed.

End Steps.

Section StepFacts.

Import Js World ScriptSpec RunSpec.

(** What the steps leave of the world. *)
Lemma log_disk (line : string) (w : world) :
  scratch (snd (log line w)) = scratch w
  /\ outDir (snd (log line w)) = outDir w
  /\ outFiles (snd (log line w)) = outFiles w
  /\ outOps (snd (log line w)) = outOps w
  /\ requests (snd (log line w)) = requests w.
Proof. repeat split. Qed.

End StepFacts.

(** One step of a run whose first statement always ends with a value. *)
Ltac step :=
  match goal with
  | |- context [World.bind (World.bind _ _) _ _] => rewrite bind_bind
  | |- context [World.bind (World.ret _) _ _] => rewrite bind_ret
  | |- context [World.bind (World.log _) _ _] => rewrite bind_log
  | |- context [World.bind (World.logError _ _) _ _] => rewrite bind_logError
  | |- context [World.bind World.existsOut _ _] => rewrite bind_existsOut
  | |- context [World.bind (World.mkdirOut _) _ _] => rewrite bind_mkdirOut
  | |- context [World.bind (World.recordRequest _) _ _] => rewrite bind_recordRequest
  | |- context [World.bind World.existsScratch _ _] => rewrite bind_existsScratch
  | |- context [World.bind World.getScratch _ _] => rewrite bind_getScratch
  | |- context [World.bind (World.setScratch _) _ _] => rewrite bind_setScratch
  | |- context [World.bind World.removeScratch _ _] => rewrite bind_removeScratch
  | |- context [World.bind (World.when false _) _ _] => rewrite bind_when_false
  | |- context [World.bind (World.when true _) _ _] => rewrite bind_when_true
  | |- context [World.bind (World.when _ (World.log _)) _ _] => rewrite bind_when_log
  end.

(** The parts of the world a step leaves as they are. *)
Ltac disk :=
  cbn [fst snd World.log World.logError World.mkdirOut World.recordRequest
       World.setScratch World.removeScratch
       World.scratch World.outDir World.outFiles World.outOps World.requests] in *.

Section EnsureOut.

Import Js World ScriptSpec RunSpec.

(** [if (!existsSync(RESOURCES_DIR)) mkdirSync(RESOURCES_DIR)]: afterwards
    the output directory exists, and its files are as before. *)
Lemma ensure_out (w : world) :
  exists w1,
    (forall (B : Type) (k : unit -> M B),
        bind (when (negb (outDir w)) (mkdirOut "")) k w = k tt w1)
    /\ outDir w1 = true /\ outFiles w1 = outFiles w
    /\ scratch w1 = scratch w /\ requests w1 = requests w
    /\ console w1 = console w.
Proof.
  destruct (outDir w) eqn:D; cbn [negb].
  - exists w. repeat split; auto.
  - exists (snd (mkdirOut "" w)). repeat split; auto.
Qed.

End EnsureOut.

Section XaiRealRun.

Import Js World ScriptSpec RunSpec.

Lemma overlay_app (l1 l2 : list (string * fileData)) (m : gmap string fileData) :
  overlay (l1 ++ l2) m = overlay l2 (overlay l1 m).
Proof. apply fold_left_app. Qed.

Lemma xai_loop_real (e : Xai.env) (docs : list (string * string))
      (acc : list Xai.SyncResult) (w : world) :
  outDir w = true ->
  exists w',
    forEach (Xai.syncDoc e false) docs acc w
    = (Normal (acc ++ map (xaiCreated e) docs), w')
    /\ outDir w' = true
    /\ outFiles w' = overlay (map xaiFile docs) (outFiles w)
    /\ scratch w' = scratch w /\ requests w' = requests w.
Proof.
  revert acc w. induction docs as [|[p b] docs IH]; intros acc w Hw.
  - exists w. rewrite app_nil_r. repeat split; auto.
  - cbn [forEach]. unfold bind at 1. unfold Xai.syncDoc at 1.
    unfold bind, writeOut, log, ret. rewrite Hw.
    match goal with |- context [forEach _ docs ?a ?w1] =>
      destruct (IH a w1 eq_refl) as (w' & E & H1 & H2 & H3 & H4) end.
    exists w'. rewrite E. cbn [map]. rewrite <- app_assoc.
    repeat split; auto.
Qed.

Lemma xai_main_real (e : Xai.env) (w : world) :
  existsb (String.eqb "--dry-run") (Xai.argv e) = false ->
  Xai.devBrowser e = true -> Xai.procExitCode e = 0 ->
  exists w',
    Xai.main e w
    = (Normal (map (xaiCreated e) (Xai.parseLlmsTxt (Xai.procStdout e))), w')
    /\ outDir w' = true
    /\ outFiles w'
       = <["manifest.json" :=
             JsonText (Xai.manifestOf e (map (xaiCreated e)
                                             (Xai.parseLlmsTxt (Xai.procStdout e))))]>
           (overlay (map xaiFile (Xai.parseLlmsTxt (Xai.procStdout e))) (outFiles w))
    /\ scratch w' = scratch w /\ requests w' = requests w.
Proof.
  intros Hdry Hdev Hexit.
  unfold Xai.main. rewrite Hdry. cbv zeta. do 4 step.
  unfold tryCatch, Xai.syncDocs, Xai.fetchLlmsTxt, Xai.writeManifest.
  rewrite Hdev, Hexit. cbn [negb Nat.eqb].
  repeat step.
  match goal with |- context [bind (when (negb (outDir ?W)) _) _ ?W] =>
    destruct (ensure_out W) as (w1 & -> & D1 & F1 & S1 & R1 & _) end.
  disk.
  destruct (xai_loop_real e (Xai.parseLlmsTxt (Xai.procStdout e)) [] w1 D1)
    as (w2 & E & D2 & F2 & S2 & R2).
  rewrite (bind_value _ _ _ _ _ _ E). cbn [app].
  step. rewrite bind_writeOut by exact D2. repeat step.
  unfold ret. eexists. split; [reflexivity |].
  repeat match goal with |- context [if ?c then _ else _] => destruct c end.
  all: unfold writeOut; rewrite D2; disk.
  all: rewrite F2, F1, S2, S1, R2, R1; auto.
Qed.

End XaiRealRun.
Section FastmcpRealRun.

Import Js World World.Notations ScriptSpec RunSpec.

Lemma fastmcp_loop_real (e : FastMCP.env) (files : list (string * string * string))
      (acc : list FastMCP.SyncResult) (w : world) :
  outDir w = true ->
  exists w',
    forEach (fastmcpFile e false) files acc w
    = (Normal (acc ++ map (fastmcpCreated e) (List.filter kept files)), w')
    /\ outDir w' = true
    /\ outFiles w' = overlay (map fastmcpCopy (List.filter kept files)) (outFiles w)
    /\ scratch w' = scratch w /\ requests w' = requests w.
Proof.
  revert acc w. induction files as [|[[rel name] content] files IH]; intros acc w Hw.
  - exists w. rewrite app_nil_r. repeat split; auto.
  - cbn [forEach List.filter].
    assert (fastmcpFile e false acc (rel, name, content)
            = if kept (rel, name, content)
              then (writeOut (FastMCP.outputNameOf rel name) (PlainText content) ;;
                    log ("Copied: " +:+ FastMCP.outputNameOf rel name) ;;
                    ret (acc ++ [fastmcpCreated e (rel, name, content)]))
              else ret acc) as ->.
    { unfold fastmcpFile, FastMCP.processFile, kept. cbn [fst snd].
      destruct (FastMCP.has FastMCP.SKIP_FILES name); [reflexivity |].
      now destruct (endsWith ".md" name), (endsWith ".mdx" name). }
    destruct (kept (rel, name, content)).
    + rewrite bind_bind, bind_writeOut by exact Hw. rewrite bind_bind. do 2 step.
      match goal with |- context [forEach _ files ?a ?w1] =>
        destruct (IH a w1 ltac:(unfold writeOut; rewrite Hw; reflexivity))
          as (w' & E & H1 & H2 & H3 & H4) end.
      exists w'. rewrite E. cbn [map]. rewrite <- app_assoc.
      revert H2 H3 H4. unfold writeOut. rewrite Hw. disk. intros H2 H3 H4.
      repeat split; auto.
    + step. exact (IH acc w Hw).
Qed.

Lemma cleanup_disk (w : world) :
  exists w', FastMCP.cleanup w = (Normal tt, w')
             /\ scratch w' = None /\ outDir w' = outDir w
             /\ outFiles w' = outFiles w /\ requests w' = requests w
             /\ console w' = console w.
Proof.
  unfold FastMCP.cleanup, bind, existsScratch, when, removeScratch, ret.
  destruct (scratch w) eqn:E; eexists; repeat split; exact E.
Qed.

Lemma bind_clear_scratch (B : Type) (k : unit -> M B) (w : world) :
  bind (when match scratch w with Some _ => true | None => false end removeScratch) k w
  = k tt (snd (removeScratch w)).
Proof.
  destruct (scratch w) eqn:S; [reflexivity |].
  rewrite bind_when_false. f_equal. unfold removeScratch. cbn [snd].
  destruct w. cbn in *. now rewrite S.
Qed.

Context (e : FastMCP.env) (root children : list entry) (name out : string).
Context (Hdry : existsb (String.eqb "--dry-run") (FastMCP.argv e) = false).
Context (Hclone : FastMCP.cloned e = FastMCP.Cloned root).
Context (Hfind : findEntry FastMCP.SOURCE_PATH root = Some (Dir name children)).
Context (Hrev : FastMCP.revParse e = inr out).

Let files := List.filter kept (walkAll "" children).
Let rs := map (fastmcpCreated e) files.

Lemma fastmcp_tryBlock_real (w : world) :
  exists w',
    FastMCP.tryBlock e false w = (Normal rs, w')
    /\ outDir w' = true
    /\ outFiles w'
       = <["manifest.json" := JsonText (FastMCP.manifestOf e (trim out) rs)]>
           (overlay (map fastmcpCopy files) (outFiles w))
    /\ requests w' = requests w.
Proof.
  unfold FastMCP.tryBlock, FastMCP.cloneRepo, FastMCP.gitClone, FastMCP.getCommitHash,
    FastMCP.copyDocs, FastMCP.writeManifest.
  rewrite Hclone, Hrev. cbn [negb].
  repeat step. rewrite bind_clear_scratch. repeat step.
  match goal with |- context [bind (when (negb (outDir ?W)) _) _ ?W] =>
    destruct (ensure_out W) as (w1 & -> & D1 & F1 & S1 & R1 & _) end.
  disk. do 2 step. rewrite S1, Hfind.
  destruct (fastmcp_loop_real e (walkAll "" children) [] w1 D1)
    as (w2 & E & D2 & F2 & S2 & R2).
  rewrite (bind_value _ _ _ _ _ _
             (eq_trans (fastmcp_processDir_walk e false "" children [] w1) E)).
  cbn [app]. fold files. fold rs.
  step. rewrite bind_writeOut by exact D2. repeat step.
  unfold ret. eexists. split; [reflexivity |].
  repeat match goal with |- context [if ?c then _ else _] => destruct c end.
  all: unfold writeOut; rewrite D2; disk.
  all: rewrite F2, F1, R2, R1; auto.
Qed.

Lemma fastmcp_script_real (w : world) :
  exists w',
    FastMCP.script e w = (Normal rs, w')
    /\ outDir w' = true
    /\ outFiles w'
       = <["manifest.json" := JsonText (FastMCP.manifestOf e (trim out) rs)]>
           (overlay (map fastmcpCopy files) (outFiles w))
    /\ scratch w' = None
    /\ requests w' = requests w.
Proof.
  unfold FastMCP.script, tryCatch, FastMCP.main. rewrite Hdry. cbv zeta.
  do 4 step. unfold tryFinally.
  match goal with |- context [FastMCP.tryBlock e false ?W] =>
    destruct (fastmcp_tryBlock_real W) as (w1 & -> & D1 & F1 & R1) end.
  destruct (cleanup_disk w1) as (w2 & -> & S2 & D2 & F2 & R2 & _).
  exists w2. disk. split; [reflexivity |].
  rewrite D2, F2, R2, D1, F1, R1. auto.
Qed.

End FastmcpRealRun.
Section Overlay.

Import Js World ScriptSpec RunSpec.

Lemma overlay_snoc (files : list (string * fileData)) (k : string) (d : fileData)
      (m : gmap string fileData) :
  <[k := d]> (overlay files m) = overlay (files ++ [(k, d)]) m.
Proof. now rewrite overlay_app. Qed.

Lemma overlay_lookup (files : list (string * fileData)) (m : gmap string fileData)
      (k : string) :
  overlay files m !! k
  = match lastWrite k files with
    | Some d => Some d
    | None => m !! k
    end.
Proof.
  unfold overlay, lastWrite. revert m.
  induction files as [|[k' d] files IH] using rev_ind; intros m; [reflexivity |].
  rewrite !fold_left_app. cbn [fold_left fst snd].
  destruct (String.eqb_spec k k') as [->|Hk];
    [apply lookup_insert_eq | rewrite lookup_insert_ne by congruence; apply IH].
Qed.

(** Writing the same files again changes nothing. *)
Lemma overlay_idem (files : list (string * fileData)) (m : gmap string fileData) :
  overlay files (overlay files m) = overlay files m.
Proof.
  apply map_eq. intros k. rewrite !overlay_lookup.
  now destruct (lastWrite k files).
Qed.

Lemma lastWrite_app (k : string) (l1 l2 : list (string * fileData)) :
  lastWrite k (l1 ++ l2)
  = match lastWrite k l2 with
    | Some d => Some d
    | None => lastWrite k l1
    end.
Proof.
  unfold lastWrite. rewrite fold_left_app.
  generalize (fold_left (fun acc f => if String.eqb k (fst f) then Some (snd f) else acc)
                        l1 None).
  induction l2 as [|[k' d] l2 IH] using rev_ind; intros acc; [reflexivity |].
  rewrite !fold_left_app. cbn [fold_left fst snd].
  destruct (String.eqb k k'); [reflexivity | apply IH].
Qed.

Lemma lastWrite_none (k : string) (files : list (string * fileData)) :
  Forall (fun f => fst f <> k) files -> lastWrite k files = None.
Proof.
  induction files as [|[k' d] files IH] using rev_ind; intros H; [reflexivity |].
  apply Forall_app in H as [H1 H2]. rewrite lastWrite_app.
  unfold lastWrite at 1. cbn [fold_left fst snd].
  apply Forall_inv in H2. cbn in H2.
  destruct (String.eqb_spec k k'); [congruence | now apply IH].
Qed.

End Overlay.
Section XaiFailures.

Import Js World World.Notations ScriptSpec RunSpec.

(** The error [fetchLlmsTxt] throws, if any. *)
Lemma xai_main_fetch_fails (e : Xai.env) (w : world) (error : exn) :
  xaiFetchError e = Some error ->
  exists w',
    Xai.main e w = (Exit 1, w')
    /\ sameOut w w'
    /\ scratch w' = scratch w /\ requests w' = requests w
    /\ lastLine w' = Some (LogError "Sync failed:" error).
Proof.
  intros H. unfold Xai.main. cbv zeta.
  set (dryRun := existsb (String.eqb "--dry-run") (Xai.argv e)).
  do 3 step. rewrite bind_when_log.
  unfold tryCatch, Xai.syncDocs, Xai.fetchLlmsTxt.
  unfold xaiFetchError in H. repeat step.
  destruct (negb (Xai.devBrowser e)).
  - injection H as <-. rewrite bind_throw. step. unfold exit.
    eexists. split; [reflexivity |]. destruct dryRun; disk; repeat split.
    all: unfold lastLine; cbn [console logError snd]; apply last_snoc.
  - destruct (negb (Xai.procExitCode e =? 0)); [|discriminate].
    injection H as <-. rewrite bind_throw. step. unfold exit.
    eexists. split; [reflexivity |]. destruct dryRun; disk; repeat split.
    all: unfold lastLine; cbn [console logError snd]; apply last_snoc.
Qed.

End XaiFailures.

Section FastmcpFailures.

Import Js World World.Notations ScriptSpec RunSpec.

(** Making the output directory unless the run is a dry run. *)
Lemma ensure_out_unless (dryRun : bool) (w : world) :
  exists w1,
    (forall (B : Type) (k : unit -> M B),
        bind (when (negb dryRun)
                   (present <- existsOut ;; when (negb present) (mkdirOut ""))) k w
        = k tt w1)
    /\ outFiles w1 = outFiles w /\ outDir w1 = outDir w || negb dryRun
    /\ scratch w1 = scratch w /\ requests w1 = requests w.
Proof.
  destruct dryRun; cbn [negb].
  - exists w. rewrite orb_false_r. auto.
  - destruct (ensure_out w) as (w1 & E & D1 & F1 & S1 & R1 & _).
    exists w1. rewrite orb_true_r.
    split; [intros B k; now rewrite bind_when_true, bind_bind, bind_existsOut, E |].
    repeat split; auto.
Qed.

Lemma fastmcp_tryBlock_fails (e : FastMCP.env) (dryRun : bool) (w : world)
      (error : exn) :
  fastmcpError e = Some error ->
  exists w1,
    FastMCP.tryBlock e dryRun w = (Throw error, w1)
    /\ outFiles w1 = outFiles w
    /\ outDir w1 = outDir w
                  || negb dryRun
                     && match FastMCP.cloned e, FastMCP.revParse e with
                        | FastMCP.Cloned _, inr _ => true
                        | _, _ => false
                        end
    /\ requests w1 = requests w.
Proof.
  intros H.
  unfold FastMCP.tryBlock, FastMCP.cloneRepo, FastMCP.gitClone,
    FastMCP.getCommitHash, FastMCP.copyDocs. unfold fastmcpError in H.
  repeat step. rewrite bind_clear_scratch. repeat step.
  destruct (FastMCP.cloned e) as [root|err leftover].
  2: { injection H as <-. repeat step. rewrite bind_throw.
       eexists. split; [reflexivity |]. disk.
       rewrite ?andb_false_r, ?orb_false_r; auto. }
  repeat step. destruct (FastMCP.revParse e) as [err|out].
  { injection H as <-. rewrite bind_throw.
    eexists. split; [reflexivity |]. disk.
    rewrite ?andb_false_r, ?orb_false_r; auto. }
  repeat step.
  match goal with |- context [bind (when (negb dryRun) _) _ ?W] =>
    destruct (ensure_out_unless dryRun W) as (w1 & -> & F1 & D1 & S1 & R1) end.
  do 2 step. rewrite S1. disk. rewrite andb_true_r.
  destruct (findEntry FastMCP.SOURCE_PATH root) as [[| |]|];
    try discriminate; injection H as <-; rewrite bind_throw;
    eexists; (split; [reflexivity | auto]).
Qed.

Lemma fastmcp_script_fails (e : FastMCP.env) (w : world) (error : exn) :
  fastmcpError e = Some error ->
  exists w',
    FastMCP.script e w = (Exit 1, w')
    /\ outFiles w' = outFiles w
    /\ outDir w' = outDir w || fastmcpReachesMkdir e
    /\ scratch w' = None /\ requests w' = requests w
    /\ lastLine w' = Some (LogError "Sync failed:" error).
Proof.
  intros H. unfold FastMCP.script, tryCatch, FastMCP.main. cbv zeta.
  unfold fastmcpReachesMkdir.
  set (dryRun := existsb (String.eqb "--dry-run") (FastMCP.argv e)).
  do 3 step. rewrite bind_when_log. unfold tryFinally.
  match goal with |- context [FastMCP.tryBlock e dryRun ?W] =>
    destruct (fastmcp_tryBlock_fails e dryRun W error H) as (w1 & -> & F1 & D1 & R1);
    assert (outFiles W = outFiles w /\ outDir W = outDir w /\ requests W = requests w)
      as (F0 & D0 & R0) by (destruct dryRun; auto)
  end.
  rewrite F0 in F1. rewrite D0 in D1. rewrite R0 in R1. clear F0 D0 R0.
  destruct (cleanup_disk w1) as (w2 & -> & S2 & D2 & F2 & R2 & C2).
  step. destruct (cleanup_disk (logError "Sync failed:" error w2).2)
    as (w3 & E3 & S3 & D3 & F3 & R3 & C3).
  rewrite (bind_value _ _ _ _ _ _ E3). unfold exit.
  eexists. split; [reflexivity |]. disk.
  rewrite F3, D3, R3, F2, D2, R2. repeat split; auto.
  unfold lastLine. rewrite C3. cbn [console logError snd]. apply last_snoc.
Qed.

End FastmcpFailures.
Section RunFacts.

Import Js World World.Notations ScriptSpec RunSpec.

Lemma fastmcpError_none (e : FastMCP.env) :
  fastmcpError e = None ->
  exists root name children out,
    FastMCP.cloned e = FastMCP.Cloned root
    /\ findEntry FastMCP.SOURCE_PATH root = Some (Dir name children)
    /\ FastMCP.revParse e = inr out.
Proof.
  unfold fastmcpError. destruct (FastMCP.cloned e) as [root|]; [|discriminate].
  destruct (FastMCP.revParse e) as [|out]; [discriminate |].
  destruct (findEntry FastMCP.SOURCE_PATH root) as [[|name children|]|] eqn:F;
    try discriminate.
  intros _. exists root, name, children, out. auto.
Qed.

Lemma fastmcpError_some (e : FastMCP.env) (root children : list entry)
      (name out : string) :
  FastMCP.cloned e = FastMCP.Cloned root ->
  findEntry FastMCP.SOURCE_PATH root = Some (Dir name children) ->
  FastMCP.revParse e = inr out ->
  fastmcpError e = None.
Proof. intros H1 H2 H3. unfold fastmcpError. now rewrite H1, H3, H2. Qed.

Lemma xaiFetchError_none (e : Xai.env) :
  xaiFetchError e = None -> Xai.devBrowser e = true /\ Xai.procExitCode e = 0.
Proof.
  unfold xaiFetchError. destruct (Xai.devBrowser e); [|discriminate]. cbn [negb].
  destruct (Nat.eqb_spec (Xai.procExitCode e) 0); [auto | discriminate].
Qed.

(** The dry run of the xAI script, whole. *)
Lemma xai_loop_dry (e : Xai.env) (docs : list (string * string))
      (acc : list Xai.SyncResult) (w : world) :
  exists w',
    forEach (Xai.syncDoc e true) docs acc w
    = (Normal (acc ++ map (xaiSkipped e) docs), w').
Proof.
  revert acc w. induction docs as [|[p b] docs IH]; intros acc w.
  - exists w. now rewrite app_nil_r.
  - cbn [forEach]. unfold Xai.syncDoc at 1. rewrite bind_bind. do 2 step.
    match goal with |- context [forEach _ docs ?a ?w1] =>
      destruct (IH a w1) as (w' & ->) end.
    exists w'. cbn [map]. now rewrite <- app_assoc.
Qed.

Lemma xai_main_dry_results (e : Xai.env) (w : world) :
  existsb (String.eqb "--dry-run") (Xai.argv e) = true ->
  Xai.devBrowser e = true -> Xai.procExitCode e = 0 ->
  fst (Xai.main e w) = Normal (map (xaiSkipped e) (Xai.parseLlmsTxt (Xai.procStdout e))).
Proof.
  intros Hdry Hdev Hexit.
  unfold Xai.main. rewrite Hdry. cbv zeta. do 3 step. rewrite bind_when_log.
  unfold tryCatch, Xai.syncDocs, Xai.fetchLlmsTxt.
  rewrite Hdev, Hexit. cbn [negb Nat.eqb]. repeat step.
  match goal with |- context [bind (forEach _ ?d ?a) _ ?w1] =>
    destruct (xai_loop_dry e d a w1) as (w' & E) end.
  rewrite (bind_value _ _ _ _ _ _ E). cbn [app]. repeat step. reflexivity.
Qed.

(** Every result of a run that wrote files is counted. *)
Lemma fileCount_created (rs : list FastMCP.SyncResult) :
  Forall (fastmcpStatusOk false) rs ->
  length (List.filter (fun r => negb (FastMCP.isSkipped r)) rs) = length rs.
Proof.
  induction 1 as [|r rs Hr _ IH]; [reflexivity |]. cbn [List.filter].
  unfold FastMCP.isSkipped at 1. unfold fastmcpStatusOk in Hr. rewrite Hr.
  cbn. now rewrite IH.
Qed.

Lemma xai_fileCount_created (rs : list Xai.SyncResult) :
  Forall (xaiStatusOk false) rs ->
  length (List.filter (fun r => negb (Xai.isSkipped r)) rs) = length rs.
Proof.
  induction 1 as [|r rs Hr _ IH]; [reflexivity |]. cbn [List.filter].
  unfold Xai.isSkipped at 1. unfold xaiStatusOk in Hr. rewrite Hr.
  cbn. now rewrite IH.
Qed.

Lemma length_jsSort (paths : list string) : length (jsSort paths) = length paths.
Proof.
  apply Permutation_length. unfold jsSort.
  apply (merge_sort_Permutation codeUnitLe).
Qed.

End RunFacts.
(** ** Facts about the pages *)

Section Dom.

Import Js World SyncHtml HtmlPage PageSpec.

(** Induction on a node that reaches the children of an element. *)
Lemma node_nested_ind (P : node -> Prop) :
  (forall data, P (Text data)) ->
  (forall name attrs children, Forall P children -> P (Element name attrs children)) ->
  forall n, P n.
Proof.
  intros Htext Helem. fix IH 1. intros [data|name attrs children].
  - apply Htext.
  - apply Helem. induction children as [|child children IHc]; constructor.
    + apply IH.
    + exact IHc.
Qed.

Lemma descendants_element (name : string) (attrs : list (string * string))
      (children : list node) :
  descendants (Element name attrs children)
  = flat_map (fun child => child :: descendants child) children.
Proof.
  cbn [descendants]. induction children as [|c cs IH]; [reflexivity |].
  cbn [flat_map]. now rewrite IH.
Qed.

Lemma prune_element (f : node -> bool) (name : string)
      (attrs : list (string * string)) (children : list node) :
  prune f (Element name attrs children)
  = Element name attrs
      (map (prune f) (List.filter (fun c => negb (f c)) children)).
Proof.
  cbn [prune]. f_equal. induction children as [|c cs IH]; [reflexivity |].
  cbn [List.filter]. destruct (f c); cbn [negb map]; now rewrite IH.
Qed.

Lemma removeAll_prune (sel : selector) (n : node) :
  removeAll sel n = prune (matches sel) n.
Proof.
  induction n as [data|name attrs children IH] using node_nested_ind; [reflexivity |].
  cbn [removeAll prune]. f_equal.
  induction IH as [|c cs Hc _ IHcs]; [reflexivity |].
  destruct (matches sel c); [exact IHcs | now rewrite Hc, IHcs].
Qed.

(** Pruning changes neither the name nor the attributes of a node, so it
    changes nothing to what the node matches. *)
Lemma matches_prune (f : node -> bool) (sel : selector) (n : node) :
  matches sel (prune f n) = matches sel n.
Proof. destruct n; reflexivity. Qed.

Lemma matchesAny_prune (f : node -> bool) (selectors : list selector) (n : node) :
  matchesAny selectors (prune f n) = matchesAny selectors n.
Proof.
  unfold matchesAny. induction selectors as [|s l IH]; [reflexivity |].
  cbn [existsb]. now rewrite matches_prune, IH.
Qed.

(** Two prunings in a row are one. *)
Lemma prune_prune (f g : node -> bool) (n : node) :
  (forall m, g (prune f m) = g m) ->
  prune g (prune f n) = prune (fun m => f m || g m) n.
Proof.
  intros Hg. induction n as [data|name attrs children IH] using node_nested_ind;
    [reflexivity |].
  rewrite !prune_element. f_equal.
  induction IH as [|c cs Hc _ IHcs]; [reflexivity |].
  cbn [List.filter]. destruct (f c) eqn:Fc; cbn [negb orb map List.filter].
  - exact IHcs.
  - rewrite Hg. destruct (g c); cbn [negb map]; [exact IHcs |].
    now rewrite Hc, IHcs.
Qed.

Lemma prune_ext (f g : node -> bool) (n : node) :
  (forall m, f m = g m) -> prune f n = prune g n.
Proof.
  intros H. induction n as [data|name attrs children IH] using node_nested_ind;
    [reflexivity |].
  rewrite !prune_element. f_equal.
  induction IH as [|c cs Hc _ IHcs]; [reflexivity |].
  cbn [List.filter]. rewrite H. destruct (g c); cbn [negb map]; [exact IHcs |].
  now rewrite Hc, IHcs.
Qed.

Lemma prune_none (n : node) : prune (fun _ => false) n = n.
Proof.
  induction n as [data|name attrs children IH] using node_nested_ind; [reflexivity |].
  rewrite prune_element. f_equal. cbn [negb].
  induction IH as [|c cs Hc _ IHcs]; [reflexivity |].
  cbn [List.filter map]. now rewrite Hc, IHcs.
Qed.

(** The loop over the selectors prunes whatever matches one of them. *)
Lemma clean_prune (selectors : list selector) (article : node) :
  clean selectors article = prune (matchesAny selectors) article.
Proof.
  unfold clean.
  assert (forall done a,
             fold_left (fun a sel => removeAll sel a) selectors
                       (prune (matchesAny done) a)
             = prune (matchesAny (done ++ selectors)) a) as H.
  { induction selectors as [|s l IH]; intros done a.
    - now rewrite app_nil_r.
    - cbn [fold_left]. rewrite removeAll_prune, prune_prune
        by (intros m; apply matches_prune).
      rewrite (prune_ext _ (matchesAny (done ++ [s]))).
      + rewrite IH, <- app_assoc. reflexivity.
      + intros m. unfold matchesAny. rewrite existsb_app. cbn. now rewrite orb_false_r. }
  specialize (H [] article). cbn [app] in H. rewrite <- H.
  unfold matchesAny at 1. cbn [existsb]. now rewrite prune_none.
Qed.

(** Nothing unwanted is left below a pruned node. *)
Lemma descendants_prune (f : node -> bool) (n d : node) :
  (forall m, f (prune f m) = f m) ->
  In d (descendants (prune f n)) ->
  f d = false /\ exists d0, In d0 (descendants n) /\ d = prune f d0.
Proof.
  intros Hf. induction n as [data|name attrs children IH] using node_nested_ind;
    [intros [] |].
  rewrite prune_element, !descendants_element.
  induction IH as [|c cs Hc _ IHcs]; [intros [] |].
  cbn [List.filter]. destruct (f c) eqn:Fc; cbn [negb map flat_map].
  - intros H. destruct (IHcs H) as (Hd & d0 & H0 & ->).
    split; [exact Hd |]. exists d0. split; [|reflexivity].
    right. apply in_or_app. now right.
  - intros [<-|H].
    + split; [now rewrite Hf |]. exists c. split; [now left | reflexivity].
    + apply in_app_or in H as [H|H].
      * destruct (Hc H) as (Hd & d0 & H0 & ->). split; [exact Hd |].
        exists d0. split; [|reflexivity]. right. apply in_or_app. now left.
      * destruct (IHcs H) as (Hd & d0 & H0 & ->). split; [exact Hd |].
        exists d0. split; [|reflexivity]. right. apply in_or_app. now right.
Qed.

Lemma clean_no_match (selectors : list selector) (article : node) (sel : selector) :
  In sel selectors -> querySelectorAll sel (clean selectors article) = [].
Proof.
  intros Hin. rewrite clean_prune. unfold querySelectorAll.
  destruct (List.filter _ _) as [|d l] eqn:E; [reflexivity |]. exfalso.
  assert (In d (List.filter (matches sel)
                            (descendants (prune (matchesAny selectors) article)))) as H
      by (rewrite E; now left).
  apply filter_In in H as [H Hm].
  apply descendants_prune in H as [Hd _]; [|intros m; apply matchesAny_prune].
  unfold matchesAny in Hd.
  assert (existsb (fun s => matches s d) selectors = true); [|congruence].
  apply existsb_exists. eauto.
Qed.

Lemma matchesAny_perm (l l' : list selector) (n : node) :
  Permutation l l' -> matchesAny l n = matchesAny l' n.
Proof.
  intros H. unfold matchesAny.
  destruct (existsb (fun s => matches s n) l) eqn:E; symmetry.
  - apply existsb_exists in E as (s & Hs & Hm). apply existsb_exists.
    exists s. split; [|exact Hm]. now apply (Permutation_in _ H).
  - destruct (existsb (fun s => matches s n) l') eqn:E'; [|reflexivity].
    apply existsb_exists in E' as (s & Hs & Hm).
    assert (existsb (fun s => matches s n) l = true); [|congruence].
    apply existsb_exists. exists s. split; [|exact Hm].
    now apply (Permutation_in _ (Permutation_sym H)).
Qed.

Lemma clean_perm (l l' : list selector) (article : node) :
  Permutation l l' -> clean l article = clean l' article.
Proof.
  intros H. rewrite !clean_prune. apply prune_ext. intros m. now apply matchesAny_perm.
Qed.

Lemma clean_idem (selectors : list selector) (article : node) :
  clean selectors (clean selectors article) = clean selectors article.
Proof.
  rewrite !clean_prune, prune_prune by (intros m; apply matchesAny_prune).
  apply prune_ext. intros m. now destruct (matchesAny selectors m).
Qed.

Lemma clean_root (selectors : list selector) (article : node) :
  nodeNameOf (clean selectors article) = nodeNameOf article
  /\ attributesOf (clean selectors article) = attributesOf article.
Proof. rewrite clean_prune. now destruct article. Qed.

End Dom.
Section ContentArea.

Import Js World SyncHtml HtmlPage PageSpec.

Lemma head_filter_spec {A : Type} (f : A -> bool) (l : list A) :
  match head (List.filter f l) with
  | Some a => exists before after,
                l = before ++ a :: after /\ f a = true
                /\ Forall (fun x => f x = false) before
  | None => Forall (fun x => f x = false) l
  end.
Proof.
  induction l as [|x l IH]; [constructor |]. cbn [List.filter].
  destruct (f x) eqn:Fx; cbn [head].
  - exists [], l. repeat split; auto.
  - destruct (head (List.filter f l)) as [a|].
    + destruct IH as (before & after & -> & Fa & Hb).
      exists (x :: before), after. repeat split; auto.
    + constructor; auto.
Qed.

(** The content area is the first element, in document order, that
    matches the first selector matching anything. *)
Lemma firstMatch_spec (selectors : list selector) (doc : document) :
  match firstMatch selectors doc with
  | Some article =>
      exists earlier sel later before after,
        selectors = earlier ++ sel :: later
        /\ Forall (fun s => Forall (fun n => matches s n = false) (elements doc)) earlier
        /\ elements doc = before ++ article :: after
        /\ matches sel article = true
        /\ Forall (fun n => matches sel n = false) before
  | None =>
      Forall (fun s => Forall (fun n => matches s n = false) (elements doc)) selectors
  end.
Proof.
  induction selectors as [|s l IH]; [constructor |]. cbn [firstMatch].
  unfold querySelector. fold (elements doc).
  pose proof (head_filter_spec (matches s) (elements doc)) as H.
  destruct (head (List.filter (matches s) (elements doc))) as [a|].
  - destruct H as (before & after & E & Ha & Hb).
    exists [], s, l, before, after. repeat split; auto.
  - destruct (firstMatch l doc) as [a|].
    + destruct IH as (earlier & sel & later & before & after & -> & He & E & Ha & Hb).
      exists (s :: earlier), sel, later, before, after. repeat split; auto.
    + constructor; auto.
Qed.

End ContentArea.

Section HtmlRuns.

Import Js World World.Notations ScriptSpec RunSpec SyncHtml HtmlPage PageSpec.

Context (e : env) (dryRun : bool).

Lemma syncPage_spec (t : tally) (page : DocPage) (w : world) :
  exists t' w',
    syncPage e dryRun t page w = (Normal t', w')
    /\ requests w' = requests w ++ [url page]
    /\ scratch w' = scratch w
    /\ (dryRun = true -> sameOut w w')
    /\ synced t' + failed t' = S (synced t + failed t)
    /\ match pageFile e (synced t + failed t) page with
       | Some file =>
           synced t' = S (synced t)
           /\ (dryRun = false ->
               outDir w' = true /\ outFiles w' = <[fst file := snd file]> (outFiles w))
       | None =>
           failed t' = S (failed t)
           /\ outDir w' = outDir w /\ outFiles w' = outFiles w
       end.
Proof.
  unfold syncPage, fetchAndConvert, pageFile, tryCatch, bind, log, recordRequest,
    logError, throw, ret, mkdirOut, writeOut.
  cbn [fst snd requests outDir].
  destruct (fetch e (url page)) as [error|r].
  - do 2 eexists. split; [reflexivity |]. cbn. repeat split; auto; lia.
  - destruct (ok r); cbn [negb].
    + destruct (findArticle CONTENT_SELECTORS (parseHTML e (text r))) as [article|].
      * destruct dryRun; cbn; do 2 eexists; (split; [reflexivity |]);
          cbn; repeat split; auto; try lia; discriminate.
      * do 2 eexists. split; [reflexivity |]. cbn. repeat split; auto; lia.
    + do 2 eexists. split; [reflexivity |]. cbn. repeat split; auto; lia.
Qed.

Lemma syncPages_spec (pages : list DocPage) (t : tally) (w : world) :
  exists t' w',
    forEach (syncPage e dryRun) pages t w = (Normal t', w')
    /\ requests w' = requests w ++ map url pages
    /\ scratch w' = scratch w
    /\ (dryRun = true -> sameOut w w')
    /\ synced t' + failed t' = synced t + failed t + length pages
    /\ synced t' = synced t + length (pageFiles e (synced t + failed t) pages)
    /\ (dryRun = false ->
        outFiles w' = overlay (pageFiles e (synced t + failed t) pages) (outFiles w)).
Proof.
  revert t w. induction pages as [|page pages IH]; intros t w.
  - exists t, w. cbn. rewrite app_nil_r. repeat split; auto; lia.
  - cbn [forEach]. unfold bind.
    destruct (syncPage_spec t page w) as (t1 & w1 & -> & Hreq & Hscr & Hdry & Hsum & Hp).
    destruct (IH t1 w1) as (t2 & w2 & -> & Hreq2 & Hscr2 & Hdry2 & Hsum2 & Hsyn2 & Hout2).
    exists t2, w2. split; [reflexivity |].
    cbn [map length pageFiles]. rewrite Hreq2, Hreq, <- app_assoc.
    split; [reflexivity |]. split; [congruence |].
    split; [intros Hd; apply (sameOut_trans w w1 w2); auto |].
    split; [lia |]. rewrite Hsum in Hsyn2, Hout2.
    destruct (pageFile e (synced t + failed t) page) as [file|].
    + destruct Hp as (Hs & Hw). cbn [length]. split; [lia |].
      intros Hd. rewrite (Hout2 Hd). destruct (Hw Hd) as (_ & ->). reflexivity.
    + destruct Hp as (Hf & _ & Hw). split; [lia |].
      intros Hd. rewrite (Hout2 Hd), Hw. reflexivity.
Qed.

Lemma html_main_spec (w : world) :
  parsedArgs e = inr dryRun ->
  exists t w',
    main e w = (Normal t, w')
    /\ requests w' = requests w ++ map url (DOC_PAGES e)
    /\ scratch w' = scratch w
    /\ (dryRun = true -> sameOut w w')
    /\ synced t + failed t = length (DOC_PAGES e)
    /\ synced t = length (pageFiles e 0 (DOC_PAGES e))
    /\ (dryRun = false ->
        outFiles w' = overlay (pageFiles e 0 (DOC_PAGES e)) (outFiles w)).
Proof.
  intros Hargs. unfold main. rewrite Hargs. do 2 step.
  match goal with |- context [bind (forEach _ ?l ?t0) _ ?w0] =>
    destruct (syncPages_spec l t0 w0)
      as (t & w1 & E & Hreq & Hscr & Hdry & Hsum & Hsyn & Hout) end.
  rewrite (bind_value _ _ _ _ _ _ E). step. unfold ret.
  exists t. eexists. split; [reflexivity |]. disk.
  cbn [synced failed Nat.add] in Hsum, Hsyn, Hout.
  split; [exact Hreq |]. split; [exact Hscr |].
  split; [intros Hd; destruct (Hdry Hd) as (H1 & H2 & H3); repeat split; assumption |].
  split; [exact Hsum |]. split; [exact Hsyn |]. exact Hout.
Qed.

End HtmlRuns.

Section HtmlExit.

Import Js World World.Notations ScriptSpec RunSpec SyncHtml HtmlPage PageSpec.

Lemma html_main_noexit (e : env) : yields anything anything nothing (main e).
Proof.
  unfold main.
  eapply (yields_bind _ _ anything); [noexit | intros dryRun _].
  eapply (yields_bind _ _ anything); [noexit | intros ? _].
  eapply (yields_bind _ _ anything); [|intros t _; noexit].
  apply (yields_forEach anything nothing (fun _ => anything)
           (syncPage e dryRun) _ [] _); [|exact I].
  intros _ t page _. unfold syncPage.
  eapply yields_tryCatch with (R := anything); [|intros error _; noexit].
  eapply (yields_bind _ _ anything); [unfold fetchAndConvert; noexit | intros md _].
  eapply (yields_bind _ _ anything); [|intros ? _; noexit].
  destruct dryRun; [noexit |].
  eapply (yields_bind _ _ anything); [noexit | intros ? _].
  eapply (yields_bind _ _ anything); [apply writeOut_noexit | intros ? _]. noexit.
Qed.

Lemma html_script_status (e : env) (w : world) :
  exitStatus (fst (script e w)) = 0.
Proof.
  unfold script. now rewrite (catch_console_error_normal (main e) w (html_main_noexit e)).
Qed.

End HtmlExit.
Section MoreFacts.

Import Js Llms World World.Notations ScriptSpec ParserSpec RunSpec TitleSpec.

(** The keys of the [Map] come in the order in which the paths first
    occur. *)
Lemma keys_fold_setDoc (docs : list (string * string)) (m : JsMap.t) :
  JsMap.keys (fold_left setDoc docs m)
  = JsMap.keys m ++ distinctFrom (JsMap.keys m) (map fst docs).
Proof.
  revert m. induction docs as [|[p b] docs IH]; intros m.
  - cbn. now rewrite app_nil_r.
  - cbn [fold_left map distinctFrom fst]. rewrite IH. unfold setDoc. cbn [fst snd].
    rewrite keys_set.
    destruct (existsb (String.eqb p) (JsMap.keys m)); [reflexivity |].
    now rewrite <- app_assoc.
Qed.

Lemma xai_keys_order (blob : string) :
  JsMap.keys (Xai.parseLlmsTxt blob) = firstOccurrences (map fst (sectionDocs blob)).
Proof. rewrite xai_parse_fold. apply (keys_fold_setDoc _ JsMap.empty). Qed.

(** The names of the documents never meet the name of the manifest. *)
Lemma endsWith_md_manifest (stem : string) : stem +:+ ".md" <> "manifest.json".
Proof.
  intros H. assert (lastUnit (stem +:+ ".md") = lastUnit "manifest.json") as L
      by now rewrite H.
  rewrite (lastUnit_append stem ".md" "d") in L by reflexivity. discriminate.
Qed.

Lemma fastmcp_name_not_manifest (f : string * string * string) :
  kept f = true -> fst (fastmcpCopy f) <> "manifest.json".
Proof.
  destruct f as [[rel name] content]. unfold kept, fastmcpCopy. cbn [fst snd].
  intros H. apply andb_prop in H as [_ H].
  destruct (outputNameOf_kept rel name H) as (stem & _ & ->).
  rewrite <- append_assoc. apply endsWith_md_manifest.
Qed.

Lemma xai_name_not_manifest (doc : string * string) :
  fst (xaiFile doc) <> "manifest.json".
Proof. unfold xaiFile, Xai.pathToFilename, pathToFilename. apply endsWith_md_manifest. Qed.

Lemma lastWrite_last (k : string) (d : fileData) (before after : list (string * fileData)) :
  Forall (fun f => fst f <> k) after ->
  lastWrite k (before ++ (k, d) :: after) = Some d.
Proof.
  intros H. change (before ++ (k, d) :: after) with (before ++ [(k, d)] ++ after).
  rewrite app_assoc, lastWrite_app, (lastWrite_none k after H), lastWrite_app.
  unfold lastWrite at 1. cbn. now rewrite String.eqb_refl.
Qed.

End MoreFacts.
(** ** Reading back what was written *)

Section RoundTrip.

Import Js Llms World ParserSpec RunSpec TitleSpec LlmsSpec.

Lemma splitSections_whole (c : ascii) (a b : string) :
  uncut a b = true ->
  startsWith "===/" b = true ->
  splitSections (String c a +:+ b) = String c a :: splitSections b.
Proof.
  revert c. induction a as [|x a IH]; intros c Hu Hb.
  - cbn [String.append]. rewrite splitSections_step. now rewrite Hb.
  - cbn [uncut] in Hu. apply andb_prop in Hu as [Hx Hu].
    apply negb_true_iff in Hx.
    change (String c (String x a) +:+ b) with (String c (String x a +:+ b)).
    rewrite splitSections_step, Hx, (IH x Hu Hb). reflexivity.
Qed.

Lemma splitSections_last (c : ascii) (a : string) :
  uncut a "" = true -> splitSections (String c a) = [String c a].
Proof.
  revert c. induction a as [|x a IH]; intros c Hu; [reflexivity |].
  cbn [uncut] in Hu. apply andb_prop in Hu as [Hx Hu].
  apply negb_true_iff in Hx. rewrite append_nil_r in Hx.
  rewrite splitSections_step, Hx, (IH x Hu). reflexivity.
Qed.

Lemma uncut_app (a1 a2 b : string) :
  uncut (a1 +:+ a2) b = uncut a1 (a2 +:+ b) && uncut a2 b.
Proof.
  induction a1 as [|x a1 IH]; [reflexivity |].
  cbn [String.append uncut]. rewrite IH.
  change (String x (a1 +:+ a2) +:+ b) with (String x ((a1 +:+ a2) +:+ b)).
  change (String x a1 +:+ a2 +:+ b) with (String x (a1 +:+ (a2 +:+ b))).
  now rewrite append_assoc, andb_assoc.
Qed.

Lemma uncut_notEq (p b : string) : every notEq p = true -> uncut p b = true.
Proof.
  induction p as [|c p IH]; [reflexivity |]. cbn [every uncut]. intros H.
  apply andb_prop in H as [Hc H]. rewrite (IH H), andb_true_r.
  cbn [String.append startsWith]. unfold notEq in Hc. apply negb_true_iff in Hc.
  now rewrite Ascii.eqb_sym, Hc.
Qed.

(** A code unit that is no part of the delimiter ends every attempt to
    read the delimiter across it. *)
Lemma startsWith_delim_LF (t rest : string) :
  startsWith "===/" (t +:+ String LF rest) = startsWith "===/" t.
Proof.
  destruct t as [|a [|b [|c [|d t]]]]; cbn [String.append startsWith];
    rewrite ?andb_false_r; try reflexivity.
  all: repeat match goal with
         | |- context [Ascii.eqb ?x ?y] => destruct (Ascii.eqb x y) eqn:?
         end; cbn; reflexivity.
Qed.

Lemma uncut_body (b rest : string) :
  occursIn "===/" b = false -> uncut b (NL +:+ rest) = true.
Proof.
  change (NL +:+ rest) with (String LF rest).
  induction b as [|c b IH]; [reflexivity |]. intros H.
  cbn [occursIn] in H. apply orb_false_iff in H as [H1 H2].
  cbn [uncut]. rewrite (IH H2), andb_true_r.
  now rewrite startsWith_delim_LF, H1.
Qed.

Lemma uncut_renderDoc (doc : string * string) (next : string) :
  writable doc = true ->
  exists a, renderDoc doc = String "=" a /\ uncut a next = true.
Proof.
  destruct doc as [p b]. unfold writable, renderDoc. cbn [fst snd]. intros H.
  repeat (apply andb_prop in H as [H ?]).
  exists ("==/" +:+ p +:+ "===" +:+ NL +:+ b +:+ NL). split; [reflexivity |].
  rewrite <- !append_assoc, !uncut_app.
  rewrite (uncut_notEq p) by assumption.
  rewrite (uncut_body b) by now apply negb_true_iff.
  reflexivity.
Qed.

Lemma span_app (f : ascii -> bool) (p rest : string) :
  every f p = true ->
  match rest with EmptyString => true | String c _ => negb (f c) end = true ->
  span f (p +:+ rest) = (p, rest).
Proof.
  intros Hp Hr. induction p as [|c p IH].
  - destruct rest as [|c rest]; [reflexivity |]. cbn [String.append span].
    apply negb_true_iff in Hr. now rewrite Hr.
  - cbn in Hp. apply andb_prop in Hp as [Hc Hp].
    cbn [String.append span]. now rewrite Hc, (IH Hp).
Qed.

Lemma trimEnd_LF (b : string) : trimEnd (b +:+ NL) = trimEnd b.
Proof.
  induction b as [|c b IH]; [reflexivity |].
  cbn [String.append trimEnd]. now rewrite IH.
Qed.

Lemma trim_body (b : string) :
  nonEmpty b = true -> trim b = b -> trim (b +:+ NL) = b.
Proof.
  intros Hn Ht. unfold trim in *.
  assert (trimStart b = b) as Hs.
  { destruct b as [|c b]; [reflexivity |]. cbn [trimStart] in *.
    destruct (isWhiteSpace c) eqn:W; [|reflexivity]. exfalso.
    assert (String.length (trimEnd (trimStart b)) <= String.length b) as L.
    { clear. assert (forall s, String.length (trimEnd s) <= String.length s) as HE.
      { induction s as [|x s IH]; [auto |]. cbn [trimEnd].
        destruct (trimEnd s); [destruct (isWhiteSpace x); cbn; lia | cbn in *; lia]. }
      assert (forall s, String.length (trimStart s) <= String.length s) as HS.
      { induction s as [|x s IH]; [auto |]. cbn [trimStart].
        destruct (isWhiteSpace x); cbn in *; lia. }
      specialize (HE (trimStart b)). specialize (HS b). lia. }
    rewrite Ht in L. cbn in L. lia. }
  assert (trimStart (b +:+ NL) = b +:+ NL) as ->.
  { destruct b as [|c b]; [discriminate |]. cbn [trimStart String.append] in *.
    destruct (isWhiteSpace c); [|reflexivity].
    exfalso. assert (String.length (trimStart b) <= String.length b) as L.
    { clear. induction b as [|x s IH]; [auto |]. cbn [trimStart].
      destruct (isWhiteSpace x); cbn in *; lia. }
    rewrite Hs in L. cbn in L. lia. }
  rewrite trimEnd_LF. now rewrite Hs in Ht.
Qed.

Lemma matchHeader_render (p rest : string) :
  nonEmpty p = true -> every notEq p = true ->
  matchHeader ("===/" +:+ p +:+ "===" +:+ rest) = Some p.
Proof.
  intros Hn He. unfold matchHeader. rewrite startsWith_append.
  change (slice 4 ("===/" +:+ p +:+ "===" +:+ rest)) with (p +:+ "===" +:+ rest).
  rewrite (span_app notEq p ("===" +:+ rest) He eq_refl), Hn.
  now rewrite startsWith_append.
Qed.

Lemma stripHeader_render (p rest : string) :
  every notEq p = true ->
  stripHeader ("===/" +:+ p +:+ "===" +:+ NL +:+ rest) = rest.
Proof.
  intros He. unfold stripHeader.
  change ("===/" +:+ p +:+ "===" +:+ NL +:+ rest)
    with ("===" +:+ String "/" p +:+ "===" +:+ NL +:+ rest).
  rewrite startsWith_append.
  change (slice 3 ("===" +:+ String "/" p +:+ "===" +:+ NL +:+ rest))
    with (String "/" p +:+ "===" +:+ NL +:+ rest).
  rewrite (span_app notEq (String "/" p) ("===" +:+ NL +:+ rest));
    [|cbn [every]; now rewrite He | reflexivity].
  cbn [nonEmpty andb]. rewrite startsWith_append.
  reflexivity.
Qed.

Lemma parseSection_renderDoc (doc : string * string) :
  writable doc = true -> parseSection (renderDoc doc) = Some doc.
Proof.
  destruct doc as [p b]. unfold writable, renderDoc. cbn [fst snd]. intros H.
  apply andb_prop in H as [H Hd]. apply andb_prop in H as [H Ht].
  apply andb_prop in H as [H Hb]. apply andb_prop in H as [Hp He].
  apply String.eqb_eq in Ht.
  unfold parseSection.
  rewrite (matchHeader_render p (NL +:+ b +:+ NL) Hp He).
  rewrite (stripHeader_render p (b +:+ NL) He).
  rewrite (trim_body b Hb Ht), Hb. reflexivity.
Qed.

Lemma startsWith_render (doc : string * string) (docs : list (string * string)) :
  startsWith "===/" (render (doc :: docs)) = true.
Proof. reflexivity. Qed.

Lemma sectionDocs_render (docs : list (string * string)) :
  Forall (fun doc => writable doc = true) docs ->
  sectionDocs (render docs) = docs.
Proof.
  unfold sectionDocs. induction 1 as [|doc docs Hd _ IH]; [reflexivity |].
  cbn [render fold_right]. fold (render docs).
  destruct (uncut_renderDoc doc (render docs) Hd) as (a & E & Hu).
  destruct docs as [|doc' docs].
  - cbn [render fold_right]. rewrite append_nil_r, E.
    rewrite splitSections_last by exact Hu. cbn [emitted].
    rewrite <- E, (parseSection_renderDoc doc Hd). reflexivity.
  - rewrite E, splitSections_whole by (exact Hu || apply startsWith_render).
    cbn [emitted]. rewrite <- E, (parseSection_renderDoc doc Hd), IH. reflexivity.
Qed.

(** Distinct keys are set one after the other. *)
Lemma fold_setDoc_distinct (docs : list (string * string)) (m : JsMap.t) :
  NoDup (JsMap.keys m ++ map fst docs) ->
  fold_left setDoc docs m = m ++ docs.
Proof.
  revert m. induction docs as [|[p b] docs IH]; intros m H.
  - now rewrite app_nil_r.
  - cbn [fold_left]. unfold setDoc at 2. cbn [fst snd].
    assert (JsMap.set p b m = m ++ [(p, b)]) as ->.
    { cbn [map fst] in H. apply NoDup_app in H as (_ & H & _).
      assert (~ In p (JsMap.keys m)) as Hp.
      { intros Hin. apply (H p); [now apply list_elem_of_In | left]. }
      clear -Hp. induction m as [|[k v] m IHm]; [reflexivity |].
      cbn [JsMap.set]. destruct (String.eqb_spec p k) as [->|_].
      - exfalso. apply Hp. now left.
      - cbn [app]. rewrite IHm; [reflexivity |]. intros Hin. apply Hp. now right. }
    rewrite IH.
    + now rewrite <- app_assoc.
    + unfold JsMap.keys in *. rewrite map_app. cbn [map fst] in *.
      now rewrite <- app_assoc.
Qed.

End RoundTrip.
Section GithubRealRun.

Import Js World World.Notations ScriptSpec RunSpec.

Lemma github_loop_real (files : list (string * string * (exn + string)))
      (acc : list SyncGithub.SyncResult) (w : world) :
  outDir w = true ->
  exists w',
    forEach (githubFile false) files acc w
    = (match githubFirstError files with
       | None => Normal (acc ++ githubResults files)
       | Some error => Throw error
       end, w')
    /\ outDir w' = true
    /\ outFiles w' = overlay (githubCopies files) (outFiles w)
    /\ scratch w' = scratch w /\ requests w' = requests w.
Proof.
  revert acc w. induction files as [|[[rel name] read] files IH]; intros acc w Hw.
  - exists w. cbn. rewrite app_nil_r. repeat split; auto.
  - cbn [forEach githubFirstError githubCopies githubResults]. unfold githubKept at 1 2 3.
    cbn [fst snd]. unfold githubFile at 1, SyncGithub.processFile. cbn [fst snd].
    destruct (endsWith ".mdx" name || endsWith ".md" name).
    2: { step. exact (IH acc w Hw). }
    destruct read as [error|content].
    + repeat rewrite bind_bind. rewrite bind_throw. exists w. repeat split; auto.
    + repeat step. rewrite bind_writeOut by reflexivity. repeat step.
      match goal with |- context [forEach _ files ?a ?w1] =>
        destruct (IH a w1 ltac:(unfold writeOut; cbn [mkdirOut snd outDir]; reflexivity))
          as (w' & E & H1 & H2 & H3 & H4) end.
      exists w'. rewrite E.
      revert H2 H3 H4. unfold writeOut. cbn [mkdirOut snd outDir]. disk.
      intros H2 H3 H4. unfold githubOutput. cbn [fst snd overlay fold_left] in *.
      repeat split; auto.
      destruct (githubFirstError files); [reflexivity |].
      now rewrite <- app_assoc.
Qed.

Lemma github_cleanup_disk (w : world) :
  exists w', SyncGithub.cleanup w = (Normal tt, w')
             /\ scratch w' = None /\ outDir w' = outDir w
             /\ outFiles w' = outFiles w /\ requests w' = requests w
             /\ console w' = console w.
Proof.
  unfold SyncGithub.cleanup, bind, existsScratch, when, removeScratch, ret.
  destruct (scratch w) eqn:E; eexists; repeat split; exact E.
Qed.

Context (e : SyncGithub.env) (root children : list entry) (name out : string).
Context (Hargs : SyncGithub.parsedArgs e = inr false).
Context (Hclone : SyncGithub.cloned e = FastMCP.Cloned root).
Context (Hfind : findEntry SyncGithub.SOURCE_PATH root = Some (Dir name children)).
Context (Hrev : SyncGithub.revParse e = inr out).

Let files := walkAllGithub "" children.

Lemma github_tryBlock_real (w : world) :
  exists w',
    SyncGithub.tryBlock e false w
    = (match githubFirstError files with
       | None => Normal (githubResults files)
       | Some error => Throw error
       end, w')
    /\ outFiles w'
       = match githubFirstError files with
         | None =>
             <["manifest.json" :=
                 JsonText (SyncGithub.manifestOf e (githubResults files) (trim out))]>
               (overlay (githubCopies files) (outFiles w))
         | Some _ => overlay (githubCopies files) (outFiles w)
         end
    /\ requests w' = requests w.
Proof.
  unfold SyncGithub.tryBlock, SyncGithub.cloneRepo, SyncGithub.getCommitHash,
    SyncGithub.copyDocs, SyncGithub.writeManifest.
  rewrite Hclone, Hrev. cbn [negb].
  repeat step. rewrite bind_clear_scratch. repeat step.
  disk. rewrite Hfind.
  match goal with |- context [bind (SyncGithub.processDir _ _ _ _) _ ?W] =>
    destruct (github_loop_real (walkAllGithub "" children) [] W eq_refl)
      as (w2 & E & D2 & F2 & S2 & R2);
    rewrite <- (github_processDir_walk false "" children [] W) in E
  end.
  fold files in E, F2 |- *. disk.
  destruct (githubFirstError files) as [error|].
  - unfold bind at 1. rewrite E. eexists. split; [reflexivity |]. auto.
  - rewrite (bind_value _ _ _ _ _ _ E). cbn [app].
    rewrite bind_bind, bind_writeOut by exact D2. repeat step.
    unfold ret. eexists. split; [reflexivity |].
    unfold writeOut. rewrite D2. disk. rewrite F2, R2. auto.
Qed.

Lemma github_script_real (w : world) :
  exists w',
    SyncGithub.script e w = (Normal tt, w')
    /\ outFiles w'
       = match githubFirstError files with
         | None =>
             <["manifest.json" :=
                 JsonText (SyncGithub.manifestOf e (githubResults files) (trim out))]>
               (overlay (githubCopies files) (outFiles w))
         | Some _ => overlay (githubCopies files) (outFiles w)
         end
    /\ scratch w' = None
    /\ requests w' = requests w
    /\ match githubFirstError files with
       | None => True
       | Some error => lastLine w' = Some (LogError "" error)
       end.
Proof.
  unfold SyncGithub.script, tryCatch, SyncGithub.main. rewrite Hargs.
  repeat step. unfold bind at 1. unfold tryFinally.
  match goal with |- context [SyncGithub.tryBlock e false ?W] =>
    destruct (github_tryBlock_real W) as (w1 & E1 & F1 & R1) end.
  rewrite E1.
  destruct (github_cleanup_disk w1) as (w2 & -> & S2 & D2 & F2 & R2 & C2).
  disk. destruct (githubFirstError files) as [error|].
  - eexists. split; [reflexivity |]. disk.
    rewrite F2, R2, F1, R1. repeat split; auto.
    unfold lastLine. cbn [console logError snd]. apply last_snoc.
  - unfold ret. eexists. split; [reflexivity |].
    rewrite F2, R2, F1, R1. auto.
Qed.

End GithubRealRun.
Section DirectRealRun.

Import Js World World.Notations ScriptSpec RunSpec.

Context (e : SyncDirect.env).

Lemma direct_syncPath_real (t : SyncDirect.tally) (p : string) (w : world) :
  exists t' w',
    SyncDirect.syncPath e false t p w = (Normal t', w')
    /\ scratch w' = scratch w
    /\ if fetchSucceeds e p then
         SyncDirect.results t' = SyncDirect.results t ++ [directResult e p]
         /\ outDir w' = true
         /\ outFiles w' = <[p := PlainText (fetchedText e p)]> (outFiles w)
       else
         SyncDirect.results t' = SyncDirect.results t
         /\ outDir w' = outDir w /\ outFiles w' = outFiles w.
Proof.
  unfold SyncDirect.syncPath, SyncDirect.fetchDoc, fetchSucceeds, directResult,
    fetchedText, urlOf, tryCatch, bind, log, recordRequest, logError, throw, ret,
    mkdirOut, writeOut.
  cbn [fst snd requests outDir].
  destruct (SyncDirect.fetch e (SyncDirect.BASE_URL e +:+ "/" +:+ p)) as [error|r].
  - do 2 eexists. split; [reflexivity |]. cbn. repeat split; auto.
  - destruct (ok r); cbn [negb];
      do 2 eexists; (split; [reflexivity |]); cbn; repeat split; auto.
Qed.

Lemma direct_loop_real (paths : list string) (t : SyncDirect.tally) (w : world) :
  exists t' w',
    forEach (SyncDirect.syncPath e false) paths t w = (Normal t', w')
    /\ scratch w' = scratch w
    /\ SyncDirect.results t'
       = SyncDirect.results t ++ map (directResult e) (List.filter (fetchSucceeds e) paths)
    /\ outFiles w'
       = overlay (map (directCopy e) (List.filter (fetchSucceeds e) paths)) (outFiles w)
    /\ (List.filter (fetchSucceeds e) paths <> [] -> outDir w' = true)
    /\ (outDir w = true -> outDir w' = true).
Proof.
  revert t w. induction paths as [|p paths IH]; intros t w.
  - exists t, w. cbn. rewrite app_nil_r. repeat split; auto; tauto.
  - cbn [forEach]. unfold bind.
    destruct (direct_syncPath_real t p w) as (t1 & w1 & -> & Hs & Hp).
    destruct (IH t1 w1) as (t2 & w2 & -> & Hs2 & Hr & Hf & Hd & Hd').
    exists t2, w2. split; [reflexivity |]. split; [congruence |].
    cbn [List.filter]. destruct (fetchSucceeds e p); cbn [map overlay fold_left].
    + destruct Hp as (Hr1 & Hd1 & Hf1). rewrite Hr, Hr1, Hf, Hf1, <- app_assoc.
      repeat split; auto.
    + destruct Hp as (Hr1 & Hd1 & Hf1). rewrite Hr, Hr1, Hf, Hf1.
      repeat split; auto. intros H. apply Hd'. now rewrite Hd1.
Qed.

Lemma direct_main_real (w : world) :
  SyncDirect.parsedArgs e = inr false ->
  exists t w',
    SyncDirect.main e w = (Normal t, w')
    /\ scratch w' = scratch w
    /\ outFiles w'
       = match List.filter (fetchSucceeds e) (SyncDirect.DOC_PATHS e) with
         | [] => outFiles w
         | fetched =>
             <["manifest.json" :=
                 JsonText (SyncDirect.manifestOf e (map (directResult e) fetched))]>
               (overlay (map (directCopy e) fetched) (outFiles w))
         end.
Proof.
  intros Hargs. unfold SyncDirect.main. rewrite Hargs. do 2 step.
  match goal with |- context [bind (forEach _ ?l ?t0) _ ?w0] =>
    destruct (direct_loop_real l t0 w0) as (t & w1 & E & Hs & Hr & Hf & Hd & _) end.
  rewrite (bind_value _ _ _ _ _ _ E). cbn [SyncDirect.results app negb andb] in *.
  disk. rewrite Hr.
  destruct (List.filter (fetchSucceeds e) (SyncDirect.DOC_PATHS e)) as [|p ps] eqn:F.
  - cbn [map length Nat.ltb Nat.leb]. repeat step. unfold ret.
    exists t. eexists. split; [reflexivity |]. disk. auto.
  - cbn [map length Nat.ltb Nat.leb]. rewrite bind_when_true, bind_bind.
    rewrite bind_writeOut by (apply Hd; discriminate). repeat step. unfold ret.
    exists t. eexists. split; [reflexivity |].
    unfold writeOut. rewrite Hd by discriminate. disk. rewrite Hf. auto.
Qed.

End DirectRealRun.
Section TemplateRuns.

Import Js World World.Notations ScriptSpec RunSpec.

Lemma template_main_fetch_fails (e : LlmsTemplate.env) (w : world) (error : exn) :
  templateFetchError e = Some error ->
  exists w',
    LlmsTemplate.main e w = (Exit 1, w')
    /\ sameOut w w'
    /\ scratch w' = scratch w
    /\ requests w' = requests w ++ [LlmsTemplate.LLMS_TXT_URL]
    /\ lastLine w' = Some (LogError (NL +:+ "Sync failed:") error).
Proof.
  intros H. unfold LlmsTemplate.main. cbv zeta.
  set (dryRun := existsb (String.eqb "--dry-run") (LlmsTemplate.argv e)).
  do 3 step. rewrite bind_when_log.
  unfold tryCatch, LlmsTemplate.syncDocs, LlmsTemplate.fetchLlmsTxt.
  unfold templateFetchError in H. repeat step.
  destruct (LlmsTemplate.fetched e) as [err|r].
  - injection H as <-. rewrite bind_throw. step. unfold exit.
    eexists. split; [reflexivity |]. destruct dryRun; disk; repeat split.
    all: unfold lastLine; cbn [console logError recordRequest log snd]; apply last_snoc.
  - destruct (negb (ok r)); [|discriminate].
    injection H as <-. rewrite bind_throw. step. unfold exit.
    eexists. split; [reflexivity |]. destruct dryRun; disk; repeat split.
    all: unfold lastLine; cbn [console logError recordRequest log snd]; apply last_snoc.
Qed.

Lemma template_loop_real (e : LlmsTemplate.env) (docs : list LlmsTemplate.ParsedDoc)
      (acc : list LlmsTemplate.SyncResult) (w : world) :
  outDir w = true ->
  exists w',
    forEach (LlmsTemplate.syncDoc e false) docs acc w
    = (Normal (acc ++ map (templateCreated e) docs), w')
    /\ outDir w' = true
    /\ outFiles w' = overlay (map templateFile docs) (outFiles w)
    /\ scratch w' = scratch w /\ requests w' = requests w.
Proof.
  revert acc w. induction docs as [|doc docs IH]; intros acc w Hw.
  - exists w. rewrite app_nil_r. repeat split; auto.
  - cbn [forEach]. unfold bind at 1. unfold LlmsTemplate.syncDoc at 1.
    unfold bind, writeOut, log, ret. rewrite Hw.
    match goal with |- context [forEach _ docs ?a ?w1] =>
      destruct (IH a w1 eq_refl) as (w' & E & H1 & H2 & H3 & H4) end.
    exists w'. rewrite E. cbn [map]. rewrite <- app_assoc.
    repeat split; auto.
Qed.

Lemma template_main_real (e : LlmsTemplate.env) (w : world) :
  existsb (String.eqb "--dry-run") (LlmsTemplate.argv e) = false ->
  templateFetchError e = None ->
  let docs := LlmsTemplate.parseLlmsTxt (templateBlob e) in
  exists w',
    LlmsTemplate.main e w = (Normal (map (templateCreated e) docs), w')
    /\ outDir w' = true
    /\ outFiles w'
       = <["manifest.json" :=
             JsonText (LlmsTemplate.manifestOf e (map (templateCreated e) docs))]>
           (overlay (map templateFile docs) (outFiles w))
    /\ scratch w' = scratch w
    /\ requests w' = requests w ++ [LlmsTemplate.LLMS_TXT_URL].
Proof.
  intros Hdry Herr docs. unfold docs, templateBlob. clear docs.
  unfold templateFetchError in Herr.
  unfold LlmsTemplate.main. rewrite Hdry. cbv zeta. do 4 step.
  unfold tryCatch, LlmsTemplate.syncDocs, LlmsTemplate.fetchLlmsTxt,
    LlmsTemplate.writeManifest.
  destruct (LlmsTemplate.fetched e) as [err|r]; [discriminate |].
  destruct (negb (ok r)); [discriminate |]. cbn [negb].
  repeat step.
  match goal with |- context [bind (when (negb (outDir ?W)) _) _ ?W] =>
    destruct (ensure_out W) as (w1 & -> & D1 & F1 & S1 & R1 & _) end.
  disk.
  destruct (template_loop_real e (LlmsTemplate.parseLlmsTxt (text r)) [] w1 D1)
    as (w2 & E & D2 & F2 & S2 & R2).
  rewrite (bind_value _ _ _ _ _ _ E). cbn [app].
  step. rewrite bind_writeOut by exact D2. repeat step.
  unfold ret. eexists. split; [reflexivity |].
  repeat match goal with |- context [if ?c then _ else _] => destruct c end.
  all: unfold writeOut; rewrite D2; disk.
  all: rewrite F2, F1, S2, S1, R2, R1; auto.
Qed.

End TemplateRuns.
Section MoreRunFacts.

Import Js Llms World World.Notations ScriptSpec ParserSpec RunSpec Regex Title TitleSpec.

Lemma template_loop_dry (e : LlmsTemplate.env) (docs : list LlmsTemplate.ParsedDoc)
      (acc : list LlmsTemplate.SyncResult) (w : world) :
  exists w',
    forEach (LlmsTemplate.syncDoc e true) docs acc w
    = (Normal (acc ++ map (templateSkipped e) docs), w').
Proof.
  revert acc w. induction docs as [|doc docs IH]; intros acc w.
  - exists w. now rewrite app_nil_r.
  - cbn [forEach]. unfold LlmsTemplate.syncDoc at 1. rewrite bind_bind. do 2 step.
    match goal with |- context [forEach _ docs ?a ?w1] =>
      destruct (IH a w1) as (w' & ->) end.
    exists w'. cbn [map]. now rewrite <- app_assoc.
Qed.

Lemma template_main_dry_results (e : LlmsTemplate.env) (w : world) :
  existsb (String.eqb "--dry-run") (LlmsTemplate.argv e) = true ->
  templateFetchError e = None ->
  fst (LlmsTemplate.main e w)
  = Normal (map (templateSkipped e) (LlmsTemplate.parseLlmsTxt (templateBlob e))).
Proof.
  intros Hdry Herr. unfold templateFetchError in Herr. unfold templateBlob.
  unfold LlmsTemplate.main. rewrite Hdry. cbv zeta. do 3 step. rewrite bind_when_log.
  unfold tryCatch, LlmsTemplate.syncDocs, LlmsTemplate.fetchLlmsTxt.
  destruct (LlmsTemplate.fetched e) as [err|r]; [discriminate |].
  destruct (negb (ok r)); [discriminate |]. cbn [negb]. repeat step.
  match goal with |- context [bind (forEach _ ?d ?a) _ ?w1] =>
    destruct (template_loop_dry e d a w1) as (w' & E) end.
  rewrite (bind_value _ _ _ _ _ _ E). cbn [app]. repeat step. reflexivity.
Qed.

(** The results of a run of the xAI script, whichever way it goes. *)
Lemma xai_main_results (e : Xai.env) (w : world) :
  produced (fst (Xai.main e w)) = []
  \/ produced (fst (Xai.main e w))
     = map (xaiSkipped e) (Xai.parseLlmsTxt (Xai.procStdout e))
  \/ produced (fst (Xai.main e w))
     = map (xaiCreated e) (Xai.parseLlmsTxt (Xai.procStdout e)).
Proof.
  destruct (xaiFetchError e) as [error|] eqn:He.
  { left. now destruct (xai_main_fetch_fails e w error He) as (w' & -> & _). }
  apply xaiFetchError_none in He as (Hdev & Hexit).
  destruct (existsb (String.eqb "--dry-run") (Xai.argv e)) eqn:Hdry.
  - right. left. now rewrite (xai_main_dry_results e w Hdry Hdev Hexit).
  - right. right. now destruct (xai_main_real e w Hdry Hdev Hexit) as (w' & -> & _).
Qed.

Lemma template_main_results (e : LlmsTemplate.env) (w : world) :
  produced (fst (LlmsTemplate.main e w)) = []
  \/ produced (fst (LlmsTemplate.main e w))
     = map (templateSkipped e) (LlmsTemplate.parseLlmsTxt (templateBlob e))
  \/ produced (fst (LlmsTemplate.main e w))
     = map (templateCreated e) (LlmsTemplate.parseLlmsTxt (templateBlob e)).
Proof.
  destruct (templateFetchError e) as [error|] eqn:He.
  { left. now destruct (template_main_fetch_fails e w error He) as (w' & -> & _). }
  destruct (existsb (String.eqb "--dry-run") (LlmsTemplate.argv e)) eqn:Hdry.
  - right. left. now rewrite (template_main_dry_results e w Hdry He).
  - right. right. now destruct (template_main_real e w Hdry He) as (w' & -> & _).
Qed.

Lemma pathToFilename_md (docPath : string) :
  endsWith ".md" (pathToFilename docPath) = true.
Proof. unfold pathToFilename. apply endsWith_append. Qed.

Lemma stripMdExtension_kept (name : string) :
  endsWith ".md" name || endsWith ".mdx" name = true ->
  FastMCP.stripMdExtension name +:+ ".md" = name
  \/ FastMCP.stripMdExtension name +:+ ".mdx" = name.
Proof.
  unfold FastMCP.stripMdExtension. destruct (endsWith ".md" name) eqn:E1.
  - intros _. left. apply endsWith_inv in E1 as [stem ->].
    pose proof (dropEnd_append stem ".md") as E. cbn [String.length] in E.
    now rewrite E.
  - cbn [orb]. intros E2. rewrite E2. right. apply endsWith_inv in E2 as [stem ->].
    pose proof (dropEnd_append stem ".mdx") as E. cbn [String.length] in E.
    now rewrite E.
Qed.

End MoreRunFacts.
Section LangGraphRuns.

Import Js World World.Notations ScriptSpec RunSpec.

Lemma langgraph_copyDocs_noexit (dryRun : bool) :
  yields anything anything nothing (LangGraph.copyDocs dryRun).
Proof.
  unfold LangGraph.copyDocs. eapply (yields_bind _ _ anything); [noexit |].
  intros root _. destruct root as [entries|]; [|now apply yields_throw].
  destruct (LangGraph.readdirAt LangGraph.SOURCE_PATH entries) as [error|children];
    [now apply yields_throw |].
  eapply yields_ext; [apply github_processDir_walk |].
  apply (yields_forEach anything nothing (fun _ => anything)
           (githubFile dryRun) _ [] []); [|exact I].
  intros _ results f _. unfold githubFile, SyncGithub.processFile.
  destruct (_ || _); [|now apply yields_ret].
  eapply (yields_bind _ _ anything); [noexit | intros content _].
  eapply (yields_bind _ _ anything); [|intros ? _; noexit].
  destruct dryRun; [noexit |].
  eapply (yields_bind _ _ anything); [noexit | intros ? _].
  eapply (yields_bind _ _ anything); [apply writeOut_noexit | intros ? _]. noexit.
Qed.

Lemma langgraph_tryBlock_noexit (e : LangGraph.env) (dryRun : bool) :
  yields anything anything nothing (LangGraph.tryBlock e dryRun).
Proof.
  unfold LangGraph.tryBlock.
  eapply (yields_bind _ _ anything);
    [unfold LangGraph.cloneRepo; noexit | intros ? _].
  eapply (yields_bind _ _ anything);
    [unfold LangGraph.getCommitHash; noexit | intros commit _].
  do 2 (eapply (yields_bind _ _ anything); [noexit | intros ? _]).
  eapply (yields_bind _ _ anything); [apply langgraph_copyDocs_noexit | intros results _].
  eapply (yields_bind _ _ anything).
  { unfold LangGraph.writeManifest. destruct dryRun; [noexit |].
    eapply (yields_bind _ _ anything); [apply writeOut_noexit | intros ? _]. noexit. }
  intros ? _. noexit.
Qed.

Lemma langgraph_main_noexit (e : LangGraph.env) :
  yields anything anything nothing (LangGraph.main e).
Proof.
  unfold LangGraph.main.
  eapply (yields_bind _ _ anything); [noexit | intros dryRun _].
  eapply (yields_bind _ _ anything); [noexit | intros ? _].
  apply yields_tryFinally; [apply langgraph_tryBlock_noexit | apply github_cleanup_noexit].
Qed.

Lemma langgraph_script_normal (e : LangGraph.env) (w : world) :
  fst (LangGraph.script e w) = Normal tt.
Proof. apply catch_console_error_normal, langgraph_main_noexit. Qed.

Lemma langgraph_script_clears (e : LangGraph.env) (flag : bool) (w : world) :
  SyncGithub.parsedArgs e = inr flag ->
  scratch (snd (LangGraph.script e w)) = None.
Proof.
  intros Hargs.
  assert (triple (fun _ => True) (LangGraph.script e)
                 (fun _ => cleared) (fun _ => cleared) never) as H.
  { unfold LangGraph.script.
    eapply triple_tryCatch with (R := fun _ => cleared).
    - eapply triple_bind; [|intros rs; apply (triple_ret tt (fun _ => cleared))].
      unfold LangGraph.main. rewrite Hargs. do 2 pass_step.
      eapply triple_tryFinally with (Rn := fun _ _ => True) (Rt := fun _ _ => True).
      + apply (triple_of_yields anything anything nothing);
          [apply langgraph_tryBlock_noexit | auto | auto | intros ? ? []].
      + intros rs. apply triple_github_cleanup.
      + intros error. apply triple_github_cleanup.
    - intros error w0 Hw. exact Hw. }
  specialize (H w I).
  destruct (LangGraph.script e w) as [[rs|error|c] w']; [exact H | exact H | elim H].
Qed.

Lemma langgraph_script_dry (e : LangGraph.env) (w : world) :
  SyncGithub.parsedArgs e = inr true ->
  sameOut w (snd (LangGraph.script e w)).
Proof.
  intros Hargs.
  assert (keeps (sameOut w) (fun _ => sameOut w) (LangGraph.script e)) as H.
  { pose proof (outOnly_sameOut w) as HI.
    unfold LangGraph.script. apply keeps_tryCatch; [|intros error; framed].
    apply keeps_bind; [|intros ?; apply keeps_ret].
    unfold LangGraph.main. rewrite Hargs.
    refine (keeps_ext _ _ _
              (bind (log (NL +:+ "Syncing LangGraph docs" +:+ " (dry run)" +:+ "..." +:+ NL))
                    (fun _ => tryFinally (LangGraph.tryBlock e true) LangGraph.cleanup))
              (fun w0 => eq_refl) _).
    apply keeps_bind; [keeps_go | intros ?].
    apply keeps_tryFinally; [|now apply keeps_github_cleanup].
    unfold LangGraph.tryBlock.
    apply keeps_bind; [unfold LangGraph.cloneRepo; keeps_go | intros ?].
    apply keeps_bind; [unfold LangGraph.getCommitHash; keeps_go | intros commit].
    do 2 (apply keeps_bind; [keeps_go | intros ?]).
    apply keeps_bind.
    { unfold LangGraph.copyDocs. apply keeps_bind; [framed |]. intros root.
      destruct root as [entries|]; [|apply keeps_throw].
      destruct (LangGraph.readdirAt LangGraph.SOURCE_PATH entries) as [error|children];
        [apply keeps_throw |].
      refine (keeps_ext _ _ _ _ (github_processDir_walk true "" children []) _).
      apply keeps_forEach. intros results f. unfold githubFile, SyncGithub.processFile.
      destruct (_ || _); [|apply keeps_ret]. keeps_go. }
    intros results.
    apply keeps_bind; [unfold LangGraph.writeManifest; keeps_go | intros ?].
    keeps_go. }
  specialize (H w (sameOut_refl w)).
  destruct (LangGraph.script e w) as [[rs|err|c] w']; exact H.
Qed.

End LangGraphRuns.

Section LangGraphRun.

Import Js World World.Notations ScriptSpec RunSpec.

Context (e : LangGraph.env) (root : list entry) (out : string).
Context (Hargs : SyncGithub.parsedArgs e = inr false).
Context (Hclone : SyncGithub.cloned e = FastMCP.Cloned root).
Context (Hrev : SyncGithub.revParse e = inr out).

Lemma langgraph_tryBlock_real (w : world) :
  exists w',
    LangGraph.tryBlock e false w
    = (match LangGraph.readdirAt LangGraph.SOURCE_PATH root with
       | inl error => Throw error
       | inr children =>
           match githubFirstError (walkAllGithub "" children) with
           | None => Normal (githubResults (walkAllGithub "" children))
           | Some error => Throw error
           end
       end, w')
    /\ outFiles w'
       = match LangGraph.readdirAt LangGraph.SOURCE_PATH root with
         | inl _ => outFiles w
         | inr children =>
             match githubFirstError (walkAllGithub "" children) with
             | None =>
                 <["manifest.json" :=
                     JsonText (LangGraph.manifestOf
                                 e (githubResults (walkAllGithub "" children)) (trim out))]>
                   (overlay (githubCopies (walkAllGithub "" children)) (outFiles w))
             | Some _ => overlay (githubCopies (walkAllGithub "" children)) (outFiles w)
             end
         end
    /\ requests w' = requests w.
Proof.
  unfold LangGraph.tryBlock, LangGraph.cloneRepo, LangGraph.getCommitHash,
    LangGraph.copyDocs, LangGraph.writeManifest.
  rewrite Hclone, Hrev. cbn [negb].
  repeat step. rewrite bind_clear_scratch. repeat step.
  disk.
  destruct (LangGraph.readdirAt LangGraph.SOURCE_PATH root) as [error|children].
  { rewrite bind_throw. eexists. split; [reflexivity |]. disk. auto. }
  match goal with |- context [bind (SyncGithub.processDir _ _ _ _) _ ?W] =>
    destruct (github_loop_real (walkAllGithub "" children) [] W eq_refl)
      as (w2 & E & D2 & F2 & S2 & R2);
    rewrite <- (github_processDir_walk false "" children [] W) in E
  end.
  disk.
  destruct (githubFirstError (walkAllGithub "" children)) as [error|].
  - unfold bind at 1. rewrite E. eexists. split; [reflexivity |]. auto.
  - rewrite (bind_value _ _ _ _ _ _ E). cbn [app].
    rewrite bind_bind, bind_writeOut by exact D2. repeat step.
    unfold ret. eexists. split; [reflexivity |].
    unfold writeOut. rewrite D2. disk. rewrite F2, R2. auto.
Qed.

Lemma langgraph_script_real (w : world) :
  exists w',
    LangGraph.script e w = (Normal tt, w')
    /\ outFiles w'
       = match LangGraph.readdirAt LangGraph.SOURCE_PATH root with
         | inl _ => outFiles w
         | inr children =>
             match githubFirstError (walkAllGithub "" children) with
             | None =>
                 <["manifest.json" :=
                     JsonText (LangGraph.manifestOf
                                 e (githubResults (walkAllGithub "" children)) (trim out))]>
                   (overlay (githubCopies (walkAllGithub "" children)) (outFiles w))
             | Some _ => overlay (githubCopies (walkAllGithub "" children)) (outFiles w)
             end
         end
    /\ scratch w' = None
    /\ requests w' = requests w
    /\ match LangGraph.readdirAt LangGraph.SOURCE_PATH root with
       | inl error => lastLine w' = Some (LogError "" error)
       | inr children =>
           match githubFirstError (walkAllGithub "" children) with
           | None => True
           | Some error => lastLine w' = Some (LogError "" error)
           end
       end.
Proof.
  unfold LangGraph.script, tryCatch, LangGraph.main. rewrite Hargs.
  repeat step. unfold bind at 1. unfold tryFinally.
  match goal with |- context [LangGraph.tryBlock e false ?W] =>
    destruct (langgraph_tryBlock_real W) as (w1 & E1 & F1 & R1) end.
  rewrite E1. change LangGraph.cleanup with SyncGithub.cleanup.
  destruct (github_cleanup_disk w1) as (w2 & -> & S2 & D2 & F2 & R2 & C2).
  disk.
  assert (L : forall error (w0 : world),
             lastLine (snd (logError "" error w0)) = Some (LogError "" error)).
  { intros error w0. unfold lastLine. cbn [console logError snd]. apply last_snoc. }
  destruct (LangGraph.readdirAt LangGraph.SOURCE_PATH root) as [error|children].
  { eexists. split; [reflexivity |]. disk. rewrite F2, R2, F1, R1.
    repeat split; auto. apply (L error w2). }
  destruct (githubFirstError (walkAllGithub "" children)) as [error|].
  - eexists. split; [reflexivity |]. disk.
    rewrite F2, R2, F1, R1. repeat split; auto. apply (L error w2).
  - unfold ret. eexists. split; [reflexivity |].
    rewrite F2, R2, F1, R1. auto.
Qed.

End LangGraphRun.
(** ** What the direct-fetch template prints for a failure *)

Section DirectReports.

Import Js World ScriptSpec ReportSpec.

Context (e : SyncDirect.env) (dryRun : bool).

Lemma errorLines_app (a b : list consoleLine) :
  errorLines (a ++ b) = errorLines a ++ errorLines b.
Proof. apply List.filter_app. Qed.

Lemma fetchFailure_succeeds (p : string) :
  fetchSucceeds e p = true <-> fetchFailure e p = None.
Proof.
  unfold fetchSucceeds, fetchFailure.
  destruct (SyncDirect.fetch e (urlOf e p)) as [error|r]; [split; discriminate |].
  destruct (ok r); split; auto; discriminate.
Qed.

Lemma syncPath_console (t : SyncDirect.tally) (p : string) (w : world) :
  errorLines (console (snd (SyncDirect.syncPath e dryRun t p w)))
  = errorLines (console w) ++ failureReport e p.
Proof.
  unfold SyncDirect.syncPath, SyncDirect.fetchDoc, failureReport, fetchFailure, urlOf,
    tryCatch, bind, log, recordRequest, logError, throw, ret, mkdirOut, writeOut.
  cbn [fst snd requests outDir console].
  destruct (SyncDirect.fetch e (SyncDirect.BASE_URL e +:+ "/" +:+ p)) as [error|r].
  - cbn [snd console]. now rewrite !errorLines_app, app_nil_r.
  - destruct (ok r); cbn [negb].
    + destruct dryRun; cbn [snd console]; rewrite !errorLines_app; cbn;
        now rewrite !app_nil_r.
    + cbn [snd console]. now rewrite !errorLines_app, app_nil_r.
Qed.

Lemma syncLoop_console (paths : list string) (t : SyncDirect.tally) (w : world) :
  errorLines (console (snd (forEach (SyncDirect.syncPath e dryRun) paths t w)))
  = errorLines (console w) ++ flat_map (failureReport e) paths.
Proof.
  revert t w. induction paths as [|p paths IH]; intros t w.
  - cbn. now rewrite app_nil_r.
  - cbn [forEach flat_map]. unfold bind.
    pose proof (syncPath_console t p w) as H.
    destruct (syncPath_spec e dryRun t p w) as [t1 [w1 [E _]]].
    rewrite E in H |- *. cbn [snd] in H. now rewrite IH, H, app_assoc.
Qed.

Lemma direct_main_console (w : world) :
  SyncDirect.parsedArgs e = inr dryRun ->
  errorLines (console (snd (SyncDirect.main e w)))
  = errorLines (console w) ++ flat_map (failureReport e) (SyncDirect.DOC_PATHS e).
Proof.
  intros Hargs. unfold SyncDirect.main. rewrite Hargs.
  unfold bind at 1. unfold ret at 1. unfold bind at 1. unfold log at 1.
  unfold bind at 1.
  match goal with |- context [forEach ?b ?l ?t0 ?w0] =>
    pose proof (syncLoop_console l t0 w0) as H;
    destruct (syncLoop_spec e dryRun l t0 w0) as [t [w1 [E _]]] end.
  rewrite E in H |- *. cbn [snd console] in H.
  rewrite errorLines_app, app_nil_r in H.
  unfold when, bind, writeOut, log, ret.
  destruct (negb dryRun && (0 <? length (SyncDirect.results t)));
    [destruct (outDir w1) |]; cbn [snd console];
    rewrite ?errorLines_app, ?app_nil_r; exact H.
Qed.

Lemma failureReport_in (paths : list string) (p : string) (error : exn) :
  In p paths -> fetchFailure e p = Some error ->
  In (LogError ("Failed to sync " +:+ p +:+ ":") error) (flat_map (failureReport e) paths).
Proof.
  intros Hin Hf. apply in_flat_map. exists p. split; [exact Hin |].
  unfold failureReport. rewrite Hf. now left.
Qed.

End DirectReports.
(** ** Paths made of plain segments *)

Section PlainSegments.

Import Js Llms ParserSpec TitleSpec NameSpec.

Lemma startsWith_sep (p s r : string) :
  every notSlash p = true -> every notSlash s = true ->
  startsWith (p +:+ "/") (s +:+ String "/" r) = true -> s = p.
Proof.
  revert s. induction p as [|a p IH]; intros s Hp Hs H.
  - destruct s as [|c s]; [reflexivity |]. exfalso.
    cbn [every] in Hs. apply andb_prop in Hs as [Hc _].
    cbn [String.append startsWith] in H. apply andb_prop in H as [H _].
    apply Ascii.eqb_eq in H. subst c. discriminate.
  - cbn [every] in Hp. apply andb_prop in Hp as [Ha Hp].
    destruct s as [|c s].
    + exfalso. cbn [String.append startsWith] in H. apply andb_prop in H as [H _].
      apply Ascii.eqb_eq in H. subst a. discriminate.
    + cbn [every] in Hs. apply andb_prop in Hs as [_ Hs].
      cbn [String.append startsWith] in H. apply andb_prop in H as [Hac H].
      apply Ascii.eqb_eq in Hac. subst c. f_equal. now apply IH.
Qed.

Lemma startsWith_every (f : ascii -> bool) (p s : string) :
  startsWith p s = true -> every f s = true -> every f p = true.
Proof.
  revert s. induction p as [|a p IH]; intros s H Hs; [reflexivity |].
  destruct s as [|c s]; [discriminate |].
  cbn [startsWith] in H. apply andb_prop in H as [Hac H].
  apply Ascii.eqb_eq in Hac. subst c. cbn [every] in Hs |- *.
  apply andb_prop in Hs as [-> Hs]. now rewrite (IH s).
Qed.

Lemma every_joinWith_dash (segments : list string) :
  Forall (fun s => every notSlash s = true) segments ->
  replaceSlashes (joinWith "/" segments) = joinWith "-" segments.
Proof.
  induction 1 as [|s [|s' rest] Hs _ IH]; [reflexivity | |].
  - cbn [joinWith]. now apply replaceSlashes_id.
  - change (joinWith "/" (s :: s' :: rest)) with (s +:+ "/" +:+ joinWith "/" (s' :: rest)).
    change (joinWith "-" (s :: s' :: rest)) with (s +:+ "-" +:+ joinWith "-" (s' :: rest)).
    rewrite !replaceSlashes_append, IH, (replaceSlashes_id s) by exact Hs. reflexivity.
Qed.

Lemma stripDocsPrefix_joinWith (segments : list string) :
  Forall (fun s => every notSlash s = true) segments ->
  stripDocsPrefix (joinWith "/" segments) = joinWith "/" (withoutDocs segments).
Proof.
  intros H. unfold stripDocsPrefix.
  destruct segments as [|s [|s' rest]].
  - reflexivity.
  - cbn [joinWith withoutDocs].
    destruct (startsWith "docs/" s) eqn:E; [|reflexivity].
    apply (startsWith_every notSlash) in E; [discriminate |].
    now inversion H.
  - change (joinWith "/" (s :: s' :: rest)) with (s +:+ String "/" (joinWith "/" (s' :: rest))).
    cbn [withoutDocs]. destruct (String.eqb_spec s "docs") as [->|Hs]; [reflexivity |].
    destruct (startsWith "docs/" (s +:+ String "/" (joinWith "/" (s' :: rest)))) eqn:E;
      [|reflexivity].
    exfalso. apply Hs. apply (startsWith_sep "docs" s (joinWith "/" (s' :: rest)));
      [reflexivity | now inversion H | exact E].
Qed.

(** A string without two dashes in a row is left as it is. *)
Lemma collapseDashesFrom_id (prev : bool) (s : string) :
  occursIn "--" s = false ->
  (prev = true -> startsWith "-" s = false) ->
  collapseDashesFrom prev s = s.
Proof.
  revert prev. induction s as [|c s IH]; intros prev Hs Hp; [reflexivity |].
  cbn [occursIn] in Hs. apply orb_false_elim in Hs as [H2 Hs].
  cbn [collapseDashesFrom]. destruct (Ascii.eqb_spec c "-") as [->|Hc].
  - destruct prev; [now specialize (Hp eq_refl) |].
    f_equal. apply IH; [exact Hs |]. intros _.
    destruct s as [|d s]; [reflexivity |]. cbn in H2 |- *.
    now rewrite andb_true_r in *.
  - f_equal. apply IH; [exact Hs | discriminate].
Qed.

Lemma endsWithDash_cons (c d : ascii) (s : string) :
  endsWithDash (String c (String d s)) = endsWithDash (String d s).
Proof. reflexivity. Qed.

(** No two dashes meet where a segment that does not end with a dash is
    followed by a dash and a string that does not begin with one. *)
Lemma occursIn_dashes_join (a r : string) :
  occursIn "--" a = false -> endsWithDash a = false ->
  occursIn "--" r = false -> startsWith "-" r = false ->
  occursIn "--" (a +:+ "-" +:+ r) = false.
Proof.
  intros Ha He Hr Hs. induction a as [|c a IH].
  - cbn [String.append occursIn]. rewrite Hr, orb_false_r.
    destruct r as [|d r]; [reflexivity |]. cbn in Hs |- *.
    now rewrite andb_true_r in *.
  - cbn [occursIn] in Ha. apply orb_false_elim in Ha as [H2 Ha].
    change (String c a +:+ "-" +:+ r) with (String c (a +:+ "-" +:+ r)).
    cbn [occursIn]. apply orb_false_intro.
    + destruct a as [|d a].
      * unfold endsWithDash in He. cbn [lastUnit] in He.
        cbn [String.append startsWith]. now rewrite Ascii.eqb_sym, He.
      * cbn [String.append startsWith] in H2 |- *. exact H2.
    + apply IH; [exact Ha |]. destruct a as [|d a]; [reflexivity |].
      now rewrite endsWithDash_cons in He.
Qed.

Lemma startsWith_dash_append (a b : string) :
  nonEmpty a = true -> startsWith "-" (a +:+ b) = startsWith "-" a.
Proof. destruct a; [discriminate | reflexivity]. Qed.

Lemma plainSegment_spec (s : string) :
  plainSegment s = true ->
  nonEmpty s = true /\ every notSlash s = true /\ occursIn "--" s = false
  /\ startsWith "-" s = false /\ endsWithDash s = false.
Proof.
  unfold plainSegment. intros H.
  repeat (apply andb_prop in H as [H ?]).
  repeat match goal with H : negb _ = true |- _ => apply negb_true_iff in H end.
  auto.
Qed.

Lemma joinWith_dash_no_run (segments : list string) :
  Forall (fun s => plainSegment s = true) segments ->
  occursIn "--" (joinWith "-" segments) = false
  /\ startsWith "-" (joinWith "-" segments) = false.
Proof.
  induction 1 as [|s [|s' rest] Hs _ IH]; [split; reflexivity | |].
  - apply plainSegment_spec in Hs as (_ & _ & H1 & H2 & _). now split.
  - apply plainSegment_spec in Hs as (Hn & _ & H1 & H2 & H3).
    destruct IH as [I1 I2].
    change (joinWith "-" (s :: s' :: rest)) with (s +:+ "-" +:+ joinWith "-" (s' :: rest)).
    split; [now apply occursIn_dashes_join |].
    now rewrite startsWith_dash_append.
Qed.

Lemma withoutDocs_Forall (P : string -> Prop) (segments : list string) :
  Forall P segments -> Forall P (withoutDocs segments).
Proof.
  intros H. destruct segments as [|s [|s' rest]]; try exact H.
  cbn [withoutDocs]. destruct (String.eqb s "docs"); [now inversion H | exact H].
Qed.

Lemma pathToFilename_segments (segments : list string) :
  Forall (fun s => plainSegment s = true) segments ->
  pathToFilename (joinWith "/" segments) = joinWith "-" (withoutDocs segments) +:+ ".md".
Proof.
  intros H. unfold pathToFilename, collapseDashes.
  assert (Forall (fun s => every notSlash s = true) segments) as Hslash.
  { eapply Forall_impl; [exact H |]. intros s Hs. now apply plainSegment_spec in Hs. }
  rewrite stripDocsPrefix_joinWith by exact Hslash.
  rewrite every_joinWith_dash by now apply withoutDocs_Forall.
  f_equal. apply collapseDashesFrom_id; [|discriminate].
  now apply joinWith_dash_no_run, withoutDocs_Forall.
Qed.

Lemma collapse_replace_squeeze (inRun : bool) (s : string) :
  collapseDashesFrom inRun (replaceSlashes s) = squeezeFrom inRun s.
Proof.
  revert inRun. induction s as [|c s IH]; intros inRun; [reflexivity |].
  cbn [replaceSlashes collapseDashesFrom squeezeFrom]. unfold isSeparator.
  destruct (Ascii.eqb_spec c "/") as [->|Hs].
  - cbn [orb]. rewrite Ascii.eqb_refl. destruct inRun; now rewrite IH.
  - cbn [orb]. destruct (Ascii.eqb c "-"); [destruct inRun|]; now rewrite IH.
Qed.

Lemma pathToFilename_squeeze (docPath : string) :
  (startsWith "docs/" docPath = false ->
   pathToFilename docPath = oneDashPerRun docPath +:+ ".md")
  /\ (forall rest, docPath = "docs/" +:+ rest ->
                   pathToFilename docPath = oneDashPerRun rest +:+ ".md").
Proof.
  unfold pathToFilename, collapseDashes, oneDashPerRun. split.
  - intros H. unfold stripDocsPrefix. now rewrite H, collapse_replace_squeeze.
  - intros rest ->. now rewrite stripDocsPrefix_docs, collapse_replace_squeeze.
Qed.

End PlainSegments.
(** ** The leftmost language of a class attribute *)

Section LeftmostLanguage.

Import Js SyncHtml TitleSpec LanguageSpec.

(** Where the word found is empty, the pattern does not match. *)
Lemma languageAt_empty_word (s rest : string) :
  span isWord (slice 9 s) = (EmptyString, rest) -> languageAt s = false.
Proof.
  unfold languageAt. intros E. destruct (slice 9 s) as [|c t]; [apply andb_false_r |].
  cbn [span] in E. destruct (isWord c); [|apply andb_false_r].
  destruct (span isWord t). discriminate.
Qed.

Lemma languageAt_head (c : ascii) (cls : string) :
  (if startsWith "language-" (String c cls)
   then nonEmpty (fst (span isWord (slice 9 (String c cls)))) else false) = false ->
  languageAt (String c cls) = false.
Proof.
  intros H. destruct (startsWith "language-" (String c cls)) eqn:S.
  - destruct (span isWord (slice 9 (String c cls))) as [w rest] eqn:E.
    cbn [fst] in H. destruct w; [|discriminate]. now apply languageAt_empty_word in E.
  - unfold languageAt. now rewrite S.
Qed.

Lemma matchLanguage_step (c : ascii) (cls : string) :
  (if startsWith "language-" (String c cls)
   then nonEmpty (fst (span isWord (slice 9 (String c cls)))) else false) = false ->
  matchLanguage (String c cls) = matchLanguage cls.
Proof.
  intros H. cbn [matchLanguage].
  destruct (startsWith "language-" (String c cls)); [|reflexivity].
  destruct (span isWord (slice 9 (String c cls))) as [w rest]. cbn [fst] in H.
  now rewrite H.
Qed.

Lemma matchLanguage_leftmost (cls word : string) :
  matchLanguage cls = Some word ->
  exists before after,
    cls = before +:+ "language-" +:+ word +:+ after
    /\ nonEmpty word = true /\ every isWord word = true
    /\ beginsWithWord after = false
    /\ forall n, n < String.length before -> languageAt (slice n cls) = false.
Proof.
  induction cls as [|c cls IH]; [discriminate |]. intros H.
  destruct (if startsWith "language-" (String c cls)
            then nonEmpty (fst (span isWord (slice 9 (String c cls)))) else false) eqn:T.
  - destruct (startsWith "language-" (String c cls)) eqn:S; [|discriminate].
    cbn [matchLanguage] in H. rewrite S in H.
    destruct (span isWord (slice 9 (String c cls))) as [w rest] eqn:E.
    cbn [fst] in T. rewrite T in H. injection H as ->.
    apply span_spec in E as (E & He & Ha).
    exists "", rest. split.
    { apply startsWith_inv in S. cbn [String.length] in S. rewrite S at 1.
      cbn [String.append]. rewrite E. reflexivity. }
    split; [exact T |]. split; [exact He |]. split.
    { destruct rest as [|d rest]; [reflexivity |]. cbn [beginsWithWord].
      now apply negb_true_iff in Ha. }
    intros n Hn. cbn [String.length] in Hn. lia.
  - rewrite (matchLanguage_step c cls T) in H.
    destruct (IH H) as (before & after & -> & Hn & He & Ha & Hleft).
    exists (String c before), after. split; [reflexivity |].
    split; [exact Hn |]. split; [exact He |]. split; [exact Ha |].
    intros [|n] Hlt; [now apply languageAt_head |].
    cbn [slice]. apply Hleft. cbn [String.length] in Hlt. lia.
Qed.

Lemma matchLanguage_none (cls : string) :
  matchLanguage cls = None -> forall n, languageAt (slice n cls) = false.
Proof.
  induction cls as [|c cls IH]; intros H n.
  - now destruct n.
  - destruct (if startsWith "language-" (String c cls)
              then nonEmpty (fst (span isWord (slice 9 (String c cls)))) else false) eqn:T.
    + exfalso. destruct (startsWith "language-" (String c cls)) eqn:S; [|discriminate].
      cbn [matchLanguage] in H. rewrite S in H.
      destruct (span isWord (slice 9 (String c cls))) as [w rest].
      cbn [fst] in T. rewrite T in H. discriminate.
    + rewrite (matchLanguage_step c cls T) in H.
      destruct n as [|n]; [now apply languageAt_head |]. cbn [slice]. now apply IH.
Qed.

End LeftmostLanguage.
(** ** A second run *)

Section SecondRun.

Import Js World ScriptSpec RunSpec RerunSpec.

(** Two runs that write the same copies and then a manifest each. *)
Lemma second_run_files (old : gmap string fileData) (copies : list (string * fileData))
      (m1 m2 : fileData) :
  <["manifest.json" := m2]> (overlay copies (<["manifest.json" := m1]> (overlay copies old)))
  = <["manifest.json" := m2]> (overlay copies old).
Proof.
  apply map_eq. intros k. destruct (decide (k = "manifest.json")) as [->|Hk].
  - now rewrite !lookup_insert_eq.
  - rewrite !lookup_insert_ne by congruence. rewrite !overlay_lookup.
    destruct (lastWrite k copies) eqn:E; [reflexivity |].
    rewrite lookup_insert_ne by congruence. now rewrite overlay_lookup, E.
Qed.

Lemma field_other (key : string) (before after : list (string * json)) (v v' : json) :
  key <> "syncedAt" ->
  field key (JObject (before ++ ("syncedAt", v) :: after))
  = field key (JObject (before ++ ("syncedAt", v') :: after)).
Proof.
  intros Hk. cbn [field]. induction before as [|[k x] before IH].
  - cbn [app]. destruct (String.eqb_spec "syncedAt" key); [congruence | reflexivity].
  - cbn [app]. destruct (String.eqb k key); [reflexivity | exact IH].
Qed.

Lemma fastmcp_created_paths (e e' : FastMCP.env) (l : list (string * string * string)) :
  map FastMCP.path (map (fastmcpCreated e') l) = map FastMCP.path (map (fastmcpCreated e) l).
Proof. now rewrite !map_map. Qed.

Lemma fastmcp_created_count (e : FastMCP.env) (l : list (string * string * string)) :
  length (List.filter (fun r => negb (FastMCP.isSkipped r)) (map (fastmcpCreated e) l))
  = length l.
Proof. induction l as [|f l IH]; [reflexivity |]. cbn. now rewrite IH. Qed.

Lemma xai_created_paths (e e' : Xai.env) (l : list (string * string)) :
  map Xai.path (map (xaiCreated e') l) = map Xai.path (map (xaiCreated e) l).
Proof. now rewrite !map_map. Qed.

Lemma xai_created_count (e : Xai.env) (l : list (string * string)) :
  length (List.filter (fun r => negb (Xai.isSkipped r)) (map (xaiCreated e) l)) = length l.
Proof. induction l as [|f l IH]; [reflexivity |]. cbn. now rewrite IH. Qed.

Lemma fastmcp_manifest_fields (e e' : FastMCP.env) (commit : string)
      (l : list (string * string * string)) (key : string) :
  key <> "syncedAt" ->
  field key (FastMCP.manifestOf e' commit (map (fastmcpCreated e') l))
  = field key (FastMCP.manifestOf e commit (map (fastmcpCreated e) l)).
Proof.
  intros Hk. unfold FastMCP.manifestOf.
  rewrite (fastmcp_created_paths e e'), !fastmcp_created_count.
  apply (field_other key
           [("source", JString FastMCP.REPO_URL); ("commit", JString commit)]); exact Hk.
Qed.

Lemma fastmcp_manifest_clock (e e' : FastMCP.env) (commit : string)
      (l : list (string * string * string)) :
  FastMCP.now e' = FastMCP.now e ->
  FastMCP.manifestOf e' commit (map (fastmcpCreated e') l)
  = FastMCP.manifestOf e commit (map (fastmcpCreated e) l).
Proof.
  intros Hn. unfold FastMCP.manifestOf.
  now rewrite (fastmcp_created_paths e e'), !fastmcp_created_count, Hn.
Qed.

Lemma xai_manifest_fields (e e' : Xai.env) (l : list (string * string)) (key : string) :
  key <> "syncedAt" ->
  field key (Xai.manifestOf e' (map (xaiCreated e') l))
  = field key (Xai.manifestOf e (map (xaiCreated e) l)).
Proof.
  intros Hk. unfold Xai.manifestOf.
  rewrite (xai_created_paths e e'), !xai_created_count.
  apply (field_other key [("source", JString Xai.LLMS_TXT_URL)]); exact Hk.
Qed.

Lemma xai_manifest_clock (e e' : Xai.env) (l : list (string * string)) :
  Xai.now e' = Xai.now e ->
  Xai.manifestOf e' (map (xaiCreated e') l) = Xai.manifestOf e (map (xaiCreated e) l).
Proof.
  intros Hn. unfold Xai.manifestOf.
  now rewrite (xai_created_paths e e'), !xai_created_count, Hn.
Qed.

Lemma secondRunLeaves_unchanged (sameClock : Prop) (old : gmap string fileData) :
  secondRunLeaves sameClock old old old.
Proof.
  split; [reflexivity |]. split; [reflexivity |]. split; [|reflexivity].
  intros m1 H. now exists m1.
Qed.

Lemma secondRunLeaves_written (sameClock : Prop) (old : gmap string fileData)
      (copies : list (string * fileData)) (m1 m2 : json) :
  (forall key, key <> "syncedAt" -> field key m2 = field key m1) ->
  (sameClock -> m2 = m1) ->
  secondRunLeaves sameClock
    (<["manifest.json" := JsonText m1]> (overlay copies old))
    (<["manifest.json" := JsonText m2]>
       (overlay copies (<["manifest.json" := JsonText m1]> (overlay copies old))))
    (<["manifest.json" := JsonText m2]> (overlay copies old)).
Proof.
  intros Hf Hc. rewrite second_run_files.
  split; [reflexivity |]. split.
  { intros k Hk. now rewrite !lookup_insert_ne by congruence. }
  split.
  { intros m Hm. rewrite lookup_insert_eq in Hm. injection Hm as <-.
    exists m2. now rewrite lookup_insert_eq. }
  intros H. now rewrite (Hc H).
Qed.

Lemma fastmcp_second_run (e e' : FastMCP.env) (w : world) :
  FastMCP.argv e' = FastMCP.argv e ->
  FastMCP.cloned e' = FastMCP.cloned e ->
  FastMCP.revParse e' = FastMCP.revParse e ->
  secondRunLeaves (FastMCP.now e' = FastMCP.now e)
    (outFiles (snd (FastMCP.script e w)))
    (outFiles (snd (FastMCP.script e' (snd (FastMCP.script e w)))))
    (outFiles (snd (FastMCP.script e' w))).
Proof.
  intros Ha Hc Hr.
  destruct (existsb (String.eqb "--dry-run") (FastMCP.argv e)) eqn:Hdry.
  { assert (forall w0, outFiles (snd (FastMCP.script e w0)) = outFiles w0) as H1
      by (intros w0; now apply fastmcp_script_dry).
    assert (forall w0, outFiles (snd (FastMCP.script e' w0)) = outFiles w0) as H2
      by (intros w0; apply fastmcp_script_dry; now rewrite Ha).
    rewrite !H2, !H1. apply secondRunLeaves_unchanged. }
  destruct (fastmcpError e) as [error|] eqn:He.
  { assert (fastmcpError e' = Some error) as He'
      by (unfold fastmcpError in *; now rewrite Hc, Hr).
    assert (forall w0, outFiles (snd (FastMCP.script e w0)) = outFiles w0) as H1.
    { intros w0. now destruct (fastmcp_script_fails e w0 error He) as (w' & -> & F & _). }
    assert (forall w0, outFiles (snd (FastMCP.script e' w0)) = outFiles w0) as H2.
    { intros w0. now destruct (fastmcp_script_fails e' w0 error He') as (w' & -> & F & _). }
    rewrite !H2, !H1. apply secondRunLeaves_unchanged. }
  apply fastmcpError_none in He as (root & name & children & out & Hcl & Hf & Hrev).
  assert (existsb (String.eqb "--dry-run") (FastMCP.argv e') = false) as Hdry'
    by now rewrite Ha.
  assert (FastMCP.cloned e' = FastMCP.Cloned root) as Hcl' by now rewrite Hc.
  assert (FastMCP.revParse e' = inr out) as Hrev' by now rewrite Hr.
  assert (forall w0, outFiles (snd (FastMCP.script e w0))
                     = <["manifest.json" :=
                           JsonText (FastMCP.manifestOf e (trim out)
                                       (map (fastmcpCreated e)
                                            (List.filter kept (walkAll "" children))))]>
                         (overlay (map fastmcpCopy (List.filter kept (walkAll "" children)))
                                  (outFiles w0))) as H1.
  { intros w0.
    now destruct (fastmcp_script_real e root children name out Hdry Hcl Hf Hrev w0)
      as (w' & -> & _ & F & _). }
  assert (forall w0, outFiles (snd (FastMCP.script e' w0))
                     = <["manifest.json" :=
                           JsonText (FastMCP.manifestOf e' (trim out)
                                       (map (fastmcpCreated e')
                                            (List.filter kept (walkAll "" children))))]>
                         (overlay (map fastmcpCopy (List.filter kept (walkAll "" children)))
                                  (outFiles w0))) as H2.
  { intros w0.
    now destruct (fastmcp_script_real e' root children name out Hdry' Hcl' Hf Hrev' w0)
      as (w' & -> & _ & F & _). }
  rewrite !H2, !H1. apply secondRunLeaves_written.
  - intros key. apply fastmcp_manifest_fields.
  - apply fastmcp_manifest_clock.
Qed.

Lemma xai_second_run (e e' : Xai.env) (w : world) :
  Xai.argv e' = Xai.argv e ->
  Xai.devBrowser e' = Xai.devBrowser e ->
  Xai.procExitCode e' = Xai.procExitCode e ->
  Xai.procStdout e' = Xai.procStdout e ->
  secondRunLeaves (Xai.now e' = Xai.now e)
    (outFiles (snd (Xai.main e w)))
    (outFiles (snd (Xai.main e' (snd (Xai.main e w)))))
    (outFiles (snd (Xai.main e' w))).
Proof.
  intros Ha Hd Hx Hs.
  destruct (existsb (String.eqb "--dry-run") (Xai.argv e)) eqn:Hdry.
  { assert (forall w0, outFiles (snd (Xai.main e w0)) = outFiles w0) as H1
      by (intros w0; now apply xai_main_dry).
    assert (forall w0, outFiles (snd (Xai.main e' w0)) = outFiles w0) as H2
      by (intros w0; apply xai_main_dry; now rewrite Ha).
    rewrite !H2, !H1. apply secondRunLeaves_unchanged. }
  destruct (xaiFetchError e) as [error|] eqn:He.
  { assert (exists error', xaiFetchError e' = Some error') as [error' He'].
    { unfold xaiFetchError in *. rewrite Hd, Hx.
      destruct (negb (Xai.devBrowser e)); [eauto |].
      destruct (negb (Xai.procExitCode e =? 0)); [eauto | discriminate]. }
    assert (forall w0, outFiles (snd (Xai.main e w0)) = outFiles w0) as H1.
    { intros w0. destruct (xai_main_fetch_fails e w0 error He) as (w' & -> & F & _).
      apply F. }
    assert (forall w0, outFiles (snd (Xai.main e' w0)) = outFiles w0) as H2.
    { intros w0. destruct (xai_main_fetch_fails e' w0 error' He') as (w' & -> & F & _).
      apply F. }
    rewrite !H2, !H1. apply secondRunLeaves_unchanged. }
  apply xaiFetchError_none in He as (Hdev & Hexit).
  assert (existsb (String.eqb "--dry-run") (Xai.argv e') = false) as Hdry'
    by now rewrite Ha.
  assert (Xai.devBrowser e' = true) as Hdev' by now rewrite Hd.
  assert (Xai.procExitCode e' = 0) as Hexit' by now rewrite Hx.
  assert (forall w0, outFiles (snd (Xai.main e w0))
                     = <["manifest.json" :=
                           JsonText (Xai.manifestOf e
                                       (map (xaiCreated e)
                                            (Xai.parseLlmsTxt (Xai.procStdout e))))]>
                         (overlay (map xaiFile (Xai.parseLlmsTxt (Xai.procStdout e)))
                                  (outFiles w0))) as H1.
  { intros w0. now destruct (xai_main_real e w0 Hdry Hdev Hexit) as (w' & -> & _ & F & _). }
  assert (forall w0, outFiles (snd (Xai.main e' w0))
                     = <["manifest.json" :=
                           JsonText (Xai.manifestOf e'
                                       (map (xaiCreated e')
                                            (Xai.parseLlmsTxt (Xai.procStdout e))))]>
                         (overlay (map xaiFile (Xai.parseLlmsTxt (Xai.procStdout e)))
                                  (outFiles w0))) as H2.
  { intros w0. rewrite <- Hs.
    now destruct (xai_main_real e' w0 Hdry' Hdev' Hexit') as (w' & -> & _ & F & _). }
  rewrite !H2, !H1. apply secondRunLeaves_written.
  - intros key. apply xai_manifest_fields.
  - apply xai_manifest_clock.
Qed.

Lemma fastmcp_second_manifest (e : FastMCP.env) (w : world) :
  existsb (String.eqb "--dry-run") (FastMCP.argv e) = false ->
  fastmcpError e = None ->
  exists m, outFiles (snd (FastMCP.script e w)) !! "manifest.json" = Some (JsonText m)
            /\ field "syncedAt" m = Some (JString (FastMCP.now e)).
Proof.
  intros Hdry He.
  apply fastmcpError_none in He as (root & name & children & out & Hcl & Hf & Hrev).
  destruct (fastmcp_script_real e root children name out Hdry Hcl Hf Hrev w)
    as (w' & -> & _ & F & _).
  cbn [snd]. rewrite F, lookup_insert_eq. eexists. split; reflexivity.
Qed.

Lemma xai_second_manifest (e : Xai.env) (w : world) :
  existsb (String.eqb "--dry-run") (Xai.argv e) = false ->
  xaiFetchError e = None ->
  exists m, outFiles (snd (Xai.main e w)) !! "manifest.json" = Some (JsonText m)
            /\ field "syncedAt" m = Some (JString (Xai.now e)).
Proof.
  intros Hdry He. apply xaiFetchError_none in He as (Hdev & Hexit).
  destruct (xai_main_real e w Hdry Hdev Hexit) as (w' & -> & _ & F & _).
  cbn [snd]. rewrite F, lookup_insert_eq. eexists. split; reflexivity.
Qed.

End SecondRun.

(** ** The path mapper *)

Section PathMapper.

Import Js Llms ParserSpec NameSpec.

Lemma stripDocsPrefix_keeps_md (stem : string) :
  exists stem', stripDocsPrefix (stem +:+ ".md") = stem' +:+ ".md".
Proof.
  unfold stripDocsPrefix.
  destruct (startsWith "docs/" (stem +:+ ".md")) eqn:E; [|eauto].
  destruct stem as [|c1 [|c2 [|c3 [|c4 [|c5 stem]]]]];
    try (exfalso; cbn in E; rewrite ?andb_false_r in E; discriminate).
  exists stem. reflexivity.
Qed.

Lemma stripDocsPrefix_keeps_mdx (stem : string) :
  exists stem', stripDocsPrefix (stem +:+ ".mdx") = stem' +:+ ".mdx".
Proof.
  unfold stripDocsPrefix.
  destruct (startsWith "docs/" (stem +:+ ".mdx")) eqn:E; [|eauto].
  destruct stem as [|c1 [|c2 [|c3 [|c4 [|c5 stem]]]]];
    try (exfalso; cbn in E; rewrite ?andb_false_r in E; discriminate).
  exists stem. reflexivity.
Qed.

Lemma pathToFilename_keeps_extension (ext stem : string) (c : ascii) (rest : string) :
  ext = String c rest ->
  Ascii.eqb c "-" = false ->
  collapseDashesFrom false (replaceSlashes rest) = rest ->
  Ascii.eqb c "/" = false ->
  (exists stem', stripDocsPrefix (stem +:+ ext) = stem' +:+ ext) ->
  endsWith (ext +:+ ".md") (pathToFilename (stem +:+ ext)) = true.
Proof.
  intros -> Hdash Hrest Hslash [stem' Hstrip].
  unfold pathToFilename, collapseDashes. rewrite Hstrip, replaceSlashes_append.
  cbn [replaceSlashes]. rewrite Hslash, collapseDashesFrom_append by exact Hdash.
  rewrite Hrest, append_assoc.
  change (String c rest +:+ ".md") with (String c (rest +:+ ".md")).
  apply endsWith_append.
Qed.

(** C2, as the code has it: [pathToFilename] strips a leading ["docs/"],
    turns every slash into a dash, collapses runs of dashes and then always
    appends [".md"].  Every output ends in [".md"], holds no slash and has
    no two dashes in a row; a path made of plain segments comes out as its
    segments, without a leading [docs], joined by dashes.  In all, the
    output is the path, or what follows its leading ["docs/"], with one
    dash for every maximal run of slashes and dashes.  An extension of
    the input is neither rewritten nor detected: an input ending in
    [".mdx"] gives an output ending in [".mdx.md"], one ending in [".md"]
    an output ending in [".md.md"]; ["a/b/c.mdx"] gives ["a-b-c.mdx.md"],
    ["docs/x.md"] gives ["x.md.md"] and the extension-less
    ["docs/guides/chat"] gives ["guides-chat.md"]. *)
Theorem pathToFilename_always_appends_md (docPath : string) :
  endsWith ".md" (pathToFilename docPath) = true
  /\ NoChar "/" (pathToFilename docPath)
  /\ occursIn "--" (pathToFilename docPath) = false
  /\ (forall segments,
        Forall (fun s => plainSegment s = true) segments ->
        docPath = joinWith "/" segments ->
        pathToFilename docPath = joinWith "-" (withoutDocs segments) +:+ ".md")
  /\ (startsWith "docs/" docPath = false ->
      pathToFilename docPath = oneDashPerRun docPath +:+ ".md")
  /\ (forall rest, docPath = "docs/" +:+ rest ->
                   pathToFilename docPath = oneDashPerRun rest +:+ ".md")
  /\ (endsWith ".mdx" docPath = true ->
      endsWith ".mdx.md" (pathToFilename docPath) = true)
  /\ (endsWith ".md" docPath = true ->
      endsWith ".md.md" (pathToFilename docPath) = true)
  /\ pathToFilename "a/b/c.mdx" = "a-b-c.mdx.md"
  /\ pathToFilename "docs/x.md" = "x.md.md"
  /\ pathToFilename "docs/guides/chat" = "guides-chat.md"
  /\ pathToFilename "a//b--c/-d" = "a-b-c-d.md"
  /\ pathToFilename "x/docs/y" = "x-docs-y.md".
Proof.
  split; [apply endsWith_append |].
  split.
  { unfold pathToFilename, collapseDashes. apply NoChar_append.
    - apply collapseDashesFrom_NoChar, replaceSlashes_NoChar.
    - repeat constructor; discriminate. }
  split; [apply pathToFilename_no_run |].
  split; [intros segments H ->; now apply pathToFilename_segments |].
  split; [apply pathToFilename_squeeze |].
  split; [apply pathToFilename_squeeze |].
  split.
  { intros H. apply endsWith_inv in H as [stem ->].
    eapply (pathToFilename_keeps_extension ".mdx"); try reflexivity.
    apply stripDocsPrefix_keeps_mdx. }
  split.
  { intros H. apply endsWith_inv in H as [stem ->].
    eapply (pathToFilename_keeps_extension ".md"); try reflexivity.
    apply stripDocsPrefix_keeps_md. }
  repeat split.
Qed.

Lemma pathToFilename_always_appends_md_witness :
  endsWith ".mdx.md" (pathToFilename "guide/intro.mdx") = true
  /\ endsWith ".md.md" (pathToFilename "docs/x.md") = true
  /\ pathToFilename "docs/guides/function-calling" = "guides-function-calling.md".
Proof.
  split; [|split].
  - apply (pathToFilename_always_appends_md "guide/intro.mdx"). reflexivity.
  - apply (pathToFilename_always_appends_md "docs/x.md"). reflexivity.
  - apply (pathToFilename_always_appends_md "docs/guides/function-calling"
             ) with (segments := ["docs"; "guides"; "function-calling"]).
    + repeat constructor.
    + reflexivity.
Defined.

(** C2 as stated fails: the two outputs the claim names are not the ones
    the function gives. *)
Lemma pathToFilename_mdx_counterexample :
  pathToFilename "a/b/c.mdx" <> "a-b-c.md"
  /\ pathToFilename "docs/x.md" <> "x.md".
Proof. split; discriminate. Qed.

(** The repository script names its outputs differently: there a trailing
    [".mdx"] does become [".md"]. *)
Example fastmcp_outputName_rewrites_mdx :
  FastMCP.outputNameOf "a/b" "c.mdx" = "a-b-c.md"
  /\ FastMCP.outputNameOf "" "x.md" = "x.md".
Proof. split; reflexivity. Qed.

End PathMapper.

(** ** The section parser *)

Section SectionParser.

Import Js Llms ParserSpec.

(** C4, as the code has it: the blob is cut before every position after
    the first at which ["===/"] begins, wherever on its line that is.  The
    sections put together give the blob back, every section after the first
    begins with the delimiter, no section holds a further cut and there is
    one section more than there are cuts; whatever precedes the first
    delimiter contributes no document, and a blob in which the delimiter
    begins nowhere yields no document at all, in the [Map] of the xAI
    script as in the array of the templates. *)
Theorem parseLlmsTxt_cuts_at_every_delimiter (blob : string) :
  joined (splitSections blob) = blob
  /\ Forall (fun s => startsWith "===/" s = true) (tl (splitSections blob))
  /\ Forall (fun s => cuts s = 0) (splitSections blob)
  /\ length (splitSections blob) = 1 + cuts blob
  /\ Xai.parseLlmsTxt blob = Xai.parseLlmsTxt (fromFirstDelim blob)
  /\ LlmsTemplate.parseLlmsTxt blob = LlmsTemplate.parseLlmsTxt (fromFirstDelim blob)
  /\ (occursIn "===/" blob = false ->
      Xai.parseLlmsTxt blob = [] /\ LlmsTemplate.parseLlmsTxt blob = []).
Proof.
  split; [apply joined_splitSections |].
  split; [apply tail_splitSections |].
  split; [apply cuts_splitSections |].
  split; [apply length_splitSections |].
  split; [rewrite !xai_parse_fold; now rewrite sectionDocs_fromFirstDelim |].
  split; [rewrite !template_parse_map; now rewrite sectionDocs_fromFirstDelim |].
  intros H.
  rewrite xai_parse_fold, template_parse_map, sectionDocs_fromFirstDelim.
  rewrite (fromFirstDelim_none _ H). split; reflexivity.
Qed.

Lemma parseLlmsTxt_cuts_at_every_delimiter_witness :
  Xai.parseLlmsTxt ("# Title" +:+ NL +:+ "no sections here") = []
  /\ LlmsTemplate.parseLlmsTxt ("# Title" +:+ NL +:+ "no sections here") = [].
Proof.
  apply (parseLlmsTxt_cuts_at_every_delimiter
           ("# Title" +:+ NL +:+ "no sections here")).
  reflexivity.
Defined.

(** C4 as stated fails: a delimiter in the middle of a line does start a
    new section.  In the blob below ["===/b==="] follows ["foo "] on the
    same line, and the parser still gives two documents. *)
Lemma parseLlmsTxt_midline_counterexample :
  let blob := "===/a===" +:+ NL +:+ "foo ===/b===" +:+ NL +:+ "bar" in
  splitSections blob = ["===/a===" +:+ NL +:+ "foo "; "===/b===" +:+ NL +:+ "bar"]
  /\ Xai.parseLlmsTxt blob = [("a", "foo"); ("b", "bar")]
  /\ Xai.parseLlmsTxt blob <> [("a", "foo ===/b===" +:+ NL +:+ "bar")].
Proof. repeat split. discriminate. Qed.

(** C5, as the code has it: in the [Map] of the xAI script a path has one
    entry at most, bound to the body of the last section headed by that path
    among those that are kept, that is, whose trimmed body is not empty; the
    claim's blob gives the single entry [a] bound to ["2"].  The templates
    collect the same documents in an array, one element per kept section,
    duplicates included. *)
Theorem parseLlmsTxt_last_kept_section_wins (blob path : string) :
  JsMap.get path (Xai.parseLlmsTxt blob) = lastBody path (sectionDocs blob)
  /\ NoDup (JsMap.keys (Xai.parseLlmsTxt blob))
  /\ (forall doc, In doc (sectionDocs blob) <->
        exists section, In section (splitSections blob)
          /\ matchHeader section = Some (fst doc)
          /\ trim (stripHeader section) = snd doc
          /\ snd doc <> "")
  /\ LlmsTemplate.parseLlmsTxt blob = map mkDoc (sectionDocs blob)
  /\ Xai.parseLlmsTxt ("===/a===" +:+ NL +:+ "1" +:+ NL +:+ "===/a===" +:+ NL +:+ "2")
     = [("a", "2")].
Proof.
  split.
  { rewrite xai_parse_fold. apply get_fold_setDoc. }
  split.
  { rewrite xai_parse_fold. apply NoDup_keys_fold. constructor. }
  split; [intros doc; apply emitted_spec |].
  split; [apply template_parse_map | reflexivity].
Qed.

(** C5 as stated fails on both parsers.  When the later section headed by
    [a] has an empty body it is dropped and the earlier body stays bound;
    and the template parser gives two entries for the claim's own blob. *)
Lemma parseLlmsTxt_duplicate_counterexample :
  let blob := "===/a===" +:+ NL +:+ "1" +:+ NL +:+ "===/a===" +:+ NL in
  let later := "===/a===" +:+ NL in
  splitSections blob = ["===/a===" +:+ NL +:+ "1" +:+ NL; later]
  /\ matchHeader later = Some "a"
  /\ trim (stripHeader later) = ""
  /\ JsMap.get "a" (Xai.parseLlmsTxt blob) = Some "1"
  /\ LlmsTemplate.parseLlmsTxt
       ("===/a===" +:+ NL +:+ "1" +:+ NL +:+ "===/a===" +:+ NL +:+ "2")
     = [mkDoc ("a", "1"); mkDoc ("a", "2")].
Proof. repeat split. Qed.

End SectionParser.

(** ** The code-block rule *)

Section CodeBlocks.

Import Js SyncHtml HtmlSpec TitleSpec LanguageSpec.

Lemma matchLanguage_nonEmpty (cls word : string) :
  matchLanguage cls = Some word -> nonEmpty word = true.
Proof.
  induction cls as [|c cls IH]; [discriminate |].
  cbn [matchLanguage].
  destruct (startsWith "language-" (String c cls)); [|exact IH].
  destruct (span isWord (slice 9 (String c cls))) as [w rest].
  destruct (nonEmpty w) eqn:E; [intros [= <-]; exact E | exact IH].
Qed.

(** C9, as the code has it: the statement is about the two functions of
    the rule, its filter and its replacement; which nodes the conversion
    hands to them is decided by the library.  The filter accepts every
    [pre] element, and the replacement renders a [pre] element as a fenced
    block.  The language tag is the word that [/language-(\w+)/] finds in
    the class of the first [code] descendant, else the [data-lang]
    attribute of that element, else empty.  The word is the longest run of
    word characters after the leftmost ["language-"] that a word character
    follows; there is none exactly when no ["language-"] of the class is
    followed by a word character.  The body is the trimmed text of that
    [code] element when there is one and its text is not empty, and the
    trimmed text of the [pre] element otherwise.  On the claim's two
    examples the replacement gives what the claim says. *)
Theorem codeBlocks_fence (content : string) (parentName : option string)
        (attrs : list (string * string)) (children : list node) :
  let pre := Element "PRE" attrs children in
  codeBlocksFilter parentName pre = true
  /\ codeBlocksReplacement content pre
     = fence (languageTag (querySelectorCode pre))
             (trim (blockText pre (querySelectorCode pre)))
  /\ (forall cls word,
        matchLanguage cls = Some word ->
        exists before after,
          cls = before +:+ "language-" +:+ word +:+ after
          /\ nonEmpty word = true /\ every isWord word = true
          /\ beginsWithWord after = false
          /\ forall n, n < String.length before -> languageAt (slice n cls) = false)
  /\ (forall cls,
        matchLanguage cls = None -> forall n, languageAt (slice n cls) = false)
  /\ codeBlocksReplacement content
       (Element "PRE" []
          [Element "CODE" [("class", "language-python")] [Text "x = 1"]])
     = NL +:+ "```python" +:+ NL +:+ "x = 1" +:+ NL +:+ "```" +:+ NL
  /\ codeBlocksReplacement content (Element "PRE" [] [Text "plain text"])
     = NL +:+ "```" +:+ NL +:+ "plain text" +:+ NL +:+ "```" +:+ NL
  /\ codeBlocksReplacement content
       (Element "PRE" []
          [Element "CODE" [("class", "language- hljs language-js")] [Text "let x"]])
     = NL +:+ "```js" +:+ NL +:+ "let x" +:+ NL +:+ "```" +:+ NL.
Proof.
  intros pre. split; [reflexivity |].
  split; [|split; [apply matchLanguage_leftmost |];
           split; [apply matchLanguage_none |]; repeat split].
  unfold codeBlocksReplacement, fence, languageTag, blockText.
  change (String.eqb (nodeNameOf pre) "PRE") with true. cbv iota.
  destruct (querySelectorCode pre) as [code|]; cbn [optChain].
  - f_equal. f_equal.
    assert (stringOf
              (orElse (orElse (matchLanguage (className code))
                              (getAttribute "data-lang" code)) (Some ""))
            = match matchLanguage (className code) with
              | Some word => word
              | None => match getAttribute "data-lang" code with
                        | Some value => value
                        | None => ""
                        end
              end) as ->.
    { destruct (matchLanguage (className code)) as [w|] eqn:M.
      - apply matchLanguage_nonEmpty in M. destruct w; [discriminate | reflexivity].
      - destruct (getAttribute "data-lang" code) as [[|? ?]|]; reflexivity. }
    f_equal. f_equal. f_equal.
    destruct (textContent code); [|reflexivity].
    cbn [orElse nonEmpty]. destruct (textContent pre); reflexivity.
  - cbn [orElse stringOf]. do 5 f_equal.
    destruct (textContent pre); reflexivity.
Qed.

(** C9 as stated fails where the [code] element is empty: the body is then
    taken from the [pre] element, not from the [code] element. *)
Lemma codeBlocks_empty_code_counterexample :
  let code := Element "CODE" [] [] in
  let pre := Element "PRE" [] [Text "abc"; code] in
  querySelectorCode pre = Some code
  /\ codeBlocksReplacement "" pre = fence "" "abc"
  /\ codeBlocksReplacement "" pre <> fence "" (trim (textContent code)).
Proof. repeat split. discriminate. Qed.

End CodeBlocks.

(** ** The runs *)

Section Runs.

Import Js World ScriptSpec ReportSpec Examples.

(** C1, as the code has it: a path whose fetch fails (a network error or a
    status outside 200..299) is reported and counted in [failed], and the
    loop goes on: every configured path is fetched, in order.  The report
    is one line of [console.error] per failed path, naming the path and
    giving the error, and the run prints no other error.  The results hold
    one entry for each path fetched with success and none for the others,
    [synced] and [failed] count the two kinds, and in a run that is not a
    dry run and has a success the manifest written at the end is made of
    the results, so it lists the successful paths only. *)
Theorem direct_fetch_failures_are_isolated (e : SyncDirect.env) (dryRun : bool)
        (w : world) :
  SyncDirect.parsedArgs e = inr dryRun ->
  exists t w',
    SyncDirect.main e w = (Normal t, w')
    /\ requests w' = requests w ++ map (urlOf e) (SyncDirect.DOC_PATHS e)
    /\ SyncDirect.results t
       = map (directResult e) (List.filter (fetchSucceeds e) (SyncDirect.DOC_PATHS e))
    /\ map SyncDirect.path (SyncDirect.results t)
       = List.filter (fetchSucceeds e) (SyncDirect.DOC_PATHS e)
    /\ SyncDirect.synced t = length (SyncDirect.results t)
    /\ SyncDirect.failed t
       = length (List.filter (fun p => negb (fetchSucceeds e p)) (SyncDirect.DOC_PATHS e))
    /\ length (SyncDirect.results t) + SyncDirect.failed t
       = length (SyncDirect.DOC_PATHS e)
    /\ errorLines (console w')
       = errorLines (console w) ++ flat_map (failureReport e) (SyncDirect.DOC_PATHS e)
    /\ (forall p, In p (SyncDirect.DOC_PATHS e) -> fetchSucceeds e p = false ->
        exists error,
          fetchFailure e p = Some error
          /\ In (LogError ("Failed to sync " +:+ p +:+ ":") error) (console w'))
    /\ (dryRun = false ->
        List.filter (fetchSucceeds e) (SyncDirect.DOC_PATHS e) <> [] ->
        outFiles w' !! "manifest.json"
        = Some (JsonText (SyncDirect.manifestOf e (SyncDirect.results t)))).
Proof.
  intros Hargs.
  pose proof (direct_main_console e dryRun w Hargs) as Hcon.
  destruct (direct_main_spec e dryRun w Hargs)
    as [t [w' [Hmain [Hreq [Hres [Hsyn [Hfail [Hman _]]]]]]]].
  rewrite Hmain in Hcon. cbn [snd] in Hcon.
  exists t, w'. split; [exact Hmain |]. split; [exact Hreq |].
  split; [exact Hres |].
  assert (map SyncDirect.path (SyncDirect.results t)
          = List.filter (fetchSucceeds e) (SyncDirect.DOC_PATHS e)) as Hpaths.
  { rewrite Hres, map_map. apply map_id. }
  split; [exact Hpaths |].
  split; [now rewrite Hsyn, <- Hpaths, length_map |].
  split; [exact Hfail |].
  split.
  { rewrite Hfail, <- (length_map SyncDirect.path), Hpaths.
    generalize (SyncDirect.DOC_PATHS e). intros l.
    induction l as [|p l IH]; [reflexivity |].
    cbn [List.filter]. destruct (fetchSucceeds e p); cbn [negb length]; lia. }
  split; [exact Hcon |].
  split; [|exact Hman].
  intros p Hin Hp.
  destruct (fetchFailure e p) as [error|] eqn:Hf.
  - exists error. split; [reflexivity |].
    assert (In (LogError ("Failed to sync " +:+ p +:+ ":") error)
               (errorLines (console w'))) as H.
    { rewrite Hcon. apply in_or_app. right. now apply failureReport_in. }
    unfold errorLines in H. apply List.filter_In in H. apply H.
  - apply fetchFailure_succeeds in Hf. congruence.
Qed.

Lemma direct_fetch_failures_are_isolated_witness :
  exists t w',
    SyncDirect.main threePaths emptyWorld = (Normal t, w')
    /\ requests w' = requests emptyWorld
                     ++ map (urlOf threePaths) (SyncDirect.DOC_PATHS threePaths)
    /\ SyncDirect.results t
       = map (directResult threePaths)
             (List.filter (fetchSucceeds threePaths) (SyncDirect.DOC_PATHS threePaths))
    /\ map SyncDirect.path (SyncDirect.results t)
       = List.filter (fetchSucceeds threePaths) (SyncDirect.DOC_PATHS threePaths)
    /\ SyncDirect.synced t = length (SyncDirect.results t)
    /\ SyncDirect.failed t
       = length (List.filter (fun p => negb (fetchSucceeds threePaths p))
                             (SyncDirect.DOC_PATHS threePaths))
    /\ length (SyncDirect.results t) + SyncDirect.failed t
       = length (SyncDirect.DOC_PATHS threePaths)
    /\ errorLines (console w')
       = errorLines (console emptyWorld)
         ++ flat_map (failureReport threePaths) (SyncDirect.DOC_PATHS threePaths)
    /\ (forall p, In p (SyncDirect.DOC_PATHS threePaths) ->
                  fetchSucceeds threePaths p = false ->
        exists error,
          fetchFailure threePaths p = Some error
          /\ In (LogError ("Failed to sync " +:+ p +:+ ":") error) (console w'))
    /\ (false = false ->
        List.filter (fetchSucceeds threePaths) (SyncDirect.DOC_PATHS threePaths) <> [] ->
        outFiles w' !! "manifest.json"
        = Some (JsonText (SyncDirect.manifestOf threePaths (SyncDirect.results t)))).
Proof. apply (direct_fetch_failures_are_isolated threePaths false emptyWorld). reflexivity. Defined.

(** C1 as stated fails: with three paths of which the second is answered
    with a 404, the run has two results, not three, and none of them is
    marked in any way; the failure is only counted. *)
Lemma direct_fetch_three_results_counterexample :
  exists t,
    fst (SyncDirect.main threePaths emptyWorld) = Normal t
    /\ length (SyncDirect.DOC_PATHS threePaths) = 3
    /\ map SyncDirect.path (SyncDirect.results t) = ["a.md"; "c.md"]
    /\ length (SyncDirect.results t) = 2
    /\ SyncDirect.failed t = 1.
Proof. eexists. split; [vm_compute; reflexivity |]. repeat split. Qed.

End Runs.

Section MoreRuns.

Import Js World ScriptSpec Examples.

Lemma direct_script_dry (e : SyncDirect.env) (w : world) :
  SyncDirect.parsedArgs e = inr true ->
  sameOut w (snd (SyncDirect.script e w)).
Proof.
  intros Hargs.
  destruct (direct_main_spec e true w Hargs) as [t [w' [Hmain [_ [_ [_ [_ [_ Hdry]]]]]]]].
  unfold SyncDirect.script, tryCatch, bind. rewrite Hmain. now apply Hdry.
Qed.

(** C3, as the code has it: a run in dry-run mode leaves the output
    directory as it was, however the run ends: no directory is made and no
    document or manifest is written, in the xAI and FastMCP scripts and in
    the llms.txt, GitHub and direct-fetch templates.  The results of a dry
    run hold one [skipped] entry per document found: for the xAI script one
    per parsed section, in order, and for the FastMCP script one per kept
    file of the walk of the [docs] directory; the list is empty when there
    is no document. *)
Theorem dry_run_writes_nothing (w : world) :
  (forall e : Xai.env,
      existsb (String.eqb "--dry-run") (Xai.argv e) = true ->
      sameOut w (snd (Xai.main e w)))
  /\ (forall e : FastMCP.env,
         existsb (String.eqb "--dry-run") (FastMCP.argv e) = true ->
         sameOut w (snd (FastMCP.script e w)))
  /\ (forall e : LlmsTemplate.env,
         existsb (String.eqb "--dry-run") (LlmsTemplate.argv e) = true ->
         sameOut w (snd (LlmsTemplate.main e w)))
  /\ (forall e : SyncGithub.env,
         SyncGithub.parsedArgs e = inr true ->
         sameOut w (snd (SyncGithub.script e w)))
  /\ (forall e : SyncDirect.env,
         SyncDirect.parsedArgs e = inr true ->
         sameOut w (snd (SyncDirect.script e w)))
  /\ (forall e : Xai.env,
         Xai.devBrowser e = true ->
         Xai.procExitCode e = 0 ->
         fst (Xai.syncDocs e true w)
         = Normal (map (xaiSkipped e) (Xai.parseLlmsTxt (Xai.procStdout e))))
  /\ (forall (e : FastMCP.env) (root children : list entry) (name out : string),
         existsb (String.eqb "--dry-run") (FastMCP.argv e) = true ->
         FastMCP.cloned e = FastMCP.Cloned root ->
         findEntry FastMCP.SOURCE_PATH root = Some (Dir name children) ->
         FastMCP.revParse e = inr out ->
         fst (FastMCP.script e w)
         = Normal (map (fastmcpSkipped e) (List.filter kept (walkAll "" children)))).
Proof.
  split; [intros e; apply xai_main_dry |].
  split; [intros e; apply fastmcp_script_dry |].
  split; [intros e; apply template_main_dry |].
  split; [intros e; apply github_script_dry |].
  split; [intros e; apply direct_script_dry |].
  split.
  - intros e Hdev Hexit.
    destruct (yields_normal _ _ w (xai_syncDocs_dry_results e Hdev Hexit)) as [rs [-> ->]].
    reflexivity.
  - intros e root children name out Hdry Hclone Hfind Hrev.
    apply (fastmcp_script_dry_results e root children name out Hdry Hclone Hfind Hrev).
Qed.

Lemma dry_run_writes_nothing_witness :
  sameOut emptyWorld (snd (Xai.main (xaiEnv ["--dry-run"] twoSections) emptyWorld))
  /\ sameOut emptyWorld
       (snd (FastMCP.script (fastmcpEnv ["--dry-run"] (FastMCP.Cloned smallRepository))
                            emptyWorld))
  /\ sameOut emptyWorld
       (snd (SyncGithub.script (githubEnv true (FastMCP.Cloned smallRepository))
                               emptyWorld))
  /\ fst (Xai.syncDocs (xaiEnv ["--dry-run"] twoSections) true emptyWorld)
     = Normal (map (xaiSkipped (xaiEnv ["--dry-run"] twoSections))
                   (Xai.parseLlmsTxt twoSections))
  /\ fst (FastMCP.script (fastmcpEnv ["--dry-run"] (FastMCP.Cloned smallRepository))
                         emptyWorld)
     = Normal (map (fastmcpSkipped
                      (fastmcpEnv ["--dry-run"] (FastMCP.Cloned smallRepository)))
                   (List.filter kept
                      (walkAll "" [File "z.md" "Z";
                                   Dir "sub" [File "b.mdx" "B"; File "logo.png" ""];
                                   Dir "assets" [File "skipped.md" ""];
                                   File "a.md" "A"]))).
Proof.
  destruct (dry_run_writes_nothing emptyWorld) as [Hx [Hf [_ [Hg [_ [Hr Hfr]]]]]].
  split; [apply Hx; reflexivity |].
  split; [apply Hf; reflexivity |].
  split; [apply Hg; reflexivity |].
  split; [apply Hr; reflexivity |].
  apply (Hfr _ smallRepository _ "docs" ("0a1b2c3" +:+ NL)); reflexivity.
Defined.

(** C3 as stated fails in its second half: a dry run over a blob without
    sections, or over a repository whose [docs] directory holds no
    markdown, ends normally with an empty list of results. *)
Lemma dry_run_empty_results_counterexample :
  fst (Xai.main (xaiEnv ["--dry-run"] "no sections here") emptyWorld) = Normal []
  /\ fst (FastMCP.script
            (fastmcpEnv ["--dry-run"] (FastMCP.Cloned [Dir "docs" [File "logo.png" ""]]))
            emptyWorld) = Normal [].
Proof. split; vm_compute; reflexivity. Qed.

(** C6: when a run of the FastMCP script is over, with a value, an error
    or [process.exit], the scratch directory does not exist, whatever the
    clone did and whatever was there before.  The same holds for the GitHub
    template in every run whose arguments parse, that is, every run that
    reaches the clone; a run that stops at the arguments leaves the scratch
    directory as it found it, so in all cases a run started without a
    scratch directory ends without one. *)
Theorem scratch_directory_removed (w : world) :
  (forall e : FastMCP.env, scratch (snd (FastMCP.script e w)) = None)
  /\ (forall e : SyncGithub.env,
         scratch (snd (SyncGithub.script e w))
         = match SyncGithub.parsedArgs e with
           | inl _ => scratch w
           | inr _ => None
           end)
  /\ (forall e : SyncGithub.env,
         scratch w = None -> scratch (snd (SyncGithub.script e w)) = None).
Proof.
  assert (forall e : SyncGithub.env,
             scratch (snd (SyncGithub.script e w))
             = match SyncGithub.parsedArgs e with
               | inl _ => scratch w
               | inr _ => None
               end) as Hgithub.
  { intros e. destruct (SyncGithub.parsedArgs e) as [error|flag] eqn:Hargs.
    - unfold SyncGithub.script, SyncGithub.main, tryCatch, bind.
      rewrite Hargs. reflexivity.
    - pose proof (github_script_clears e flag Hargs w I) as H.
      destruct (SyncGithub.script e w) as [[rs|error|c] w']; [exact H | exact H | elim H]. }
  split; [|split; [exact Hgithub |]].
  - intros e. pose proof (fastmcp_script_clears e w I) as H.
    destruct (FastMCP.script e w) as [[rs|error|c] w']; exact H.
  - intros e Hw. rewrite Hgithub. now destruct (SyncGithub.parsedArgs e).
Qed.

Lemma scratch_directory_removed_witness :
  scratch (snd (FastMCP.script (fastmcpEnv [] cloneFails) emptyWorld)) = None
  /\ scratch (snd (SyncGithub.script (githubEnv false cloneFails) emptyWorld)) = None
  /\ scratch (snd (SyncGithub.script
                     (githubEnv false (FastMCP.Cloned [File "README.md" "no docs"]))
                     emptyWorld)) = None.
Proof.
  destruct (scratch_directory_removed emptyWorld) as [Hf [_ Hg]].
  split; [apply Hf |]. split; apply Hg; reflexivity.
Defined.

(** C7 on the code: the FastMCP script ends a run whose [main] throws with
    the error printed and exit status 1, but the templates [sync-github.ts]
    and [sync-direct.ts] end every run with exit status 0: their last line
    prints the error and nothing more.  For instance a failed clone makes
    the GitHub template print the error and exit with status 0. *)
Theorem fatal_error_exit_status (w : world) :
  (forall e : FastMCP.env,
      match FastMCP.main e w with
      | (Normal rs, w') => FastMCP.script e w = (Normal rs, w')
      | (Throw error, w') =>
          exitStatus (fst (FastMCP.script e w)) = 1
          /\ console (snd (FastMCP.script e w))
             = console w' ++ [LogError "Sync failed:" error]
      | (Exit _, _) => False
      end)
  /\ (forall e : SyncGithub.env,
         exitStatus (fst (SyncGithub.script e w)) = 0
         /\ match SyncGithub.main e w with
            | (Throw error, w') =>
                console (snd (SyncGithub.script e w)) = console w' ++ [LogError "" error]
            | _ => True
            end)
  /\ (forall e : SyncDirect.env, exitStatus (fst (SyncDirect.script e w)) = 0)
  /\ (forall flag : bool,
         fst (SyncGithub.main (githubEnv flag cloneFails) w)
         = Throw (Error "Command failed: git clone --depth 1")
         /\ exitStatus (fst (SyncGithub.script (githubEnv flag cloneFails) w)) = 0).
Proof.
  split.
  { intros e. pose proof (fastmcp_script_outcome e w) as H.
    destruct (FastMCP.main e w) as [[rs|error|c] w']; [exact H | | exact H].
    destruct H as [H1 H2]. rewrite H1. split; [reflexivity | exact H2]. }
  split.
  { intros e. split; [now rewrite github_script_normal | apply github_script_prints]. }
  split.
  { intros e. now rewrite direct_script_normal. }
  intros flag. split; [|now rewrite github_script_normal].
  unfold SyncGithub.main, githubEnv, cloneFails. cbn.
  unfold tryFinally, bind, ret, log, SyncGithub.tryBlock, SyncGithub.cloneRepo,
    SyncGithub.cleanup, existsScratch, when, removeScratch, setScratch, throw.
  cbn. destruct (scratch w); reflexivity.
Qed.

(** C8, as the code has it: the scripts that clone a repository or split
    an llms.txt blob write a manifest whose [files] are the paths of the
    results sorted by code units, so two lists of results with the same
    paths in another order give the same [files]; a run of the FastMCP
    script that is not a dry run and ends normally leaves that manifest on
    disk.  The direct-fetch template writes one object per result in the
    order of the results, unsorted. *)
Theorem manifest_files_sorted (paths1 paths2 : list string) :
  Sorted codeUnitLe (jsSort paths1)
  /\ Permutation (jsSort paths1) paths1
  /\ (Permutation paths1 paths2 -> jsSort paths1 = jsSort paths2)
  /\ (forall (e : FastMCP.env) commit rs,
         field "files" (FastMCP.manifestOf e commit rs)
         = Some (JArray (map JString (jsSort (map FastMCP.path rs)))))
  /\ (forall (e : Xai.env) rs,
         field "files" (Xai.manifestOf e rs)
         = Some (JArray (map JString (jsSort (map Xai.path rs)))))
  /\ (forall (e : SyncGithub.env) rs commit,
         field "files" (SyncGithub.manifestOf e rs commit)
         = Some (JArray (map JString (jsSort (map SyncGithub.path rs)))))
  /\ (forall (e : FastMCP.env) commit rs w,
         outDir w = true ->
         outFiles (snd (FastMCP.writeManifest e commit rs w)) !! "manifest.json"
         = Some (JsonText (FastMCP.manifestOf e commit rs)))
  /\ (forall (e : FastMCP.env) (w w' : world) (rs : list FastMCP.SyncResult),
         existsb (String.eqb "--dry-run") (FastMCP.argv e) = false ->
         FastMCP.script e w = (Normal rs, w') ->
         outFiles w' !! "manifest.json"
         = Some (JsonText (FastMCP.manifestOf e (commitOf e) rs)))
  /\ (forall (e : SyncDirect.env) rs,
         field "files" (SyncDirect.manifestOf e rs)
         = Some (JArray (map (fun r => JObject [("path", JString (SyncDirect.path r));
                                                 ("hash", JString (SyncDirect.hash r))])
                             rs))).
Proof.
  split; [apply jsSort_sorted |].
  split; [apply jsSort_perm |].
  split; [apply jsSort_order_free |].
  split; [reflexivity |]. split; [reflexivity |]. split; [reflexivity |].
  split.
  { intros e commit rs w Hout. unfold FastMCP.writeManifest, writeOut.
    rewrite Hout. cbn [snd outFiles]. apply lookup_insert_eq. }
  split; [|reflexivity].
  intros e w w' rs Hdry Hrun. apply (fastmcp_script_manifest e w w' rs Hdry Hrun).
Qed.

Lemma manifest_files_sorted_witness :
  let e := fastmcpEnv [] (FastMCP.Cloned smallRepository) in
  let run := FastMCP.script e emptyWorld in
  jsSort ["sub-b.md"; "a.md"; "z.md"] = jsSort ["z.md"; "sub-b.md"; "a.md"]
  /\ outFiles (snd (FastMCP.writeManifest e "0a1b2c3" []
                      (snd (mkdirOut "" emptyWorld)))) !! "manifest.json"
     = Some (JsonText (FastMCP.manifestOf e "0a1b2c3" []))
  /\ outFiles (snd run) !! "manifest.json"
     = Some (JsonText (FastMCP.manifestOf e (commitOf e) (produced (fst run)))).
Proof.
  intros e run.
  destruct (manifest_files_sorted ["sub-b.md"; "a.md"; "z.md"]
                                  ["z.md"; "sub-b.md"; "a.md"])
    as [_ [_ [Hperm [_ [_ [_ [Hwrite [Hrun _]]]]]]]].
  split; [|split].
  - apply Hperm.
    apply perm_trans with (l' := ["sub-b.md"; "z.md"; "a.md"]);
      [apply perm_skip, perm_swap | apply perm_swap].
  - apply Hwrite. reflexivity.
  - apply (Hrun e emptyWorld); [reflexivity | vm_compute; reflexivity].
Defined.

(** C8 as stated fails on the direct-fetch template: two runs that fetch
    the same two documents in a different order write manifests whose
    [files] differ, the first one not being sorted. *)
Lemma direct_manifest_unsorted_counterexample :
  let files1 :=
    outFiles (snd (SyncDirect.main (directEnv ["b.md"; "a.md"]) emptyWorld))
      !! "manifest.json" in
  let files2 :=
    outFiles (snd (SyncDirect.main (directEnv ["a.md"; "b.md"]) emptyWorld))
      !! "manifest.json" in
  (exists head rest,
      files1 = Some (JsonText (JObject (head ++ [("files",
                 JArray (JObject [("path", JString "b.md");
                                  ("hash", JString "001122334455")]
                         :: rest))]))))
  /\ ~ Sorted codeUnitLe ["b.md"; "a.md"]
  /\ files1 <> files2.
Proof.
  split; [|split].
  - exists [("source", JString "https://docs.example.com");
            ("syncedAt", JString "2025-01-01T00:00:00.000Z");
            ("fileCount", JNumber 2)].
    eexists. vm_compute. reflexivity.
  - intros H. inversion H as [|? ? _ Hd]; subst. inversion Hd; subst. discriminate.
  - vm_compute. discriminate.
Qed.

(** C10: every result the xAI script, the FastMCP script and the llms.txt
    template produce has status [skipped] in a dry run and [created]
    otherwise, so [updated] and [unchanged] never occur: in the loops run
    with either value of [dryRun], and in whole runs, where [dryRun] tells
    whether [--dry-run] is among the arguments. *)
Theorem sync_results_created_or_skipped (dryRun : bool) (w : world) :
  (forall e : Xai.env,
      Forall (fun r => Xai.status r = if dryRun then Xai.skipped else Xai.created)
             (produced (fst (Xai.syncDocs e dryRun w))))
  /\ (forall e : FastMCP.env,
         Forall (fun r => FastMCP.status r
                          = if dryRun then FastMCP.skipped else FastMCP.created)
                (produced (fst (FastMCP.copyDocs e dryRun w))))
  /\ (forall e : LlmsTemplate.env,
         Forall (fun r => LlmsTemplate.status r
                          = if dryRun then LlmsTemplate.skipped else LlmsTemplate.created)
                (produced (fst (LlmsTemplate.syncDocs e dryRun w))))
  /\ (forall e : Xai.env,
         Forall (fun r => Xai.status r
                          = if existsb (String.eqb "--dry-run") (Xai.argv e)
                            then Xai.skipped else Xai.created)
                (produced (fst (Xai.main e w))))
  /\ (forall e : FastMCP.env,
         Forall (fun r => FastMCP.status r
                          = if existsb (String.eqb "--dry-run") (FastMCP.argv e)
                            then FastMCP.skipped else FastMCP.created)
                (produced (fst (FastMCP.script e w))))
  /\ (forall e : Xai.env,
         Forall (fun r => Xai.status r <> Xai.updated /\ Xai.status r <> Xai.unchanged)
                (produced (fst (Xai.main e w))))
  /\ (forall e : FastMCP.env,
         Forall (fun r => FastMCP.status r <> FastMCP.updated
                          /\ FastMCP.status r <> FastMCP.unchanged)
                (produced (fst (FastMCP.script e w)))).
Proof.
  split; [intros e; exact (yields_produced _ _ _ _ w (xai_syncDocs_status e dryRun)) |].
  split; [intros e; exact (yields_produced _ _ _ _ w (fastmcp_copyDocs_status e dryRun)) |].
  split; [intros e; exact (yields_produced _ _ _ _ w (template_syncDocs_status e dryRun)) |].
  split; [intros e; exact (yields_produced _ _ _ _ w (xai_main_status e)) |].
  split; [intros e; exact (yields_produced _ _ _ _ w (fastmcp_script_status e)) |].
  split; intros e.
  - eapply Forall_impl; [exact (yields_produced _ _ _ _ w (xai_main_status e)) |].
    intros r Hr. unfold xaiStatusOk in Hr. rewrite Hr.
    destruct (existsb _ _); split; discriminate.
  - eapply Forall_impl; [exact (yields_produced _ _ _ _ w (fastmcp_script_status e)) |].
    intros r Hr. unfold fastmcpStatusOk in Hr. rewrite Hr.
    destruct (existsb _ _); split; discriminate.
Qed.

End MoreRuns.
(** * Further properties of the code *)

(** ** Titles *)

Section TitleProperties.

Import Js Regex Title TitleSpec.

(** X1: the title found by [/^#\s+(.+)$/m] is the rest of a heading
    line.  When the pattern matches, the text has a ["#"] at the beginning
    of a line, followed by white space, followed by the title, which is not
    empty, holds no line terminator and runs to the end of its line. *)
Theorem matchHeading_is_a_heading_line (content heading : string) :
  matchHeading content = Some heading ->
  nonEmpty heading = true
  /\ every dot heading = true
  /\ exists before space after,
      content = before +:+ "#" +:+ space +:+ heading +:+ after
      /\ lineBeginsAfter before = true
      /\ nonEmpty space = true /\ every isWhiteSpace space = true
      /\ lineEndsBefore after = true.
Proof. apply matchHeading_sound. Qed.

Lemma matchHeading_is_a_heading_line_witness :
  nonEmpty "Title" = true
  /\ every dot "Title" = true
  /\ exists before space after,
      "intro" +:+ NL +:+ "# Title" +:+ NL +:+ "more"
      = before +:+ "#" +:+ space +:+ "Title" +:+ after
      /\ lineBeginsAfter before = true
      /\ nonEmpty space = true /\ every isWhiteSpace space = true
      /\ lineEndsBefore after = true.
Proof.
  apply (matchHeading_is_a_heading_line
           ("intro" +:+ NL +:+ "# Title" +:+ NL +:+ "more") "Title").
  reflexivity.
Defined.

(** X2: the first heading line gives the title.  In a text that has no
    ["#"] before it, a ["#"] at the beginning of a line, then white space,
    then text that begins with something other than white space gives
    that text, up to the end of its line, as the title.  The white space
    may hold line breaks, so a ["#"] alone on its line takes the next line
    that is not blank. *)
Theorem matchHeading_finds_first_heading (before space heading after : string) :
  every notHash before = true ->
  lineBeginsAfter before = true ->
  nonEmpty space = true -> every isWhiteSpace space = true ->
  beginsWithInk heading = true -> every dot heading = true ->
  lineEndsBefore after = true ->
  matchHeading (before +:+ "#" +:+ space +:+ heading +:+ after) = Some heading.
Proof. apply matchHeading_complete. Qed.

Lemma matchHeading_finds_first_heading_witness :
  matchHeading ("intro" +:+ NL +:+ "#" +:+ "  " +:+ "Getting started  " +:+ (NL +:+ "text"))
  = Some "Getting started  "
  /\ matchHeading ("" +:+ "#" +:+ (NL +:+ NL) +:+ "Next line" +:+ "") = Some "Next line".
Proof.
  split.
  - apply (matchHeading_finds_first_heading ("intro" +:+ NL) "  " "Getting started  "
                                            (NL +:+ "text")); reflexivity.
  - apply (matchHeading_finds_first_heading "" (NL +:+ NL) "Next line" ""); reflexivity.
Defined.

(** X3: without a heading the title comes from the name.  For a text
    without ["#"], [extractTitle] gives the part of the path after its last
    slash, and the whole path when that part is empty (the path is empty or
    ends with a slash); the FastMCP script gives the file name without its
    [.md] or [.mdx] extension. *)
Theorem title_falls_back_to_the_name (content dir name : string) :
  every notHash content = true ->
  (dir = "" \/ lastUnit dir = Some "/"%char) ->
  every notSlash name = true ->
  extractTitle content (dir +:+ name) = (if nonEmpty name then name else dir +:+ name)
  /\ (endsWith ".md" name || endsWith ".mdx" name = true ->
      fileTitle content name +:+ ".md" = name
      \/ fileTitle content name +:+ ".mdx" = name).
Proof.
  intros Hc Hd Hn. unfold extractTitle, fileTitle.
  rewrite (matchHeading_no_hash content Hc), (lastSegment_append dir name Hn Hd).
  split; [reflexivity | apply stripMdExtension_kept].
Qed.

Lemma title_falls_back_to_the_name_witness :
  extractTitle "no heading here" ("docs/guides/" +:+ "chat") = "chat"
  /\ extractTitle "no heading here" ("docs/guides/" +:+ "") = "docs/guides/"
  /\ (fileTitle "no heading here" "intro.mdx" +:+ ".md" = "intro.mdx"
      \/ fileTitle "no heading here" "intro.mdx" +:+ ".mdx" = "intro.mdx").
Proof.
  split; [|split].
  - apply (title_falls_back_to_the_name "no heading here" "docs/guides/" "chat");
      [reflexivity | right; reflexivity | reflexivity].
  - apply (title_falls_back_to_the_name "no heading here" "docs/guides/" "");
      [reflexivity | right; reflexivity | reflexivity].
  - apply (title_falls_back_to_the_name "no heading here" "" "intro.mdx");
      [reflexivity | left; reflexivity | reflexivity | reflexivity].
Defined.

End TitleProperties.

(** ** File names *)

Section NameProperties.

Import Js Llms World ParserSpec TitleSpec.

(** X4: the flat name the FastMCP script gives a file it keeps.  For a
    file named [stem.md] or [stem.mdx] found under [relPath], the output
    name is [relPath] with its slashes turned into dashes, a dash, and
    [stem.md]; at the top of the walk it is [stem.md].  It ends in [.md]
    and, the name of a directory entry having no slash, it has none. *)
Theorem fastmcp_output_name (relPath name : string) :
  endsWith ".md" name || endsWith ".mdx" name = true ->
  exists stem,
    (name = stem +:+ ".md" \/ name = stem +:+ ".mdx")
    /\ FastMCP.outputNameOf relPath name
       = (if nonEmpty relPath then replaceSlashes relPath +:+ "-" else "")
         +:+ stem +:+ ".md"
    /\ endsWith ".md" (FastMCP.outputNameOf relPath name) = true
    /\ (every notSlash name = true ->
        every notSlash (FastMCP.outputNameOf relPath name) = true).
Proof.
  intros H. destruct (outputNameOf_kept relPath name H) as (stem & Hn & E).
  exists stem. split; [exact Hn |]. split; [exact E |]. rewrite E.
  split; [rewrite <- append_assoc; apply endsWith_append |].
  intros Hs. assert (every notSlash stem = true) as Hstem.
  { destruct Hn as [-> | ->]; rewrite every_append in Hs;
      now apply andb_prop in Hs as [Hs _]. }
  rewrite !every_append, Hstem. destruct (nonEmpty relPath); [|reflexivity].
  now rewrite every_append, every_replaceSlashes.
Qed.

Lemma fastmcp_output_name_witness :
  exists stem,
    ("tools.mdx" = stem +:+ ".md" \/ "tools.mdx" = stem +:+ ".mdx")
    /\ FastMCP.outputNameOf "servers/auth" "tools.mdx"
       = (if nonEmpty "servers/auth" then replaceSlashes "servers/auth" +:+ "-" else "")
         +:+ stem +:+ ".md"
    /\ endsWith ".md" (FastMCP.outputNameOf "servers/auth" "tools.mdx") = true
    /\ (every notSlash "tools.mdx" = true ->
        every notSlash (FastMCP.outputNameOf "servers/auth" "tools.mdx") = true).
Proof. apply (fastmcp_output_name "servers/auth" "tools.mdx"). reflexivity. Defined.

(** X5: flat names are not unique.  The FastMCP script gives the file
    [name] of the directory [relPath/dir] the output name of the file
    [dir-name] of [relPath], and [pathToFilename] gives the paths
    [docs/a/b], [docs/a-b] and [docs/a--b] one file name, as it does for a
    path and the same path under [docs/]: of two such documents the one
    written last is the one that stays. *)
Theorem flat_names_collide (relPath dir name a b : string) :
  (every notSlash dir = true -> nonEmpty dir = true ->
   FastMCP.outputNameOf (joinPath relPath dir) name
   = FastMCP.outputNameOf relPath (dir +:+ "-" +:+ name))
  /\ pathToFilename ("docs/" +:+ a +:+ "/" +:+ b)
     = pathToFilename ("docs/" +:+ a +:+ "-" +:+ b)
  /\ pathToFilename ("docs/" +:+ a +:+ "--" +:+ b)
     = pathToFilename ("docs/" +:+ a +:+ "-" +:+ b)
  /\ (startsWith "docs/" a = false ->
      pathToFilename ("docs/" +:+ a) = pathToFilename a).
Proof.
  split; [apply outputNameOf_flat |]. unfold pathToFilename.
  rewrite !stripDocsPrefix_docs. split; [|split].
  - now rewrite replaceSlashes_slash_dash.
  - unfold collapseDashes. rewrite !replaceSlashes_append.
    change (replaceSlashes "--") with "--". change (replaceSlashes "-") with "-".
    now rewrite collapseDashesFrom_dashes.
  - intros H. unfold stripDocsPrefix. now rewrite H.
Qed.

Lemma flat_names_collide_witness :
  FastMCP.outputNameOf (joinPath "servers" "auth") "tools.md"
  = FastMCP.outputNameOf "servers" ("auth" +:+ "-" +:+ "tools.md")
  /\ pathToFilename ("docs/" +:+ "guides/chat") = pathToFilename "guides/chat".
Proof.
  destruct (flat_names_collide "servers" "auth" "tools.md" "guides/chat" "")
    as (H1 & _ & _ & H4).
  split; [apply H1; reflexivity | apply H4; reflexivity].
Defined.

(** X6: [pathToFilename] leaves no run of dashes: no two dashes follow
    each other in the file name of any path. *)
Theorem pathToFilename_has_no_dash_run (docPath : string) :
  occursIn "--" (pathToFilename docPath) = false.
Proof. apply pathToFilename_no_run. Qed.

End NameProperties.

(** ** The language of a code block *)

Section LanguageProperties.

Import Js SyncHtml TitleSpec.

(** X7: the language read off a class.  The word [/language-(\w+)/] finds
    in a class attribute is not empty, is made of word characters only and
    stands in the attribute right after ["language-"], up to the first code
    unit that is not a word character: of [language-c++] it keeps [c]. *)
Theorem matchLanguage_is_a_word (cls word : string) :
  matchLanguage cls = Some word ->
  nonEmpty word = true
  /\ every isWord word = true
  /\ exists before after,
      cls = before +:+ "language-" +:+ word +:+ after
      /\ match after with
         | EmptyString => true
         | String c _ => negb (isWord c)
         end = true.
Proof. apply matchLanguage_sound. Qed.

Lemma matchLanguage_is_a_word_witness :
  nonEmpty "c" = true
  /\ every isWord "c" = true
  /\ exists before after,
      "hljs language-c++" = before +:+ "language-" +:+ "c" +:+ after
      /\ match after with
         | EmptyString => true
         | String c _ => negb (isWord c)
         end = true.
Proof. apply (matchLanguage_is_a_word "hljs language-c++" "c"). reflexivity. Defined.

End LanguageProperties.

(** ** Parsed documents *)

Section DocumentProperties.

Import Js Llms World ParserSpec RunSpec TitleSpec LlmsSpec.

(** X8: what the parser lets through.  Every document of a blob, in the
    [Map] of the xAI script as in the array of the templates, has a path
    that is not empty and holds no equals sign, and a body that begins and
    ends with a code unit that is not white space. *)
Theorem parsed_documents_are_wellformed (blob path body : string) :
  In (path, body) (Xai.parseLlmsTxt blob)
  \/ In {| LlmsTemplate.path := path; LlmsTemplate.content := body |}
        (LlmsTemplate.parseLlmsTxt blob) ->
  nonEmpty path = true
  /\ every notEq path = true
  /\ beginsWithInk body = true
  /\ exists c, lastUnit body = Some c /\ isWhiteSpace c = false.
Proof.
  intros H. apply (sectionDocs_wellformed blob (path, body)).
  destruct H as [H|H]; [now apply xai_docs_emitted |].
  rewrite template_parse_map in H. apply in_map_iff in H as ((p & b) & E & H).
  unfold mkDoc in E. cbn [fst snd] in E. now injection E as -> ->.
Qed.

Lemma parsed_documents_are_wellformed_witness :
  nonEmpty "docs/a" = true
  /\ every notEq "docs/a" = true
  /\ beginsWithInk "hello" = true
  /\ exists c, lastUnit "hello" = Some c /\ isWhiteSpace c = false.
Proof.
  apply (parsed_documents_are_wellformed Examples.twoSections "docs/a" "hello").
  left. vm_compute. left. reflexivity.
Defined.

(** X9: the order of the documents.  The keys of the [Map] the xAI script
    parses a blob into are the paths of the kept sections, each once, in
    the order in which the paths first occur; a path that comes back later
    keeps its place. *)
Theorem xai_documents_follow_first_occurrence (blob : string) :
  JsMap.keys (Xai.parseLlmsTxt blob) = firstOccurrences (map fst (sectionDocs blob)).
Proof. apply xai_keys_order. Qed.

(** X10: reading back what was written.  A list of documents, each with a
    path without equals sign and a trimmed body without delimiter, written
    as sections [===/path===], body, one per line, is parsed back by the
    templates as it was; by the xAI script too when no path comes twice. *)
Theorem parse_gives_back_what_was_rendered (docs : list (string * string)) :
  Forall (fun doc => writable doc = true) docs ->
  LlmsTemplate.parseLlmsTxt (render docs) = map mkDoc docs
  /\ (NoDup (map fst docs) -> Xai.parseLlmsTxt (render docs) = docs).
Proof.
  intros H. rewrite template_parse_map, xai_parse_fold, (sectionDocs_render docs H).
  split; [reflexivity |]. intros Hn. apply (fold_setDoc_distinct docs []). exact Hn.
Qed.

Lemma parse_gives_back_what_was_rendered_witness :
  LlmsTemplate.parseLlmsTxt (render [("docs/a", "hello"); ("b/c", "# B" +:+ NL +:+ "world")])
  = map mkDoc [("docs/a", "hello"); ("b/c", "# B" +:+ NL +:+ "world")]
  /\ (NoDup (map fst [("docs/a", "hello"); ("b/c", "# B" +:+ NL +:+ "world")]) ->
      Xai.parseLlmsTxt (render [("docs/a", "hello"); ("b/c", "# B" +:+ NL +:+ "world")])
      = [("docs/a", "hello"); ("b/c", "# B" +:+ NL +:+ "world")]).
Proof.
  apply (parse_gives_back_what_was_rendered
           [("docs/a", "hello"); ("b/c", "# B" +:+ NL +:+ "world")]).
  repeat constructor.
Defined.

End DocumentProperties.
(** ** Whole runs *)

Section RunProperties.

Import Js Llms World ScriptSpec ParserSpec RunSpec RerunSpec Title TitleSpec Examples
  MoreExamples.

(** X11: what a run of the xAI script or of the llms.txt template leaves
    when it is not a dry run and the blob is fetched.  The run ends
    normally with one [created] entry per parsed document, in order; the
    output directory exists and holds, over what it held, one file per
    document, made of a front matter naming the source and of the body,
    and then the manifest of those entries.  Nothing else is touched. *)
Theorem llms_real_run_output (w : world) :
  (forall e : Xai.env,
      existsb (String.eqb "--dry-run") (Xai.argv e) = false ->
      Xai.devBrowser e = true -> Xai.procExitCode e = 0 ->
      exists w',
        Xai.main e w
        = (Normal (map (xaiCreated e) (Xai.parseLlmsTxt (Xai.procStdout e))), w')
        /\ outDir w' = true
        /\ outFiles w'
           = <["manifest.json" :=
                 JsonText (Xai.manifestOf e
                             (map (xaiCreated e) (Xai.parseLlmsTxt (Xai.procStdout e))))]>
               (overlay (map xaiFile (Xai.parseLlmsTxt (Xai.procStdout e))) (outFiles w))
        /\ scratch w' = scratch w /\ requests w' = requests w)
  /\ (forall (e : LlmsTemplate.env) (answer : response),
         existsb (String.eqb "--dry-run") (LlmsTemplate.argv e) = false ->
         LlmsTemplate.fetched e = inr answer -> ok answer = true ->
         exists w',
           LlmsTemplate.main e w
           = (Normal (map (templateCreated e) (LlmsTemplate.parseLlmsTxt (text answer))), w')
           /\ outDir w' = true
           /\ outFiles w'
              = <["manifest.json" :=
                    JsonText (LlmsTemplate.manifestOf e
                                (map (templateCreated e)
                                     (LlmsTemplate.parseLlmsTxt (text answer))))]>
                  (overlay (map templateFile (LlmsTemplate.parseLlmsTxt (text answer)))
                           (outFiles w))
           /\ scratch w' = scratch w
           /\ requests w' = requests w ++ [LlmsTemplate.LLMS_TXT_URL]).
Proof.
  split.
  - intros e Hdry Hdev Hexit. apply (xai_main_real e w Hdry Hdev Hexit).
  - intros e answer Hdry Hf Hok.
    assert (templateFetchError e = None) as He
        by (unfold templateFetchError; now rewrite Hf, Hok).
    pose proof (template_main_real e w Hdry He) as H.
    unfold templateBlob in H. rewrite Hf in H. exact H.
Qed.

Lemma llms_real_run_output_witness :
  exists w',
    Xai.main (xaiRealEnv [] twoSections) emptyWorld
    = (Normal (map (xaiCreated (xaiRealEnv [] twoSections))
                   (Xai.parseLlmsTxt (Xai.procStdout (xaiRealEnv [] twoSections)))), w')
    /\ outDir w' = true
    /\ outFiles w'
       = <["manifest.json" :=
             JsonText (Xai.manifestOf (xaiRealEnv [] twoSections)
                         (map (xaiCreated (xaiRealEnv [] twoSections))
                              (Xai.parseLlmsTxt (Xai.procStdout (xaiRealEnv [] twoSections)))))]>
           (overlay (map xaiFile (Xai.parseLlmsTxt (Xai.procStdout (xaiRealEnv [] twoSections))))
                    (outFiles emptyWorld))
    /\ scratch w' = scratch emptyWorld /\ requests w' = requests emptyWorld.
Proof.
  destruct (llms_real_run_output emptyWorld) as (H & _).
  apply (H (xaiRealEnv [] twoSections)); reflexivity.
Defined.

(** X12: what a run of the FastMCP script leaves when it is not a dry run,
    the clone and [git rev-parse] succeed and the repository has a [docs]
    directory.  The run ends normally with one [created] entry per kept
    file of the walk, in the order of the walk; the output directory holds,
    over what it held, a copy of every kept file under its flat name, the
    content as it is (an [.mdx] file is renamed, not converted), and then
    the manifest; the scratch directory is gone. *)
Theorem fastmcp_real_run_output (e : FastMCP.env) (root children : list entry)
        (name out : string) (w : world) :
  existsb (String.eqb "--dry-run") (FastMCP.argv e) = false ->
  FastMCP.cloned e = FastMCP.Cloned root ->
  findEntry FastMCP.SOURCE_PATH root = Some (Dir name children) ->
  FastMCP.revParse e = inr out ->
  exists w',
    FastMCP.script e w
    = (Normal (map (fastmcpCreated e) (List.filter kept (walkAll "" children))), w')
    /\ outDir w' = true
    /\ outFiles w'
       = <["manifest.json" :=
             JsonText (FastMCP.manifestOf e (trim out)
                         (map (fastmcpCreated e)
                              (List.filter kept (walkAll "" children))))]>
           (overlay (map fastmcpCopy (List.filter kept (walkAll "" children)))
                    (outFiles w))
    /\ scratch w' = None
    /\ requests w' = requests w.
Proof.
  intros Hdry Hclone Hfind Hrev.
  apply (fastmcp_script_real e root children name out Hdry Hclone Hfind Hrev w).
Qed.

Lemma fastmcp_real_run_output_witness :
  let e := fastmcpEnv [] (FastMCP.Cloned smallRepository) in
  let children := [File "z.md" "Z";
                   Dir "sub" [File "b.mdx" "B"; File "logo.png" ""];
                   Dir "assets" [File "skipped.md" ""];
                   File "a.md" "A"] in
  exists w',
    FastMCP.script e emptyWorld
    = (Normal (map (fastmcpCreated e) (List.filter kept (walkAll "" children))), w')
    /\ outDir w' = true
    /\ outFiles w'
       = <["manifest.json" :=
             JsonText (FastMCP.manifestOf e (trim ("0a1b2c3" +:+ NL))
                         (map (fastmcpCreated e)
                              (List.filter kept (walkAll "" children))))]>
           (overlay (map fastmcpCopy (List.filter kept (walkAll "" children)))
                    (outFiles emptyWorld))
    /\ scratch w' = None
    /\ requests w' = requests emptyWorld.
Proof.
  apply (fastmcp_real_run_output (fastmcpEnv [] (FastMCP.Cloned smallRepository))
           smallRepository _ "docs" ("0a1b2c3" +:+ NL) emptyWorld); reflexivity.
Defined.

(** X13: a second run rewrites what the first wrote.  When the FastMCP
    script, or the xAI script, is run again with the same arguments and
    with the clone and [git rev-parse], or the helper process, doing what
    they did, whatever the clock shows, the output directory holds what the
    second run alone would have left: every file other than the manifest is
    as the first run left it, and a manifest that the first run left is
    followed by one with the same fields but for [syncedAt].  In a run that
    writes, [syncedAt] is the time of the second run, so the files are all
    as the first run left them if, and only if, the clock shows the same
    time. *)
Theorem second_sync_rewrites_the_same_files (w : world) :
  (forall e e' : FastMCP.env,
      FastMCP.argv e' = FastMCP.argv e ->
      FastMCP.cloned e' = FastMCP.cloned e ->
      FastMCP.revParse e' = FastMCP.revParse e ->
      secondRunLeaves (FastMCP.now e' = FastMCP.now e)
        (outFiles (snd (FastMCP.script e w)))
        (outFiles (snd (FastMCP.script e' (snd (FastMCP.script e w)))))
        (outFiles (snd (FastMCP.script e' w)))
      /\ (existsb (String.eqb "--dry-run") (FastMCP.argv e) = false ->
          fastmcpError e = None ->
          (exists m,
              outFiles (snd (FastMCP.script e' (snd (FastMCP.script e w))))
                !! "manifest.json" = Some (JsonText m)
              /\ field "syncedAt" m = Some (JString (FastMCP.now e')))
          /\ (outFiles (snd (FastMCP.script e' (snd (FastMCP.script e w))))
              = outFiles (snd (FastMCP.script e w)) ->
              FastMCP.now e' = FastMCP.now e)))
  /\ (forall e e' : Xai.env,
         Xai.argv e' = Xai.argv e ->
         Xai.devBrowser e' = Xai.devBrowser e ->
         Xai.procExitCode e' = Xai.procExitCode e ->
         Xai.procStdout e' = Xai.procStdout e ->
         secondRunLeaves (Xai.now e' = Xai.now e)
           (outFiles (snd (Xai.main e w)))
           (outFiles (snd (Xai.main e' (snd (Xai.main e w)))))
           (outFiles (snd (Xai.main e' w)))
         /\ (existsb (String.eqb "--dry-run") (Xai.argv e) = false ->
             xaiFetchError e = None ->
             (exists m,
                 outFiles (snd (Xai.main e' (snd (Xai.main e w))))
                   !! "manifest.json" = Some (JsonText m)
                 /\ field "syncedAt" m = Some (JString (Xai.now e')))
             /\ (outFiles (snd (Xai.main e' (snd (Xai.main e w))))
                 = outFiles (snd (Xai.main e w)) ->
                 Xai.now e' = Xai.now e))).
Proof.
  split.
  - intros e e' Ha Hc Hr. split; [now apply fastmcp_second_run |].
    intros Hdry He.
    assert (existsb (String.eqb "--dry-run") (FastMCP.argv e') = false) as Hdry'
      by now rewrite Ha.
    assert (fastmcpError e' = None) as He'
      by (unfold fastmcpError in *; now rewrite Hc, Hr).
    destruct (fastmcp_second_manifest e w Hdry He) as (m1 & L1 & F1).
    destruct (fastmcp_second_manifest e' (snd (FastMCP.script e w)) Hdry' He')
      as (m2 & L2 & F2).
    split; [now exists m2 |].
    intros Heq. rewrite Heq, L1 in L2. injection L2 as <-.
    rewrite F1 in F2. now injection F2.
  - intros e e' Ha Hd Hx Hs. split; [now apply xai_second_run |].
    intros Hdry He.
    assert (existsb (String.eqb "--dry-run") (Xai.argv e') = false) as Hdry'
      by now rewrite Ha.
    assert (xaiFetchError e' = None) as He'.
    { unfold xaiFetchError in *. rewrite Hd, Hx.
      destruct (negb (Xai.devBrowser e)); [discriminate |].
      now destruct (negb (Xai.procExitCode e =? 0)). }
    destruct (xai_second_manifest e w Hdry He) as (m1 & L1 & F1).
    destruct (xai_second_manifest e' (snd (Xai.main e w)) Hdry' He') as (m2 & L2 & F2).
    split; [now exists m2 |].
    intros Heq. rewrite Heq, L1 in L2. injection L2 as <-.
    rewrite F1 in F2. now injection F2.
Qed.

Lemma second_sync_rewrites_the_same_files_witness :
  let e := fastmcpEnv [] (FastMCP.Cloned smallRepository) in
  let x := xaiEnv [] twoSections in
  (secondRunLeaves (FastMCP.now (laterFastmcp e) = FastMCP.now e)
     (outFiles (snd (FastMCP.script e emptyWorld)))
     (outFiles (snd (FastMCP.script (laterFastmcp e) (snd (FastMCP.script e emptyWorld)))))
     (outFiles (snd (FastMCP.script (laterFastmcp e) emptyWorld)))
   /\ exists m,
       outFiles (snd (FastMCP.script (laterFastmcp e) (snd (FastMCP.script e emptyWorld))))
         !! "manifest.json" = Some (JsonText m)
       /\ field "syncedAt" m = Some (JString "2025-01-01T01:00:00.000Z"))
  /\ (secondRunLeaves (Xai.now (laterXai x) = Xai.now x)
        (outFiles (snd (Xai.main x emptyWorld)))
        (outFiles (snd (Xai.main (laterXai x) (snd (Xai.main x emptyWorld)))))
        (outFiles (snd (Xai.main (laterXai x) emptyWorld)))
      /\ exists m,
          outFiles (snd (Xai.main (laterXai x) (snd (Xai.main x emptyWorld))))
            !! "manifest.json" = Some (JsonText m)
          /\ field "syncedAt" m = Some (JString "2025-01-01T01:00:00.000Z")).
Proof.
  intros e x.
  destruct (second_sync_rewrites_the_same_files emptyWorld) as [HF HX].
  split.
  - destruct (HF e (laterFastmcp e) eq_refl eq_refl eq_refl) as [H1 H2].
    split; [exact H1 | apply H2; reflexivity].
  - destruct (HX x (laterXai x) eq_refl eq_refl eq_refl eq_refl) as [H1 H2].
    split; [exact H1 | apply H2; reflexivity].
Defined.

(** X14: a dry run tells what the run will write.  When the repository,
    or the blob, is the same and titles are found alike, the dry run of the
    FastMCP script, or of the xAI script, reports the paths and the titles
    that the run proper reports, in the same order; only the status
    differs. *)
Theorem dry_run_previews_the_run (w w' : world) :
  (forall (e e' : FastMCP.env) (root children : list entry) (name out out' : string),
      existsb (String.eqb "--dry-run") (FastMCP.argv e) = true ->
      existsb (String.eqb "--dry-run") (FastMCP.argv e') = false ->
      FastMCP.cloned e = FastMCP.Cloned root ->
      FastMCP.cloned e' = FastMCP.Cloned root ->
      findEntry FastMCP.SOURCE_PATH root = Some (Dir name children) ->
      FastMCP.revParse e = inr out -> FastMCP.revParse e' = inr out' ->
      (forall s, FastMCP.headingOf e s = FastMCP.headingOf e' s) ->
      exists rs rs',
        fst (FastMCP.script e w) = Normal rs
        /\ fst (FastMCP.script e' w') = Normal rs'
        /\ map FastMCP.path rs = map FastMCP.path rs'
        /\ map FastMCP.title rs = map FastMCP.title rs')
  /\ (forall e e' : Xai.env,
         existsb (String.eqb "--dry-run") (Xai.argv e) = true ->
         existsb (String.eqb "--dry-run") (Xai.argv e') = false ->
         Xai.devBrowser e = true -> Xai.devBrowser e' = true ->
         Xai.procExitCode e = 0 -> Xai.procExitCode e' = 0 ->
         Xai.procStdout e = Xai.procStdout e' ->
         (forall s, Xai.headingOf e s = Xai.headingOf e' s) ->
         exists rs rs',
           fst (Xai.main e w) = Normal rs
           /\ fst (Xai.main e' w') = Normal rs'
           /\ map Xai.path rs = map Xai.path rs'
           /\ map Xai.title rs = map Xai.title rs').
Proof.
  split.
  - intros e e' root children name out out' Hdry Hdry' Hc Hc' Hf Hr Hr' Hh.
    destruct (fastmcp_script_real e' root children name out' Hdry' Hc' Hf Hr' w')
      as (w1 & E & _).
    do 2 eexists.
    split; [apply (fastmcp_script_dry_results e root children name out Hdry Hc Hf Hr w) |].
    split; [now rewrite E |].
    unfold dryResults. rewrite !map_map. split; [reflexivity |].
    apply map_ext. intros f. cbn. now rewrite Hh.
  - intros e e' Hdry Hdry' Hd Hd' Hx Hx' Hb Hh.
    destruct (xai_main_real e' w' Hdry' Hd' Hx') as (w1 & E & _).
    do 2 eexists.
    split; [apply (xai_main_dry_results e w Hdry Hd Hx) |].
    split; [now rewrite E |].
    rewrite Hb, !map_map. split; [reflexivity |].
    apply map_ext. intros doc. cbn. unfold Xai.titleOf. now rewrite Hh.
Qed.

Lemma dry_run_previews_the_run_witness :
  exists rs rs',
    fst (Xai.main (xaiRealEnv ["--dry-run"] twoSections) emptyWorld) = Normal rs
    /\ fst (Xai.main (xaiRealEnv [] twoSections) emptyWorld) = Normal rs'
    /\ map Xai.path rs = map Xai.path rs'
    /\ map Xai.title rs = map Xai.title rs'.
Proof.
  destruct (dry_run_previews_the_run emptyWorld emptyWorld) as (_ & H).
  apply (H (xaiRealEnv ["--dry-run"] twoSections) (xaiRealEnv [] twoSections));
    reflexivity.
Defined.

End RunProperties.

Section MoreRunProperties.

Import Js Llms World ScriptSpec ParserSpec RunSpec Title TitleSpec Examples MoreExamples.

Lemma githubCopies_names (files : list (string * string * (exn + string))) :
  Forall (fun f => fst f <> "manifest.json") (githubCopies files).
Proof.
  induction files as [|[[rel name] read] files IH]; [constructor |].
  cbn [githubCopies]. destruct (githubKept (rel, name, read)) eqn:K; [|exact IH].
  cbn [snd]. destruct read as [error|content]; [constructor |].
  constructor; [|exact IH]. cbn [fst]. unfold githubOutput, githubKept in *.
  cbn [fst snd] in *. rewrite orb_comm in K.
  destruct (mdxToMd_kept name K) as (stem & -> & _). unfold joinPath.
  destruct (nonEmpty rel); [|apply endsWith_md_manifest].
  rewrite <- !append_assoc. apply endsWith_md_manifest.
Qed.

(** X15: the manifest counts what it lists.  In the manifest that a run
    of the FastMCP script or of the xAI script leaves when it is not a dry
    run and ends normally, [fileCount] is the number of results of the run
    and [files] has as many elements. *)
Theorem written_manifest_counts_its_files (w w' : world) :
  (forall (e : FastMCP.env) (rs : list FastMCP.SyncResult),
      existsb (String.eqb "--dry-run") (FastMCP.argv e) = false ->
      FastMCP.script e w = (Normal rs, w') ->
      exists manifest files,
        outFiles w' !! "manifest.json" = Some (JsonText manifest)
        /\ field "fileCount" manifest = Some (JNumber (length rs))
        /\ field "files" manifest = Some (JArray files)
        /\ length files = length rs)
  /\ (forall (e : Xai.env) (rs : list Xai.SyncResult),
         existsb (String.eqb "--dry-run") (Xai.argv e) = false ->
         Xai.main e w = (Normal rs, w') ->
         exists manifest files,
           outFiles w' !! "manifest.json" = Some (JsonText manifest)
           /\ field "fileCount" manifest = Some (JNumber (length rs))
           /\ field "files" manifest = Some (JArray files)
           /\ length files = length rs).
Proof.
  split.
  - intros e rs Hdry Hrun.
    pose proof (fastmcp_script_manifest e w w' rs Hdry Hrun) as Hm.
    pose proof (yields_produced _ _ _ _ w (fastmcp_script_status e)) as Hs.
    rewrite Hrun, Hdry in Hs. cbn [fst produced] in Hs.
    do 2 eexists. split; [exact Hm |]. cbn [FastMCP.manifestOf field String.eqb].
    cbn. rewrite (fileCount_created rs Hs).
    split; [reflexivity |]. split; [reflexivity |].
    now rewrite !length_map, length_jsSort, length_map.
  - intros e rs Hdry Hrun.
    destruct (xaiFetchError e) as [error|] eqn:He.
    { destruct (xai_main_fetch_fails e w error He) as (w1 & E & _). congruence. }
    apply xaiFetchError_none in He as (Hdev & Hexit).
    destruct (xai_main_real e w Hdry Hdev Hexit) as (w1 & E & _ & F & _).
    rewrite Hrun in E. injection E as -> ->.
    pose proof (yields_produced _ _ _ _ w (xai_main_status e)) as Hs.
    rewrite Hrun, Hdry in Hs. cbn [fst produced] in Hs.
    do 2 eexists. split; [rewrite F; apply lookup_insert_eq |].
    cbn. rewrite (xai_fileCount_created _ Hs).
    split; [reflexivity |]. split; [reflexivity |].
    now rewrite !length_map, length_jsSort, !length_map.
Qed.

Lemma written_manifest_counts_its_files_witness :
  let run := FastMCP.script (fastmcpEnv [] (FastMCP.Cloned smallRepository)) emptyWorld in
  exists manifest files,
    outFiles (snd run) !! "manifest.json" = Some (JsonText manifest)
    /\ field "fileCount" manifest = Some (JNumber (length (produced (fst run))))
    /\ field "files" manifest = Some (JArray files)
    /\ length files = length (produced (fst run)).
Proof.
  intros run.
  destruct (written_manifest_counts_its_files emptyWorld (snd run)) as (H & _).
  apply (H (fastmcpEnv [] (FastMCP.Cloned smallRepository)));
    [reflexivity | vm_compute; reflexivity].
Defined.

(** X16: a run of the FastMCP script that cannot go through.  When the
    clone fails, [git rev-parse] fails or the repository has no directory
    [docs], the script prints ["Sync failed:"] with the error as its last
    line and exits with status 1; no file of the output directory is
    written or changed, and the scratch directory is gone.  The output
    directory itself has been made if the run is not a dry run and got past
    [git rev-parse]. *)
Theorem fastmcp_failed_run (e : FastMCP.env) (w : world) (error : exn) :
  fastmcpError e = Some error ->
  exists w',
    FastMCP.script e w = (Exit 1, w')
    /\ outFiles w' = outFiles w
    /\ outDir w' = outDir w || fastmcpReachesMkdir e
    /\ scratch w' = None /\ requests w' = requests w
    /\ lastLine w' = Some (LogError "Sync failed:" error).
Proof. apply fastmcp_script_fails. Qed.

Lemma fastmcp_failed_run_witness :
  let e := fastmcpEnv [] (FastMCP.Cloned noDocs) in
  let error := Error "Source directory not found: /tmp/fastmcp-docs-sync/docs" in
  exists w',
    FastMCP.script e emptyWorld = (Exit 1, w')
    /\ outFiles w' = outFiles emptyWorld
    /\ outDir w' = outDir emptyWorld || fastmcpReachesMkdir e
    /\ scratch w' = None /\ requests w' = requests emptyWorld
    /\ lastLine w' = Some (LogError "Sync failed:" error).
Proof.
  apply (fastmcp_failed_run (fastmcpEnv [] (FastMCP.Cloned noDocs)) emptyWorld).
  reflexivity.
Defined.

(** X17: a run of the xAI script or of the llms.txt template whose blob
    cannot be fetched.  When the dev-browser skill is missing or the helper
    process fails, and in the template when the request is rejected or
    answered with a status outside 200..299, the script prints ["Sync
    failed:"] with the error as its last line and exits with status 1,
    having left the output directory as it was: not even the directory is
    made. *)
Theorem llms_fetch_failure (w : world) :
  (forall (e : Xai.env) (error : exn),
      xaiFetchError e = Some error ->
      exists w',
        Xai.main e w = (Exit 1, w')
        /\ sameOut w w'
        /\ scratch w' = scratch w /\ requests w' = requests w
        /\ lastLine w' = Some (LogError "Sync failed:" error))
  /\ (forall (e : LlmsTemplate.env) (error : exn),
         templateFetchError e = Some error ->
         exists w',
           LlmsTemplate.main e w = (Exit 1, w')
           /\ sameOut w w'
           /\ scratch w' = scratch w
           /\ requests w' = requests w ++ [LlmsTemplate.LLMS_TXT_URL]
           /\ lastLine w' = Some (LogError (NL +:+ "Sync failed:") error)).
Proof.
  split; intros e error H;
    [apply (xai_main_fetch_fails e w error H)
    | apply (template_main_fetch_fails e w error H)].
Qed.

Lemma llms_fetch_failure_witness :
  (exists w',
      Xai.main xaiHelperFails emptyWorld = (Exit 1, w')
      /\ sameOut emptyWorld w'
      /\ scratch w' = scratch emptyWorld /\ requests w' = requests emptyWorld
      /\ lastLine w'
         = Some (LogError "Sync failed:"
                          (Error "Failed to fetch llms.txt: net::ERR_CONNECTION_REFUSED")))
  /\ (exists w',
         LlmsTemplate.main (templateEnv [] forbidden) emptyWorld = (Exit 1, w')
         /\ sameOut emptyWorld w'
         /\ scratch w' = scratch emptyWorld
         /\ requests w' = requests emptyWorld ++ [LlmsTemplate.LLMS_TXT_URL]
         /\ lastLine w'
            = Some (LogError (NL +:+ "Sync failed:")
                    (Error ("Failed to fetch llms.txt: 403 Forbidden" +:+ NL
                            +:+ "If this is a 403 error, the site may have bot protection."
                            +:+ NL
                            +:+ "Consider using browser automation (dev-browser skill) to fetch.")))).
Proof.
  destruct (llms_fetch_failure emptyWorld) as (Hx & Ht).
  split; [apply (Hx xaiHelperFails) | apply (Ht (templateEnv [] forbidden))];
    reflexivity.
Defined.

(** X18: a copy stays as it was made.  After a run of the FastMCP script
    that goes through, the content of a kept file is in the output
    directory under its flat name, unless a kept file that the walk reaches
    later has the same flat name; and no flat name is that of the
    manifest. *)
Theorem fastmcp_copy_is_on_disk (e : FastMCP.env) (root children : list entry)
        (name out : string) (w : world)
        (before after : list (string * string * string))
        (relPath fileName content : string) :
  existsb (String.eqb "--dry-run") (FastMCP.argv e) = false ->
  FastMCP.cloned e = FastMCP.Cloned root ->
  findEntry FastMCP.SOURCE_PATH root = Some (Dir name children) ->
  FastMCP.revParse e = inr out ->
  List.filter kept (walkAll "" children) = before ++ (relPath, fileName, content) :: after ->
  Forall (fun f => FastMCP.outputNameOf (fst (fst f)) (snd (fst f))
                   <> FastMCP.outputNameOf relPath fileName) after ->
  FastMCP.outputNameOf relPath fileName <> "manifest.json"
  /\ outFiles (snd (FastMCP.script e w)) !! FastMCP.outputNameOf relPath fileName
     = Some (PlainText content).
Proof.
  intros Hdry Hclone Hfind Hrev Hfiles Hafter.
  assert (kept (relPath, fileName, content) = true) as Hk.
  { assert (In (relPath, fileName, content) (List.filter kept (walkAll "" children))) as H
        by (rewrite Hfiles; apply in_or_app; right; now left).
    now apply filter_In in H as [_ H]. }
  pose proof (fastmcp_name_not_manifest _ Hk) as Hn. cbn [fastmcpCopy fst snd] in Hn.
  split; [exact Hn |].
  destruct (fastmcp_script_real e root children name out Hdry Hclone Hfind Hrev w)
    as (w' & E & _ & F & _).
  rewrite E. cbn [snd]. rewrite F, lookup_insert_ne by congruence.
  rewrite overlay_lookup, Hfiles, map_app. cbn [map].
  change (fastmcpCopy (relPath, fileName, content))
    with (FastMCP.outputNameOf relPath fileName, PlainText content).
  rewrite lastWrite_last; [reflexivity |].
  apply Forall_map. eapply Forall_impl; [exact Hafter |].
  intros [[r n] c] H. exact H.
Qed.

Lemma fastmcp_copy_is_on_disk_witness :
  FastMCP.outputNameOf "sub" "b.mdx" <> "manifest.json"
  /\ outFiles (snd (FastMCP.script (fastmcpEnv [] (FastMCP.Cloned smallRepository))
                                   emptyWorld))
       !! FastMCP.outputNameOf "sub" "b.mdx"
     = Some (PlainText "B").
Proof.
  apply (fastmcp_copy_is_on_disk (fastmcpEnv [] (FastMCP.Cloned smallRepository))
           smallRepository
           [File "z.md" "Z";
            Dir "sub" [File "b.mdx" "B"; File "logo.png" ""];
            Dir "assets" [File "skipped.md" ""];
            File "a.md" "A"]
           "docs" ("0a1b2c3" +:+ NL) emptyWorld
           [("", "z.md", "Z")] [("", "a.md", "A")] "sub" "b.mdx" "B");
    try reflexivity.
  repeat constructor. discriminate.
Defined.

(** X19: what a run of the GitHub template leaves when it is not a dry
    run, the clone and [git rev-parse] succeed, the repository has a [docs]
    directory and every [.md] or [.mdx] entry under it can be read.  The
    output directory holds, over what it held, the content of each of them
    under the path it has below [docs], [.mdx] turned into [.md], and then
    the manifest of them all; the scratch directory is gone. *)
Theorem github_real_run_output (e : SyncGithub.env) (root children : list entry)
        (name out : string) (w : world) :
  SyncGithub.parsedArgs e = inr false ->
  SyncGithub.cloned e = FastMCP.Cloned root ->
  findEntry SyncGithub.SOURCE_PATH root = Some (Dir name children) ->
  SyncGithub.revParse e = inr out ->
  githubFirstError (walkAllGithub "" children) = None ->
  exists w',
    SyncGithub.script e w = (Normal tt, w')
    /\ outFiles w'
       = <["manifest.json" :=
             JsonText (SyncGithub.manifestOf e (githubResults (walkAllGithub "" children))
                                             (trim out))]>
           (overlay (githubCopies (walkAllGithub "" children)) (outFiles w))
    /\ scratch w' = None
    /\ requests w' = requests w.
Proof.
  intros Hargs Hclone Hfind Hrev Hok.
  destruct (github_script_real e root children name out Hargs Hclone Hfind Hrev w)
    as (w' & E & F & S & R & _).
  rewrite Hok in F. exists w'. auto.
Qed.

Lemma github_real_run_output_witness :
  let e := githubEnv false (FastMCP.Cloned smallRepository) in
  let children := [File "z.md" "Z";
                   Dir "sub" [File "b.mdx" "B"; File "logo.png" ""];
                   Dir "assets" [File "skipped.md" ""];
                   File "a.md" "A"] in
  exists w',
    SyncGithub.script e emptyWorld = (Normal tt, w')
    /\ outFiles w'
       = <["manifest.json" :=
             JsonText (SyncGithub.manifestOf e (githubResults (walkAllGithub "" children))
                                             (trim ("0a1b2c3" +:+ NL)))]>
           (overlay (githubCopies (walkAllGithub "" children)) (outFiles emptyWorld))
    /\ scratch w' = None
    /\ requests w' = requests emptyWorld.
Proof.
  apply (github_real_run_output (githubEnv false (FastMCP.Cloned smallRepository))
           smallRepository _ "docs" ("0a1b2c3" +:+ NL) emptyWorld); reflexivity.
Defined.

(** X20: a file that cannot be read stops the GitHub template half way.
    When reading a [.md] or [.mdx] entry fails, the files copied before it
    stay in the output directory, the manifest is not written, so that the
    one on disk, if any, is the one of an earlier run, the error is the
    last line printed, the scratch directory is gone, and the script still
    ends as if it had succeeded. *)
Theorem github_unreadable_file_leaves_partial_output
        (e : SyncGithub.env) (root children : list entry)
        (name out : string) (w : world) (error : exn) :
  SyncGithub.parsedArgs e = inr false ->
  SyncGithub.cloned e = FastMCP.Cloned root ->
  findEntry SyncGithub.SOURCE_PATH root = Some (Dir name children) ->
  SyncGithub.revParse e = inr out ->
  githubFirstError (walkAllGithub "" children) = Some error ->
  exists w',
    SyncGithub.script e w = (Normal tt, w')
    /\ exitStatus (fst (SyncGithub.script e w)) = 0
    /\ outFiles w' = overlay (githubCopies (walkAllGithub "" children)) (outFiles w)
    /\ outFiles w' !! "manifest.json" = outFiles w !! "manifest.json"
    /\ scratch w' = None
    /\ lastLine w' = Some (LogError "" error).
Proof.
  intros Hargs Hclone Hfind Hrev Herr.
  destruct (github_script_real e root children name out Hargs Hclone Hfind Hrev w)
    as (w' & E & F & S & R & L).
  rewrite Herr in F, L. exists w'. rewrite E. repeat split; auto.
  rewrite F, overlay_lookup, lastWrite_none; [reflexivity |].
  apply githubCopies_names.
Qed.

Lemma github_unreadable_file_leaves_partial_output_witness :
  let e := githubEnv false (FastMCP.Cloned brokenLink) in
  let children := [File "a.md" "A";
                   Other "b.md" (inl (Error "ENOENT: no such file or directory, open"));
                   File "c.md" "C"] in
  exists w',
    SyncGithub.script e emptyWorld = (Normal tt, w')
    /\ exitStatus (fst (SyncGithub.script e emptyWorld)) = 0
    /\ outFiles w' = overlay (githubCopies (walkAllGithub "" children)) (outFiles emptyWorld)
    /\ outFiles w' !! "manifest.json" = outFiles emptyWorld !! "manifest.json"
    /\ scratch w' = None
    /\ lastLine w' = Some (LogError "" (Error "ENOENT: no such file or directory, open")).
Proof.
  apply (github_unreadable_file_leaves_partial_output
           (githubEnv false (FastMCP.Cloned brokenLink))
           brokenLink _ "docs" ("0a1b2c3" +:+ NL) emptyWorld); reflexivity.
Defined.

(** X21: what a run of the direct-fetch template leaves when it is not a
    dry run.  Every document fetched with success is written as it came
    under its path, in the order of the paths, and then the manifest of
    them; when no fetch succeeds nothing is written, the manifest
    included. *)
Theorem direct_real_run_output (e : SyncDirect.env) (w : world) :
  SyncDirect.parsedArgs e = inr false ->
  exists t w',
    SyncDirect.main e w = (Normal t, w')
    /\ scratch w' = scratch w
    /\ outFiles w'
       = match List.filter (fetchSucceeds e) (SyncDirect.DOC_PATHS e) with
         | [] => outFiles w
         | fetched =>
             <["manifest.json" :=
                 JsonText (SyncDirect.manifestOf e (map (directResult e) fetched))]>
               (overlay (map (directCopy e) fetched) (outFiles w))
         end.
Proof. intros H. apply (direct_main_real e w H). Qed.

Lemma direct_real_run_output_witness :
  exists t w',
    SyncDirect.main threePaths emptyWorld = (Normal t, w')
    /\ scratch w' = scratch emptyWorld
    /\ outFiles w'
       = match List.filter (fetchSucceeds threePaths) (SyncDirect.DOC_PATHS threePaths) with
         | [] => outFiles emptyWorld
         | fetched =>
             <["manifest.json" :=
                 JsonText (SyncDirect.manifestOf threePaths
                             (map (directResult threePaths) fetched))]>
               (overlay (map (directCopy threePaths) fetched) (outFiles emptyWorld))
         end.
Proof. apply (direct_real_run_output threePaths emptyWorld). reflexivity. Defined.

(** X22: results have a name and a title.  When the titles are found by
    [/^#\s+(.+)$/m], every result of a run of the xAI script or of the
    llms.txt template, dry or not, has a title that is not empty and a
    path that ends in [.md]. *)
Theorem llms_results_are_named (w : world) :
  (forall e : Xai.env,
      (forall s, Xai.headingOf e s = matchHeading s) ->
      Forall (fun r => nonEmpty (Xai.title r) = true
                       /\ endsWith ".md" (Xai.path r) = true)
             (produced (fst (Xai.main e w))))
  /\ (forall e : LlmsTemplate.env,
         (forall s, LlmsTemplate.headingOf e s = matchHeading s) ->
         Forall (fun r => nonEmpty (LlmsTemplate.title r) = true
                          /\ endsWith ".md" (LlmsTemplate.path_ r) = true)
                (produced (fst (LlmsTemplate.main e w)))).
Proof.
  split.
  - intros e He.
    assert (forall doc, In doc (Xai.parseLlmsTxt (Xai.procStdout e)) ->
                        nonEmpty (Xai.titleOf e (snd doc) (fst doc)) = true) as Ht.
    { intros doc Hin. rewrite (extractTitle_xai e _ _ He).
      apply extractTitle_nonEmpty.
      now apply xai_docs_emitted, sectionDocs_wellformed in Hin as (Hp & _). }
    destruct (xai_main_results e w) as [-> | [-> | ->]]; [constructor | |];
      apply Forall_map, Forall_forall; intros doc Hin;
      (split; [apply Ht; now apply list_elem_of_In | apply pathToFilename_md]).
  - intros e He.
    assert (forall doc, In doc (LlmsTemplate.parseLlmsTxt (templateBlob e)) ->
                        nonEmpty (LlmsTemplate.extractTitle e (LlmsTemplate.content doc)
                                                            (LlmsTemplate.path doc)) = true)
      as Ht.
    { intros doc Hin. rewrite (extractTitle_template e _ _ He).
      apply extractTitle_nonEmpty. rewrite template_parse_map in Hin.
      apply in_map_iff in Hin as (d & <- & Hin).
      now apply sectionDocs_wellformed in Hin as (Hp & _). }
    destruct (template_main_results e w) as [-> | [-> | ->]]; [constructor | |];
      apply Forall_map, Forall_forall; intros doc Hin;
      (split; [apply Ht; now apply list_elem_of_In | apply pathToFilename_md]).
Qed.

Lemma llms_results_are_named_witness :
  Forall (fun r => nonEmpty (Xai.title r) = true /\ endsWith ".md" (Xai.path r) = true)
         (produced (fst (Xai.main (xaiRealEnv [] twoSections) emptyWorld))).
Proof.
  destruct (llms_results_are_named emptyWorld) as (H & _).
  apply (H (xaiRealEnv [] twoSections)). reflexivity.
Defined.

End MoreRunProperties.
(** ** The pages of the HTML templates *)

Section PageProperties.

Import Js World ScriptSpec RunSpec SyncHtml HtmlPage PageSpec Examples MoreExamples.

(** X23: nothing unwanted reaches the conversion.  After the loop that
    removes the elements matching the selectors of a list, no descendant of
    the content area matches any selector of the list.  The content area
    itself stays, with its name and attributes, even if it matches one.
    The loop amounts to one pruning of whatever matches some selector, so
    the order of the selectors does not matter and running it again changes
    nothing. *)
Theorem clean_removes_every_match (selectors : list selector) (article : node) :
  (forall sel, In sel selectors -> querySelectorAll sel (clean selectors article) = [])
  /\ nodeNameOf (clean selectors article) = nodeNameOf article
  /\ attributesOf (clean selectors article) = attributesOf article
  /\ clean selectors article = prune (matchesAny selectors) article
  /\ clean selectors (clean selectors article) = clean selectors article
  /\ (forall selectors', Permutation selectors selectors' ->
                         clean selectors article = clean selectors' article).
Proof.
  split; [intros sel H; now apply clean_no_match |].
  split; [apply clean_root |]. split; [apply clean_root |].
  split; [apply clean_prune |]. split; [apply clean_idem |].
  intros selectors' H. now apply clean_perm.
Qed.

Lemma clean_removes_every_match_witness :
  querySelectorAll (Class "sidebar") (clean REMOVE_SELECTORS samplePage) = []
  /\ querySelectorAll (Tag "nav") (clean GEMINI_REMOVE_SELECTORS samplePage) = []
  /\ clean REMOVE_SELECTORS samplePage = clean (rev REMOVE_SELECTORS) samplePage.
Proof.
  destruct (clean_removes_every_match REMOVE_SELECTORS samplePage)
    as (H1 & _ & _ & _ & _ & H2).
  destruct (clean_removes_every_match GEMINI_REMOVE_SELECTORS samplePage) as (H3 & _).
  split; [apply H1; cbn; tauto |]. split; [apply H3; cbn; tauto |].
  apply H2, Permutation_rev.
Defined.

(** X24: which element is the content area.  The selectors are tried in
    the order of the list, and the first one that matches an element of the
    document decides: the content area is the first element, in document
    order, that matches it, wherever elements matching later selectors
    stand.  When no selector matches anything the content area is the body
    of the document. *)
Theorem content_area_is_the_first_match (selectors : list selector) (doc : document) :
  match firstMatch selectors doc with
  | Some article =>
      findArticle selectors doc = Some article
      /\ exists earlier sel later before after,
          selectors = earlier ++ sel :: later
          /\ Forall (fun s => Forall (fun n => matches s n = false) (elements doc)) earlier
          /\ elements doc = before ++ article :: after
          /\ matches sel article = true
          /\ Forall (fun n => matches sel n = false) before
  | None =>
      findArticle selectors doc = body doc
      /\ Forall (fun s => Forall (fun n => matches s n = false) (elements doc)) selectors
  end.
Proof.
  pose proof (firstMatch_spec selectors doc) as H. unfold findArticle.
  destruct (firstMatch selectors doc); split; auto.
Qed.

(** X25: the pages are synced one by one.  In a run of the HTML template
    whose arguments parse, every page is requested once, in the order of
    [DOC_PAGES], whether earlier pages failed or not; a page whose request
    fails, is answered with a status outside 200..299 or has no content is
    counted in [failed], the others in [synced], and the two add up to the
    number of pages.  A dry run leaves the output directory as it was; a
    run that is not one writes, over what was there, one file per converted
    page: the front matter with title, source and time, then the markdown
    of the cleaned content area.  No run exits with a status other
    than 0. *)
Theorem html_pages_are_synced_one_by_one (e : HtmlPage.env) (dryRun : bool) (w : world) :
  parsedArgs e = inr dryRun ->
  exists t w',
    main e w = (Normal t, w')
    /\ requests w' = requests w ++ map url (DOC_PAGES e)
    /\ scratch w' = scratch w
    /\ (dryRun = true -> sameOut w w')
    /\ synced t + failed t = length (DOC_PAGES e)
    /\ synced t = length (pageFiles e 0 (DOC_PAGES e))
    /\ (dryRun = false ->
        outFiles w' = overlay (pageFiles e 0 (DOC_PAGES e)) (outFiles w))
    /\ exitStatus (fst (script e w)) = 0.
Proof.
  intros Hargs.
  destruct (html_main_spec e dryRun w Hargs) as (t & w' & H1 & H2 & H3 & H4 & H5 & H6 & H7).
  exists t, w'. repeat (split; [assumption |]). apply html_script_status.
Qed.

Lemma html_pages_are_synced_one_by_one_witness :
  exists t w',
    main (htmlEnv false) emptyWorld = (Normal t, w')
    /\ requests w' = requests emptyWorld ++ map url (DOC_PAGES (htmlEnv false))
    /\ scratch w' = scratch emptyWorld
    /\ (false = true -> sameOut emptyWorld w')
    /\ synced t + failed t = length (DOC_PAGES (htmlEnv false))
    /\ synced t = length (pageFiles (htmlEnv false) 0 (DOC_PAGES (htmlEnv false)))
    /\ (false = false ->
        outFiles w'
        = overlay (pageFiles (htmlEnv false) 0 (DOC_PAGES (htmlEnv false)))
                  (outFiles emptyWorld))
    /\ exitStatus (fst (script (htmlEnv false) emptyWorld)) = 0.
Proof.
  apply (html_pages_are_synced_one_by_one (htmlEnv false) false emptyWorld).
  reflexivity.
Defined.

End PageProperties.
(** ** The LangGraph script *)

Section LangGraphProperties.

Import Js World ScriptSpec RunSpec Examples MoreExamples.

(** X26: what a run of the LangGraph script leaves when it is not a dry
    run and the clone and [git rev-parse] succeed.  If the clone has the
    directory [src/oss/langgraph] and every [.md] or [.mdx] entry under it
    can be read, the output directory holds, over what it held, the content
    of each of them under the path it has below that directory, [.mdx]
    turned into [.md], and then the manifest of them all.  If the clone has
    no such directory, which the script does not check, listing it fails:
    no file is written and the error is the last line printed.  If an entry
    cannot be read, the copies made before it stay without a manifest.  In
    each case the scratch directory is gone and the script ends normally. *)
Theorem langgraph_real_run_output (e : LangGraph.env) (root : list entry)
        (out : string) (w : world) :
  SyncGithub.parsedArgs e = inr false ->
  SyncGithub.cloned e = FastMCP.Cloned root ->
  SyncGithub.revParse e = inr out ->
  exists w',
    LangGraph.script e w = (Normal tt, w')
    /\ scratch w' = None
    /\ requests w' = requests w
    /\ match LangGraph.readdirAt LangGraph.SOURCE_PATH root with
       | inl error =>
           outFiles w' = outFiles w /\ lastLine w' = Some (LogError "" error)
       | inr children =>
           match githubFirstError (walkAllGithub "" children) with
           | None =>
               outFiles w'
               = <["manifest.json" :=
                     JsonText (LangGraph.manifestOf
                                 e (githubResults (walkAllGithub "" children)) (trim out))]>
                   (overlay (githubCopies (walkAllGithub "" children)) (outFiles w))
           | Some error =>
               outFiles w' = overlay (githubCopies (walkAllGithub "" children)) (outFiles w)
               /\ lastLine w' = Some (LogError "" error)
           end
       end.
Proof.
  intros Hargs Hclone Hrev.
  destruct (langgraph_script_real e root out Hargs Hclone Hrev w)
    as (w' & E & F & S & R & L).
  exists w'. repeat (split; [assumption |]).
  destruct (LangGraph.readdirAt LangGraph.SOURCE_PATH root) as [error|children]; [auto |].
  destruct (githubFirstError (walkAllGithub "" children)); auto.
Qed.

Lemma langgraph_real_run_output_witness :
  (exists w',
      LangGraph.script (githubEnv false (FastMCP.Cloned langgraphRepository)) emptyWorld
      = (Normal tt, w')
      /\ scratch w' = None
      /\ outFiles w' !! "overview.md" = Some (PlainText "# Overview")
      /\ outFiles w' !! "how-tos/memory.md" = Some (PlainText "M")
      /\ outFiles w' !! "agents.md" = None)
  /\ (exists w',
         LangGraph.script (githubEnv false (FastMCP.Cloned smallRepository)) emptyWorld
         = (Normal tt, w')
         /\ outFiles w' = outFiles emptyWorld
         /\ lastLine w'
            = Some (LogError "" (Error "ENOENT: no such file or directory, scandir"))).
Proof.
  split.
  - destruct (langgraph_real_run_output
                (githubEnv false (FastMCP.Cloned langgraphRepository))
                langgraphRepository ("0a1b2c3" +:+ NL) emptyWorld
                eq_refl eq_refl eq_refl) as (w' & E & S & R & F).
    exists w'. split; [exact E |]. split; [exact S |].
    cbn in F. rewrite F. repeat split; vm_compute; reflexivity.
  - destruct (langgraph_real_run_output
                (githubEnv false (FastMCP.Cloned smallRepository))
                smallRepository ("0a1b2c3" +:+ NL) emptyWorld
                eq_refl eq_refl eq_refl) as (w' & E & S & R & F).
    exists w'. split; [exact E |]. exact F.
Defined.

(** X27: the LangGraph script never reports a failure.  Whatever the
    arguments, the clone and the files are, a run ends with exit status 0.
    When the arguments parse, the scratch directory is gone at the end,
    whether the run failed or not, and a dry run leaves the output
    directory as it was. *)
Theorem langgraph_run_ends_quietly (e : LangGraph.env) (w : world) :
  exitStatus (fst (LangGraph.script e w)) = 0
  /\ (forall flag, SyncGithub.parsedArgs e = inr flag ->
                   scratch (snd (LangGraph.script e w)) = None)
  /\ (SyncGithub.parsedArgs e = inr true -> sameOut w (snd (LangGraph.script e w))).
Proof.
  split; [now rewrite langgraph_script_normal |].
  split; [intros flag; apply langgraph_script_clears | apply langgraph_script_dry].
Qed.

Lemma langgraph_run_ends_quietly_witness :
  exitStatus (fst (LangGraph.script (githubEnv false cloneFails) emptyWorld)) = 0
  /\ scratch (snd (LangGraph.script (githubEnv false cloneFails) emptyWorld)) = None
  /\ sameOut emptyWorld (snd (LangGraph.script (githubEnv true cloneFails) emptyWorld)).
Proof.
  destruct (langgraph_run_ends_quietly (githubEnv false cloneFails) emptyWorld)
    as (H1 & H2 & _).
  destruct (langgraph_run_ends_quietly (githubEnv true cloneFails) emptyWorld)
    as (_ & _ & H3).
  split; [exact H1 |]. split; [exact (H2 false eq_refl) | exact (H3 eq_refl)].
Defined.

End LangGraphProperties.
